(** * Survey analytics aggregation ([getAnalytics], surveyController.js)

    A shallow embedding of the body of [exports.getAnalytics]: the part of
    the request handler between the two database reads and [sendSuccess].
    The handler receives a survey document and the [lean] response
    documents of that survey and builds [{ totals, funnel, questions }].

    Conventions of the embedding.
    - JavaScript values that reach the aggregation through a [Mixed]
      field are values of [JS.value].
    - JavaScript numbers are exact rationals together with [NaN]; the
      rounding of doubles, the infinities and the negative zero are not
      represented.
    - The built-in conversions between numbers and strings
      ([String(num)] and [Number(str)]) are parameters of the development:
      every theorem holds whatever these two functions are.
    - [Map] and plain objects used as dictionaries are insertion-ordered
      association lists; [Set] is an insertion-ordered duplicate-free list.
    - [ObjectId]s are represented by the string [toString()] returns for
      them (24 hexadecimal digits): such a string is neither an array
      index nor the name of a property of [Object.prototype], so that an
      object keyed by them holds its own keys only and enumerates them in
      insertion order.
    - Strings are sequences of characters with codes below 256.

    [Analytics] is the handler on response documents on which nothing
    throws: every element of [answers] is an object and the conversions
    of the answers return. [Stored] is the handler on the documents as
    the collection can hold them, with [null] among the answers and with
    answers on which [String] or [Number] throws; it sends a report or
    the error of the [catch], and a report it sends is the one of
    [Analytics]. [Engine] describes the runs of the handler with what
    ECMAScript requires of [Object.values] and of [Array.prototype.sort]
    in place of the two conventions above.

    Besides the aggregation, the file embeds from the same sources: the
    collection of the text answers in [analyzeSurvey], and [getApiKey]
    and [analyzeSurveyResponses] (services/aiAnalysisService.js) with the
    request to the model as a parameter; the pre-save middleware and
    [canAcceptResponses] of models/Survey.js; the handlers
    [publishSurvey], [updateSurvey], [closeSurvey], [addQuestion],
    [getSurveyQRCode] and [getSurveyQRCodeByShareableLink];
    [submitSurveyResponse] of publicController.js, [submitResponse] and
    [savePartialResponse] of responseController.js, on the body of the
    request as JSON delivers it; and [getOptionValue], the test of the
    required questions and [handleDropRanking] of pages/PublicSurvey.js.
    What a handler reads from the database is an argument of its
    embedding and the document it leaves in the collection is part of
    the result; the casts and the validation of a document that is
    saved are a parameter. *)

From Stdlib Require Import List String Ascii Bool Arith ZArith QArith Lia.
From Stdlib Require Import DecimalString.
From Stdlib Require Import Sorting.Sorted Sorting.Permutation.
Import ListNotations.

Set Implicit Arguments.
Set Warnings "-register-all".

Local Open Scope Q_scope.
Local Open Scope nat_scope.
Local Open Scope string_scope.
Local Open Scope list_scope.

(** ** The fragment of JavaScript the handler uses *)

Module JS.

(** Numbers: [typeof x === 'number'] holds of both constructors. The
    arithmetic operations return fractions in lowest terms. *)
Inductive number : Type :=
| NaN
| Fin (q : Q).

Definition of_Z (z : Z) : number := Fin (inject_Z z).
Definition of_nat (n : nat) : number := of_Z (Z.of_nat n).

Definition isNaN (n : number) : bool :=
  match n with NaN => true | Fin _ => false end.

Definition add (a b : number) : number :=
  match a, b with
  | Fin x, Fin y => Fin (Qred (x + y))
  | _, _ => NaN
  end.

Definition sub (a b : number) : number :=
  match a, b with
  | Fin x, Fin y => Fin (Qred (x - y))
  | _, _ => NaN
  end.

Definition mul (a b : number) : number :=
  match a, b with
  | Fin x, Fin y => Fin (Qred (x * y))
  | _, _ => NaN
  end.

(** [a / b]; every division of the handler is guarded by a test that the
    divisor is positive, the value chosen at a zero divisor is never
    observed. *)
Definition div (a b : number) : number :=
  match a, b with
  | Fin x, Fin y => if Qeq_bool y 0 then NaN else Fin (Qred (x / y))
  | _, _ => NaN
  end.

(** [n > 0], the test [Array.prototype.sort] applies to the result of a
    comparator ([NaN] counts as [+0]). *)
Definition positive (n : number) : bool :=
  match n with
  | NaN => false
  | Fin q => negb (Qle_bool q 0)
  end.

(** Equality of numbers as [===] decides it ([NaN] differs from itself). *)
Definition strict_eq (a b : number) : bool :=
  match a, b with
  | Fin x, Fin y => Qeq_bool x y
  | _, _ => false
  end.

(** Values of a [Mixed] field or of an optional field of a lean document.
    [VObject] stands for a plain object, whose [toString()] is
    ["[object Object]"]. *)
Inductive value : Type :=
| VUndefined
| VNull
| VBool (b : bool)
| VNumber (n : number)
| VString (s : string)
| VArray (elems : list value)
| VObject.

(** [typeof v === 'number'] *)
Definition is_number (v : value) : bool :=
  match v with VNumber _ => true | _ => false end.

(** [typeof v === 'string'] *)
Definition is_string (v : value) : bool :=
  match v with VString _ => true | _ => false end.

(** [Array.isArray(v)] *)
Definition isArray (v : value) : bool :=
  match v with VArray _ => true | _ => false end.

(** *** [String.prototype.trim] *)

(** White space and line terminators among the 8-bit characters:
    TAB, LF, VT, FF, CR, SP and NBSP. *)
Definition isWhiteSpace (c : ascii) : bool :=
  let n := nat_of_ascii c in
  ((9 <=? n)%nat && (n <=? 13)%nat) || (n =? 32)%nat || (n =? 160)%nat.

Fixpoint trimStart (s : string) : string :=
  match s with
  | EmptyString => EmptyString
  | String c s' => if isWhiteSpace c then trimStart s' else s
  end.

(** [trimEnd s]: the characters of [s] up to its last non-blank one. *)
Fixpoint trimEnd (s : string) : string :=
  match s with
  | EmptyString => EmptyString
  | String c s' =>
      match trimEnd s' with
      | EmptyString => if isWhiteSpace c then EmptyString else String c EmptyString
      | t => String c t
      end
  end.

Definition trim (s : string) : string := trimEnd (trimStart s).

(** *** Insertion-ordered dictionaries ([Map], object literals) *)

Section OMap.
Variable V : Type.

Definition omap := list (string * V).

Definition empty : omap := [].

(** [m.get(k)], [obj[k]] *)
Fixpoint get (k : string) (m : omap) : option V :=
  match m with
  | [] => None
  | (k', v) :: m' => if String.eqb k k' then Some v else get k m'
  end.

(** [m.set(k, v)], [obj[k] = v]: an existing key keeps its position. *)
Fixpoint set (k : string) (v : V) (m : omap) : omap :=
  match m with
  | [] => [(k, v)]
  | (k', v') :: m' =>
      if String.eqb k k' then (k, v) :: m' else (k', v') :: set k v m'
  end.

(** [m.entries()], [Object.entries(obj)] *)
Definition entries (m : omap) : list (string * V) := m.

(** [Object.values(obj)] *)
Definition values (m : omap) : list V := map snd m.

Definition keys (m : omap) : list string := map fst m.

(** Assignment through a reference held to the object stored at [k]
    ([const s = obj[k]; s.field += 1]). *)
Definition modify (k : string) (f : V -> V) (m : omap) : omap :=
  match get k m with
  | Some v => set k (f v) m
  | None => m
  end.
End OMap.

Arguments empty {V}.

(** *** [Set] of strings *)

Definition sset := list string.

Definition has (k : string) (s : sset) : bool := existsb (String.eqb k) s.

Definition sadd (k : string) (s : sset) : sset :=
  if has k s then s else s ++ [k].

(** *** [Array.prototype.sort(cmp)]

    The sort is stable (ECMAScript 2019); [x] is moved behind [y] only
    when [cmp(x, y) > 0]. *)

Section Sort.
Variable A : Type.
Variable cmp : A -> A -> number.

Fixpoint insert (x : A) (l : list A) : list A :=
  match l with
  | [] => [x]
  | y :: l' => if positive (cmp x y) then y :: insert x l' else x :: l
  end.

Fixpoint sort (l : list A) : list A :=
  match l with
  | [] => []
  | x :: l' => insert x (sort l')
  end.
End Sort.

(** *** [String(v)] and [Number(v)] *)

Section Conversions.
(** [String(n)] for a number and [Number(s)] for a string. *)
Variable NumberToString : number -> string.
Variable StringToNumber : string -> number.

Definition join (sep : string) (l : list string) : string :=
  match l with
  | [] => ""
  | s :: l' => fold_left (fun acc t => (acc ++ sep ++ t)%string) l' s
  end.

Fixpoint ToString (v : value) : string :=
  match v with
  | VUndefined => "undefined"
  | VNull => "null"
  | VBool true => "true"
  | VBool false => "false"
  | VNumber n => NumberToString n
  | VString s => s
  | VArray l =>
      join ","
        (map (fun e => match e with
                       | VUndefined | VNull => ""
                       | _ => ToString e
                       end) l)
  | VObject => "[object Object]"
  end.

Definition ToNumber (v : value) : number :=
  match v with
  | VUndefined => NaN
  | VNull => of_Z 0
  | VBool true => of_Z 1
  | VBool false => of_Z 0
  | VNumber n => n
  | VString s => StringToNumber s
  | VArray _ | VObject => StringToNumber (ToString v)
  end.
End Conversions.

End JS.

(** ** Documents (models/Survey.js, models/Response.js)

    Only the fields [getAnalytics] reads are kept. *)

(** An element of [question.options]: [{ text: String, value: String }],
    both optional. *)
Module Choice.
Record t := { text : option string; value : option string }.
End Choice.

Module Question.
Record t := {
  _id : string;            (* ObjectId, through toString() *)
  order : Z;               (* Number, required *)
  type : string;           (* String, required *)
  text : string;           (* String, required *)
  options : list Choice.t
}.
End Question.

Module Survey.
Record t := {
  _id : string;
  title : string;
  status : string;
  createdAt : string;
  questions : list Question.t
}.
End Survey.

(** An element of [response.answers]. [questionId] is an ObjectId or is
    missing; [answer] is [Mixed]. *)
Module Answer.
Record t := {
  questionId : option string;
  answer : JS.value
}.
End Answer.

Module Response.
Record t := {
  answers : list Answer.t;
  timeSpent : JS.value;    (* Number, optional *)
  isCompleted : bool       (* Boolean, default false *)
}.

(** The same response document with another [answers] array. *)
Definition with_answers (l : list Answer.t) (r : t) : t :=
  {| answers := l; timeSpent := timeSpent r; isCompleted := isCompleted r |}.
End Response.

(** ** Intermediate objects of the handler *)

(** An element of [questionMeta[qId].options]. *)
Module OptionMeta.
Record t := { value : string; text : option string }.
End OptionMeta.

(** [questionMeta[qId]] *)
Module Meta.
Record t := {
  questionId : string;
  text : string;
  type : string;
  order : Z;
  options : list OptionMeta.t
}.
End Meta.

(** [perQuestionStats[qId]] *)
Module Stats.
Record t := {
  questionId : string;
  questionText : string;
  type : string;
  order : Z;
  reached : nat;
  totalAnswers : nat;
  textCount : nat;
  optionCounts : JS.omap nat;
  ratingCounts : JS.omap nat
}.

Definition set_reached (n : nat) (s : t) : t :=
  {| questionId := questionId s; questionText := questionText s;
     type := type s; order := order s;
     reached := n; totalAnswers := totalAnswers s;
     textCount := textCount s; optionCounts := optionCounts s;
     ratingCounts := ratingCounts s |}.

Definition set_totalAnswers (n : nat) (s : t) : t :=
  {| questionId := questionId s; questionText := questionText s;
     type := type s; order := order s;
     reached := reached s; totalAnswers := n;
     textCount := textCount s; optionCounts := optionCounts s;
     ratingCounts := ratingCounts s |}.

Definition set_textCount (n : nat) (s : t) : t :=
  {| questionId := questionId s; questionText := questionText s;
     type := type s; order := order s;
     reached := reached s; totalAnswers := totalAnswers s;
     textCount := n; optionCounts := optionCounts s;
     ratingCounts := ratingCounts s |}.

Definition set_optionCounts (m : JS.omap nat) (s : t) : t :=
  {| questionId := questionId s; questionText := questionText s;
     type := type s; order := order s;
     reached := reached s; totalAnswers := totalAnswers s;
     textCount := textCount s; optionCounts := m;
     ratingCounts := ratingCounts s |}.

Definition set_ratingCounts (m : JS.omap nat) (s : t) : t :=
  {| questionId := questionId s; questionText := questionText s;
     type := type s; order := order s;
     reached := reached s; totalAnswers := totalAnswers s;
     textCount := textCount s; optionCounts := optionCounts s;
     ratingCounts := m |}.
End Stats.

(** ** The report *)

Module Totals.
Record t := {
  totalResponses : nat;
  completedResponses : nat;
  partialResponses : nat;
  averageCompletionTimeSeconds : JS.number
}.
End Totals.

Module Funnel.
Record t := {
  questionId : string;
  questionText : string;
  order : Z;
  reached : nat
}.
End Funnel.

(** An element of [options] of a question of kind ['choice']. *)
Module OptionRow.
Record t := {
  value : string;
  label : string;
  count : nat;
  percentage : JS.number
}.
End OptionRow.

(** An element of [distribution] of a question of kind ['rating']. *)
Module RatingRow.
Record t := {
  value : JS.number;
  count : nat;
  percentage : JS.number
}.
End RatingRow.

(** The [kind] of an element of [questions] with the payload it brings. *)
Inductive kind : Type :=
| KChoice (options : list OptionRow.t)
| KRating (distribution : list RatingRow.t)
| KText (textCount : nat)
| KUnknown.

Module QuestionAnalytics.
Record t := {
  questionId : string;
  questionText : string;
  type : string;
  order : Z;
  totalAnswers : nat;
  payload : kind
}.
End QuestionAnalytics.

Module Report.
Record t := {
  surveyId : string;
  title : string;
  status : string;
  createdAt : string;
  totals : Totals.t;
  funnel : list Funnel.t;
  questions : list QuestionAnalytics.t
}.
End Report.

(** ** The aggregation *)

Module Analytics.

Section Handler.
(** [String(n)] on numbers and [Number(s)] on strings. *)
Variable NumberToString : JS.number -> string.
Variable StringToNumber : string -> JS.number.

Abbreviation ToString := (JS.ToString NumberToString).
Abbreviation ToNumber := (JS.ToNumber NumberToString StringToNumber).

(** [a ?? b] on optional strings *)
Definition nullish (a : option string) (b : string) : string :=
  match a with Some s => s | None => b end.

(** [a || b] on an optional string: [undefined] and [''] are falsy. *)
Definition or_else (a : option string) (b : string) : string :=
  match a with
  | Some s => if (s =? "")%string then b else s
  | None => b
  end.

(** *** Question metadata and initial statistics *)

Definition metaOfQuestion (q : Question.t) : Meta.t :=
  {| Meta.questionId := Question._id q;
     Meta.text := Question.text q;
     Meta.type := Question.type q;
     Meta.order := Question.order q;
     Meta.options :=
       map (fun opt =>
              {| OptionMeta.value :=
                   nullish (Choice.value opt) (nullish (Choice.text opt) "");
                 OptionMeta.text := Choice.text opt |})
           (Question.options q) |}.

(** [survey.questions.forEach((q) => { questionMeta[qId] = ... })] *)
Definition buildQuestionMeta (qs : list Question.t) : JS.omap Meta.t :=
  fold_left (fun meta q => JS.set (Question._id q) (metaOfQuestion q) meta)
            qs JS.empty.

Definition initialStats (q : Meta.t) : Stats.t :=
  {| Stats.questionId := Meta.questionId q;
     Stats.questionText := Meta.text q;
     Stats.type := Meta.type q;
     Stats.order := Meta.order q;
     Stats.reached := 0;
     Stats.totalAnswers := 0;
     Stats.textCount := 0;
     Stats.optionCounts := JS.empty;
     Stats.ratingCounts := JS.empty |}.

(** [Object.values(questionMeta).forEach((q) => { perQuestionStats[...] = ... })] *)
Definition initPerQuestionStats (meta : JS.omap Meta.t) : JS.omap Stats.t :=
  fold_left (fun stats q => JS.set (Meta.questionId q) (initialStats q) stats)
            (JS.values meta) JS.empty.

(** *** One answer *)

(** The test [hasValue] of the handler. *)
Definition hasValue (answer : JS.value) : bool :=
  match answer with
  | JS.VUndefined => false
  | JS.VNull => false
  | JS.VString s => negb (JS.trim s =? "")%string
  | _ => true
  end.

(** [const prev = m.get(key) || 0; m.set(key, prev + 1)] *)
Definition increment (key : string) (m : JS.omap nat) : JS.omap nat :=
  let prev := match JS.get key m with Some n => n | None => 0 end in
  JS.set key (prev + 1) m.

Definition isChoiceType (t : string) : bool :=
  (t =? "multiple_choice")%string || (t =? "ranking")%string.

Definition isRatingType (t : string) : bool :=
  (t =? "rating")%string || (t =? "star_rating")%string.

Definition isTextType (t : string) : bool :=
  (t =? "short_text")%string || (t =? "long_text")%string.

(** [Array.isArray(answer) ? answer : [answer]] *)
Definition rawValues (answer : JS.value) : list JS.value :=
  match answer with
  | JS.VArray l => l
  | _ => [answer]
  end.

(** What a non-empty answer does to the statistics of its question. *)
Definition countAnswer (answer : JS.value) (stats : Stats.t) : Stats.t :=
  let stats := Stats.set_totalAnswers (Stats.totalAnswers stats + 1) stats in
  let qType := Stats.type stats in
  if isChoiceType qType then
    Stats.set_optionCounts
      (fold_left (fun m val => increment val m)
                 (map ToString (rawValues answer))
                 (Stats.optionCounts stats))
      stats
  else if isRatingType qType then
    let num := ToNumber answer in
    if negb (JS.isNaN num) then
      Stats.set_ratingCounts
        (increment (NumberToString num) (Stats.ratingCounts stats)) stats
    else stats
  else if isTextType qType then
    Stats.set_textCount (Stats.textCount stats + 1) stats
  else stats.

(** The body of [(r.answers || []).forEach((a) => { ... })]; the state is
    [perQuestionStats] together with [seenQuestionIds]. [stats] is a
    reference to the object stored at [qId]: the assignments to its fields
    are a write at that key. [a] is an element that is an object, and
    [String] and [Number] return on its answer; the body on any stored
    element, with the cases in which it throws, is
    [Stored.processAnswer]. *)
Definition processAnswer (st : JS.omap Stats.t * JS.sset) (a : Answer.t)
  : JS.omap Stats.t * JS.sset :=
  let (perQuestionStats, seenQuestionIds) := st in
  match Answer.questionId a with
  | None => st
  | Some qId =>
      if (qId =? "")%string then st
      else
        match JS.get qId perQuestionStats with
        | None => st
        | Some stats =>
            let seenQuestionIds := JS.sadd qId seenQuestionIds in
            if negb (hasValue (Answer.answer a)) then
              (perQuestionStats, seenQuestionIds)
            else
              (JS.set qId (countAnswer (Answer.answer a) stats)
                      perQuestionStats,
               seenQuestionIds)
        end
  end.

(** [seenQuestionIds.forEach((qId) => { ... stats.reached += 1 ... })] *)
Definition markReached (perQuestionStats : JS.omap Stats.t) (seen : JS.sset)
  : JS.omap Stats.t :=
  fold_left
    (fun pqs qId =>
       JS.modify qId (fun s => Stats.set_reached (Stats.reached s + 1) s) pqs)
    seen perQuestionStats.

(** *** One response *)

(** The variables the loop over the responses assigns. *)
Record loop := {
  completedResponses : nat;
  partialResponses : nat;
  completionTimeSum : JS.number;
  completionTimeCount : nat;
  perQuestionStats : JS.omap Stats.t
}.

Definition processResponse (st : loop) (r : Response.t) : loop :=
  let completed :=
    if Response.isCompleted r then completedResponses st + 1
    else completedResponses st in
  let partial :=
    if Response.isCompleted r then partialResponses st
    else partialResponses st + 1 in
  let (sum, count) :=
    match Response.timeSpent r with
    | JS.VNumber n =>
        (JS.add (completionTimeSum st) n, completionTimeCount st + 1)
    | _ => (completionTimeSum st, completionTimeCount st)
    end in
  let (pqs, seen) :=
    fold_left processAnswer (Response.answers r) (perQuestionStats st, []) in
  {| completedResponses := completed;
     partialResponses := partial;
     completionTimeSum := sum;
     completionTimeCount := count;
     perQuestionStats := markReached pqs seen |}.

Definition initialLoop (survey : Survey.t) : loop :=
  {| completedResponses := 0;
     partialResponses := 0;
     completionTimeSum := JS.of_Z 0;
     completionTimeCount := 0;
     perQuestionStats :=
       initPerQuestionStats (buildQuestionMeta (Survey.questions survey)) |}.

Definition aggregate (survey : Survey.t) (responses : list Response.t) : loop :=
  fold_left processResponse responses (initialLoop survey).

(** *** After the loop *)

Definition averageCompletionTime (st : loop) : JS.number :=
  if (0 <? completionTimeCount st)%nat then
    JS.div (completionTimeSum st) (JS.of_nat (completionTimeCount st))
  else JS.of_Z 0.

Definition totalsOf (responses : list Response.t) (st : loop) : Totals.t :=
  {| Totals.totalResponses := List.length responses;
     Totals.completedResponses := completedResponses st;
     Totals.partialResponses := partialResponses st;
     Totals.averageCompletionTimeSeconds := averageCompletionTime st |}.

(** [(a, b) => a.order - b.order] *)
Definition byOrder (a b : Stats.t) : JS.number :=
  JS.sub (JS.of_Z (Stats.order a)) (JS.of_Z (Stats.order b)).

Definition buildFunnel (pqs : JS.omap Stats.t) : list Funnel.t :=
  map (fun stats =>
         {| Funnel.questionId := Stats.questionId stats;
            Funnel.questionText := Stats.questionText stats;
            Funnel.order := Stats.order stats;
            Funnel.reached := Stats.reached stats |})
      (JS.sort byOrder (JS.values pqs)).

(** [total ? (count / total) * 100 : 0] *)
Definition percentage (count total : nat) : JS.number :=
  if (total =? 0)%nat then JS.of_Z 0
  else JS.mul (JS.div (JS.of_nat count) (JS.of_nat total)) (JS.of_Z 100).

(** [(a, b) => b.count - a.count] *)
Definition byCountDesc (a b : OptionRow.t) : JS.number :=
  JS.sub (JS.of_nat (OptionRow.count b)) (JS.of_nat (OptionRow.count a)).

(** [(a, b) => a.value - b.value] *)
Definition byValue (a b : RatingRow.t) : JS.number :=
  JS.sub (RatingRow.value a) (RatingRow.value b).

(** [optionMetaByValue], filled from [meta.options]. *)
Definition buildOptionMetaByValue (options : list OptionMeta.t)
  : JS.omap OptionMeta.t :=
  fold_left (fun m opt => JS.set (OptionMeta.value opt) opt m)
            options JS.empty.

Definition optionRow (optionMetaByValue : JS.omap OptionMeta.t)
           (total : nat) (entry : string * nat) : OptionRow.t :=
  let (value, count) := entry in
  let text :=
    match JS.get value optionMetaByValue with
    | Some optMeta => OptionMeta.text optMeta
    | None => Some value
    end in
  {| OptionRow.value := value;
     OptionRow.label := or_else text value;
     OptionRow.count := count;
     OptionRow.percentage := percentage count total |}.

Definition ratingRow (total : nat) (entry : string * nat) : RatingRow.t :=
  let (value, count) := entry in
  {| RatingRow.value := StringToNumber value;
     RatingRow.count := count;
     RatingRow.percentage := percentage count total |}.

Definition payloadOf (options : list OptionMeta.t) (stats : Stats.t) : kind :=
  if isChoiceType (Stats.type stats) then
    KChoice
      (JS.sort byCountDesc
         (map (optionRow (buildOptionMetaByValue options)
                         (Stats.totalAnswers stats))
              (JS.entries (Stats.optionCounts stats))))
  else if isRatingType (Stats.type stats) then
    KRating
      (JS.sort byValue
         (map (ratingRow (Stats.totalAnswers stats))
              (JS.entries (Stats.ratingCounts stats))))
  else if isTextType (Stats.type stats) then
    KText (Stats.textCount stats)
  else KUnknown.

(** [questionMeta[stats.questionId].options]; every key of
    [perQuestionStats] is a key of [questionMeta]. *)
Definition optionsOf (meta : JS.omap Meta.t) (qId : string)
  : list OptionMeta.t :=
  match JS.get qId meta with
  | Some m => Meta.options m
  | None => []
  end.

Definition questionAnalytics (meta : JS.omap Meta.t) (stats : Stats.t)
  : QuestionAnalytics.t :=
  {| QuestionAnalytics.questionId := Stats.questionId stats;
     QuestionAnalytics.questionText := Stats.questionText stats;
     QuestionAnalytics.type := Stats.type stats;
     QuestionAnalytics.order := Stats.order stats;
     QuestionAnalytics.totalAnswers := Stats.totalAnswers stats;
     QuestionAnalytics.payload :=
       payloadOf (optionsOf meta (Stats.questionId stats)) stats |}.

Definition buildQuestions (meta : JS.omap Meta.t) (pqs : JS.omap Stats.t)
  : list QuestionAnalytics.t :=
  map (questionAnalytics meta) (JS.sort byOrder (JS.values pqs)).

(** The data [getAnalytics] hands to [sendSuccess]. *)
Definition getAnalytics (survey : Survey.t) (responses : list Response.t)
  : Report.t :=
  let st := aggregate survey responses in
  {| Report.surveyId := Survey._id survey;
     Report.title := Survey.title survey;
     Report.status := Survey.status survey;
     Report.createdAt := Survey.createdAt survey;
     Report.totals := totalsOf responses st;
     Report.funnel := buildFunnel (perQuestionStats st);
     Report.questions :=
       buildQuestions (buildQuestionMeta (Survey.questions survey))
                      (perQuestionStats st) |}.

End Handler.

End Analytics.

(** ** Concrete data for the examples *)

Module Examples.

(** [String(n)] and [Number(s)] on integers written in decimal, which is
    all the examples below need; they agree with JavaScript on integers of
    magnitude below 10^21. *)
Definition intToString (n : JS.number) : string :=
  match n with
  | JS.NaN => "NaN"
  | JS.Fin q =>
      let r := Qred q in
      match Qden r with
      | xH => DecimalString.NilZero.string_of_int (Z.to_int (Qnum r))
      | d =>
          (DecimalString.NilZero.string_of_int (Z.to_int (Qnum r)) ++ "/" ++
           DecimalString.NilZero.string_of_uint (Pos.to_uint d))%string
      end
  end.

Definition intOfString (s : string) : JS.number :=
  match JS.trim s with
  | EmptyString => JS.of_Z 0
  | t =>
      match DecimalString.NilZero.int_of_string t with
      | Some i => JS.of_Z (Z.of_int i)
      | None => JS.NaN
      end
  end.

Definition getAnalytics := Analytics.getAnalytics intToString intOfString.

Definition question (id type : string) (order : Z) (options : list string)
  : Question.t :=
  {| Question._id := id;
     Question.order := order;
     Question.type := type;
     Question.text := "Question " ++ id;
     Question.options :=
       map (fun o => {| Choice.text := Some o; Choice.value := Some o |})
           options |}.

Definition survey (qs : list Question.t) : Survey.t :=
  {| Survey._id := "65c0000000000000000000aa";
     Survey.title := "Customer Satisfaction Survey";
     Survey.status := "published";
     Survey.createdAt := "2024-02-09T10:30:00.000Z";
     Survey.questions := qs |}.

Definition ans (id : string) (v : JS.value) : Answer.t :=
  {| Answer.questionId := Some id; Answer.answer := v |}.

Definition response (completed : bool) (time : JS.value)
           (answers : list Answer.t) : Response.t :=
  {| Response.answers := answers;
     Response.timeSpent := time;
     Response.isCompleted := completed |}.

Definition num (z : Z) : JS.value := JS.VNumber (JS.of_Z z).

Definition Q1 : string := "65c000000000000000000001".
Definition Q2 : string := "65c000000000000000000002".
Definition Q3 : string := "65c000000000000000000003".

(** One rating question; two completed responses and a partial one. *)
Definition ratingSurvey : Survey.t := survey [question Q1 "rating" 0 []].

Definition ratingResponses : list Response.t :=
  [ response true (num 30) [ans Q1 (num 4)];
    response true (num 50) [ans Q1 (num 4)];
    response false JS.VUndefined [ans Q1 (num 2)] ].

(** One multiple-choice question with the options A, B and C. *)
Definition choiceSurvey : Survey.t :=
  survey [question Q2 "multiple_choice" 0 ["A"; "B"; "C"]].

Definition multiSelect : list Response.t :=
  [ response true JS.VUndefined
      [ans Q2 (JS.VArray [JS.VString "A"; JS.VString "C"])] ].

(** The entry of the report on [choiceSurvey] and [multiSelect]. *)
Definition multiSelectRows : list OptionRow.t :=
  [ {| OptionRow.value := "A"; OptionRow.label := "A";
       OptionRow.count := 1; OptionRow.percentage := JS.of_Z 100 |};
    {| OptionRow.value := "C"; OptionRow.label := "C";
       OptionRow.count := 1; OptionRow.percentage := JS.of_Z 100 |} ].

Definition multiSelectEntry : QuestionAnalytics.t :=
  {| QuestionAnalytics.questionId := Q2;
     QuestionAnalytics.questionText := "Question " ++ Q2;
     QuestionAnalytics.type := "multiple_choice";
     QuestionAnalytics.order := 0;
     QuestionAnalytics.totalAnswers := 1;
     QuestionAnalytics.payload := KChoice multiSelectRows |}.

(** No question; a completed response and a partial one, both timed. *)
Definition emptySurvey : Survey.t := survey [].

Definition timedResponses : list Response.t :=
  [ response true (num 30) []; response false (num 90) [] ].

(** One short-text question. *)
Definition textSurvey : Survey.t := survey [question Q3 "short_text" 0 []].

Definition unanswered : Response.t := response true JS.VUndefined [].

Definition blankAnswer : Response.t :=
  response true JS.VUndefined [ans Q3 (JS.VString "")].

Definition emptyListAnswer : Response.t :=
  response true JS.VUndefined [ans Q3 (JS.VArray [])].

Definition spaces : Answer.t := ans Q3 (JS.VString "  ").

Definition spacesAnswer : Response.t := response false JS.VUndefined [spaces].

(** Three responses to [choiceSurvey]: B is selected once and first, A
    once, C twice. *)
Definition tieResponses : list Response.t :=
  [ response true JS.VUndefined [ans Q2 (JS.VString "B")];
    response true JS.VUndefined
      [ans Q2 (JS.VArray [JS.VString "A"; JS.VString "C"])];
    response false JS.VUndefined [ans Q2 (JS.VString "C")] ].

Definition tieRows : list OptionRow.t :=
  [ {| OptionRow.value := "C"; OptionRow.label := "C";
       OptionRow.count := 2; OptionRow.percentage := JS.Fin (200 # 3) |};
    {| OptionRow.value := "B"; OptionRow.label := "B";
       OptionRow.count := 1; OptionRow.percentage := JS.Fin (100 # 3) |};
    {| OptionRow.value := "A"; OptionRow.label := "A";
       OptionRow.count := 1; OptionRow.percentage := JS.Fin (100 # 3) |} ].

Definition tieEntry : QuestionAnalytics.t :=
  {| QuestionAnalytics.questionId := Q2;
     QuestionAnalytics.questionText := "Question " ++ Q2;
     QuestionAnalytics.type := "multiple_choice";
     QuestionAnalytics.order := 0;
     QuestionAnalytics.totalAnswers := 3;
     QuestionAnalytics.payload := KChoice tieRows |}.

(** Two answers to the rating question, one of them not a number. *)
Definition mixedRatings : list Response.t :=
  [ response true JS.VUndefined [ans Q1 (num 4)];
    response true JS.VUndefined [ans Q1 (JS.VString "n/a")] ].

Definition mixedRows : list RatingRow.t :=
  [ {| RatingRow.value := JS.of_Z 4; RatingRow.count := 1;
       RatingRow.percentage := JS.of_Z 50 |} ].

Definition mixedEntry : QuestionAnalytics.t :=
  {| QuestionAnalytics.questionId := Q1;
     QuestionAnalytics.questionText := "Question " ++ Q1;
     QuestionAnalytics.type := "rating";
     QuestionAnalytics.order := 0;
     QuestionAnalytics.totalAnswers := 2;
     QuestionAnalytics.payload := KRating mixedRows |}.

(** An answer to a question the surveys above do not have. *)
Definition strayAnswer : Answer.t := ans "65c0000000000000000000ff" (num 5).

Definition strayResponse : Response.t :=
  response true (num 30) [ans Q1 (num 4); strayAnswer].

End Examples.

(** ** What the loop computes, read per question

    The definitions of this module do not belong to the handler; they
    describe, for one question id [k], which answers and responses the
    counters of [perQuestionStats[k]] count. *)

Module PerQuestion.

Section PerQuestion.
Variable NumberToString : JS.number -> string.
Variable StringToNumber : string -> JS.number.

Abbreviation ToString := (JS.ToString NumberToString).
Abbreviation ToNumber := (JS.ToNumber NumberToString StringToNumber).

(** [a] is an answer to the question [k]: its [questionId] is present and
    prints as [k]. *)
Definition targets (k : string) (a : Answer.t) : bool :=
  match Answer.questionId a with
  | Some qId => negb (qId =? "")%string && (qId =? k)%string
  | None => false
  end.

(** [r] holds an answer to [k], whatever its value. *)
Definition mentions (k : string) (r : Response.t) : bool :=
  existsb (targets k) (Response.answers r).

(** The values of the answers of [r] to [k] that pass [hasValue], in
    array order. *)
Definition valued (k : string) (r : Response.t) : list JS.value :=
  map Answer.answer
      (filter (fun a => targets k a && Analytics.hasValue (Answer.answer a))
              (Response.answers r)).

Definition valuedAnswers (k : string) (rs : list Response.t)
  : list JS.value :=
  flat_map (valued k) rs.

(** The option values selected for [k], one per element of a list-valued
    answer, in the order the loop meets them. *)
Definition selected (v : JS.value) : list string :=
  map ToString (Analytics.rawValues v).

Definition selections (k : string) (rs : list Response.t) : list string :=
  flat_map selected (valuedAnswers k rs).

(** The answers to [k] that [Number] turns into a number. *)
Definition numeric (v : JS.value) : bool := negb (JS.isNaN (ToNumber v)).

Definition ratingKey (v : JS.value) : string := NumberToString (ToNumber v).

Definition ratings (k : string) (rs : list Response.t) : list string :=
  map ratingKey (filter numeric (valuedAnswers k rs)).

(** The distinct elements of [l] in the order of their first occurrence. *)
Definition firstSeen (l : list string) : list string :=
  fold_left (fun s v => JS.sadd v s) l [].

(** The number of occurrences of [v] in [l]. *)
Definition occurrences (v : string) (l : list string) : nat :=
  count_occ string_dec l v.

(** The dictionary [m] after one [increment] per element of [l]. *)
Definition tallyOf (l : list string) (m : JS.omap nat) : JS.omap nat :=
  fold_left (fun m v => Analytics.increment v m) l m.

(** [m.get(v) || 0] *)
Definition countAt (v : string) (m : JS.omap nat) : nat :=
  match JS.get v m with Some n => n | None => 0 end.

(** The values of [timeSpent] that are numbers. *)
Definition times (rs : list Response.t) : list JS.number :=
  flat_map (fun r => match Response.timeSpent r with
                     | JS.VNumber n => [n]
                     | _ => []
                     end) rs.

Definition sum (l : list JS.number) : JS.number :=
  fold_left JS.add l (JS.of_Z 0).

(** The values of [timeSpent] of the completed responses. *)
Definition completedTimes (rs : list Response.t) : list JS.number :=
  times (filter Response.isCompleted rs).

Definition mean (l : list JS.number) : JS.number :=
  JS.div (sum l) (JS.of_nat (List.length l)).

(** The sum of the [count] fields of the rows of a distribution. *)
Definition optionTotal (rows : list OptionRow.t) : nat :=
  list_sum (map OptionRow.count rows).

Definition ratingTotal (rows : list RatingRow.t) : nat :=
  list_sum (map RatingRow.count rows).

(** A dictionary changed value by value, keys and order kept. *)
Definition pointwise (V : Type) (f : string -> V -> V) (m : JS.omap V)
  : JS.omap V :=
  map (fun kv => (fst kv, f (fst kv) (snd kv))) m.

(** What one answer does to the statistics stored at [k]. *)
Definition answerStep (a : Answer.t) (k : string) (s : Stats.t) : Stats.t :=
  if targets k a && Analytics.hasValue (Answer.answer a)
  then Analytics.countAnswer NumberToString StringToNumber (Answer.answer a) s
  else s.

(** The statistics [s] after the non-empty answers [vs]. *)
Definition counted (vs : list JS.value) (s : Stats.t) : Stats.t :=
  fold_left
    (fun s v => Analytics.countAnswer NumberToString StringToNumber v s)
    vs s.

Definition reach (b : bool) (s : Stats.t) : Stats.t :=
  if b then Stats.set_reached (Stats.reached s + 1) s else s.

(** What one response does to the statistics stored at [k]. *)
Definition responseStep (r : Response.t) (k : string) (s : Stats.t)
  : Stats.t :=
  reach (mentions k r)
        (fold_left (fun s a => answerStep a k s) (Response.answers r) s).

Definition finalStats (rs : list Response.t) (k : string) (s : Stats.t)
  : Stats.t :=
  fold_left (fun s r => responseStep r k s) rs s.

(** The statistics without the funnel counter. *)
Definition unreached (s : Stats.t) : Stats.t := Stats.set_reached 0 s.

(** The questions of a report and their funnel entries, by id. *)
Definition questionOf (report : Report.t) (k : string)
  : option QuestionAnalytics.t :=
  find (fun e => (QuestionAnalytics.questionId e =? k)%string)
       (Report.questions report).

Definition funnelOf (report : Report.t) (k : string) : option Funnel.t :=
  find (fun e => (Funnel.questionId e =? k)%string) (Report.funnel report).

(** The funnel counter the report shows for the question [k]. *)
Definition reachedOf (report : Report.t) (k : string) : option nat :=
  option_map Funnel.reached (funnelOf report k).

(** The rows of a choice question as pairs of a value and its count. *)
Definition countsOf (e : QuestionAnalytics.t) : list (string * nat) :=
  match QuestionAnalytics.payload e with
  | KChoice rows =>
      map (fun row => (OptionRow.value row, OptionRow.count row)) rows
  | _ => []
  end.

End PerQuestion.

End PerQuestion.

(** ** The questions as the report lays them out *)

Module Layout.

(** The comparator of the two sorts by [order], read on the questions. *)
Definition byQuestionOrder (a b : Question.t) : JS.number :=
  JS.sub (JS.of_Z (Question.order a)) (JS.of_Z (Question.order b)).

(** The questions in the order the funnel and the analytics list them. *)
Definition sortedQuestions (survey : Survey.t) : list Question.t :=
  JS.sort byQuestionOrder (Survey.questions survey).

(** [a <= b] on numbers; it fails when one of them is [NaN]. *)
Definition le (a b : JS.number) : bool :=
  match a, b with
  | JS.Fin x, JS.Fin y => Qle_bool x y
  | _, _ => false
  end.

(** [opt.value ?? opt.text ?? ''], the value a declared option answers to. *)
Definition optionValue (opt : Choice.t) : string :=
  Analytics.nullish (Choice.value opt)
                    (Analytics.nullish (Choice.text opt) "").

End Layout.

(** ** The text answers handed to the analysis ([analyzeSurvey]) *)

(** [{ questionText, answers }], an element of [textResponses]. *)
Module TextGroup.
Record t := { questionText : string; answers : list string }.

(** [group.answers.push(text)] *)
Definition push (text : string) (g : t) : t :=
  {| questionText := questionText g; answers := answers g ++ [text] |}.
End TextGroup.

Module TextAnalysis.

Section Collect.
Variable NumberToString : JS.number -> string.

(** [questionIdToText]: the text of every question whose type is in
    [TEXT_QUESTION_TYPES], by id. *)
Definition buildQuestionIdToText (qs : list Question.t) : JS.omap string :=
  fold_left
    (fun m q =>
       if Analytics.isTextType (Question.type q)
       then JS.set (Question._id q) (Question.text q) m
       else m)
    qs JS.empty.

(** [a.answer != null ? String(a.answer).trim() : ''] *)
Definition answerText (answer : JS.value) : string :=
  match answer with
  | JS.VUndefined | JS.VNull => ""
  | _ => JS.trim (JS.ToString NumberToString answer)
  end.

(** The body of the loop over the answers of a response. *)
Definition collectAnswer (questionIdToText : JS.omap string)
           (textByQuestion : JS.omap TextGroup.t) (a : Answer.t)
  : JS.omap TextGroup.t :=
  match Answer.questionId a with
  | None => textByQuestion
  | Some qId =>
      if (qId =? "")%string then textByQuestion
      else
        match JS.get qId questionIdToText with
        | None => textByQuestion
        | Some questionText =>
            if (questionText =? "")%string then textByQuestion
            else
              let text := answerText (Answer.answer a) in
              if (text =? "")%string then textByQuestion
              else
                let textByQuestion :=
                  match JS.get qId textByQuestion with
                  | Some _ => textByQuestion
                  | None =>
                      JS.set qId
                             {| TextGroup.questionText := questionText;
                                TextGroup.answers := [] |}
                             textByQuestion
                  end in
                JS.modify qId (TextGroup.push text) textByQuestion
        end
  end.

(** [textByQuestion] after the loop over the responses. *)
Definition textByQuestion (survey : Survey.t) (responses : list Response.t)
  : JS.omap TextGroup.t :=
  fold_left
    (fun m r =>
       fold_left
         (collectAnswer (buildQuestionIdToText (Survey.questions survey)))
         (Response.answers r) m)
    responses JS.empty.

(** [Object.values(textByQuestion)] *)
Definition collectTextResponses (survey : Survey.t)
           (responses : list Response.t) : list TextGroup.t :=
  JS.values (textByQuestion survey responses).

(** [Response.find({ survey, isCompleted: true })] on the responses of the
    survey. *)
Definition completedOf (all : list Response.t) : list Response.t :=
  filter Response.isCompleted all.

(** The texts collected for the question [k]. *)
Definition textsOf (k : string) (m : JS.omap TextGroup.t) : list string :=
  match JS.get k m with
  | Some g => TextGroup.answers g
  | None => []
  end.

(** [a] is an answer to [k] whose text is not empty. *)
Definition collected (k : string) (a : Answer.t) : bool :=
  PerQuestion.targets k a && negb (answerText (Answer.answer a) =? "")%string.

(** [questionIdToText[k]] is truthy. *)
Definition hasText (k : string) (questionIdToText : JS.omap string) : bool :=
  match JS.get k questionIdToText with
  | Some t => negb (t =? "")%string
  | None => false
  end.

(** The texts of the answers to [k] that the loop collects, in order. *)
Definition textsFor (k : string) (responses : list Response.t)
  : list string :=
  map (fun a => answerText (Answer.answer a))
      (filter (collected k) (flat_map Response.answers responses)).

End Collect.

End TextAnalysis.

(** ** Around the call to the model (services/aiAnalysisService.js) *)

Module Insight.

Definition LF : string := String (ascii_of_nat 10) EmptyString.

(** The text built for one element of [textResponses]. *)
Definition formatGroup (g : TextGroup.t) : string :=
  let answerList :=
    JS.join (LF ++ "  - ")%string
            (filter (fun a => negb (a =? "")%string) (TextGroup.answers g)) in
  ("Question: " ++ TextGroup.questionText g ++ LF ++ "Answers:" ++ LF
   ++ "  - "
   ++ (if (answerList =? "")%string then "(no text)" else answerList))%string.

Definition combinedText (textResponses : list TextGroup.t) : string :=
  JS.join (LF ++ LF)%string (map formatGroup textResponses).

(** [!combinedText || combinedText.trim() === '']: the model is not
    called. *)
Definition nothingToAnalyze (textResponses : list TextGroup.t) : bool :=
  (combinedText textResponses =? "")%string
  || (JS.trim (combinedText textResponses) =? "")%string.

(** The values [JSON.parse] returns. *)
Inductive json : Type :=
| JNull
| JBool (b : bool)
| JNumber (n : JS.number)
| JString (s : string)
| JArray (elems : list json)
| JObject (fields : list (string * json)).

(** [parsed.key] for one of the keys [summary], [sentiment], [insights]
    and [parsed] other than [null]; [None] is [undefined]. *)
Definition property (key : string) (parsed : json) : option json :=
  match parsed with
  | JObject fields => JS.get key fields
  | _ => None
  end.

Record analysis := {
  summary : string;
  sentiment : string;
  insights : list string
}.

Definition sentiments : list string := ["Positive"; "Neutral"; "Negative"].

(** [l.filter((i) => typeof i === 'string')] *)
Fixpoint strings (l : list json) : list string :=
  match l with
  | [] => []
  | JString s :: l' => s :: strings l'
  | _ :: l' => strings l'
  end.

(** What [analyzeSurveyResponses] returns from the parsed reply of the
    model; [None] when reading a property of [null] throws. *)
Definition normalize (parsed : json) : option analysis :=
  match parsed with
  | JNull => None
  | _ =>
      Some
        {| summary :=
             match property "summary" parsed with
             | Some (JString s) => s
             | _ => "Summary unavailable."
             end;
           sentiment :=
             match property "sentiment" parsed with
             | Some (JString s) =>
                 if existsb (String.eqb s) sentiments then s else "Neutral"
             | _ => "Neutral"
             end;
           insights :=
             match property "insights" parsed with
             | Some (JArray l) => firstn 5 (strings l)
             | _ => []
             end |}
  end.

(** The object a reply of the model holds when it follows the
    instruction. *)
Definition toJson (a : analysis) : json :=
  JObject [ ("summary", JString (summary a));
            ("sentiment", JString (sentiment a));
            ("insights", JArray (map JString (insights a))) ].

(** [getApiKey()] on the value of [process.env.GOOGLE_API_KEY], a string
    when the variable is set: the key, or [None] when it throws
    [Error('GOOGLE_API_KEY is not configured')]. *)
Definition getApiKey (GOOGLE_API_KEY : option string) : option string :=
  match GOOGLE_API_KEY with
  | Some apiKey =>
      if (apiKey =? "")%string || (JS.trim apiKey =? "")%string then None
      else Some (JS.trim apiKey)
  | None => None
  end.

(** What the lines from [model.generateContent(prompt)] to
    [JSON.parse(jsonStr)] leave: the parsed reply, or an error thrown on
    the way (the request fails, the reply is empty, or it is not JSON). *)
Inductive reply : Type :=
| Failed
| Parsed (parsed : json).

(** The way a call of [analyzeSurveyResponses] ends. *)
Inductive outcome : Type :=
| NotConfigured          (* Error('GOOGLE_API_KEY is not configured') *)
| ModelFailed            (* an error of the call or of the reading of the reply *)
| Unreadable             (* the TypeError of reading a property of [null] *)
| Returns (a : analysis).

Definition noText : analysis :=
  {| summary := "No text-based responses to analyze.";
     sentiment := "Neutral";
     insights :=
       ["Add more short text or long text questions to get AI insights."] |}.

Definition fromReply (r : reply) : outcome :=
  match r with
  | Failed => ModelFailed
  | Parsed parsed =>
      match normalize parsed with
      | Some a => Returns a
      | None => Unreadable
      end
  end.

(** [analyzeSurveyResponses(surveyTitle, textResponses)]. The model is a
    parameter: [ask apiKey modelName surveyTitle combinedText] stands for
    the request made with the key and the name of the model, and with
    the prompt, a fixed text around the title and the combined text. The
    construction of the client and [getGenerativeModel], which is given
    a name that is not empty, are taken to return. *)
Definition analyzeSurveyResponses
           (ask : string -> string -> string -> string -> reply)
           (GOOGLE_API_KEY GEMINI_MODEL : option string)
           (surveyTitle : string) (textResponses : list TextGroup.t)
  : outcome :=
  match getApiKey GOOGLE_API_KEY with
  | None => NotConfigured
  | Some apiKey =>
      let modelName := Analytics.or_else GEMINI_MODEL "gemini-2.5-flash" in
      if nothingToAnalyze textResponses then Returns noText
      else fromReply (ask apiKey modelName surveyTitle
                          (combinedText textResponses))
  end.

End Insight.

(** ** [getAnalytics] on the response documents as they are stored

    [Analytics] describes the handler on documents on which none of its
    operations throws. A [lean] response document can hold more: [null]
    among its [answers], on which [a.questionId] throws, and in a [Mixed]
    answer an object whose own [toString] is not a function, on which
    [String] and [Number] throw. The [catch] of the handler then answers
    with the status 500 and no report. *)

(** An element of [answers] other than [null]; [answer] is a value JSON
    can express, [None] when the field is not set. *)
Module StoredAnswer.
Record t := {
  questionId : option string;
  answer : option Insight.json
}.
End StoredAnswer.

Module StoredResponse.
Record t := {
  answers : list (option StoredAnswer.t);   (* [None] is [null] *)
  timeSpent : JS.value;
  isCompleted : bool
}.

Definition with_answers (l : list (option StoredAnswer.t)) (r : t) : t :=
  {| answers := l; timeSpent := timeSpent r; isCompleted := isCompleted r |}.
End StoredResponse.

Module Stored.

(** A computation that returns a value or throws. *)
Inductive result (A : Type) : Type :=
| Returns (a : A)
| Throws.

Arguments Throws {A}.

Definition bind (A B : Type) (x : result A) (f : A -> result B) : result B :=
  match x with
  | Returns a => f a
  | Throws => Throws
  end.

(** [l.map(f)] when [f] may throw. *)
Fixpoint mapM (A B : Type) (f : A -> result B) (l : list A)
  : result (list B) :=
  match l with
  | [] => Returns []
  | x :: l' =>
      bind (f x) (fun y => bind (mapM f l') (fun ys => Returns (y :: ys)))
  end.

(** [l.forEach(x => { state = f(state, x) })] when [f] may throw. *)
Fixpoint foldM (A B : Type) (f : A -> B -> result A) (l : list B) (a : A)
  : result A :=
  match l with
  | [] => Returns a
  | x :: l' => bind (f a x) (foldM f l')
  end.

(** [String(v)] and [Number(v)] return: no object they have to convert
    has an own property [toString], which in a stored value is never a
    function. The elements of an array are converted with it. *)
Fixpoint printable (v : Insight.json) : bool :=
  match v with
  | Insight.JArray elems => forallb printable elems
  | Insight.JObject fields =>
      negb (existsb (fun kv => (fst kv =? "toString")%string) fields)
  | _ => true
  end.

(** The value as [Analytics] sees it. *)
Fixpoint toValue (v : Insight.json) : JS.value :=
  match v with
  | Insight.JNull => JS.VNull
  | Insight.JBool b => JS.VBool b
  | Insight.JNumber n => JS.VNumber n
  | Insight.JString s => JS.VString s
  | Insight.JArray elems => JS.VArray (map toValue elems)
  | Insight.JObject _ => JS.VObject
  end.

Definition valueOf (answer : option Insight.json) : JS.value :=
  match answer with
  | Some v => toValue v
  | None => JS.VUndefined
  end.

Definition toAnswer (a : StoredAnswer.t) : Answer.t :=
  {| Answer.questionId := StoredAnswer.questionId a;
     Answer.answer := valueOf (StoredAnswer.answer a) |}.

(** The response without the [null] elements of its [answers]. *)
Definition toResponse (r : StoredResponse.t) : Response.t :=
  {| Response.answers :=
       flat_map (fun a => match a with
                          | Some a => [toAnswer a]
                          | None => []
                          end)
                (StoredResponse.answers r);
     Response.timeSpent := StoredResponse.timeSpent r;
     Response.isCompleted := StoredResponse.isCompleted r |}.

Section Handler.
Variable NumberToString : JS.number -> string.
Variable StringToNumber : string -> JS.number.

Definition ToString (v : Insight.json) : result string :=
  if printable v then Returns (JS.ToString NumberToString (toValue v))
  else Throws.

Definition ToNumber (v : Insight.json) : result JS.number :=
  if printable v
  then Returns (JS.ToNumber NumberToString StringToNumber (toValue v))
  else Throws.

(** [Array.isArray(answer) ? answer : [answer]] *)
Definition rawValues (answer : Insight.json) : list Insight.json :=
  match answer with
  | Insight.JArray l => l
  | _ => [answer]
  end.

(** What a non-empty answer does to the statistics of its question. *)
Definition countAnswer (answer : Insight.json) (stats : Stats.t)
  : result Stats.t :=
  let stats := Stats.set_totalAnswers (Stats.totalAnswers stats + 1) stats in
  let qType := Stats.type stats in
  if Analytics.isChoiceType qType then
    bind (mapM ToString (rawValues answer))
         (fun vals =>
            Returns
              (Stats.set_optionCounts
                 (fold_left (fun m val => Analytics.increment val m)
                            vals (Stats.optionCounts stats))
                 stats))
  else if Analytics.isRatingType qType then
    bind (ToNumber answer)
         (fun num =>
            if negb (JS.isNaN num) then
              Returns
                (Stats.set_ratingCounts
                   (Analytics.increment (NumberToString num)
                                        (Stats.ratingCounts stats))
                   stats)
            else Returns stats)
  else if Analytics.isTextType qType then
    Returns (Stats.set_textCount (Stats.textCount stats + 1) stats)
  else Returns stats.

(** The body of [(r.answers || []).forEach((a) => { ... })]. *)
Definition processAnswer (st : JS.omap Stats.t * JS.sset)
           (a : option StoredAnswer.t)
  : result (JS.omap Stats.t * JS.sset) :=
  match a with
  | None => Throws
  | Some a =>
      let (perQuestionStats, seenQuestionIds) := st in
      match StoredAnswer.questionId a with
      | None => Returns st
      | Some qId =>
          if (qId =? "")%string then Returns st
          else
            match JS.get qId perQuestionStats with
            | None => Returns st
            | Some stats =>
                let seenQuestionIds := JS.sadd qId seenQuestionIds in
                match StoredAnswer.answer a with
                | None => Returns (perQuestionStats, seenQuestionIds)
                | Some answer =>
                    if negb (Analytics.hasValue (toValue answer)) then
                      Returns (perQuestionStats, seenQuestionIds)
                    else
                      bind (countAnswer answer stats)
                           (fun stats =>
                              Returns (JS.set qId stats perQuestionStats,
                                       seenQuestionIds))
                end
            end
      end
  end.

Definition processResponse (st : Analytics.loop) (r : StoredResponse.t)
  : result Analytics.loop :=
  let completed :=
    if StoredResponse.isCompleted r then Analytics.completedResponses st + 1
    else Analytics.completedResponses st in
  let partial :=
    if StoredResponse.isCompleted r then Analytics.partialResponses st
    else Analytics.partialResponses st + 1 in
  let (sum, count) :=
    match StoredResponse.timeSpent r with
    | JS.VNumber n =>
        (JS.add (Analytics.completionTimeSum st) n,
         Analytics.completionTimeCount st + 1)
    | _ => (Analytics.completionTimeSum st, Analytics.completionTimeCount st)
    end in
  bind (foldM processAnswer (StoredResponse.answers r)
              (Analytics.perQuestionStats st, []))
       (fun state =>
          Returns
            {| Analytics.completedResponses := completed;
               Analytics.partialResponses := partial;
               Analytics.completionTimeSum := sum;
               Analytics.completionTimeCount := count;
               Analytics.perQuestionStats :=
                 Analytics.markReached (fst state) (snd state) |}).

Definition aggregate (survey : Survey.t) (responses : list StoredResponse.t)
  : result Analytics.loop :=
  foldM processResponse responses (Analytics.initialLoop survey).

(** What the handler sends once the survey and its responses are read:
    the report, or the error of the [catch]. *)
Inductive sent : Type :=
| Success (data : Report.t)
| ServerError.

Definition getAnalytics (survey : Survey.t)
           (responses : list StoredResponse.t) : sent :=
  match aggregate survey responses with
  | Throws => ServerError
  | Returns st =>
      Success
        {| Report.surveyId := Survey._id survey;
           Report.title := Survey.title survey;
           Report.status := Survey.status survey;
           Report.createdAt := Survey.createdAt survey;
           Report.totals :=
             {| Totals.totalResponses := List.length responses;
                Totals.completedResponses := Analytics.completedResponses st;
                Totals.partialResponses := Analytics.partialResponses st;
                Totals.averageCompletionTimeSeconds :=
                  Analytics.averageCompletionTime st |};
           Report.funnel :=
             Analytics.buildFunnel (Analytics.perQuestionStats st);
           Report.questions :=
             Analytics.buildQuestions
               StringToNumber
               (Analytics.buildQuestionMeta (Survey.questions survey))
               (Analytics.perQuestionStats st) |}
  end.

End Handler.

End Stored.

(** ** What the language leaves to the engine

    Two things in the handler are not fixed by the code alone: the order
    in which [Object.values] enumerates the properties of an object, and
    the array that [Array.prototype.sort] leaves. ECMAScript fixes the
    first one; of the second it fixes the result only when the
    comparator is consistent. A [Map] is iterated in the order in which
    its keys were inserted, whatever the keys are. *)

Module Engine.

(** *** The order of the properties of an object *)

Definition isDigit (c : ascii) : bool :=
  let n := nat_of_ascii c in (48 <=? n)%nat && (n <=? 57)%nat.

Fixpoint digits (s : string) (acc : N) : option N :=
  match s with
  | EmptyString => Some acc
  | String c s' =>
      if isDigit c
      then digits s' (acc * 10 + N.of_nat (nat_of_ascii c - 48))%N
      else None
  end.

(** The array index that a property key denotes: the key is the decimal
    numeral, without leading zeros, of an integer below [2^32 - 1] (such
    a numeral has ten digits at most). *)
Definition arrayIndex (k : string) : option N :=
  match k with
  | EmptyString => None
  | String c rest =>
      if (nat_of_ascii c =? 48)%nat && negb (rest =? "")%string then None
      else if (10 <? String.length k)%nat then None
      else
        match digits k 0 with
        | Some n => if (n <? 4294967295)%N then Some n else None
        | None => None
        end
  end.

Section Values.
Variable V : Type.

Definition indexed (m : JS.omap V) : list (N * V) :=
  flat_map (fun kv => match arrayIndex (fst kv) with
                      | Some i => [(i, snd kv)]
                      | None => []
                      end) m.

Definition named (m : JS.omap V) : list V :=
  flat_map (fun kv => match arrayIndex (fst kv) with
                      | Some _ => []
                      | None => [snd kv]
                      end) m.

Definition byIndex (a b : N * V) : JS.number :=
  JS.sub (JS.of_Z (Z.of_N (fst a))) (JS.of_Z (Z.of_N (fst b))).

(** [Object.values(obj)]: the properties whose keys are array indices,
    by ascending index, then the other ones in the order of their
    creation. *)
Definition values (m : JS.omap V) : list V :=
  map snd (JS.sort byIndex (indexed m)) ++ named m.
End Values.

(** *** [Array.prototype.sort(cmp)] *)

Section Sort.
Variable A : Type.
Variable cmp : A -> A -> JS.number.

(** The sign of [cmp(a, b)]: [a <CF b], [a =CF b] or [a >CF b]; none
    when the comparator returns [NaN]. *)
Definition sign (a b : A) : option comparison :=
  match cmp a b with
  | JS.NaN => None
  | JS.Fin q => Some (q ?= 0)%Q
  end.

Definition tie (a b : A) : bool :=
  match sign a b with
  | Some Eq => true
  | _ => false
  end.

(** [cmp] is a consistent comparator for the elements of [l]. *)
Definition consistent (l : list A) : Prop :=
  forall a b c, In a l -> In b l -> In c l ->
    sign a b <> None
    /\ sign a a = Some Eq
    /\ (sign a b = Some Eq -> sign b a = Some Eq)
    /\ (sign a b = Some Eq -> sign b c = Some Eq -> sign a c = Some Eq)
    /\ (sign a b = Some Lt -> sign b c = Some Lt -> sign a c = Some Lt)
    /\ (sign a b = Some Gt -> sign b c = Some Gt -> sign a c = Some Gt).

(** [l.sort(cmp)] may leave [l']: the elements of [l] in some order
    and, when the comparator is consistent, an order in which no element
    stands before one it is greater than and in which the elements that
    compare equal stand as they did in [l]. With another comparator the
    order is the choice of the implementation. *)
Definition sorts (l l' : list A) : Prop :=
  Permutation l l'
  /\ (consistent l ->
      StronglySorted (fun a b => sign a b <> Some Gt) l'
      /\ forall x, In x l -> filter (tie x) l' = filter (tie x) l).
End Sort.

(** *** The handler on an engine *)

Section Run.
Variable NumberToString : JS.number -> string.
Variable StringToNumber : string -> JS.number.

(** [Object.values(questionMeta).forEach((q) => { perQuestionStats[...] = ... })] *)
Definition initPerQuestionStats (meta : JS.omap Meta.t) : JS.omap Stats.t :=
  fold_left (fun stats q =>
               JS.set (Meta.questionId q) (Analytics.initialStats q) stats)
            (values meta) JS.empty.

Definition initialLoop (survey : Survey.t) : Analytics.loop :=
  {| Analytics.completedResponses := 0;
     Analytics.partialResponses := 0;
     Analytics.completionTimeSum := JS.of_Z 0;
     Analytics.completionTimeCount := 0;
     Analytics.perQuestionStats :=
       initPerQuestionStats
         (Analytics.buildQuestionMeta (Survey.questions survey)) |}.

Definition aggregate (survey : Survey.t) (responses : list StoredResponse.t)
  : Stored.result Analytics.loop :=
  Stored.foldM (Stored.processResponse NumberToString StringToNumber)
               responses (initialLoop survey).

Definition funnelEntry (stats : Stats.t) : Funnel.t :=
  {| Funnel.questionId := Stats.questionId stats;
     Funnel.questionText := Stats.questionText stats;
     Funnel.order := Stats.order stats;
     Funnel.reached := Stats.reached stats |}.

(** What is spread after [...base] in the entry of a question. *)
Inductive payloadRun (options : list OptionMeta.t) (stats : Stats.t)
  : kind -> Prop :=
| choice_run (rows : list OptionRow.t) :
    Analytics.isChoiceType (Stats.type stats) = true ->
    sorts Analytics.byCountDesc
          (map (Analytics.optionRow
                  (Analytics.buildOptionMetaByValue options)
                  (Stats.totalAnswers stats))
               (JS.entries (Stats.optionCounts stats)))
          rows ->
    payloadRun options stats (KChoice rows)
| rating_run (rows : list RatingRow.t) :
    Analytics.isChoiceType (Stats.type stats) = false ->
    Analytics.isRatingType (Stats.type stats) = true ->
    sorts Analytics.byValue
          (map (Analytics.ratingRow StringToNumber
                                    (Stats.totalAnswers stats))
               (JS.entries (Stats.ratingCounts stats)))
          rows ->
    payloadRun options stats (KRating rows)
| text_run :
    Analytics.isChoiceType (Stats.type stats) = false ->
    Analytics.isRatingType (Stats.type stats) = false ->
    Analytics.isTextType (Stats.type stats) = true ->
    payloadRun options stats (KText (Stats.textCount stats))
| unknown_run :
    Analytics.isChoiceType (Stats.type stats) = false ->
    Analytics.isRatingType (Stats.type stats) = false ->
    Analytics.isTextType (Stats.type stats) = false ->
    payloadRun options stats KUnknown.

Inductive questionRun (meta : JS.omap Meta.t) (stats : Stats.t)
  : QuestionAnalytics.t -> Prop :=
| question_run (payload : kind) :
    payloadRun (Analytics.optionsOf meta (Stats.questionId stats))
               stats payload ->
    questionRun meta stats
      {| QuestionAnalytics.questionId := Stats.questionId stats;
         QuestionAnalytics.questionText := Stats.questionText stats;
         QuestionAnalytics.type := Stats.type stats;
         QuestionAnalytics.order := Stats.order stats;
         QuestionAnalytics.totalAnswers := Stats.totalAnswers stats;
         QuestionAnalytics.payload := payload |}.

(** A run of the handler on the survey and on the array of responses
    that the query delivered may send [outcome]. *)
Inductive runs (survey : Survey.t) (responses : list StoredResponse.t)
  : Stored.sent -> Prop :=
| run_throws :
    aggregate survey responses = Stored.Throws ->
    runs survey responses Stored.ServerError
| run_sends (st : Analytics.loop) (funnelStats questionStats : list Stats.t)
            (questions : list QuestionAnalytics.t) :
    aggregate survey responses = Stored.Returns st ->
    sorts Analytics.byOrder (values (Analytics.perQuestionStats st))
          funnelStats ->
    sorts Analytics.byOrder (values (Analytics.perQuestionStats st))
          questionStats ->
    Forall2 (questionRun
               (Analytics.buildQuestionMeta (Survey.questions survey)))
            questionStats questions ->
    runs survey responses
      (Stored.Success
         {| Report.surveyId := Survey._id survey;
            Report.title := Survey.title survey;
            Report.status := Survey.status survey;
            Report.createdAt := Survey.createdAt survey;
            Report.totals :=
              {| Totals.totalResponses := List.length responses;
                 Totals.completedResponses :=
                   Analytics.completedResponses st;
                 Totals.partialResponses := Analytics.partialResponses st;
                 Totals.averageCompletionTimeSeconds :=
                   Analytics.averageCompletionTime st |};
            Report.funnel := map funnelEntry funnelStats;
            Report.questions := questions |}).

End Run.

End Engine.

(** ** Publishing and sharing a survey *)

(** A survey document with the fields the handlers below read besides
    those of [Survey.t]. *)
Module SurveyDoc.
Record t := {
  survey : Survey.t;
  createdBy : string;              (* ObjectId, through toString() *)
  expiresAt : option Z;            (* Date, milliseconds since the epoch *)
  shareableLink : option string    (* String, default null *)
}.

Definition with_status (st : string) (doc : t) : t :=
  {| survey :=
       {| Survey._id := Survey._id (survey doc);
          Survey.title := Survey.title (survey doc);
          Survey.status := st;
          Survey.createdAt := Survey.createdAt (survey doc);
          Survey.questions := Survey.questions (survey doc) |};
     createdBy := createdBy doc;
     expiresAt := expiresAt doc;
     shareableLink := shareableLink doc |}.

Definition with_link (link : string) (doc : t) : t :=
  {| survey := survey doc;
     createdBy := createdBy doc;
     expiresAt := expiresAt doc;
     shareableLink := Some link |}.

Definition with_title (title : string) (doc : t) : t :=
  {| survey :=
       {| Survey._id := Survey._id (survey doc);
          Survey.title := title;
          Survey.status := Survey.status (survey doc);
          Survey.createdAt := Survey.createdAt (survey doc);
          Survey.questions := Survey.questions (survey doc) |};
     createdBy := createdBy doc;
     expiresAt := expiresAt doc;
     shareableLink := shareableLink doc |}.

Definition with_questions (questions : list Question.t) (doc : t) : t :=
  {| survey :=
       {| Survey._id := Survey._id (survey doc);
          Survey.title := Survey.title (survey doc);
          Survey.status := Survey.status (survey doc);
          Survey.createdAt := Survey.createdAt (survey doc);
          Survey.questions := questions |};
     createdBy := createdBy doc;
     expiresAt := expiresAt doc;
     shareableLink := shareableLink doc |}.
End SurveyDoc.

Module Sharing.

Definition status (doc : SurveyDoc.t) : string :=
  Survey.status (SurveyDoc.survey doc).

(** [!!doc.shareableLink] *)
Definition hasLink (doc : SurveyDoc.t) : bool :=
  match SurveyDoc.shareableLink doc with
  | Some l => negb (l =? "")%string
  | None => false
  end.

(** *** models/Survey.js *)

(** [surveySchema.methods.canAcceptResponses], at the time [now]. *)
Definition canAcceptResponses (doc : SurveyDoc.t) (now : Z) : bool :=
  (status doc =? "published")%string
  && match SurveyDoc.expiresAt doc with
     | None => true
     | Some t => (now <? t)%Z
     end.

(** One digit of [Buffer.prototype.toString('hex')]. *)
Definition hexDigit (n : nat) : ascii :=
  match get n "0123456789abcdef" with
  | Some c => c
  | None => "0"%char
  end.

(** [buffer.toString('hex')]: two digits per byte. *)
Fixpoint toHex (bytes : list ascii) : string :=
  match bytes with
  | [] => EmptyString
  | b :: bytes' =>
      String (hexDigit (nat_of_ascii b / 16))
             (String (hexDigit (nat_of_ascii b mod 16)) (toHex bytes'))
  end.

(** The loop of the pre-save middleware. [randomBytes i] is the value of
    the call number [i] to [crypto.randomBytes(6)], [taken l] tells
    whether [findOne({ shareableLink: l })] finds a survey; [fuel] is what
    is left of the ten attempts. The result is the link to assign, if the
    loop ends on a link that is not taken. *)
Fixpoint generateLink (randomBytes : nat -> list ascii)
         (taken : string -> bool) (fuel attempts : nat) : option string :=
  match fuel with
  | 0 => None
  | S fuel' =>
      let uniqueLink := toHex (randomBytes attempts) in
      if taken uniqueLink
      then generateLink randomBytes taken fuel' (S attempts)
      else Some uniqueLink
  end.

(** [surveySchema.pre('save', ...)] *)
Definition preSave (randomBytes : nat -> list ascii) (taken : string -> bool)
           (doc : SurveyDoc.t) : SurveyDoc.t :=
  if (status doc =? "published")%string && negb (hasLink doc) then
    match generateLink randomBytes taken 10 0 with
    | Some uniqueLink => SurveyDoc.with_link uniqueLink doc
    | None => doc
    end
  else doc.

(** The validator of [shareableLink]: [/^[a-zA-Z0-9]{8,}$/]. *)
Definition isAlphaNumeric (c : ascii) : bool :=
  let n := nat_of_ascii c in
  ((97 <=? n)%nat && (n <=? 122)%nat)
  || ((65 <=? n)%nat && (n <=? 90)%nat)
  || ((48 <=? n)%nat && (n <=? 57)%nat).

Definition validLink (l : string) : bool :=
  (8 <=? String.length l)%nat
  && forallb isAlphaNumeric (list_ascii_of_string l).

(** *** [publishSurvey] *)

Inductive publication : Type :=
| Refused (message : string) (statusCode : nat)
| Published (survey : SurveyDoc.t).

(** The reply of [publishSurvey] and the document the collection holds
    afterwards, from the document [findById] returns. A document read
    from the collection passes the validation of [save]. *)
Definition publishSurvey (found : option SurveyDoc.t) (userId : string)
           (randomBytes : nat -> list ascii) (taken : string -> bool)
  : publication * option SurveyDoc.t :=
  match found with
  | None => (Refused "Survey not found" 404, None)
  | Some doc =>
      if negb (SurveyDoc.createdBy doc =? userId)%string then
        (Refused "Not authorized" 403, Some doc)
      else if (List.length (Survey.questions (SurveyDoc.survey doc)) =? 0)%nat
      then (Refused "Survey must have at least one question" 400, Some doc)
      else
        let saved :=
          preSave randomBytes taken (SurveyDoc.with_status "published" doc) in
        if negb (hasLink saved) then
          (Refused "Failed to generate shareable link. Please try again." 500,
           Some saved)
        else (Published saved, Some saved)
  end.

(** *** [getSurveyQRCode] *)

Definition DQUOTE : string := String (ascii_of_nat 34) EmptyString.

(** [s.replace(/\/+$/, '')] *)
Fixpoint stripTrailingSlashes (s : string) : string :=
  match s with
  | EmptyString => EmptyString
  | String c s' =>
      match stripTrailingSlashes s' with
      | EmptyString =>
          if (c =? "/")%char then EmptyString else String c EmptyString
      | t => String c t
      end
  end.

(** The characters [/[^a-z0-9-_\.]/gi] leaves in place. *)
Definition isFileChar (c : ascii) : bool :=
  isAlphaNumeric c || (c =? "-")%char || (c =? "_")%char || (c =? ".")%char.

(** [s.replace(/[^a-z0-9-_\.]/gi, '_')] *)
Fixpoint sanitize (s : string) : string :=
  match s with
  | EmptyString => EmptyString
  | String c s' => String (if isFileChar c then c else "_"%char) (sanitize s')
  end.

(** [process.env.FRONTEND_URL || 'http://localhost:3000'] *)
Definition frontendBase (FRONTEND_URL : option string) : string :=
  match FRONTEND_URL with
  | Some u => if (u =? "")%string then "http://localhost:3000" else u
  | None => "http://localhost:3000"
  end.

Definition surveyUrl (FRONTEND_URL : option string) (link : string)
  : string :=
  (stripTrailingSlashes (frontendBase FRONTEND_URL) ++ "/survey/" ++ link)
  %string.

(** The name given in the [Content-Disposition] header. *)
Definition fileName (title : string) : string :=
  ("survey-qr-"
   ++ sanitize (if (title =? "")%string then "survey" else title)
   ++ ".png")%string.

Definition contentDisposition (title : string) : string :=
  ("inline; filename=" ++ DQUOTE ++ fileName title ++ DQUOTE)%string.

Inductive reply : Type :=
| SendError (message : string) (statusCode : nat)
| SendPng (url : string) (disposition : string).

(** The reply of [getSurveyQRCode] from the document [findById] returns:
    an error, or the URL handed to [QRCode.toBuffer] with the header of
    the image. *)
Definition getSurveyQRCode (found : option SurveyDoc.t) (userId : string)
           (now : Z) (FRONTEND_URL : option string) : reply :=
  match found with
  | None => SendError "Survey not found" 404
  | Some doc =>
      if negb (SurveyDoc.createdBy doc =? userId)%string then
        SendError "Not authorized to generate QR code for this survey" 403
      else if negb (status doc =? "published")%string then
        SendError "QR code can only be generated for published surveys" 400
      else if match SurveyDoc.expiresAt doc with
              | Some t => (t <=? now)%Z
              | None => false
              end then
        SendError "Survey link has expired" 400
      else
        match SurveyDoc.shareableLink doc with
        | Some link =>
            if (link =? "")%string then
              SendError "Survey does not have a shareable link" 400
            else
              SendPng (surveyUrl FRONTEND_URL link)
                      (contentDisposition
                         (Survey.title (SurveyDoc.survey doc)))
        | None => SendError "Survey does not have a shareable link" 400
        end
  end.

(** *** [getSurveyQRCodeByShareableLink] *)

(** [Survey.findOne({ shareableLink: link })] *)
Definition findOneByLink (surveys : list SurveyDoc.t) (link : string)
  : option SurveyDoc.t :=
  find (fun doc =>
          match SurveyDoc.shareableLink doc with
          | Some l => (l =? link)%string
          | None => false
          end)
       surveys.

Definition getSurveyQRCodeByShareableLink (surveys : list SurveyDoc.t)
           (link userId : string) (now : Z) (FRONTEND_URL : option string)
  : reply :=
  match findOneByLink surveys link with
  | None => SendError "Survey not found" 404
  | Some doc =>
      if negb (SurveyDoc.createdBy doc =? userId)%string then
        SendError "Not authorized to generate QR code for this survey" 403
      else if negb (status doc =? "published")%string then
        SendError "QR code can only be generated for published surveys" 400
      else if match SurveyDoc.expiresAt doc with
              | Some t => (t <=? now)%Z
              | None => false
              end then
        SendError "Survey link has expired" 400
      else
        SendPng
          (surveyUrl FRONTEND_URL
                     match SurveyDoc.shareableLink doc with
                     | Some l => l
                     | None => "null"
                     end)
          (contentDisposition (Survey.title (SurveyDoc.survey doc)))
  end.

End Sharing.

(** ** The other handlers that write a survey (surveyController.js) *)

Module Lifecycle.

Inductive handled : Type :=
| Failure (message : string) (statusCode : nat)
| Success (data : option SurveyDoc.t) (message : string).

(** [!!s] on an optional string *)
Definition truthy (s : option string) : bool :=
  match s with
  | Some t => negb (t =? "")%string
  | None => false
  end.

Section Handlers.
(** The validation [survey.save()] runs on the changed document, and the
    message of the error it throws. *)
Variable validates : SurveyDoc.t -> bool.
Variable validationError : SurveyDoc.t -> string.
(** The calls to [crypto.randomBytes(6)] and the links that are taken, as
    the pre-save middleware finds them. *)
Variable randomBytes : nat -> list ascii.
Variable taken : string -> bool.

(** [await survey.save()] in a handler that replies with the survey: the
    reply and the document the collection holds afterwards. *)
Definition save (old changed : SurveyDoc.t) (message : string)
  : handled * option SurveyDoc.t :=
  if validates changed then
    let saved := Sharing.preSave randomBytes taken changed in
    (Success (Some saved) message, Some saved)
  else (Failure (validationError changed) 500, Some old).

(** [updateSurvey], on the fields [title] and [questions] of the body;
    the schema trims the title it is given. *)
Definition updateSurvey (found : option SurveyDoc.t) (userId : string)
           (title : option string) (questions : option (list Question.t))
  : handled * option SurveyDoc.t :=
  match found with
  | None => (Failure "Survey not found" 404, None)
  | Some doc =>
      if negb (SurveyDoc.createdBy doc =? userId)%string then
        (Failure "Not authorized to update this survey" 403, Some doc)
      else if negb (Sharing.status doc =? "draft")%string then
        (Failure "Cannot update published or closed surveys" 400, Some doc)
      else
        let doc1 :=
          match title with
          | Some t =>
              if truthy title then SurveyDoc.with_title (JS.trim t) doc
              else doc
          | None => doc
          end in
        let doc2 :=
          match questions with
          | Some qs => SurveyDoc.with_questions qs doc1
          | None => doc1
          end in
        save doc doc2 "Survey updated successfully"
  end.

(** [closeSurvey] *)
Definition closeSurvey (found : option SurveyDoc.t) (userId : string)
  : handled * option SurveyDoc.t :=
  match found with
  | None => (Failure "Survey not found" 404, None)
  | Some doc =>
      if negb (SurveyDoc.createdBy doc =? userId)%string then
        (Failure "Not authorized" 403, Some doc)
      else
        save doc (SurveyDoc.with_status "closed" doc)
             "Survey closed successfully"
  end.

(** The question [addQuestion] builds; [newId] is the fresh [ObjectId]. *)
Definition newQuestion (doc : SurveyDoc.t) (newId type text : string)
           (options : option (list Choice.t)) : Question.t :=
  {| Question._id := newId;
     Question.order :=
       Z.of_nat (List.length (Survey.questions (SurveyDoc.survey doc)));
     Question.type := type;
     Question.text := text;
     Question.options := match options with Some l => l | None => [] end |}.

(** [addQuestion] *)
Definition addQuestion (found : option SurveyDoc.t) (userId : string)
           (newId type text : string) (options : option (list Choice.t))
  : handled * option SurveyDoc.t :=
  match found with
  | None => (Failure "Survey not found" 404, None)
  | Some doc =>
      if negb (SurveyDoc.createdBy doc =? userId)%string then
        (Failure "Not authorized" 403, Some doc)
      else
        save doc
             (SurveyDoc.with_questions
                (Survey.questions (SurveyDoc.survey doc)
                 ++ [newQuestion doc newId type text options])
                doc)
             "Question added successfully"
  end.

End Handlers.

(** One call of a handler that leaves the survey [doc] in the collection
    as [doc']. Every call to [crypto.randomBytes(6)] returns six bytes. *)
Inductive step (doc doc' : SurveyDoc.t) : Prop :=
| step_update validates validationError randomBytes taken userId title
              questions :
    (forall i, List.length (randomBytes i) = 6) ->
    snd (updateSurvey validates validationError randomBytes taken
                      (Some doc) userId title questions) = Some doc' ->
    step doc doc'
| step_publish randomBytes taken userId :
    (forall i, List.length (randomBytes i) = 6) ->
    snd (Sharing.publishSurvey (Some doc) userId randomBytes taken)
    = Some doc' ->
    step doc doc'
| step_close validates validationError randomBytes taken userId :
    (forall i, List.length (randomBytes i) = 6) ->
    snd (closeSurvey validates validationError randomBytes taken
                     (Some doc) userId) = Some doc' ->
    step doc doc'
| step_add validates validationError randomBytes taken userId newId type
           text options :
    (forall i, List.length (randomBytes i) = 6) ->
    snd (addQuestion validates validationError randomBytes taken
                     (Some doc) userId newId type text options)
    = Some doc' ->
    step doc doc'.

(** Any number of calls. *)
Inductive reachable (doc : SurveyDoc.t) : SurveyDoc.t -> Prop :=
| reachable_refl : reachable doc doc
| reachable_step doc' doc'' :
    reachable doc doc' -> step doc' doc'' -> reachable doc doc''.

(** The fields no handler writes. *)
Definition same_identity (a b : SurveyDoc.t) : Prop :=
  SurveyDoc.createdBy a = SurveyDoc.createdBy b
  /\ Survey._id (SurveyDoc.survey a) = Survey._id (SurveyDoc.survey b).

(** What a changed document must share with the one it is made from. *)
Definition keeps_link (changed doc : SurveyDoc.t) : Prop :=
  same_identity changed doc
  /\ SurveyDoc.shareableLink changed = SurveyDoc.shareableLink doc.

(** The orders of the questions are [0], [1], ... in the order of the
    array. *)
Definition numbered (questions : list Question.t) : Prop :=
  map Question.order questions
  = map Z.of_nat (seq 0 (List.length questions)).

End Lifecycle.

(** ** The form of the respondent (pages/PublicSurvey.js) *)

Module Form.

(** [getOptionValue]: the value the form submits for an option. *)
Definition getOptionValue (option : Choice.t) : string :=
  let text := Analytics.nullish (Choice.text option) "" in
  match Choice.value option with
  | Some v => if (v =? "")%string then text else v
  | None => text
  end.

(** The test [handleSubmitResponse] applies to the value entered for a
    required question. *)
Definition leftEmpty (val : JS.value) : bool :=
  match val with
  | JS.VUndefined | JS.VNull => true
  | JS.VArray l => (List.length l =? 0)%nat
  | JS.VString s => (s =? "")%string
  | _ => false
  end.

(** [l.filter((_, i) => p(i))], the index of the first element being
    [i]. *)
Fixpoint filterIndex (p : nat -> bool) (i : nat) (l : list string)
  : list string :=
  match l with
  | [] => []
  | x :: l' =>
      if p i then x :: filterIndex p (S i) l' else filterIndex p (S i) l'
  end.

(** The values of [current] in [handleDropRanking]: the ranking entered
    so far, or else the options as they are declared. [answer] is
    [answers[key]], [None] when it is not set. *)
Definition current (options : list Choice.t) (answer : option (list string))
  : list string :=
  match answer with
  | Some l => l
  | None => map getOptionValue options
  end.

(** [handleDropRanking]: the value of [answers[key]] after the item at
    [draggingIndex] is dropped at [dropIdx]. *)
Definition handleDropRanking (options : list Choice.t)
           (answer : option (list string)) (draggingIndex : option nat)
           (dropIdx : nat) : option (list string) :=
  let current := current options answer in
  match draggingIndex with
  | None => answer
  | Some i =>
      match nth_error current i with
      | None => answer
      | Some dragged =>
          let remaining :=
            filterIndex (fun j => negb (j =? i)%nat) 0 current in
          Some (firstn dropIdx remaining ++ dragged
                :: skipn dropIdx remaining)
      end
  end.

(** The values [answers[key]] takes for a ranking question while the
    respondent drags and drops. *)
Inductive ranking (options : list Choice.t) : option (list string) -> Prop :=
| ranking_start : ranking options None
| ranking_drop answer draggingIndex dropIdx :
    ranking options answer ->
    ranking options (handleDropRanking options answer draggingIndex dropIdx).

End Form.

(** ** The public endpoints (controllers/publicController.js) *)

Module Public.

(** [Survey.findByShareableLink]:
    [findOne({ shareableLink: link, status: 'published' })]. *)
Definition findByShareableLink (surveys : list SurveyDoc.t) (link : string)
  : option SurveyDoc.t :=
  find (fun doc =>
          match SurveyDoc.shareableLink doc with
          | Some l => (l =? link)%string
          | None => false
          end
          && (Sharing.status doc =? "published")%string)
       surveys.

(** [answerObj.answer === undefined || answerObj.answer === null
     || answerObj.answer === ''] *)
Definition emptyAnswer (answer : JS.value) : bool :=
  match answer with
  | JS.VUndefined | JS.VNull => true
  | JS.VString s => (s =? "")%string
  | _ => false
  end.

(** The truth value of a value of the body; [None] is [undefined]. *)
Definition isTruthy (v : option Insight.json) : bool :=
  match v with
  | None | Some Insight.JNull => false
  | Some (Insight.JBool b) => b
  | Some (Insight.JNumber n) =>
      negb (JS.isNaN n || JS.strict_eq n (JS.of_Z 0))
  | Some (Insight.JString s) => negb (s =? "")%string
  | Some (Insight.JArray _) | Some (Insight.JObject _) => true
  end.

(** [l.filter(p)] when [p] may throw. *)
Fixpoint filterM (A : Type) (p : A -> Stored.result bool) (l : list A)
  : Stored.result (list A) :=
  match l with
  | [] => Stored.Returns []
  | x :: l' =>
      Stored.bind (p x)
        (fun b =>
           Stored.bind (filterM p l')
             (fun rest => Stored.Returns (if b then x :: rest else rest)))
  end.

(** What [new Response({ ... })] and [response.save()] make of the body
    of the request: the error of the casts and of the validation, or the
    array [answers] of the document that is stored. *)
Inductive saved : Type :=
| SaveFails (message : string)
| Saved (answers : list (option StoredAnswer.t)).

(** The document a handler stores: [isCompleted] as the handler sets it,
    and no [timeSpent], which no handler sets. *)
Definition newResponse (answers : list (option StoredAnswer.t))
  : StoredResponse.t :=
  {| StoredResponse.answers := answers;
     StoredResponse.timeSpent := JS.VUndefined;
     StoredResponse.isCompleted := true |}.

Inductive outcome : Type :=
| Rejected (message : string) (statusCode : nat)
| Created (response : StoredResponse.t).

Section Submit.
Variable NumberToString : JS.number -> string.
(** [q.required] and [survey.settings.allowMultipleResponses], two fields
    of the documents that the records leave out. *)
Variable required : Question.t -> bool.
Variable allowMultipleResponses : SurveyDoc.t -> bool.
Variable save : Insight.json -> saved.

(** [a.questionId?.toString() === id] on an element of the array of the
    body. Reading a property of [null] throws; other values than objects
    have no property [questionId]; [toString()] throws on an object that
    holds a property of that name. *)
Definition answersQuestion (id : string) (a : Insight.json)
  : Stored.result bool :=
  match a with
  | Insight.JNull => Stored.Throws
  | Insight.JObject fields =>
      match JS.get "questionId" fields with
      | None | Some Insight.JNull => Stored.Returns false
      | Some v =>
          Stored.bind (Stored.ToString NumberToString v)
                      (fun s => Stored.Returns (s =? id)%string)
      end
  | _ => Stored.Returns false
  end.

(** [answers.find(a => a.questionId?.toString() === id)] *)
Fixpoint findAnswer (id : string) (answers : list Insight.json)
  : Stored.result (option Insight.json) :=
  match answers with
  | [] => Stored.Returns None
  | a :: rest =>
      Stored.bind (answersQuestion id a)
        (fun found =>
           if found then Stored.Returns (Some a) else findAnswer id rest)
  end.

(** [!answerObj || answerObj.answer === undefined
     || answerObj.answer === null || answerObj.answer === ''] *)
Definition isUnanswered (answers : list Insight.json) (q : Question.t)
  : Stored.result bool :=
  Stored.bind (findAnswer (Question._id q) answers)
    (fun answerObj =>
       Stored.Returns
         match answerObj with
         | None => true
         | Some a =>
             emptyAnswer (Stored.valueOf (Insight.property "answer" a))
         end).

Definition unansweredRequired (questions : list Question.t)
           (answers : list Insight.json) : Stored.result (list Question.t) :=
  filterM (isUnanswered answers) (filter required questions).

(** What the [catch] of the handler sends. *)
Definition failed : outcome := Rejected "Failed to submit response" 500.

(** The handler from the test of the required questions on. *)
Definition validateAndSave (survey : SurveyDoc.t) (body : Insight.json)
           (answers : list Insight.json) : outcome :=
  match unansweredRequired (Survey.questions (SurveyDoc.survey survey))
                           answers with
  | Stored.Throws => failed
  | Stored.Returns unanswered =>
      let n := List.length unanswered in
      if (0 <? n)%nat then
        Rejected ("Please answer " ++ NumberToString (JS.of_nat n)
                  ++ " required question(s)") 400
      else
        match save body with
        | Saved stored => Created (newResponse stored)
        | SaveFails _ => failed
        end
  end.

(** [submitSurveyResponse]. [body] is [req.body], [user] is
    [req.user?.userId]; [existingResponse] and [existingByEmail] tell
    whether the two [Response.findOne] queries find a response. The
    second query is made with [respondentEmail.toLowerCase()], which
    throws when the email is not a string. The update of
    [responseCount] that follows the creation is not represented. *)
Definition submitSurveyResponse (surveys : list SurveyDoc.t) (link : string)
           (now : Z) (user : option string) (body : Insight.json)
           (existingResponse existingByEmail : bool) : outcome :=
  let respondentName := Insight.property "respondentName" body in
  let respondentEmail := Insight.property "respondentEmail" body in
  match findByShareableLink surveys link with
  | None => Rejected "Survey not found or not published" 404
  | Some survey =>
      if negb (Sharing.canAcceptResponses survey now) then
        Rejected "This survey is no longer accepting responses" 403
      else
        match Insight.property "answers" body with
        | Some (Insight.JArray answers) =>
            if (List.length answers =? 0)%nat then
              Rejected "At least one answer is required" 400
            else if negb (Lifecycle.truthy user)
                    && (negb (isTruthy respondentName)
                        || negb (isTruthy respondentEmail))
            then Rejected "Respondent name and email are required" 400
            else if Lifecycle.truthy user
                    && negb (allowMultipleResponses survey)
                    && existingResponse
            then
              Rejected "You have already submitted a response to this survey"
                       400
            else if isTruthy respondentEmail
                    && negb (allowMultipleResponses survey)
            then
              match respondentEmail with
              | Some (Insight.JString _) =>
                  if existingByEmail then
                    Rejected
                      "This email has already submitted a response to this survey"
                      400
                  else validateAndSave survey body answers
              | _ => failed
              end
            else validateAndSave survey body answers
        | _ => Rejected "At least one answer is required" 400
        end
  end.

End Submit.

(** *** controllers/responseController.js *)

(** The document [savePartialResponse] stores. *)
Definition partialResponse (answers : list (option StoredAnswer.t))
  : StoredResponse.t :=
  {| StoredResponse.answers := answers;
     StoredResponse.timeSpent := JS.VUndefined;
     StoredResponse.isCompleted := false |}.

(** What [Survey.findById(surveyId)] gives: it throws when [surveyId]
    cannot be cast, it finds no survey, or it finds one. *)
Inductive lookup : Type :=
| QueryFails (message : string)
| Missing
| Found (doc : SurveyDoc.t).

Section Authenticated.
Variable save : Insight.json -> saved.

(** [submitResponse]; the [catch] sends the message of the error. The
    update of [responseCount] that follows the creation is not
    represented. *)
Definition submitResponse (found : lookup) (body : Insight.json)
  : outcome :=
  match found with
  | QueryFails message => Rejected message 500
  | Missing => Rejected "Survey not found" 404
  | Found survey =>
      if negb (Sharing.status survey =? "published")%string then
        Rejected "Survey is not available" 400
      else
        match save body with
        | Saved stored => Created (newResponse stored)
        | SaveFails message => Rejected message 500
        end
  end.

(** [savePartialResponse] *)
Definition savePartialResponse (found : lookup) (body : Insight.json)
  : outcome :=
  match found with
  | QueryFails message => Rejected message 500
  | Missing => Rejected "Survey not found" 404
  | Found survey =>
      match save body with
      | Saved stored => Created (partialResponse stored)
      | SaveFails message => Rejected message 500
      end
  end.

End Authenticated.

(** [r] was created by one of the three handlers that create
    responses. *)
Inductive created (r : StoredResponse.t) : Prop :=
| created_public NumberToString required allowMultipleResponses save
                 surveys link now user body existingResponse
                 existingByEmail :
    submitSurveyResponse NumberToString required allowMultipleResponses
                         save surveys link now user body existingResponse
                         existingByEmail = Created r ->
    created r
| created_submitted save found body :
    submitResponse save found body = Created r ->
    created r
| created_partial save found body :
    savePartialResponse save found body = Created r ->
    created r.

End Public.

(** ** Further concrete data *)

Module Cases.
Import Examples.

(** A rating, a choice and a text question, the choice question first by
    [order]; three responses, no list-valued answer. *)
Definition mixedSurvey : Survey.t :=
  survey [ question Q1 "rating" 1 [];
           question Q2 "multiple_choice" 0 ["A"; "B"; "C"];
           question Q3 "short_text" 1 [] ].

Definition first : Response.t :=
  response true (num 30) [ans Q2 (JS.VString "B"); ans Q3 (JS.VString " fine ")].

Definition second : Response.t :=
  response false JS.VUndefined [ans Q1 (num 4); ans Q2 (JS.VString "A")].

Definition third : Response.t :=
  response true (num 10) [ans Q3 (JS.VString "good"); ans Q2 (JS.VString "B")].

Definition mixedResponses : list Response.t := [first; second; third].

Definition choiceRows : list OptionRow.t :=
  [ {| OptionRow.value := "B"; OptionRow.label := "B";
       OptionRow.count := 2; OptionRow.percentage := JS.Fin (200 # 3) |};
    {| OptionRow.value := "A"; OptionRow.label := "A";
       OptionRow.count := 1; OptionRow.percentage := JS.Fin (100 # 3) |} ].

Definition choiceEntry : QuestionAnalytics.t :=
  {| QuestionAnalytics.questionId := Q2;
     QuestionAnalytics.questionText := "Question " ++ Q2;
     QuestionAnalytics.type := "multiple_choice";
     QuestionAnalytics.order := 0;
     QuestionAnalytics.totalAnswers := 3;
     QuestionAnalytics.payload := KChoice choiceRows |}.

Definition textEntry : QuestionAnalytics.t :=
  {| QuestionAnalytics.questionId := Q3;
     QuestionAnalytics.questionText := "Question " ++ Q3;
     QuestionAnalytics.type := "short_text";
     QuestionAnalytics.order := 1;
     QuestionAnalytics.totalAnswers := 2;
     QuestionAnalytics.payload := KText 2 |}.

(** A choice question whose first option has a text and a value, whose
    second option has a text only. *)
Definition fruitQuestion : Question.t :=
  {| Question._id := Q2;
     Question.order := 0;
     Question.type := "multiple_choice";
     Question.text := "Which fruit?";
     Question.options :=
       [ {| Choice.text := Some "Apple"; Choice.value := Some "A" |};
         {| Choice.text := Some "Banana"; Choice.value := None |} ] |}.

Definition fruitSurvey : Survey.t := survey [fruitQuestion].

Definition fruitResponses : list Response.t :=
  [ response true JS.VUndefined [ans Q2 (JS.VString "A")];
    response true JS.VUndefined [ans Q2 (JS.VString "Z")] ].

Definition appleRow : OptionRow.t :=
  {| OptionRow.value := "A"; OptionRow.label := "Apple";
     OptionRow.count := 1; OptionRow.percentage := JS.of_Z 50 |}.

Definition otherRow : OptionRow.t :=
  {| OptionRow.value := "Z"; OptionRow.label := "Z";
     OptionRow.count := 1; OptionRow.percentage := JS.of_Z 50 |}.

Definition fruitEntry : QuestionAnalytics.t :=
  {| QuestionAnalytics.questionId := Q2;
     QuestionAnalytics.questionText := "Which fruit?";
     QuestionAnalytics.type := "multiple_choice";
     QuestionAnalytics.order := 0;
     QuestionAnalytics.totalAnswers := 2;
     QuestionAnalytics.payload := KChoice [appleRow; otherRow] |}.

(** The texts the analysis receives from [mixedResponses]. *)
Definition textGroup : TextGroup.t :=
  {| TextGroup.questionText := "Question " ++ Q3;
     TextGroup.answers := ["fine"; "good"] |}.

(** The calls to [crypto.randomBytes(6)] return six bytes equal to the
    number of the call; the link made of the first ones is taken. *)
Definition randomBytes (i : nat) : list ascii := repeat (ascii_of_nat i) 6.

Definition taken (l : string) : bool := (l =? "000000000000")%string.

Definition draft : SurveyDoc.t :=
  {| SurveyDoc.survey :=
       {| Survey._id := "65c0000000000000000000aa";
          Survey.title := "Lunch: what next?";
          Survey.status := "draft";
          Survey.createdAt := "2024-02-09T10:30:00.000Z";
          Survey.questions := [fruitQuestion] |};
     SurveyDoc.createdBy := "65c0000000000000000000bb";
     SurveyDoc.expiresAt := None;
     SurveyDoc.shareableLink := None |}.

(** A star rating answered with 5, 2 and 5. *)
Definition starSurvey : Survey.t := survey [question Q1 "star_rating" 0 []].

Definition starResponses : list Response.t :=
  [ response true JS.VUndefined [ans Q1 (num 5)];
    response true JS.VUndefined [ans Q1 (num 2)];
    response false JS.VUndefined [ans Q1 (num 5)] ].

Definition starRows : list RatingRow.t :=
  [ {| RatingRow.value := JS.of_Z 2; RatingRow.count := 1;
       RatingRow.percentage := JS.Fin (100 # 3) |};
    {| RatingRow.value := JS.of_Z 5; RatingRow.count := 2;
       RatingRow.percentage := JS.Fin (200 # 3) |} ].

Definition starEntry : QuestionAnalytics.t :=
  {| QuestionAnalytics.questionId := Q1;
     QuestionAnalytics.questionText := "Question " ++ Q1;
     QuestionAnalytics.type := "star_rating";
     QuestionAnalytics.order := 0;
     QuestionAnalytics.totalAnswers := 3;
     QuestionAnalytics.payload := KRating starRows |}.

Definition apple : Choice.t :=
  {| Choice.text := Some "Apple"; Choice.value := Some "A" |}.

(** The survey [draft] once published, and then closed. *)
Definition live : SurveyDoc.t :=
  SurveyDoc.with_link "010101010101"
                      (SurveyDoc.with_status "published" draft).

Definition closed : SurveyDoc.t := SurveyDoc.with_status "closed" live.

(** [draft] with one more question. *)
Definition extended : SurveyDoc.t :=
  SurveyDoc.with_questions
    [ fruitQuestion;
      {| Question._id := Q3;
         Question.order := 1;
         Question.type := "short_text";
         Question.text := "Why?";
         Question.options := [] |} ]
    draft.

(** Every document passes the validation. *)
Definition valid (doc : SurveyDoc.t) : bool := true.
Definition noError (doc : SurveyDoc.t) : string := "".

(** The question about fruit is required; a second response is refused. *)
Definition fruitRequired (q : Question.t) : bool :=
  (Question._id q =? Q2)%string.

Definition single (doc : SurveyDoc.t) : bool := false.

(** A stand-in for the casts and the validation of [Response]: an
    element of [answers] is stored as [null] when it is [null]; of an
    object, the [questionId], when there is one, is stored as the string
    of 24 characters its [toString()] returns, and the [answer] as it
    is; nothing else is stored. *)
Definition castId (v : Insight.json) : option string :=
  match Stored.ToString Examples.intToString v with
  | Stored.Returns s =>
      if (String.length s =? 24)%nat then Some s else None
  | Stored.Throws => None
  end.

Definition castAnswer (a : Insight.json) : option (option StoredAnswer.t) :=
  match a with
  | Insight.JNull => Some None
  | Insight.JObject fields =>
      match JS.get "questionId" fields with
      | None | Some Insight.JNull =>
          Some (Some {| StoredAnswer.questionId := None;
                        StoredAnswer.answer := JS.get "answer" fields |})
      | Some v =>
          match castId v with
          | Some id =>
              Some (Some {| StoredAnswer.questionId := Some id;
                            StoredAnswer.answer := JS.get "answer" fields |})
          | None => None
          end
      end
  | _ => None
  end.

Fixpoint castAnswers (l : list Insight.json)
  : option (list (option StoredAnswer.t)) :=
  match l with
  | [] => Some []
  | a :: l' =>
      match castAnswer a, castAnswers l' with
      | Some x, Some xs => Some (x :: xs)
      | _, _ => None
      end
  end.

Definition saveBody (body : Insight.json) : Public.saved :=
  match Insight.property "answers" body with
  | Some (Insight.JArray l) =>
      match castAnswers l with
      | Some stored => Public.Saved stored
      | None => Public.SaveFails "Response validation failed"
      end
  | None => Public.Saved []
  | Some _ => Public.SaveFails "Response validation failed"
  end.

Definition pick (id value : string) : Insight.json :=
  Insight.JObject [ ("questionId", Insight.JString id);
                    ("answer", Insight.JString value) ].

Definition picked (id value : string) : option StoredAnswer.t :=
  Some {| StoredAnswer.questionId := Some id;
          StoredAnswer.answer := Some (Insight.JString value) |}.

Definition bodyOf (answers : list Insight.json) : Insight.json :=
  Insight.JObject [ ("answers", Insight.JArray answers);
                    ("respondentName", Insight.JString "Ann");
                    ("respondentEmail", Insight.JString "ann@example.com") ].

(** The two responses of [fruitResponses] as [submitSurveyResponse]
    stores them. *)
Definition fruitStored : list StoredResponse.t :=
  [ Public.newResponse [picked Q2 "A"];
    Public.newResponse [picked Q2 "Z"] ].

(** The question about fruit as a ranking question; two respondents who
    ranked the options in opposite orders. *)
Definition rankQuestion : Question.t :=
  {| Question._id := Q2;
     Question.order := 0;
     Question.type := "ranking";
     Question.text := "Rank the fruit";
     Question.options := Question.options fruitQuestion |}.

Definition rankSurvey : Survey.t := survey [rankQuestion].

Definition bananaFirst : list string := ["Banana"; "A"].
Definition appleFirst : list string := ["A"; "Banana"].

Definition rankResponses : list Response.t :=
  [ response true JS.VUndefined
             [ans Q2 (JS.VArray (map JS.VString bananaFirst))];
    response true JS.VUndefined
             [ans Q2 (JS.VArray (map JS.VString appleFirst))] ].

Definition rankRows : list OptionRow.t :=
  [ {| OptionRow.value := "Banana"; OptionRow.label := "Banana";
       OptionRow.count := 2; OptionRow.percentage := JS.of_Z 100 |};
    {| OptionRow.value := "A"; OptionRow.label := "Apple";
       OptionRow.count := 2; OptionRow.percentage := JS.of_Z 100 |} ].

Definition rankEntry : QuestionAnalytics.t :=
  {| QuestionAnalytics.questionId := Q2;
     QuestionAnalytics.questionText := "Rank the fruit";
     QuestionAnalytics.type := "ranking";
     QuestionAnalytics.order := 0;
     QuestionAnalytics.totalAnswers := 2;
     QuestionAnalytics.payload := KChoice rankRows |}.

(** A response of [submitResponse] and one of [savePartialResponse]. *)
Definition createdResponses : list StoredResponse.t :=
  [ Public.newResponse [picked Q2 "A"];
    Public.partialResponse [picked Q2 "Z"] ].

(** Stored responses to the survey with one rating question: an answer to
    no question of the survey whose value cannot be converted, and a
    [null] element. *)
Definition fourStored : StoredAnswer.t :=
  {| StoredAnswer.questionId := Some Examples.Q1;
     StoredAnswer.answer := Some (Insight.JNumber (JS.of_Z 4)) |}.

Definition strayStored : StoredAnswer.t :=
  {| StoredAnswer.questionId := Some "65c0000000000000000000ff";
     StoredAnswer.answer :=
       Some (Insight.JObject [("toString", Insight.JNull)]) |}.

Definition strayStoredResponse : StoredResponse.t :=
  {| StoredResponse.answers := [Some fourStored; Some strayStored];
     StoredResponse.timeSpent := Examples.num 30;
     StoredResponse.isCompleted := true |}.

Definition nullStoredResponse : StoredResponse.t :=
  {| StoredResponse.answers := [None; Some fourStored];
     StoredResponse.timeSpent := JS.VUndefined;
     StoredResponse.isCompleted := true |}.

Definition unprintableStoredResponse : StoredResponse.t :=
  {| StoredResponse.answers :=
       [Some {| StoredAnswer.questionId := Some Examples.Q1;
                StoredAnswer.answer := StoredAnswer.answer strayStored |}];
     StoredResponse.timeSpent := JS.VUndefined;
     StoredResponse.isCompleted := true |}.

(** The three responses of [Examples.ratingResponses] as they are
    stored. *)
Definition ratingStored : list StoredResponse.t :=
  [ {| StoredResponse.answers := [Some fourStored];
       StoredResponse.timeSpent := Examples.num 30;
       StoredResponse.isCompleted := true |};
    {| StoredResponse.answers := [Some fourStored];
       StoredResponse.timeSpent := Examples.num 50;
       StoredResponse.isCompleted := true |};
    {| StoredResponse.answers :=
         [Some {| StoredAnswer.questionId := Some Examples.Q1;
                  StoredAnswer.answer :=
                    Some (Insight.JNumber (JS.of_Z 2)) |}];
       StoredResponse.timeSpent := JS.VUndefined;
       StoredResponse.isCompleted := false |} ].

End Cases.

(** * Properties *)

(** ** Facts about the JavaScript fragment *)

Module JSFacts.
Import JS.

(** *** Comparators on integer keys *)

Lemma positive_sub_of_Z (a b : Z) :
  positive (sub (of_Z a) (of_Z b)) = (b <? a)%Z.
Proof.
  unfold positive, sub, of_Z.
  destruct (Qle_bool (Qred (inject_Z a - inject_Z b)) 0) eqn:E; simpl.
  - apply Qle_bool_iff in E. rewrite Qred_correct in E.
    symmetry. apply Z.ltb_ge.
    unfold Qle, Qminus, Qplus, Qopp, inject_Z in E; simpl in E. lia.
  - symmetry. apply Z.ltb_lt.
    destruct (Z_lt_le_dec b a) as [H | H]; [exact H | exfalso].
    assert (Qle_bool (Qred (inject_Z a - inject_Z b)) 0 = true) as E'.
    { apply Qle_bool_iff. rewrite Qred_correct.
      unfold Qle, Qminus, Qplus, Qopp, inject_Z; simpl. lia. }
    congruence.
Qed.

(** *** The stable sort *)

Section SortFacts.
Variable A : Type.
Variable cmp : A -> A -> number.

Lemma insert_perm (x : A) (l : list A) : Permutation (insert cmp x l) (x :: l).
Proof.
  induction l as [| y l IH]; simpl.
  - apply Permutation_refl.
  - destruct (positive (cmp x y)).
    + apply perm_trans with (y :: x :: l).
      * apply perm_skip. exact IH.
      * apply perm_swap.
    + apply Permutation_refl.
Qed.

Lemma sort_perm (l : list A) : Permutation (sort cmp l) l.
Proof.
  induction l as [| x l IH]; simpl.
  - apply perm_nil.
  - apply perm_trans with (x :: sort cmp l).
    + apply insert_perm.
    + apply perm_skip. exact IH.
Qed.

Lemma sort_In (x : A) (l : list A) : In x (sort cmp l) <-> In x l.
Proof.
  split; apply Permutation_in.
  - apply sort_perm.
  - apply Permutation_sym, sort_perm.
Qed.

Lemma sort_nil_inv (l : list A) : sort cmp l = [] -> l = [].
Proof.
  intros H. apply Permutation_nil.
  rewrite <- H. apply sort_perm.
Qed.

(** A class [p] of elements no two of which the comparator ever swaps
    keeps its order. *)
Lemma insert_filter_in (p : A -> bool) (x : A) (l : list A) :
  (forall y, p y = true -> positive (cmp x y) = false) ->
  p x = true ->
  filter p (insert cmp x l) = x :: filter p l.
Proof.
  intros Hcl Hx. induction l as [| y l IH]; simpl.
  - rewrite Hx. reflexivity.
  - destruct (positive (cmp x y)) eqn:E; simpl.
    + destruct (p y) eqn:Hy.
      * rewrite (Hcl y Hy) in E. discriminate.
      * exact IH.
    + rewrite Hx. reflexivity.
Qed.

Lemma insert_filter_out (p : A -> bool) (x : A) (l : list A) :
  p x = false ->
  filter p (insert cmp x l) = filter p l.
Proof.
  intros Hx. induction l as [| y l IH]; simpl.
  - rewrite Hx. reflexivity.
  - destruct (positive (cmp x y)); simpl.
    + rewrite IH. reflexivity.
    + rewrite Hx. reflexivity.
Qed.

Lemma sort_filter_stable (p : A -> bool) (l : list A) :
  (forall x y, p x = true -> p y = true -> positive (cmp x y) = false) ->
  filter p (sort cmp l) = filter p l.
Proof.
  intros Hcl. induction l as [| x l IH]; simpl.
  - reflexivity.
  - destruct (p x) eqn:Hx.
    + rewrite insert_filter_in; auto. rewrite IH. reflexivity.
    + rewrite insert_filter_out; auto.
Qed.

(** Sorting by an integer key. *)
Variable key : A -> Z.
Hypothesis cmp_key : forall x y, positive (cmp x y) = (key y <? key x)%Z.

Lemma insert_sorted (x : A) (l : list A) :
  StronglySorted (fun a b => (key a <= key b)%Z) l ->
  StronglySorted (fun a b => (key a <= key b)%Z) (insert cmp x l).
Proof.
  induction 1 as [| y l Hl IH Hy]; simpl.
  - constructor; constructor.
  - rewrite cmp_key. destruct (key y <? key x)%Z eqn:E.
    + apply Z.ltb_lt in E. constructor.
      * exact IH.
      * apply Forall_forall. intros z Hz.
        apply (Permutation_in _ (insert_perm x l)) in Hz.
        destruct Hz as [<- | Hz]; [lia |].
        rewrite Forall_forall in Hy. apply Hy. exact Hz.
    + apply Z.ltb_ge in E. constructor.
      * constructor; assumption.
      * constructor; [exact E |].
        eapply Forall_impl; [| exact Hy]. simpl. intros; lia.
Qed.

Lemma sort_sorted (l : list A) :
  StronglySorted (fun a b => (key a <= key b)%Z) (sort cmp l).
Proof.
  induction l as [| x l IH]; simpl.
  - constructor.
  - apply insert_sorted. exact IH.
Qed.

Lemma sort_key_stable (c : Z) (l : list A) :
  filter (fun x => (key x =? c)%Z) (sort cmp l)
  = filter (fun x => (key x =? c)%Z) l.
Proof.
  apply sort_filter_stable. intros x y Hx Hy.
  apply Z.eqb_eq in Hx, Hy. rewrite cmp_key. apply Z.ltb_ge. lia.
Qed.
(** A list sorted by the key is determined by the order inside each class
    of equal keys: whatever stable algorithm the engine runs, it returns
    the list [sort] returns. *)
Lemma sorted_classes_unique (l1 : list A) :
  forall l2 : list A,
  StronglySorted (fun a b => (key a <= key b)%Z) l1 ->
  StronglySorted (fun a b => (key a <= key b)%Z) l2 ->
  (forall c, filter (fun x => (key x =? c)%Z) l1
             = filter (fun x => (key x =? c)%Z) l2) ->
  l1 = l2.
Proof.
  induction l1 as [| x l1 IH]; intros [| y l2] S1 S2 H.
  - reflexivity.
  - specialize (H (key y)). simpl in H. rewrite Z.eqb_refl in H. discriminate.
  - specialize (H (key x)). simpl in H. rewrite Z.eqb_refl in H. discriminate.
  - inversion S1 as [| ? ? S1' F1]; subst.
    inversion S2 as [| ? ? S2' F2]; subst.
    rewrite Forall_forall in F1, F2.
    assert (key y <= key x)%Z as Hyx.
    { pose proof (H (key x)) as Hc. simpl in Hc. rewrite Z.eqb_refl in Hc.
      assert (In x (y :: l2)) as Hin.
      { apply (proj1 (filter_In (fun z => (key z =? key x)%Z) x (y :: l2))).
        simpl. rewrite <- Hc. left. reflexivity. }
      destruct Hin as [-> | Hin]; [lia | apply F2; exact Hin]. }
    assert (key x <= key y)%Z as Hxy.
    { pose proof (H (key y)) as Hc. simpl in Hc. rewrite Z.eqb_refl in Hc.
      assert (In y (x :: l1)) as Hin.
      { apply (proj1 (filter_In (fun z => (key z =? key y)%Z) y (x :: l1))).
        simpl. rewrite Hc. left. reflexivity. }
      destruct Hin as [-> | Hin]; [lia | apply F1; exact Hin]. }
    assert (x = y) as ->.
    { pose proof (H (key x)) as Hc. simpl in Hc.
      rewrite Z.eqb_refl in Hc.
      replace (key y =? key x)%Z with true in Hc
        by (symmetry; apply Z.eqb_eq; lia).
      congruence. }
    f_equal. apply IH; [exact S1' | exact S2' |].
    intros c. specialize (H c). simpl in H.
    destruct (key y =? c)%Z; congruence.
Qed.

Lemma sort_unique (l l' : list A) :
  StronglySorted (fun a b => (key a <= key b)%Z) l' ->
  (forall c, filter (fun x => (key x =? c)%Z) l'
             = filter (fun x => (key x =? c)%Z) l) ->
  l' = sort cmp l.
Proof.
  intros S H. apply sorted_classes_unique.
  - exact S.
  - apply sort_sorted.
  - intros c. rewrite sort_key_stable. apply H.
Qed.
End SortFacts.

(** Sorting commutes with a map that the comparators agree through. *)
Lemma sort_map (A B : Type) (f : A -> B)
      (cmpA : A -> A -> number) (cmpB : B -> B -> number) (l : list A) :
  (forall x y, cmpB (f x) (f y) = cmpA x y) ->
  map f (sort cmpA l) = sort cmpB (map f l).
Proof.
  intros Hc.
  assert (forall x l, map f (insert cmpA x l) = insert cmpB (f x) (map f l))
    as Hins.
  { intros x l0. induction l0 as [| y l0 IH]; simpl.
    - reflexivity.
    - rewrite Hc. destruct (positive (cmpA x y)); simpl.
      + rewrite IH. reflexivity.
      + reflexivity. }
  induction l as [| x l IH]; simpl.
  - reflexivity.
  - rewrite Hins, IH. reflexivity.
Qed.

(** *** Dictionaries *)

Section OMapFacts.
Variable V : Type.
Implicit Types (m : omap V) (k : string) (v : V).

Lemma get_set_eq k v m : get k (set k v m) = Some v.
Proof.
  induction m as [| [k' v'] m IH]; simpl.
  - rewrite String.eqb_refl. reflexivity.
  - destruct (String.eqb k k') eqn:E; simpl.
    + rewrite String.eqb_refl. reflexivity.
    + rewrite E. exact IH.
Qed.

Lemma get_set_ne k k' v m : k <> k' -> get k' (set k v m) = get k' m.
Proof.
  intros Hne. induction m as [| [k0 v0] m IH]; simpl.
  - destruct (String.eqb k' k) eqn:E; [| reflexivity].
    apply String.eqb_eq in E. congruence.
  - destruct (String.eqb k k0) eqn:E; simpl.
    + apply String.eqb_eq in E. subst k0.
      destruct (String.eqb k' k) eqn:E'; [| reflexivity].
      apply String.eqb_eq in E'. congruence.
    + rewrite IH. reflexivity.
Qed.

Lemma get_None_keys k m : get k m = None <-> ~ In k (keys m).
Proof.
  induction m as [| [k' v'] m IH]; simpl.
  - tauto.
  - destruct (String.eqb k k') eqn:E.
    + apply String.eqb_eq in E. subst. split; [discriminate | tauto].
    + apply String.eqb_neq in E. rewrite IH. split.
      * intros H [H' | H']; [congruence | tauto].
      * tauto.
Qed.

Lemma get_Some_keys k v m : get k m = Some v -> In k (keys m).
Proof.
  intros H. destruct (in_dec string_dec k (keys m)) as [Hin | Hout].
  - exact Hin.
  - apply get_None_keys in Hout. congruence.
Qed.

Lemma keys_get k m : In k (keys m) -> exists v, get k m = Some v.
Proof.
  intros H. destruct (get k m) as [v |] eqn:E.
  - exists v. reflexivity.
  - apply get_None_keys in E. contradiction.
Qed.

Lemma has_In k (s : sset) : has k s = true <-> In k s.
Proof.
  unfold has. rewrite existsb_exists. split.
  - intros [x [Hx E]]. apply String.eqb_eq in E. subst. exact Hx.
  - intros H. exists k. split; [exact H | apply String.eqb_refl].
Qed.

Lemma has_false k (s : sset) : has k s = false <-> ~ In k s.
Proof.
  rewrite <- has_In. destruct (has k s); split; congruence.
Qed.

Lemma In_get k v m : NoDup (keys m) -> In (k, v) m -> get k m = Some v.
Proof.
  induction m as [| [k' v'] m IH]; simpl; intros Hnd Hin.
  - contradiction.
  - inversion Hnd as [| ? ? Hout Hnd']; subst.
    destruct Hin as [Heq | Hin].
    + inversion Heq; subst. rewrite String.eqb_refl. reflexivity.
    + destruct (String.eqb k k') eqn:E.
      * apply String.eqb_eq in E. subst k'. exfalso. apply Hout.
        change k with (fst (k, v)). apply in_map. exact Hin.
      * apply IH; assumption.
Qed.

Lemma get_In k v m : get k m = Some v -> In (k, v) m.
Proof.
  induction m as [| [k' v'] m IH]; simpl.
  - discriminate.
  - destruct (String.eqb k k') eqn:E.
    + apply String.eqb_eq in E. intros H. inversion H; subst. left; reflexivity.
    + intros H. right. apply IH. exact H.
Qed.

(** [set] on a present key rewrites one value, on a new key appends. *)
Lemma keys_set k v m : keys (set k v m) = sadd k (keys m).
Proof.
  unfold sadd. induction m as [| [k' v'] m IH]; simpl.
  - reflexivity.
  - destruct (String.eqb k k') eqn:E; simpl.
    + apply String.eqb_eq in E. subst. reflexivity.
    + rewrite IH. unfold keys. destruct (has k (map fst m)); reflexivity.
Qed.

Lemma sadd_NoDup k (s : sset) : NoDup s -> NoDup (sadd k s).
Proof.
  intros H. unfold sadd. destruct (has k s) eqn:E.
  - exact H.
  - apply has_false in E.
    apply (Permutation_NoDup (l := k :: s)).
    + apply Permutation_cons_append.
    + constructor; assumption.
Qed.

Lemma In_sadd k k' (s : sset) : In k' (sadd k s) <-> k' = k \/ In k' s.
Proof.
  unfold sadd. destruct (has k s) eqn:E.
  - apply has_In in E. split; [tauto |]. intros [-> | H]; assumption.
  - rewrite in_app_iff. simpl. split.
    + intros [H | [H | []]]; [right | left]; auto.
    + intros [H | H]; [right; left | left]; auto.
Qed.

Lemma set_NoDup k v m : NoDup (keys m) -> NoDup (keys (set k v m)).
Proof.
  intros H. rewrite keys_set. apply sadd_NoDup. exact H.
Qed.

End OMapFacts.

End JSFacts.

(** ** The loop, question by question *)

Module LoopFacts.
Import JS JSFacts PerQuestion.

Section Pointwise.
Variable V : Type.
Implicit Types (m : omap V) (k : string) (f g : string -> V -> V).

Lemma pointwise_keys f m : keys (pointwise f m) = keys m.
Proof.
  unfold keys, pointwise. rewrite map_map. reflexivity.
Qed.

Lemma pointwise_get f k m :
  get k (pointwise f m) = option_map (f k) (get k m).
Proof.
  induction m as [| [k' v'] m IH]; simpl.
  - reflexivity.
  - destruct (String.eqb k k') eqn:E.
    + apply String.eqb_eq in E. subst. reflexivity.
    + exact IH.
Qed.

Lemma pointwise_ext f g m :
  (forall k v, In (k, v) m -> f k v = g k v) ->
  pointwise f m = pointwise g m.
Proof.
  intros H. unfold pointwise. apply map_ext_in. intros [k v] Hin. simpl.
  rewrite H; [reflexivity | exact Hin].
Qed.

Lemma pointwise_id f m :
  (forall k, In k (keys m) -> forall v, f k v = v) -> pointwise f m = m.
Proof.
  intros H. rewrite (pointwise_ext f (fun _ v => v)).
  - unfold pointwise. rewrite <- (map_id m) at 2.
    apply map_ext. intros [k v]. reflexivity.
  - intros k v Hin. apply H.
    change k with (fst (k, v)). apply in_map. exact Hin.
Qed.

Lemma pointwise_compose f g m :
  pointwise f (pointwise g m) = pointwise (fun k v => f k (g k v)) m.
Proof.
  unfold pointwise. rewrite map_map. reflexivity.
Qed.

Lemma pointwise_In f k v m :
  In (k, v) (pointwise f m) -> exists v0, In (k, v0) m /\ v = f k v0.
Proof.
  unfold pointwise. rewrite in_map_iff. intros [[k0 v0] [E Hin]].
  simpl in E. inversion E; subst. exists v0. split; [exact Hin | reflexivity].
Qed.

Lemma pointwise_values f m :
  forall v, In v (values (pointwise f m)) ->
  exists k v0, In (k, v0) m /\ v = f k v0.
Proof.
  intros v. unfold values. rewrite in_map_iff. intros [[k v'] [E Hin]].
  simpl in E. subst v'. apply pointwise_In in Hin.
  destruct Hin as [v0 [Hin E]]. exists k, v0. split; assumption.
Qed.

(** Writing at a present key changes the value stored there only. *)
Lemma set_pointwise k v m :
  NoDup (keys m) -> In k (keys m) ->
  set k v m = pointwise (fun k' x => if String.eqb k' k then v else x) m.
Proof.
  induction m as [| [k' v'] m IH]; simpl; intros Hnd Hin.
  - contradiction.
  - inversion Hnd as [| ? ? Hout Hnd']; subst.
    destruct (String.eqb k k') eqn:E.
    + apply String.eqb_eq in E. subst k'. rewrite String.eqb_refl.
      f_equal. symmetry. apply pointwise_id. intros k0 Hk0 x.
      destruct (String.eqb k0 k) eqn:E0; [| reflexivity].
      apply String.eqb_eq in E0. subst. contradiction.
    + rewrite String.eqb_sym, E. f_equal. apply IH; [exact Hnd' |].
      destruct Hin as [Heq | Hin]; [| exact Hin].
      apply String.eqb_neq in E. congruence.
Qed.

Lemma modify_pointwise k (h : V -> V) m :
  NoDup (keys m) ->
  modify k h m = pointwise (fun k' x => if String.eqb k' k then h x else x) m.
Proof.
  intros Hnd. unfold modify. destruct (get k m) as [v |] eqn:E.
  - rewrite set_pointwise; [| exact Hnd | eapply get_Some_keys; exact E].
    apply pointwise_ext. intros k0 x Hin.
    destruct (String.eqb k0 k) eqn:E0; [| reflexivity].
    apply String.eqb_eq in E0. subst k0.
    apply In_get in Hin; [| exact Hnd]. congruence.
  - symmetry. apply pointwise_id. intros k0 Hk0 x.
    destruct (String.eqb k0 k) eqn:E0; [| reflexivity].
    apply String.eqb_eq in E0. subst. apply get_None_keys in E. contradiction.
Qed.
End Pointwise.

(** *** Tallies *)

Lemma increment_keys (v : string) (m : omap nat) :
  keys (Analytics.increment v m) = sadd v (keys m).
Proof.
  unfold Analytics.increment. apply keys_set.
Qed.

Lemma tallyOf_keys (l : list string) :
  forall m, keys (tallyOf l m) = fold_left (fun s v => sadd v s) l (keys m).
Proof.
  unfold tallyOf. induction l as [| v l IH]; intros m; simpl.
  - reflexivity.
  - rewrite IH, increment_keys. reflexivity.
Qed.

Lemma tallyOf_NoDup (l : list string) :
  forall m, NoDup (keys m) -> NoDup (keys (tallyOf l m)).
Proof.
  unfold tallyOf. induction l as [| v l IH]; intros m H; simpl.
  - exact H.
  - apply IH. rewrite increment_keys. apply sadd_NoDup. exact H.
Qed.

Lemma set_sum (v : string) (n : nat) (m : omap nat) :
  list_sum (values (set v n m)) + countAt v m = list_sum (values m) + n.
Proof.
  unfold countAt, values. induction m as [| [k' n'] m IH]; simpl.
  - lia.
  - destruct (String.eqb v k') eqn:E; simpl; lia.
Qed.

Lemma increment_sum (v : string) (m : omap nat) :
  list_sum (values (Analytics.increment v m)) = list_sum (values m) + 1.
Proof.
  unfold Analytics.increment.
  pose proof (set_sum v (countAt v m + 1) m) as H.
  unfold countAt in *. lia.
Qed.

Lemma tallyOf_sum (l : list string) :
  forall m,
  list_sum (values (tallyOf l m)) = list_sum (values m) + List.length l.
Proof.
  unfold tallyOf. induction l as [| v l IH]; intros m; simpl.
  - lia.
  - rewrite IH, increment_sum. lia.
Qed.

Lemma increment_countAt (v w : string) (m : omap nat) :
  countAt w (Analytics.increment v m)
  = countAt w m + (if string_dec v w then 1 else 0).
Proof.
  unfold Analytics.increment, countAt.
  destruct (string_dec v w) as [-> | Hne].
  - rewrite get_set_eq. lia.
  - rewrite get_set_ne by exact Hne. lia.
Qed.

Lemma tallyOf_countAt (w : string) (l : list string) :
  forall m, countAt w (tallyOf l m) = countAt w m + occurrences w l.
Proof.
  unfold tallyOf, occurrences.
  induction l as [| v l IH]; intros m; cbn [fold_left count_occ].
  - lia.
  - rewrite IH, increment_countAt.
    destruct (string_dec v w); lia.
Qed.

(** *** The dictionaries before the loop *)

Lemma set_absent (V : Type) (k : string) (v : V) (m : omap V) :
  ~ In k (keys m) -> set k v m = m ++ [(k, v)].
Proof.
  induction m as [| [k' v'] m IH]; simpl; intros H.
  - reflexivity.
  - destruct (String.eqb k k') eqn:E.
    + apply String.eqb_eq in E. subst. tauto.
    + rewrite IH by tauto. reflexivity.
Qed.

Lemma set_In (V : Type) (k : string) (v : V) (m : omap V) (k0 : string)
      (v0 : V) :
  In (k0, v0) (set k v m) -> (k0 = k /\ v0 = v) \/ In (k0, v0) m.
Proof.
  induction m as [| [k' v'] m IH]; simpl.
  - intros [H | []]. inversion H; subst. left. split; reflexivity.
  - destruct (String.eqb k k') eqn:E; simpl.
    + intros [H | H].
      * inversion H; subst. left. split; reflexivity.
      * right. right. exact H.
    + intros [H | H].
      * right. left. exact H.
      * destruct (IH H) as [H' | H']; [left | right; right]; exact H'.
Qed.

Lemma buildQuestionMeta_spec (qs : list Question.t) :
  NoDup (keys (Analytics.buildQuestionMeta qs))
  /\ forall k m, In (k, m) (Analytics.buildQuestionMeta qs) ->
       Meta.questionId m = k
       /\ exists q, In q qs /\ Question._id q = k
                    /\ m = Analytics.metaOfQuestion q.
Proof.
  unfold Analytics.buildQuestionMeta.
  assert (forall (l : list Question.t) (acc : omap Meta.t),
            (NoDup (keys acc)
             /\ forall k m, In (k, m) acc ->
                  Meta.questionId m = k
                  /\ exists q, In q qs /\ Question._id q = k
                               /\ m = Analytics.metaOfQuestion q) ->
            (forall q, In q l -> In q qs) ->
            let res := fold_left
                         (fun meta q => set (Question._id q)
                                            (Analytics.metaOfQuestion q) meta)
                         l acc in
            NoDup (keys res)
            /\ forall k m, In (k, m) res ->
                 Meta.questionId m = k
                 /\ exists q, In q qs /\ Question._id q = k
                              /\ m = Analytics.metaOfQuestion q) as H.
  { induction l as [| q l IH]; intros acc [Hnd Hacc] Hsub; cbn [fold_left].
    - split; assumption.
    - apply IH.
      + split.
        * apply set_NoDup. exact Hnd.
        * intros k m Hin. apply set_In in Hin.
          destruct Hin as [[-> ->] | Hin].
          -- split; [reflexivity |]. exists q.
             split; [apply Hsub; left; reflexivity |].
             split; reflexivity.
          -- apply Hacc. exact Hin.
      + intros q' Hq'. apply Hsub. right. exact Hq'. }
  apply H.
  - split; [constructor | intros k m []].
  - auto.
Qed.

Lemma buildQuestionMeta_keys (qs : list Question.t) (q : Question.t) :
  In q qs -> In (Question._id q) (keys (Analytics.buildQuestionMeta qs)).
Proof.
  unfold Analytics.buildQuestionMeta.
  assert (forall (l : list Question.t) (acc : omap Meta.t) k,
            In k (keys acc) \/ In k (map Question._id l) ->
            In k (keys (fold_left
                          (fun meta q => set (Question._id q)
                                             (Analytics.metaOfQuestion q) meta)
                          l acc))) as H.
  { induction l as [| q0 l IH]; intros acc k Hk; cbn [fold_left].
    - destruct Hk as [Hk | []]. exact Hk.
    - apply IH. rewrite keys_set, In_sadd. simpl in Hk.
      destruct Hk as [Hk | [Hk | Hk]]; auto. }
  intros Hq. apply H. right. apply in_map. exact Hq.
Qed.

Lemma initPerQuestionStats_spec (meta : omap Meta.t) :
  NoDup (keys meta) ->
  (forall k m, In (k, m) meta -> Meta.questionId m = k) ->
  Analytics.initPerQuestionStats meta
  = map (fun km => (fst km, Analytics.initialStats (snd km))) meta.
Proof.
  unfold Analytics.initPerQuestionStats, values.
  assert (forall (l : omap Meta.t) (acc : omap Stats.t),
            NoDup (keys l) ->
            (forall k, In k (keys l) -> ~ In k (keys acc)) ->
            (forall k m, In (k, m) l -> Meta.questionId m = k) ->
            fold_left (fun stats q => set (Meta.questionId q)
                                          (Analytics.initialStats q) stats)
                      (map snd l) acc
            = acc ++ map (fun km => (fst km, Analytics.initialStats (snd km)))
                         l) as H.
  { induction l as [| [k m] l IH]; intros acc Hnd Hdis Hid;
      cbn [map fold_left fst snd].
    - rewrite app_nil_r. reflexivity.
    - inversion Hnd as [| ? ? Hout Hnd']; subst.
      assert (Meta.questionId m = k) as Hk by (apply Hid; left; reflexivity).
      rewrite Hk. rewrite set_absent by (apply Hdis; left; reflexivity).
      rewrite IH.
      + rewrite <- app_assoc. reflexivity.
      + exact Hnd'.
      + intros k0 Hk0. unfold keys. rewrite map_app, in_app_iff. simpl.
        intros [H | [H | []]].
        * apply (Hdis k0); [right; exact Hk0 | exact H].
        * subst k0. contradiction.
      + intros k0 m0 Hin. apply Hid. right. exact Hin. }
  intros Hnd Hid. rewrite H; auto.
Qed.

Section Loop.
Variable NumberToString : number -> string.
Variable StringToNumber : string -> number.

Abbreviation countAnswer := (Analytics.countAnswer NumberToString StringToNumber).
Abbreviation processAnswer := (Analytics.processAnswer NumberToString StringToNumber).
Abbreviation processResponse := (Analytics.processResponse NumberToString StringToNumber).
Abbreviation aggregate := (Analytics.aggregate NumberToString StringToNumber).
Abbreviation answerStep := (answerStep NumberToString StringToNumber).
Abbreviation responseStep := (responseStep NumberToString StringToNumber).
Abbreviation finalStats := (finalStats NumberToString StringToNumber).
Abbreviation counted := (counted NumberToString StringToNumber).

Lemma targets_Some (k qId : string) (a : Answer.t) :
  Answer.questionId a = Some qId ->
  targets k a = negb (qId =? "")%string && (qId =? k)%string.
Proof.
  intros H. unfold targets. rewrite H. reflexivity.
Qed.

Lemma targets_eq (k : string) (a : Answer.t) :
  targets k a = true -> Answer.questionId a = Some k /\ k <> "".
Proof.
  unfold targets. destruct (Answer.questionId a) as [qId |]; [| discriminate].
  intros H. apply andb_prop in H. destruct H as [H1 H2].
  apply String.eqb_eq in H2. subst qId. split; [reflexivity |].
  intros ->. discriminate.
Qed.

(** The statistics after one answer. *)
Lemma processAnswer_stats (pqs : omap Stats.t) (seen : sset) (a : Answer.t) :
  NoDup (keys pqs) ->
  fst (processAnswer (pqs, seen) a) = pointwise (answerStep a) pqs.
Proof.
  intros Hnd. unfold Analytics.processAnswer.
  destruct (Answer.questionId a) as [qId |] eqn:Hq.
  - destruct (qId =? "")%string eqn:He.
    + simpl. symmetry. apply pointwise_id. intros k _ v.
      unfold PerQuestion.answerStep. rewrite (targets_Some k _ Hq), He.
      reflexivity.
    + destruct (get qId pqs) as [stats |] eqn:Hg.
      * destruct (Analytics.hasValue (Answer.answer a)) eqn:Hv; simpl.
        -- rewrite set_pointwise;
             [| exact Hnd | eapply get_Some_keys; exact Hg].
           apply pointwise_ext. intros k v Hin.
           unfold PerQuestion.answerStep.
           rewrite (targets_Some k _ Hq), He, Hv, String.eqb_sym. simpl.
           destruct (String.eqb qId k) eqn:E; simpl; [| reflexivity].
           apply String.eqb_eq in E. subst k.
           apply In_get in Hin; [| exact Hnd]. congruence.
        -- symmetry. apply pointwise_id. intros k _ v.
           unfold PerQuestion.answerStep. rewrite Hv, andb_false_r.
           reflexivity.
      * simpl. symmetry. apply pointwise_id. intros k Hk v.
        unfold PerQuestion.answerStep. rewrite (targets_Some k _ Hq), He. simpl.
        destruct (String.eqb qId k) eqn:E; simpl; [| reflexivity].
        apply String.eqb_eq in E. subst k.
        apply get_None_keys in Hg. contradiction.
  - simpl. symmetry. apply pointwise_id. intros k _ v.
    unfold PerQuestion.answerStep, targets. rewrite Hq. reflexivity.
Qed.

(** The set of seen ids after one answer. *)
Lemma processAnswer_seen (pqs : omap Stats.t) (seen : sset) (a : Answer.t) :
  NoDup seen ->
  NoDup (snd (processAnswer (pqs, seen) a)) /\
  forall k, In k (keys pqs) ->
       (In k (snd (processAnswer (pqs, seen) a))
        <-> In k seen \/ targets k a = true).
Proof.
  intros Hnd. unfold Analytics.processAnswer.
  destruct (Answer.questionId a) as [qId |] eqn:Hq.
  - destruct (qId =? "")%string eqn:He.
    + simpl. split; [exact Hnd |]. intros k _.
      rewrite (targets_Some k _ Hq), He. simpl.
      split; [tauto | intros [H | H]; [exact H | discriminate]].
    + destruct (get qId pqs) as [stats |] eqn:Hg.
      * assert (NoDup (sadd qId seen)) as Hnd' by (apply sadd_NoDup; exact Hnd).
        assert (forall k, In k (sadd qId seen)
                          <-> In k seen \/ targets k a = true) as Hin.
        { intros k. rewrite In_sadd, (targets_Some k _ Hq), He. simpl.
          rewrite String.eqb_eq. split; intros [H | H]; auto. }
        destruct (Analytics.hasValue (Answer.answer a)); simpl;
          (split; [exact Hnd' | intros k _; apply Hin]).
      * simpl. split; [exact Hnd |]. intros k Hk.
        rewrite (targets_Some k _ Hq), He. simpl.
        split; [tauto |]. intros [H | H]; [exact H |].
        apply String.eqb_eq in H. subst k.
        apply get_None_keys in Hg. contradiction.
  - simpl. split; [exact Hnd |]. intros k _. unfold targets. rewrite Hq.
    split; [tauto | intros [H | H]; [exact H | discriminate]].
Qed.

(** All the answers of a response. *)
Lemma processAnswers_spec (answers : list Answer.t) :
  forall (pqs : omap Stats.t) (seen : sset),
  NoDup (keys pqs) -> NoDup seen ->
  fst (fold_left processAnswer answers (pqs, seen))
  = pointwise (fun k s => fold_left (fun s a => answerStep a k s) answers s)
              pqs
  /\ NoDup (snd (fold_left processAnswer answers (pqs, seen)))
  /\ forall k, In k (keys pqs) ->
       (In k (snd (fold_left processAnswer answers (pqs, seen)))
        <-> In k seen \/ existsb (targets k) answers = true).
Proof.
  induction answers as [| a answers IH]; intros pqs seen Hk Hs;
    cbn [fold_left existsb fst snd].
  - split; [| split].
    + symmetry. apply pointwise_id. reflexivity.
    + exact Hs.
    + intros k _. split; [tauto | intros [H | H]; [exact H | discriminate]].
  - pose proof (@processAnswer_stats pqs seen a Hk) as Hst.
    pose proof (@processAnswer_seen pqs seen a Hs) as [Hnd Hin].
    destruct (processAnswer (pqs, seen) a) as [pqs1 seen1] eqn:E1.
    simpl in Hst, Hnd, Hin. subst pqs1.
    specialize (IH (pointwise (answerStep a) pqs) seen1).
    rewrite pointwise_keys in IH. specialize (IH Hk Hnd).
    destruct IH as [IH1 [IH2 IH3]]. split; [| split].
    + rewrite IH1, pointwise_compose. reflexivity.
    + exact IH2.
    + intros k Hkin. rewrite (IH3 k Hkin), (Hin k Hkin), orb_true_iff. tauto.
Qed.

(** [stats.reached += 1] for every seen id. *)
Lemma markReached_spec (seen : sset) :
  forall pqs : omap Stats.t,
  NoDup (keys pqs) -> NoDup seen ->
  Analytics.markReached pqs seen
  = pointwise (fun k s => reach (has k seen) s) pqs.
Proof.
  unfold Analytics.markReached.
  induction seen as [| x seen IH]; intros pqs Hk Hs; simpl.
  - symmetry. apply pointwise_id. reflexivity.
  - inversion Hs as [| ? ? Hout Hs']; subst.
    rewrite modify_pointwise by exact Hk.
    rewrite IH; [| rewrite pointwise_keys; exact Hk | exact Hs'].
    rewrite pointwise_compose. apply pointwise_ext. intros k v _.
    rewrite (String.eqb_sym k x).
    destruct (String.eqb x k) eqn:E; simpl; [| reflexivity].
    apply String.eqb_eq in E. subst k.
    apply has_false in Hout. rewrite Hout. reflexivity.
Qed.

(** One response. *)
Lemma processResponse_stats (st : Analytics.loop) (r : Response.t) :
  NoDup (keys (Analytics.perQuestionStats st)) ->
  Analytics.perQuestionStats (processResponse st r)
  = pointwise (responseStep r) (Analytics.perQuestionStats st).
Proof.
  intros Hk. unfold Analytics.processResponse.
  pose proof (@processAnswers_spec (Response.answers r)
                (Analytics.perQuestionStats st) [] Hk (NoDup_nil _))
    as Hspec.
  destruct (fold_left processAnswer (Response.answers r)
                      (Analytics.perQuestionStats st, []))
    as [pqs seen] eqn:E.
  unfold sset in *. rewrite E in Hspec.
  cbn [fst snd] in Hspec. destruct Hspec as [H1 [H2 H3]]. subst pqs.
  assert (Analytics.markReached
            (pointwise
               (fun k s => fold_left (fun s a => answerStep a k s)
                                     (Response.answers r) s)
               (Analytics.perQuestionStats st)) seen
          = pointwise (responseStep r) (Analytics.perQuestionStats st)) as H.
  { rewrite markReached_spec;
      [| rewrite pointwise_keys; exact Hk | exact H2].
    rewrite pointwise_compose. apply pointwise_ext. intros k v Hin.
    unfold PerQuestion.responseStep. f_equal. unfold mentions.
    assert (In k (keys (Analytics.perQuestionStats st))) as Hkin
      by (change k with (fst (k, v)); apply in_map; exact Hin).
    specialize (H3 k Hkin).
    destruct (existsb (targets k) (Response.answers r)) eqn:Ex.
    - apply has_In. apply H3. right. reflexivity.
    - apply has_false. intros Hc. apply H3 in Hc.
      destruct Hc as [[] | Hc]. discriminate. }
  destruct (Response.timeSpent r); cbn [Analytics.perQuestionStats];
    exact H.
Qed.

Lemma processResponse_scalars (st : Analytics.loop) (r : Response.t) :
  Analytics.completedResponses (processResponse st r)
  = Analytics.completedResponses st
    + (if Response.isCompleted r then 1 else 0)
  /\ Analytics.partialResponses (processResponse st r)
     = Analytics.partialResponses st
       + (if Response.isCompleted r then 0 else 1)
  /\ Analytics.completionTimeSum (processResponse st r)
     = fold_left add (times [r]) (Analytics.completionTimeSum st)
  /\ Analytics.completionTimeCount (processResponse st r)
     = Analytics.completionTimeCount st + List.length (times [r]).
Proof.
  unfold Analytics.processResponse, times.
  destruct (fold_left processAnswer (Response.answers r)
                      (Analytics.perQuestionStats st, [])) as [pqs seen].
  cbn [flat_map]. rewrite app_nil_r.
  destruct (Response.isCompleted r), (Response.timeSpent r); simpl;
    repeat split; try reflexivity; lia.
Qed.

(** The whole loop. *)
Lemma loop_stats (rs : list Response.t) :
  forall st : Analytics.loop,
  NoDup (keys (Analytics.perQuestionStats st)) ->
  Analytics.perQuestionStats (fold_left processResponse rs st)
  = pointwise (finalStats rs) (Analytics.perQuestionStats st).
Proof.
  induction rs as [| r rs IH]; intros st Hk; cbn [fold_left].
  - symmetry. apply pointwise_id. reflexivity.
  - rewrite IH.
    + rewrite processResponse_stats by exact Hk.
      rewrite pointwise_compose. reflexivity.
    + rewrite processResponse_stats by exact Hk.
      rewrite pointwise_keys. exact Hk.
Qed.

Lemma times_app (rs1 rs2 : list Response.t) :
  times (rs1 ++ rs2) = times rs1 ++ times rs2.
Proof.
  unfold times. apply flat_map_app.
Qed.

Lemma loop_scalars (rs : list Response.t) :
  forall st : Analytics.loop,
  Analytics.completedResponses (fold_left processResponse rs st)
  = Analytics.completedResponses st
    + List.length (filter Response.isCompleted rs)
  /\ Analytics.partialResponses (fold_left processResponse rs st)
     = Analytics.partialResponses st
       + List.length (filter (fun r => negb (Response.isCompleted r)) rs)
  /\ Analytics.completionTimeSum (fold_left processResponse rs st)
     = fold_left add (times rs) (Analytics.completionTimeSum st)
  /\ Analytics.completionTimeCount (fold_left processResponse rs st)
     = Analytics.completionTimeCount st + List.length (times rs).
Proof.
  induction rs as [| r rs IH]; intros st; cbn [fold_left].
  - simpl. repeat split; lia.
  - destruct (IH (processResponse st r)) as [H1 [H2 [H3 H4]]].
    destruct (processResponse_scalars st r) as [S1 [S2 [S3 S4]]].
    rewrite H1, H2, H3, H4, S1, S2, S3, S4.
    change (r :: rs) with ([r] ++ rs).
    rewrite times_app, fold_left_app, length_app.
    cbn [app filter]. destruct (Response.isCompleted r); simpl;
      repeat split; try reflexivity; lia.
Qed.

(** *** The statistics of one question *)

Lemma countAnswer_static (v : value) (s : Stats.t) :
  Stats.questionId (countAnswer v s) = Stats.questionId s
  /\ Stats.questionText (countAnswer v s) = Stats.questionText s
  /\ Stats.type (countAnswer v s) = Stats.type s
  /\ Stats.order (countAnswer v s) = Stats.order s
  /\ Stats.reached (countAnswer v s) = Stats.reached s
  /\ Stats.totalAnswers (countAnswer v s) = Stats.totalAnswers s + 1.
Proof.
  unfold Analytics.countAnswer. cbn [Stats.type Stats.set_totalAnswers].
  destruct (Analytics.isChoiceType (Stats.type s));
    [| destruct (Analytics.isRatingType (Stats.type s));
       [ destruct (negb _)
       | destruct (Analytics.isTextType (Stats.type s)) ] ];
    simpl; repeat split; reflexivity.
Qed.

Lemma countAnswer_unreached (v : value) (s : Stats.t) :
  unreached (countAnswer v s) = countAnswer v (unreached s).
Proof.
  unfold Analytics.countAnswer, unreached.
  cbn [Stats.type Stats.set_totalAnswers Stats.set_reached].
  destruct (Analytics.isChoiceType (Stats.type s));
    [| destruct (Analytics.isRatingType (Stats.type s));
       [ destruct (negb _)
       | destruct (Analytics.isTextType (Stats.type s)) ] ];
    reflexivity.
Qed.

Lemma countAnswer_options (v : value) (s : Stats.t) :
  Analytics.isChoiceType (Stats.type s) = true ->
  Stats.optionCounts (countAnswer v s)
  = tallyOf (selected NumberToString v) (Stats.optionCounts s).
Proof.
  intros H. unfold Analytics.countAnswer.
  cbn [Stats.type Stats.set_totalAnswers]. rewrite H. reflexivity.
Qed.

Lemma countAnswer_ratings (v : value) (s : Stats.t) :
  Analytics.isChoiceType (Stats.type s) = false ->
  Analytics.isRatingType (Stats.type s) = true ->
  Stats.ratingCounts (countAnswer v s)
  = tallyOf (if numeric NumberToString StringToNumber v
             then [ratingKey NumberToString StringToNumber v] else [])
            (Stats.ratingCounts s).
Proof.
  intros Hc Hr. unfold Analytics.countAnswer, numeric, ratingKey.
  cbn [Stats.type Stats.set_totalAnswers]. rewrite Hc, Hr.
  destruct (negb _); reflexivity.
Qed.

Lemma counted_static (vs : list value) :
  forall s,
  Stats.questionId (counted vs s) = Stats.questionId s
  /\ Stats.questionText (counted vs s) = Stats.questionText s
  /\ Stats.type (counted vs s) = Stats.type s
  /\ Stats.order (counted vs s) = Stats.order s
  /\ Stats.reached (counted vs s) = Stats.reached s
  /\ Stats.totalAnswers (counted vs s)
     = Stats.totalAnswers s + List.length vs.
Proof.
  unfold PerQuestion.counted. induction vs as [| v vs IH]; intros s; cbn [fold_left].
  - simpl. repeat split; lia.
  - destruct (IH (countAnswer v s)) as [H1 [H2 [H3 [H4 [H5 H6]]]]].
    destruct (countAnswer_static v s) as [S1 [S2 [S3 [S4 [S5 S6]]]]].
    rewrite H1, H2, H3, H4, H5, H6, S1, S2, S3, S4, S5, S6. simpl.
    repeat split; lia.
Qed.

Lemma counted_options (vs : list value) :
  forall s,
  Analytics.isChoiceType (Stats.type s) = true ->
  Stats.optionCounts (counted vs s)
  = tallyOf (flat_map (selected NumberToString) vs) (Stats.optionCounts s).
Proof.
  unfold PerQuestion.counted. induction vs as [| v vs IH]; intros s H;
    cbn [fold_left flat_map].
  - reflexivity.
  - rewrite IH.
    + rewrite countAnswer_options by exact H.
      unfold tallyOf. rewrite fold_left_app. reflexivity.
    + destruct (countAnswer_static v s) as [_ [_ [S3 _]]]. rewrite S3. exact H.
Qed.

Lemma counted_ratings (vs : list value) :
  forall s,
  Analytics.isChoiceType (Stats.type s) = false ->
  Analytics.isRatingType (Stats.type s) = true ->
  Stats.ratingCounts (counted vs s)
  = tallyOf (map (ratingKey NumberToString StringToNumber)
                 (filter (numeric NumberToString StringToNumber) vs))
            (Stats.ratingCounts s).
Proof.
  unfold PerQuestion.counted. induction vs as [| v vs IH]; intros s Hc Hr;
    cbn [fold_left filter].
  - reflexivity.
  - destruct (countAnswer_static v s) as [_ [_ [S3 _]]].
    rewrite IH by (rewrite S3; assumption).
    rewrite countAnswer_ratings by assumption.
    destruct (numeric NumberToString StringToNumber v); reflexivity.
Qed.

Lemma answers_counted (k : string) (answers : list Answer.t) :
  forall s,
  fold_left (fun s a => answerStep a k s) answers s
  = counted
      (map Answer.answer
           (filter (fun a => targets k a
                             && Analytics.hasValue (Answer.answer a))
                   answers))
      s.
Proof.
  unfold PerQuestion.counted. induction answers as [| a answers IH]; intros s;
    cbn [fold_left filter].
  - reflexivity.
  - rewrite IH. unfold PerQuestion.answerStep.
    destruct (targets k a && Analytics.hasValue (Answer.answer a));
      reflexivity.
Qed.

Lemma counted_app (vs ws : list value) (s : Stats.t) :
  counted (vs ++ ws) s = counted ws (counted vs s).
Proof.
  unfold PerQuestion.counted. apply fold_left_app.
Qed.

Lemma counted_unreached (vs : list value) :
  forall s, unreached (counted vs s) = counted vs (unreached s).
Proof.
  unfold PerQuestion.counted. induction vs as [| v vs IH]; intros s; cbn [fold_left].
  - reflexivity.
  - rewrite IH, countAnswer_unreached. reflexivity.
Qed.

Lemma responseStep_counted (r : Response.t) (k : string) (s : Stats.t) :
  responseStep r k s = reach (mentions k r) (counted (valued k r) s).
Proof.
  unfold PerQuestion.responseStep. rewrite answers_counted. reflexivity.
Qed.

Lemma reach_unreached (b : bool) (s : Stats.t) :
  unreached (reach b s) = unreached s.
Proof.
  destruct b; reflexivity.
Qed.

Lemma reach_reached (b : bool) (s : Stats.t) :
  Stats.reached (reach b s) = Stats.reached s + (if b then 1 else 0).
Proof.
  destruct b; simpl; lia.
Qed.

(** Everything but [reached] is a count over the non-empty answers. *)
Lemma finalStats_unreached (k : string) (rs : list Response.t) :
  forall s,
  unreached (finalStats rs k s) = counted (valuedAnswers k rs) (unreached s).
Proof.
  unfold PerQuestion.finalStats, valuedAnswers.
  induction rs as [| r rs IH]; intros s; cbn [fold_left flat_map].
  - reflexivity.
  - rewrite IH, responseStep_counted, reach_unreached, counted_unreached.
    rewrite counted_app. reflexivity.
Qed.

(** [reached] counts the responses that hold an answer to the question. *)
Lemma finalStats_reached (k : string) (rs : list Response.t) :
  forall s,
  Stats.reached (finalStats rs k s)
  = Stats.reached s + List.length (filter (mentions k) rs).
Proof.
  unfold PerQuestion.finalStats.
  induction rs as [| r rs IH]; intros s; cbn [fold_left filter].
  - simpl. lia.
  - rewrite IH, responseStep_counted, reach_reached.
    destruct (counted_static (valued k r) s) as [_ [_ [_ [_ [H _]]]]].
    rewrite H. destruct (mentions k r); simpl; lia.
Qed.

(** *** The statistics the report is built from *)

Lemma initial_stats (survey : Survey.t) :
  NoDup (keys (Analytics.perQuestionStats (Analytics.initialLoop survey)))
  /\ forall k s,
       In (k, s) (Analytics.perQuestionStats (Analytics.initialLoop survey)) ->
       In k (map Question._id (Survey.questions survey))
       /\ exists m, s = Analytics.initialStats m /\ Meta.questionId m = k.
Proof.
  cbn [Analytics.initialLoop Analytics.perQuestionStats].
  destruct (buildQuestionMeta_spec (Survey.questions survey)) as [Hnd Hm].
  rewrite initPerQuestionStats_spec;
    [| exact Hnd | intros k m Hin; apply (Hm k m Hin)].
  split.
  - unfold keys. rewrite map_map. exact Hnd.
  - intros k s Hin. apply in_map_iff in Hin.
    destruct Hin as [[k0 m] [E Hin]]. simpl in E. inversion E; subst.
    destruct (Hm k m Hin) as [Hk [q [Hq [Hid _]]]]. split.
    + rewrite <- Hid. apply in_map. exact Hq.
    + exists m. split; [reflexivity | exact Hk].
Qed.

Lemma aggregate_stats (survey : Survey.t) (rs : list Response.t) :
  Analytics.perQuestionStats (aggregate survey rs)
  = pointwise (finalStats rs)
              (Analytics.perQuestionStats (Analytics.initialLoop survey)).
Proof.
  unfold Analytics.aggregate. apply loop_stats. apply initial_stats.
Qed.

Lemma final_stats_spec (survey : Survey.t) (rs : list Response.t)
      (s : Stats.t) :
  In s (values (Analytics.perQuestionStats (aggregate survey rs))) ->
  In (Stats.questionId s) (map Question._id (Survey.questions survey))
  /\ Stats.reached s
     = List.length (filter (mentions (Stats.questionId s)) rs)
  /\ Stats.totalAnswers s
     = List.length (valuedAnswers (Stats.questionId s) rs)
  /\ (Analytics.isChoiceType (Stats.type s) = true ->
      Stats.optionCounts s
      = tallyOf (selections NumberToString (Stats.questionId s) rs) [])
  /\ (Analytics.isChoiceType (Stats.type s) = false ->
      Analytics.isRatingType (Stats.type s) = true ->
      Stats.ratingCounts s
      = tallyOf (ratings NumberToString StringToNumber
                         (Stats.questionId s) rs) []).
Proof.
  rewrite aggregate_stats. intros Hin.
  apply pointwise_values in Hin. destruct Hin as [k [s0 [Hin Hs]]].
  destruct (initial_stats survey) as [_ Hinit].
  destruct (Hinit k s0 Hin) as [Hk [m [Hs0 Hm]]].
  pose proof (finalStats_unreached k rs s0) as Hu. rewrite <- Hs in Hu.
  pose proof (finalStats_reached k rs s0) as Hr. rewrite <- Hs in Hr.
  destruct (counted_static (valuedAnswers k rs) (unreached s0))
    as [C1 [_ [C3 [_ [_ C6]]]]].
  rewrite <- Hu in C1, C3, C6.
  cbn [unreached Stats.set_reached Stats.questionId Stats.type
       Stats.totalAnswers] in C1, C3, C6.
  assert (Stats.questionId s = k) as Hid.
  { rewrite C1, Hs0. exact Hm. }
  rewrite Hid. split; [exact Hk |]. split; [| split; [| split]].
  - rewrite Hr, Hs0. reflexivity.
  - rewrite C6, Hs0. reflexivity.
  - intros Hc.
    change (Stats.optionCounts s) with (Stats.optionCounts (unreached s)).
    rewrite Hu, counted_options.
    + rewrite Hs0. reflexivity.
    + cbn [unreached Stats.set_reached Stats.type]. rewrite <- C3. exact Hc.
  - intros Hc Hrt.
    change (Stats.ratingCounts s) with (Stats.ratingCounts (unreached s)).
    rewrite Hu, counted_ratings.
    + rewrite Hs0. reflexivity.
    + cbn [unreached Stats.set_reached Stats.type]. rewrite <- C3. exact Hc.
    + cbn [unreached Stats.set_reached Stats.type]. rewrite <- C3. exact Hrt.
Qed.

Lemma final_entry (survey : Survey.t) (rs : list Response.t) (k : string)
      (s : Stats.t) :
  In (k, s) (Analytics.perQuestionStats (aggregate survey rs)) ->
  Stats.questionId s = k.
Proof.
  rewrite aggregate_stats. intros Hin.
  apply pointwise_In in Hin. destruct Hin as [s0 [Hin Hs]].
  destruct (initial_stats survey) as [_ Hinit].
  destruct (Hinit k s0 Hin) as [_ [m [Hs0 Hm]]].
  pose proof (finalStats_unreached k rs s0) as Hu. rewrite <- Hs in Hu.
  destruct (counted_static (valuedAnswers k rs) (unreached s0))
    as [C1 _].
  rewrite <- Hu in C1. cbn [unreached Stats.set_reached Stats.questionId] in C1.
  rewrite C1, Hs0. exact Hm.
Qed.

Lemma final_keys (survey : Survey.t) (rs : list Response.t) (q : Question.t) :
  In q (Survey.questions survey) ->
  exists s,
    In s (values (Analytics.perQuestionStats (aggregate survey rs)))
    /\ Stats.questionId s = Question._id q.
Proof.
  intros Hq.
  assert (In (Question._id q)
             (keys (Analytics.perQuestionStats (aggregate survey rs)))) as Hk.
  { rewrite aggregate_stats, pointwise_keys.
    cbn [Analytics.initialLoop Analytics.perQuestionStats].
    destruct (buildQuestionMeta_spec (Survey.questions survey)) as [Hnd Hm].
    rewrite initPerQuestionStats_spec;
      [| exact Hnd | intros k m Hin; apply (Hm k m Hin)].
    unfold keys. rewrite map_map. simpl.
    apply (buildQuestionMeta_keys _ _ Hq). }
  apply keys_get in Hk. destruct Hk as [s Hs]. apply get_In in Hs.
  exists s. split.
  - unfold values. change s with (snd (Question._id q, s)).
    apply in_map. exact Hs.
  - eapply final_entry. exact Hs.
Qed.

End Loop.

End LoopFacts.

(** ** From the statistics to the report *)

Module ReportFacts.
Import JS JSFacts PerQuestion LoopFacts.

Section Report.
Variable NumberToString : number -> string.
Variable StringToNumber : string -> number.

Abbreviation aggregate := (Analytics.aggregate NumberToString StringToNumber).
Abbreviation getAnalytics := (Analytics.getAnalytics NumberToString StringToNumber).
Abbreviation payloadOf := (Analytics.payloadOf StringToNumber).
Abbreviation questionAnalytics := (Analytics.questionAnalytics StringToNumber).

Lemma byOrder_key (a b : Stats.t) :
  positive (Analytics.byOrder a b) = (Stats.order b <? Stats.order a)%Z.
Proof.
  apply positive_sub_of_Z.
Qed.

Lemma byCountDesc_key (a b : OptionRow.t) :
  positive (Analytics.byCountDesc a b)
  = (- Z.of_nat (OptionRow.count b) <? - Z.of_nat (OptionRow.count a))%Z.
Proof.
  unfold Analytics.byCountDesc, of_nat. rewrite positive_sub_of_Z.
  destruct (Z.of_nat (OptionRow.count a) <? Z.of_nat (OptionRow.count b))%Z
    eqn:E; symmetry.
  - apply Z.ltb_lt in E. apply Z.ltb_lt. lia.
  - apply Z.ltb_ge in E. apply Z.ltb_ge. lia.
Qed.

(** Every funnel entry shows the statistics of one question. *)
Lemma funnel_entry (survey : Survey.t) (rs : list Response.t) (e : Funnel.t) :
  In e (Report.funnel (getAnalytics survey rs)) ->
  exists s,
    In s (values (Analytics.perQuestionStats (aggregate survey rs)))
    /\ Funnel.questionId e = Stats.questionId s
    /\ Funnel.reached e = Stats.reached s.
Proof.
  cbn [Analytics.getAnalytics Report.funnel]. unfold Analytics.buildFunnel.
  rewrite in_map_iff. intros [s [E Hin]]. apply sort_In in Hin.
  exists s. subst e. simpl. auto.
Qed.

Lemma question_entry (survey : Survey.t) (rs : list Response.t)
      (e : QuestionAnalytics.t) :
  In e (Report.questions (getAnalytics survey rs)) ->
  exists s,
    In s (values (Analytics.perQuestionStats (aggregate survey rs)))
    /\ QuestionAnalytics.questionId e = Stats.questionId s
    /\ QuestionAnalytics.totalAnswers e = Stats.totalAnswers s
    /\ QuestionAnalytics.payload e
       = payloadOf
           (Analytics.optionsOf
              (Analytics.buildQuestionMeta (Survey.questions survey))
              (Stats.questionId s)) s.
Proof.
  cbn [Analytics.getAnalytics Report.questions].
  unfold Analytics.buildQuestions.
  rewrite in_map_iff. intros [s [E Hin]]. apply sort_In in Hin.
  exists s. subst e. simpl. auto.
Qed.

Lemma payload_choice (options : list OptionMeta.t) (s : Stats.t)
      (rows : list OptionRow.t) :
  payloadOf options s = KChoice rows ->
  Analytics.isChoiceType (Stats.type s) = true
  /\ rows
     = sort Analytics.byCountDesc
         (map (Analytics.optionRow
                 (Analytics.buildOptionMetaByValue options)
                 (Stats.totalAnswers s))
              (Stats.optionCounts s)).
Proof.
  unfold Analytics.payloadOf, entries.
  destruct (Analytics.isChoiceType (Stats.type s)).
  - intros H. inversion H. split; reflexivity.
  - destruct (Analytics.isRatingType (Stats.type s)); [discriminate |].
    destruct (Analytics.isTextType (Stats.type s)); discriminate.
Qed.

Lemma payload_rating (options : list OptionMeta.t) (s : Stats.t)
      (rows : list RatingRow.t) :
  payloadOf options s = KRating rows ->
  Analytics.isChoiceType (Stats.type s) = false
  /\ Analytics.isRatingType (Stats.type s) = true
  /\ rows
     = sort Analytics.byValue
         (map (Analytics.ratingRow StringToNumber (Stats.totalAnswers s))
              (Stats.ratingCounts s)).
Proof.
  unfold Analytics.payloadOf, entries.
  destruct (Analytics.isChoiceType (Stats.type s)); [discriminate |].
  destruct (Analytics.isRatingType (Stats.type s)).
  - intros H. inversion H. repeat split; reflexivity.
  - destruct (Analytics.isTextType (Stats.type s)); discriminate.
Qed.

(** The funnel counter of a question counts the responses that hold an
    answer to it. *)
Lemma funnel_reached (survey : Survey.t) (rs : list Response.t)
      (e : Funnel.t) :
  In e (Report.funnel (getAnalytics survey rs)) ->
  Funnel.reached e
  = List.length (filter (mentions (Funnel.questionId e)) rs).
Proof.
  intros Hin. apply funnel_entry in Hin. destruct Hin as [s [Hs [Hid Hr]]].
  destruct (final_stats_spec NumberToString StringToNumber survey rs s Hs)
    as [_ [H _]].
  rewrite Hid, Hr. exact H.
Qed.

(** Every question of the survey has its funnel entry. *)
Lemma funnelOf_question (survey : Survey.t) (rs : list Response.t)
      (q : Question.t) :
  In q (Survey.questions survey) ->
  exists e,
    funnelOf (getAnalytics survey rs) (Question._id q) = Some e
    /\ In e (Report.funnel (getAnalytics survey rs))
    /\ Funnel.questionId e = Question._id q.
Proof.
  intros Hq.
  destruct (final_keys NumberToString StringToNumber survey rs q Hq)
    as [s [Hs Hid]].
  unfold funnelOf.
  destruct (find (fun e => (Funnel.questionId e =? Question._id q)%string)
                 (Report.funnel (getAnalytics survey rs))) as [e |] eqn:E.
  - apply find_some in E. destruct E as [Hin He].
    exists e. repeat split; [exact Hin | apply String.eqb_eq; exact He].
  - exfalso.
    assert (In {| Funnel.questionId := Stats.questionId s;
                  Funnel.questionText := Stats.questionText s;
                  Funnel.order := Stats.order s;
                  Funnel.reached := Stats.reached s |}
               (Report.funnel (getAnalytics survey rs))) as Hin.
    { cbn [Analytics.getAnalytics Report.funnel].
      unfold Analytics.buildFunnel.
      apply (in_map (fun stats =>
                       {| Funnel.questionId := Stats.questionId stats;
                          Funnel.questionText := Stats.questionText stats;
                          Funnel.order := Stats.order stats;
                          Funnel.reached := Stats.reached stats |})).
      apply sort_In. exact Hs. }
    pose proof (find_none _ _ E _ Hin) as Hf. simpl in Hf.
    rewrite Hid, String.eqb_refl in Hf. discriminate.
Qed.

(** The average is taken over every response whose [timeSpent] is a number. *)
Lemma average_spec (survey : Survey.t) (rs : list Response.t) :
  Totals.averageCompletionTimeSeconds (Report.totals (getAnalytics survey rs))
  = match times rs with
    | [] => of_Z 0
    | _ :: _ => mean (times rs)
    end.
Proof.
  cbn [Analytics.getAnalytics Report.totals Analytics.totalsOf
       Totals.averageCompletionTimeSeconds].
  unfold Analytics.averageCompletionTime, Analytics.aggregate.
  destruct (loop_scalars NumberToString StringToNumber rs
                         (Analytics.initialLoop survey))
    as [_ [_ [Hs Hc]]].
  rewrite Hs, Hc. cbn [Analytics.initialLoop Analytics.completionTimeSum
                       Analytics.completionTimeCount].
  destruct (times rs) as [| n l]; reflexivity.
Qed.

Lemma totals_spec (survey : Survey.t) (rs : list Response.t) :
  Totals.totalResponses (Report.totals (getAnalytics survey rs))
  = List.length rs
  /\ Totals.completedResponses (Report.totals (getAnalytics survey rs))
     = List.length (filter Response.isCompleted rs)
  /\ Totals.partialResponses (Report.totals (getAnalytics survey rs))
     = List.length (filter (fun r => negb (Response.isCompleted r)) rs).
Proof.
  cbn [Analytics.getAnalytics Report.totals Analytics.totalsOf
       Totals.totalResponses Totals.completedResponses
       Totals.partialResponses].
  unfold Analytics.aggregate.
  destruct (loop_scalars NumberToString StringToNumber rs
                         (Analytics.initialLoop survey))
    as [H1 [H2 _]].
  rewrite H1, H2. repeat split.
Qed.

Lemma list_sum_perm (l l' : list nat) :
  Permutation l l' -> list_sum l = list_sum l'.
Proof.
  induction 1; simpl; lia.
Qed.

(** Sorting the rows of a distribution does not change their total. *)
Lemma optionRows_total (m : omap OptionMeta.t) (total : nat)
      (counts : omap nat) :
  optionTotal
    (sort Analytics.byCountDesc (map (Analytics.optionRow m total) counts))
  = list_sum (values counts).
Proof.
  unfold optionTotal, values.
  rewrite (list_sum_perm
             (Permutation_map OptionRow.count
                (sort_perm Analytics.byCountDesc
                   (map (Analytics.optionRow m total) counts)))).
  rewrite map_map. f_equal. apply map_ext. intros [v c]. reflexivity.
Qed.

Lemma ratingRows_total (total : nat) (counts : omap nat) :
  ratingTotal
    (sort Analytics.byValue
          (map (Analytics.ratingRow StringToNumber total) counts))
  = list_sum (values counts).
Proof.
  unfold ratingTotal, values.
  rewrite (list_sum_perm
             (Permutation_map RatingRow.count
                (sort_perm Analytics.byValue
                   (map (Analytics.ratingRow StringToNumber total) counts)))).
  rewrite map_map. f_equal. apply map_ext. intros [v c]. reflexivity.
Qed.

(** *** Reports on two collections of responses *)

Lemma totals_closed_form (survey : Survey.t) (rs : list Response.t) :
  Report.totals (getAnalytics survey rs)
  = {| Totals.totalResponses := List.length rs;
       Totals.completedResponses :=
         List.length (filter Response.isCompleted rs);
       Totals.partialResponses :=
         List.length (filter (fun r => negb (Response.isCompleted r)) rs);
       Totals.averageCompletionTimeSeconds :=
         match times rs with
         | [] => of_Z 0
         | _ :: _ => mean (times rs)
         end |}.
Proof.
  pose proof (average_spec survey rs) as Ha.
  destruct (totals_spec survey rs) as [H1 [H2 H3]].
  destruct (Report.totals (getAnalytics survey rs)). simpl in *.
  subst. reflexivity.
Qed.

(** The totals do not read the answers. *)
Lemma totals_with_answers (survey : Survey.t) (pre post : list Response.t)
      (r : Response.t) (l : list Answer.t) :
  Report.totals
    (getAnalytics survey (pre ++ Response.with_answers l r :: post))
  = Report.totals (getAnalytics survey (pre ++ r :: post)).
Proof.
  rewrite !totals_closed_form.
  rewrite !filter_app, !times_app, !length_app. cbn [filter List.length].
  change (Response.isCompleted (Response.with_answers l r))
    with (Response.isCompleted r).
  change (times (Response.with_answers l r :: post)) with (times (r :: post)).
  destruct (Response.isCompleted r); reflexivity.
Qed.

Lemma stats_unreached (survey : Survey.t) (rs : list Response.t) :
  map unreached (values (Analytics.perQuestionStats (aggregate survey rs)))
  = map (fun ks => counted NumberToString StringToNumber
                           (valuedAnswers (fst ks) rs) (unreached (snd ks)))
        (Analytics.perQuestionStats (Analytics.initialLoop survey)).
Proof.
  rewrite aggregate_stats. unfold values, pointwise. rewrite !map_map.
  apply map_ext. intros [k s]. simpl. apply finalStats_unreached.
Qed.

(** The entries of [questions] do not read the funnel counter. *)
Lemma buildQuestions_unreached (meta : omap Meta.t) (pqs : omap Stats.t) :
  Analytics.buildQuestions StringToNumber meta pqs
  = map (questionAnalytics meta)
        (sort Analytics.byOrder (map unreached (values pqs))).
Proof.
  unfold Analytics.buildQuestions.
  rewrite <- (sort_map unreached Analytics.byOrder Analytics.byOrder)
    by reflexivity.
  rewrite map_map. apply map_ext. intros s. reflexivity.
Qed.

(** Two collections in which every question receives the same non-empty
    answers produce the same [questions]. *)
Lemma questions_valued (survey : Survey.t) (rs1 rs2 : list Response.t) :
  (forall k, valuedAnswers k rs1 = valuedAnswers k rs2) ->
  Report.questions (getAnalytics survey rs1)
  = Report.questions (getAnalytics survey rs2).
Proof.
  intros H. cbn [Analytics.getAnalytics Report.questions].
  rewrite !buildQuestions_unreached, !stats_unreached.
  do 2 f_equal. apply map_ext. intros [k s]. simpl. rewrite H. reflexivity.
Qed.

Lemma valuedAnswers_middle (k : string) (pre post : list Response.t)
      (r1 r2 : Response.t) :
  valued k r1 = valued k r2 ->
  valuedAnswers k (pre ++ r1 :: post) = valuedAnswers k (pre ++ r2 :: post).
Proof.
  intros H. unfold valuedAnswers. rewrite !flat_map_app. cbn [flat_map].
  rewrite H. reflexivity.
Qed.

(** Removing an answer that is no non-empty answer to [k]. *)
Lemma valued_remove (k : string) (r : Response.t)
      (before after : list Answer.t) (a : Answer.t) :
  Response.answers r = before ++ a :: after ->
  targets k a && Analytics.hasValue (Answer.answer a) = false ->
  valued k r = valued k (Response.with_answers (before ++ after) r).
Proof.
  intros Hr Ha. unfold valued. rewrite Hr.
  cbn [Response.with_answers Response.answers].
  rewrite !filter_app. cbn [filter]. rewrite Ha. reflexivity.
Qed.

Lemma mentions_remove (k : string) (r : Response.t)
      (before after : list Answer.t) (a : Answer.t) :
  Response.answers r = before ++ a :: after ->
  targets k a = false ->
  mentions k r = mentions k (Response.with_answers (before ++ after) r).
Proof.
  intros Hr Ha. unfold mentions. rewrite Hr.
  cbn [Response.with_answers Response.answers].
  rewrite !existsb_app. cbn [existsb]. rewrite Ha. reflexivity.
Qed.

(** Two responses that act alike on every question of the survey can
    replace each other. *)
Lemma stats_middle (survey : Survey.t) (pre post : list Response.t)
      (r1 r2 : Response.t) :
  (forall q, In q (Survey.questions survey) ->
     mentions (Question._id q) r1 = mentions (Question._id q) r2
     /\ valued (Question._id q) r1 = valued (Question._id q) r2) ->
  Analytics.perQuestionStats (aggregate survey (pre ++ r1 :: post))
  = Analytics.perQuestionStats (aggregate survey (pre ++ r2 :: post)).
Proof.
  intros H. rewrite !aggregate_stats. apply pointwise_ext. intros k s Hin.
  destruct (initial_stats survey) as [_ Hinit].
  destruct (Hinit k s Hin) as [Hk _].
  apply in_map_iff in Hk. destruct Hk as [q [Hid Hq]]. subst k.
  destruct (H q Hq) as [Hm Hv].
  unfold finalStats. rewrite !fold_left_app. cbn [fold_left].
  rewrite !responseStep_counted, Hm, Hv. reflexivity.
Qed.

Lemma report_middle (survey : Survey.t) (pre post : list Response.t)
      (r : Response.t) (l : list Answer.t) :
  (forall q, In q (Survey.questions survey) ->
     mentions (Question._id q) r
     = mentions (Question._id q) (Response.with_answers l r)
     /\ valued (Question._id q) r
        = valued (Question._id q) (Response.with_answers l r)) ->
  getAnalytics survey (pre ++ r :: post)
  = getAnalytics survey (pre ++ Response.with_answers l r :: post).
Proof.
  intros H.
  pose proof (totals_with_answers survey pre post r l) as Ht.
  pose proof (stats_middle survey pre post r (Response.with_answers l r) H)
    as Hs.
  unfold Analytics.getAnalytics in *. cbn [Report.totals] in Ht.
  rewrite Ht, Hs. reflexivity.
Qed.

(** The values [hasValue] rejects. *)
Lemma hasValue_false (v : value) :
  Analytics.hasValue v = false
  <-> v = VUndefined \/ v = VNull
      \/ exists s, v = VString s /\ trim s = "".
Proof.
  split.
  - destruct v; simpl; try discriminate; auto.
    intros H. right. right. exists s. split; [reflexivity |].
    apply negb_false_iff in H. apply String.eqb_eq in H. exact H.
  - intros [-> | [-> | [s [-> Hs]]]]; simpl; try reflexivity.
    rewrite Hs. reflexivity.
Qed.

(** *** The order of the rows of a choice question *)

Lemma optionRows_class (m : omap OptionMeta.t) (total c : nat)
      (counts : omap nat) :
  map OptionRow.value
      (filter (fun row => (OptionRow.count row =? c)%nat)
              (map (Analytics.optionRow m total) counts))
  = map fst (filter (fun kv => (snd kv =? c)%nat) counts).
Proof.
  induction counts as [| [v n] counts IH]; simpl.
  - reflexivity.
  - destruct (n =? c)%nat; simpl; rewrite IH; reflexivity.
Qed.

Lemma class_by_key (c : nat) (m : omap nat) :
  NoDup (keys m) ->
  map fst (filter (fun kv => (snd kv =? c)%nat) m)
  = filter (fun v => (countAt v m =? c)%nat) (keys m).
Proof.
  intros Hnd.
  assert (forall l : omap nat,
            (forall v n, In (v, n) l -> countAt v m = n) ->
            map fst (filter (fun kv => (snd kv =? c)%nat) l)
            = filter (fun v => (countAt v m =? c)%nat) (keys l)) as H.
  { induction l as [| [v n] l IH]; intros Hl; simpl.
    - reflexivity.
    - rewrite (Hl v n) by (left; reflexivity).
      destruct (n =? c)%nat; simpl; rewrite IH; auto;
        intros v0 n0 Hin; apply Hl; right; exact Hin. }
  apply H. intros v n Hin. unfold countAt.
  rewrite (In_get _ _ _ Hnd Hin). reflexivity.
Qed.

Lemma sorted_by_count (rows : list OptionRow.t) :
  StronglySorted
    (fun a b => OptionRow.count a >= OptionRow.count b)
    (sort Analytics.byCountDesc rows).
Proof.
  pose proof (sort_sorted Analytics.byCountDesc
                (fun row => (- Z.of_nat (OptionRow.count row))%Z)
                byCountDesc_key rows) as H.
  induction H as [| a l Hl IH Ha]; constructor.
  - exact IH.
  - eapply Forall_impl; [| exact Ha]. simpl. intros b Hb. lia.
Qed.

Lemma ties_keep_order (c : nat) (rows : list OptionRow.t) :
  filter (fun row => (OptionRow.count row =? c)%nat)
         (sort Analytics.byCountDesc rows)
  = filter (fun row => (OptionRow.count row =? c)%nat) rows.
Proof.
  apply sort_filter_stable. intros x y Hx Hy.
  apply Nat.eqb_eq in Hx, Hy. rewrite byCountDesc_key.
  apply Z.ltb_ge. lia.
Qed.

End Report.

End ReportFacts.

(** ** The scenarios of the specification, evaluated *)

Module Scenarios.
Import JS PerQuestion.

Example trim_both_ends : trim "  a b  " = "a b".
Proof. reflexivity. Qed.

Example trim_blank : trim (String (ascii_of_nat 9) " ") = "".
Proof. reflexivity. Qed.

Example string_of_array :
  ToString Examples.intToString
           (VArray [Examples.num 4; VNull; VString "x"; VArray [VBool true]])
  = "4,,x,true".
Proof. reflexivity. Qed.

Example number_of_array :
  ToNumber Examples.intToString Examples.intOfString (VArray []) = of_Z 0
  /\ ToNumber Examples.intToString Examples.intOfString
              (VArray [VString " 7 "]) = of_Z 7
  /\ ToNumber Examples.intToString Examples.intOfString
              (VArray [Examples.num 1; Examples.num 2]) = NaN.
Proof. repeat split; reflexivity. Qed.

Example sort_is_stable :
  sort (fun a b : Z * string => sub (of_Z (fst a)) (of_Z (fst b)))
       [(2, "a"); (1, "b"); (2, "c"); (1, "d")]%Z
  = [(1, "b"); (1, "d"); (2, "a"); (2, "c")]%Z.
Proof. reflexivity. Qed.

Example firstSeen_order : firstSeen ["B"; "A"; "C"; "B"; "C"] = ["B"; "A"; "C"].
Proof. reflexivity. Qed.

(** Single rating question: R1 and R2 completed with 30 and 50 seconds,
    R3 partial and not timed. *)
Example rating_scenario_totals :
  Report.totals
    (Examples.getAnalytics Examples.ratingSurvey Examples.ratingResponses)
  = {| Totals.totalResponses := 3;
       Totals.completedResponses := 2;
       Totals.partialResponses := 1;
       Totals.averageCompletionTimeSeconds := of_Z 40 |}.
Proof. vm_compute. reflexivity. Qed.

Example rating_scenario_funnel :
  map (fun e => (Funnel.questionId e, Funnel.reached e))
      (Report.funnel
         (Examples.getAnalytics Examples.ratingSurvey
                                Examples.ratingResponses))
  = [(Examples.Q1, 3)].
Proof. vm_compute. reflexivity. Qed.

Example rating_scenario_distribution :
  map QuestionAnalytics.payload
      (Report.questions
         (Examples.getAnalytics Examples.ratingSurvey
                                Examples.ratingResponses))
  = [ KRating
        [ {| RatingRow.value := of_Z 2; RatingRow.count := 1;
             RatingRow.percentage := Fin (100 # 3) |};
          {| RatingRow.value := of_Z 4; RatingRow.count := 2;
             RatingRow.percentage := Fin (200 # 3) |} ] ].
Proof. vm_compute. reflexivity. Qed.

(** An empty list passes [hasValue], and [Number([])] is 0. *)
Example empty_list_rates_zero :
  map (fun e => (QuestionAnalytics.totalAnswers e,
                 match QuestionAnalytics.payload e with
                 | KRating rows =>
                     map (fun row => (RatingRow.value row, RatingRow.count row))
                         rows
                 | _ => []
                 end))
      (Report.questions
         (Examples.getAnalytics Examples.ratingSurvey
            [Examples.response true VUndefined
               [Examples.ans Examples.Q1 (VArray [])]]))
  = [(1, [(of_Z 0, 1)])].
Proof. vm_compute. reflexivity. Qed.

End Scenarios.

(** * The claims *)

Module Claims.
Import JS JSFacts PerQuestion LoopFacts ReportFacts.

Section Claims.
Variable NumberToString : number -> string.
Variable StringToNumber : string -> number.

Abbreviation getAnalytics := (Analytics.getAnalytics NumberToString StringToNumber).

(** C2 (amended). A response contributes 1 to the [reached] counter of a
    question of the survey exactly when it holds at least one answer to
    that question, whatever the value of the answer, and 0 otherwise: the
    counter shown for the question grows by 1 when such a response is
    added to the collection and is unchanged when any other response is
    added. *)
Theorem C2_reached_counts_any_answer
        (survey : Survey.t) (pre post : list Response.t) (r : Response.t)
        (q : Question.t) :
  In q (Survey.questions survey) ->
  exists n,
    reachedOf (getAnalytics survey (pre ++ post)) (Question._id q) = Some n
    /\ reachedOf (getAnalytics survey (pre ++ r :: post)) (Question._id q)
       = Some (n + (if mentions (Question._id q) r then 1 else 0)).
Proof.
  intros Hq.
  destruct (funnelOf_question NumberToString StringToNumber survey
                              (pre ++ post) q Hq) as [e [He [Hin Hid]]].
  destruct (funnelOf_question NumberToString StringToNumber survey
                              (pre ++ r :: post) q Hq)
    as [e' [He' [Hin' Hid']]].
  apply funnel_reached in Hin. apply funnel_reached in Hin'.
  exists (Funnel.reached e). unfold reachedOf. rewrite He, He'. simpl.
  split; [reflexivity |]. f_equal.
  rewrite Hin, Hin', Hid, Hid'.
  rewrite !filter_app, !length_app. cbn [filter].
  destruct (mentions (Question._id q) r); simpl; lia.
Qed.

(** C5. The [reached] counter of every funnel entry is at most the number
    of responses supplied, which is the [totalResponses] of the report. *)
Theorem C5_reached_le_totalResponses
        (survey : Survey.t) (rs : list Response.t) (e : Funnel.t) :
  In e (Report.funnel (getAnalytics survey rs)) ->
  Funnel.reached e <= List.length rs
  /\ Totals.totalResponses (Report.totals (getAnalytics survey rs))
     = List.length rs.
Proof.
  intros Hin. split; [| reflexivity].
  rewrite (funnel_reached _ _ _ _ _ Hin). apply filter_length_le.
Qed.

(** C3 (amended). For every choice question the option counts of the
    report sum to the number of selected values: each element of a
    list-valued answer and each answer that is not a list contributes one
    increment. [totalAnswers] counts every non-empty answer once, so it is
    not that sum: the single response answering with the list [A, C]
    yields totalAnswers = 1 with option A count 1 and option C count 1. *)
Theorem C3_option_counts_sum_to_selections
        (survey : Survey.t) (rs : list Response.t)
        (e : QuestionAnalytics.t) (rows : list OptionRow.t) :
  In e (Report.questions (getAnalytics survey rs)) ->
  QuestionAnalytics.payload e = KChoice rows ->
  optionTotal rows
  = List.length (selections NumberToString (QuestionAnalytics.questionId e) rs)
  /\ QuestionAnalytics.totalAnswers e
     = List.length (valuedAnswers (QuestionAnalytics.questionId e) rs)
  /\ map (fun e => (QuestionAnalytics.totalAnswers e, countsOf e))
         (Report.questions
            (getAnalytics Examples.choiceSurvey Examples.multiSelect))
     = [(1, [("A", 1); ("C", 1)])].
Proof.
  intros Hin Hp. apply question_entry in Hin.
  destruct Hin as [s [Hs [Hid [Ht Hpay]]]].
  rewrite Hp in Hpay. symmetry in Hpay. apply payload_choice in Hpay.
  destruct Hpay as [Hc Hrows].
  destruct (final_stats_spec NumberToString StringToNumber survey rs s Hs)
    as [_ [_ [Htot [Hopt _]]]].
  split; [| split].
  - rewrite Hrows, optionRows_total, (Hopt Hc), tallyOf_sum, Hid.
    reflexivity.
  - rewrite Ht, Htot, Hid. reflexivity.
  - reflexivity.
Qed.

(** C4 (amended). An answer whose value is [null], [undefined] or a string
    that is empty after trimming counts nothing toward the totals of its
    question: the [questions] of the report, which hold [totalAnswers] and
    every tally, are the ones obtained without that answer; and the totals
    of the report, which classify the response as completed or partial,
    are unchanged as well. *)
Theorem C4_empty_scalar_answer_counts_nothing
        (survey : Survey.t) (pre post : list Response.t) (r : Response.t)
        (before after : list Answer.t) (a : Answer.t) :
  Answer.answer a = VUndefined \/ Answer.answer a = VNull
  \/ (exists s, Answer.answer a = VString s /\ trim s = "") ->
  Response.answers r = before ++ a :: after ->
  Report.questions (getAnalytics survey (pre ++ r :: post))
  = Report.questions
      (getAnalytics survey
         (pre ++ Response.with_answers (before ++ after) r :: post))
  /\ Report.totals (getAnalytics survey (pre ++ r :: post))
     = Report.totals
         (getAnalytics survey
            (pre ++ Response.with_answers (before ++ after) r :: post)).
Proof.
  intros Hv Hr. apply hasValue_false in Hv. split.
  - apply questions_valued. intros k. apply valuedAnswers_middle.
    apply (valued_remove k r before after a Hr).
    rewrite Hv. apply andb_false_r.
  - symmetry. apply totals_with_answers.
Qed.

(** On responses whose answers are all objects, the report is the one
    obtained without an answer whose [questionId] is the id of no
    question of the survey. *)
Lemma answer_to_no_question_leaves_the_report
        (survey : Survey.t) (pre post : list Response.t) (r : Response.t)
        (before after : list Answer.t) (a : Answer.t) :
  (forall q, In q (Survey.questions survey) ->
             Answer.questionId a <> Some (Question._id q)) ->
  Response.answers r = before ++ a :: after ->
  getAnalytics survey (pre ++ r :: post)
  = getAnalytics survey
      (pre ++ Response.with_answers (before ++ after) r :: post).
Proof.
  intros Hu Hr. apply report_middle. intros q Hq.
  assert (targets (Question._id q) a = false) as Ht.
  { destruct (targets (Question._id q) a) eqn:E; [| reflexivity].
    apply targets_eq in E. destruct E as [E _].
    exfalso. apply (Hu q Hq). exact E. }
  split.
  - apply (mentions_remove _ r before after a Hr Ht).
  - apply (valued_remove _ r before after a Hr). rewrite Ht. reflexivity.
Qed.

(** C7. The options reported for a choice question are sorted by count,
    highest first, and options with equal counts appear in the order in
    which their values were first met during the aggregation. *)
Theorem C7_options_sorted_by_count_then_first_seen
        (survey : Survey.t) (rs : list Response.t)
        (e : QuestionAnalytics.t) (rows : list OptionRow.t) :
  In e (Report.questions (getAnalytics survey rs)) ->
  QuestionAnalytics.payload e = KChoice rows ->
  StronglySorted (fun a b => OptionRow.count a >= OptionRow.count b) rows
  /\ forall c,
       map OptionRow.value
           (filter (fun row => (OptionRow.count row =? c)%nat) rows)
       = filter
           (fun v =>
              (occurrences v (selections NumberToString
                                (QuestionAnalytics.questionId e) rs)
               =? c)%nat)
           (firstSeen (selections NumberToString
                         (QuestionAnalytics.questionId e) rs)).
Proof.
  intros Hin Hp. apply question_entry in Hin.
  destruct Hin as [s [Hs [Hid [_ Hpay]]]].
  rewrite Hp in Hpay. symmetry in Hpay. apply payload_choice in Hpay.
  destruct Hpay as [Hc Hrows].
  destruct (final_stats_spec NumberToString StringToNumber survey rs s Hs)
    as [_ [_ [_ [Hopt _]]]].
  specialize (Hopt Hc). rewrite Hid. subst rows. split.
  - apply sorted_by_count.
  - intros c. rewrite ties_keep_order, optionRows_class, Hopt.
    rewrite class_by_key by (apply tallyOf_NoDup; constructor).
    rewrite tallyOf_keys. apply filter_ext. intros v.
    rewrite tallyOf_countAt. reflexivity.
Qed.

(** C8 (amended). On zero responses the totals of the report are all
    zero, [averageCompletionTimeSeconds] included, and every funnel entry
    and every question entry shows a zero count; on a survey without
    questions the funnel and the questions of the report are empty; a
    percentage over [totalAnswers = 0] is 0. *)
Theorem C8_empty_input_report
        (survey bare : Survey.t) (rs : list Response.t) (count : nat) :
  Survey.questions bare = [] ->
  Report.totals (getAnalytics survey [])
  = {| Totals.totalResponses := 0;
       Totals.completedResponses := 0;
       Totals.partialResponses := 0;
       Totals.averageCompletionTimeSeconds := of_Z 0 |}
  /\ (forall e, In e (Report.funnel (getAnalytics survey [])) ->
                Funnel.reached e = 0)
  /\ (forall e, In e (Report.questions (getAnalytics survey [])) ->
                QuestionAnalytics.totalAnswers e = 0)
  /\ Report.funnel (getAnalytics bare rs) = []
  /\ Report.questions (getAnalytics bare rs) = []
  /\ Analytics.percentage count 0 = of_Z 0.
Proof.
  intros Hbare. split; [reflexivity |]. split; [| split; [| split; [| split]]].
  - intros e Hin. rewrite (funnel_reached _ _ _ _ _ Hin). reflexivity.
  - intros e Hin. apply question_entry in Hin.
    destruct Hin as [s [Hs [_ [Ht _]]]].
    destruct (final_stats_spec NumberToString StringToNumber survey [] s Hs)
      as [_ [_ [Htot _]]].
    rewrite Ht, Htot. reflexivity.
  - cbn [Analytics.getAnalytics Report.funnel].
    rewrite aggregate_stats.
    cbn [Analytics.initialLoop Analytics.perQuestionStats].
    rewrite Hbare. reflexivity.
  - cbn [Analytics.getAnalytics Report.questions].
    rewrite aggregate_stats.
    cbn [Analytics.initialLoop Analytics.perQuestionStats].
    rewrite Hbare. reflexivity.
  - reflexivity.
Qed.

(** C10. For a rating question [totalAnswers] counts every non-empty
    answer, the distribution counts those among them that [Number] turns
    into a number: the counts of the distribution sum to at most
    [totalAnswers]. *)
Theorem C10_rating_counts_at_most_totalAnswers
        (survey : Survey.t) (rs : list Response.t)
        (e : QuestionAnalytics.t) (rows : list RatingRow.t) :
  In e (Report.questions (getAnalytics survey rs)) ->
  QuestionAnalytics.payload e = KRating rows ->
  QuestionAnalytics.totalAnswers e
  = List.length (valuedAnswers (QuestionAnalytics.questionId e) rs)
  /\ ratingTotal rows
     = List.length
         (filter (numeric NumberToString StringToNumber)
                 (valuedAnswers (QuestionAnalytics.questionId e) rs))
  /\ ratingTotal rows <= QuestionAnalytics.totalAnswers e.
Proof.
  intros Hin Hp. apply question_entry in Hin.
  destruct Hin as [s [Hs [Hid [Ht Hpay]]]].
  rewrite Hp in Hpay. symmetry in Hpay. apply payload_rating in Hpay.
  destruct Hpay as [Hc [Hr Hrows]].
  destruct (final_stats_spec NumberToString StringToNumber survey rs s Hs)
    as [_ [_ [Htot [_ Hrat]]]].
  specialize (Hrat Hc Hr).
  assert (ratingTotal rows
          = List.length
              (filter (numeric NumberToString StringToNumber)
                      (valuedAnswers (QuestionAnalytics.questionId e) rs)))
    as Hsum.
  { rewrite Hrows, ratingRows_total, Hrat, tallyOf_sum, Hid.
    unfold ratings. rewrite length_map. reflexivity. }
  split; [| split].
  - rewrite Ht, Htot, Hid. reflexivity.
  - exact Hsum.
  - rewrite Hsum, Ht, Htot, Hid. apply filter_length_le.
Qed.

End Claims.

(** C1. The reported average completion time is not the mean over the
    completed responses: a partial response whose [timeSpent] is a number
    enters the sum and the count. With a completed response of 30 seconds
    and a partial one of 90 seconds the report shows 60, the mean over the
    completed responses is 30. *)
Theorem C1_average_includes_partial_responses :
  Totals.averageCompletionTimeSeconds
    (Report.totals
       (Examples.getAnalytics Examples.emptySurvey Examples.timedResponses))
  = of_Z 60
  /\ mean (completedTimes Examples.timedResponses) = of_Z 30.
Proof.
  split; vm_compute; reflexivity.
Qed.

(** The claim C2 as stated fails: a response whose only answer to the
    question is the empty string is counted as having reached it. *)
Lemma C2_blank_answer_is_reached :
  ~ (reachedOf (Examples.getAnalytics Examples.textSurvey
                                      [Examples.blankAnswer])
               Examples.Q3 = Some 1
     <-> valued Examples.Q3 Examples.blankAnswer <> []).
Proof.
  intros [H _]. apply H; reflexivity.
Qed.

Lemma C2_witness :
  In (Examples.question Examples.Q3 "short_text" 0 [])
     (Survey.questions Examples.textSurvey)
  /\ exists n,
       reachedOf (Examples.getAnalytics Examples.textSurvey
                    ([Examples.unanswered] ++ []))
                 Examples.Q3 = Some n
       /\ reachedOf (Examples.getAnalytics Examples.textSurvey
                       ([Examples.unanswered] ++ Examples.blankAnswer :: []))
                    Examples.Q3
          = Some (n + (if mentions Examples.Q3 Examples.blankAnswer
                       then 1 else 0)).
Proof.
  assert (In (Examples.question Examples.Q3 "short_text" 0 [])
             (Survey.questions Examples.textSurvey)) as H
    by (simpl; left; reflexivity).
  split; [exact H |].
  exact (C2_reached_counts_any_answer
           Examples.intToString Examples.intOfString Examples.textSurvey
           [Examples.unanswered] [] Examples.blankAnswer _ H).
Defined.

Lemma C5_witness :
  In {| Funnel.questionId := Examples.Q1;
        Funnel.questionText := "Question " ++ Examples.Q1;
        Funnel.order := 0;
        Funnel.reached := 3 |}
     (Report.funnel
        (Examples.getAnalytics Examples.ratingSurvey Examples.ratingResponses))
  /\ 3 <= 3
  /\ Totals.totalResponses
       (Report.totals
          (Examples.getAnalytics Examples.ratingSurvey
                                 Examples.ratingResponses))
     = 3.
Proof.
  assert (In {| Funnel.questionId := Examples.Q1;
                Funnel.questionText := "Question " ++ Examples.Q1;
                Funnel.order := 0;
                Funnel.reached := 3 |}
             (Report.funnel
                (Examples.getAnalytics Examples.ratingSurvey
                                       Examples.ratingResponses))) as H
    by (vm_compute; left; reflexivity).
  split; [exact H |].
  exact (C5_reached_le_totalResponses
           Examples.intToString Examples.intOfString
           Examples.ratingSurvey Examples.ratingResponses _ H).
Defined.

(** The claim C3 as stated fails on the multi-select scenario: the option
    counts sum to 2 while [totalAnswers] is 1. *)
Lemma C3_counts_exceed_totalAnswers :
  ~ (forall e rows,
       In e (Report.questions
               (Examples.getAnalytics Examples.choiceSurvey
                                      Examples.multiSelect)) ->
       QuestionAnalytics.payload e = KChoice rows ->
       optionTotal rows = QuestionAnalytics.totalAnswers e).
Proof.
  intros H.
  remember (Report.questions
              (Examples.getAnalytics Examples.choiceSurvey
                                     Examples.multiSelect)) as qs eqn:E.
  vm_compute in E. subst qs.
  specialize (H _ _ (or_introl eq_refl) eq_refl).
  vm_compute in H. discriminate.
Qed.

Lemma C3_witness :
  In Examples.multiSelectEntry
     (Report.questions
        (Examples.getAnalytics Examples.choiceSurvey Examples.multiSelect))
  /\ QuestionAnalytics.payload Examples.multiSelectEntry
     = KChoice Examples.multiSelectRows
  /\ optionTotal Examples.multiSelectRows = 2
  /\ QuestionAnalytics.totalAnswers Examples.multiSelectEntry = 1.
Proof.
  assert (In Examples.multiSelectEntry
             (Report.questions
                (Examples.getAnalytics Examples.choiceSurvey
                                       Examples.multiSelect))) as Hin
    by (vm_compute; left; reflexivity).
  split; [exact Hin |]. split; [reflexivity |].
  destruct (C3_option_counts_sum_to_selections
              Examples.intToString Examples.intOfString
              Examples.choiceSurvey Examples.multiSelect
              Examples.multiSelectEntry Hin eq_refl)
    as [H1 [H2 _]].
  split; [exact H1 | exact H2].
Defined.

(** The claim C4 as stated fails twice on a survey with one text question.
    A response whose answer is the empty list raises [totalAnswers] to 1,
    and a response whose answer is the empty string raises [reached] to 1;
    a response without answers leaves both at 0. *)
Lemma C4_empty_list_and_blank_string_are_counted :
  map QuestionAnalytics.totalAnswers
      (Report.questions
         (Examples.getAnalytics Examples.textSurvey
                                [Examples.emptyListAnswer])) = [1]
  /\ map Funnel.reached
         (Report.funnel
            (Examples.getAnalytics Examples.textSurvey
                                   [Examples.blankAnswer])) = [1]
  /\ map QuestionAnalytics.totalAnswers
         (Report.questions
            (Examples.getAnalytics Examples.textSurvey
                                   [Examples.unanswered])) = [0]
  /\ map Funnel.reached
         (Report.funnel
            (Examples.getAnalytics Examples.textSurvey
                                   [Examples.unanswered])) = [0].
Proof.
  repeat split; vm_compute; reflexivity.
Qed.

Lemma C4_witness :
  (Answer.answer Examples.spaces = VUndefined
   \/ Answer.answer Examples.spaces = VNull
   \/ exists s, Answer.answer Examples.spaces = VString s /\ trim s = "")
  /\ Response.answers Examples.spacesAnswer = [] ++ Examples.spaces :: []
  /\ Report.questions
       (Examples.getAnalytics Examples.textSurvey
          ([] ++ Examples.spacesAnswer :: []))
     = Report.questions
         (Examples.getAnalytics Examples.textSurvey
            ([] ++ Response.with_answers ([] ++ []) Examples.spacesAnswer
                :: []))
  /\ Report.totals
       (Examples.getAnalytics Examples.textSurvey
          ([] ++ Examples.spacesAnswer :: []))
     = Report.totals
         (Examples.getAnalytics Examples.textSurvey
            ([] ++ Response.with_answers ([] ++ []) Examples.spacesAnswer
                :: [])).
Proof.
  assert (Answer.answer Examples.spaces = VUndefined
          \/ Answer.answer Examples.spaces = VNull
          \/ exists s, Answer.answer Examples.spaces = VString s
                       /\ trim s = "") as H.
  { right. right. exists "  ". split; reflexivity. }
  split; [exact H |]. split; [reflexivity |].
  exact (C4_empty_scalar_answer_counts_nothing
           Examples.intToString Examples.intOfString
           Examples.textSurvey [] [] Examples.spacesAnswer
           [] [] Examples.spaces H eq_refl).
Defined.

Lemma C7_witness :
  In Examples.tieEntry
     (Report.questions
        (Examples.getAnalytics Examples.choiceSurvey Examples.tieResponses))
  /\ QuestionAnalytics.payload Examples.tieEntry = KChoice Examples.tieRows
  /\ StronglySorted (fun a b => OptionRow.count a >= OptionRow.count b)
                    Examples.tieRows
  /\ forall c,
       map OptionRow.value
           (filter (fun row => (OptionRow.count row =? c)%nat)
                   Examples.tieRows)
       = filter
           (fun v =>
              (occurrences v (selections Examples.intToString Examples.Q2
                                         Examples.tieResponses)
               =? c)%nat)
           (firstSeen (selections Examples.intToString Examples.Q2
                                  Examples.tieResponses)).
Proof.
  assert (In Examples.tieEntry
             (Report.questions
                (Examples.getAnalytics Examples.choiceSurvey
                                       Examples.tieResponses))) as H
    by (vm_compute; left; reflexivity).
  split; [exact H |]. split; [reflexivity |].
  exact (C7_options_sorted_by_count_then_first_seen
           Examples.intToString Examples.intOfString
           Examples.choiceSurvey Examples.tieResponses
           Examples.tieEntry H eq_refl).
Defined.

(** The claim C8 as stated fails on either kind of empty input alone.
    Without questions the totals still count the responses, and their
    average time; without responses the funnel and the questions still
    hold an entry per question. *)
Lemma C8_one_empty_input_is_not_an_empty_report :
  Report.totals
    (Examples.getAnalytics Examples.emptySurvey Examples.timedResponses)
  = {| Totals.totalResponses := 2;
       Totals.completedResponses := 1;
       Totals.partialResponses := 1;
       Totals.averageCompletionTimeSeconds := of_Z 60 |}
  /\ map Funnel.questionId
         (Report.funnel (Examples.getAnalytics Examples.textSurvey []))
     = [Examples.Q3]
  /\ map QuestionAnalytics.questionId
         (Report.questions (Examples.getAnalytics Examples.textSurvey []))
     = [Examples.Q3].
Proof.
  repeat split; vm_compute; reflexivity.
Qed.

Lemma C8_witness :
  Survey.questions Examples.emptySurvey = []
  /\ Report.totals (Examples.getAnalytics Examples.textSurvey [])
     = {| Totals.totalResponses := 0;
          Totals.completedResponses := 0;
          Totals.partialResponses := 0;
          Totals.averageCompletionTimeSeconds := of_Z 0 |}
  /\ (forall e,
        In e (Report.funnel (Examples.getAnalytics Examples.textSurvey [])) ->
        Funnel.reached e = 0)
  /\ (forall e,
        In e (Report.questions
                (Examples.getAnalytics Examples.textSurvey [])) ->
        QuestionAnalytics.totalAnswers e = 0)
  /\ Report.funnel
       (Examples.getAnalytics Examples.emptySurvey Examples.timedResponses)
     = []
  /\ Report.questions
       (Examples.getAnalytics Examples.emptySurvey Examples.timedResponses)
     = []
  /\ Analytics.percentage 3 0 = of_Z 0.
Proof.
  split; [reflexivity |].
  exact (C8_empty_input_report
           Examples.intToString Examples.intOfString
           Examples.textSurvey Examples.emptySurvey
           Examples.timedResponses 3 eq_refl).
Defined.

Lemma C10_witness :
  In Examples.mixedEntry
     (Report.questions
        (Examples.getAnalytics Examples.ratingSurvey Examples.mixedRatings))
  /\ QuestionAnalytics.payload Examples.mixedEntry
     = KRating Examples.mixedRows
  /\ QuestionAnalytics.totalAnswers Examples.mixedEntry = 2
  /\ ratingTotal Examples.mixedRows = 1
  /\ ratingTotal Examples.mixedRows
     <= QuestionAnalytics.totalAnswers Examples.mixedEntry.
Proof.
  assert (In Examples.mixedEntry
             (Report.questions
                (Examples.getAnalytics Examples.ratingSurvey
                                       Examples.mixedRatings))) as H
    by (vm_compute; left; reflexivity).
  split; [exact H |]. split; [reflexivity |].
  exact (C10_rating_counts_at_most_totalAnswers
           Examples.intToString Examples.intOfString
           Examples.ratingSurvey Examples.mixedRatings
           Examples.mixedEntry H eq_refl).
Defined.

End Claims.

(** * The handler on stored documents *)

Module StoredFacts.
Import JS JSFacts PerQuestion LoopFacts ReportFacts Stored.

Lemma foldM_app (A B : Type) (f : A -> B -> result A) (l1 l2 : list B) :
  forall a, foldM f (l1 ++ l2) a = bind (foldM f l1 a) (foldM f l2).
Proof.
  induction l1 as [| x l1 IH]; intros a; simpl.
  - reflexivity.
  - destruct (f a x) as [a' |]; simpl; [apply IH | reflexivity].
Qed.

Lemma rawValues_toValue (v : Insight.json) :
  Analytics.rawValues (toValue v) = map toValue (rawValues v).
Proof.
  destruct v; reflexivity.
Qed.

Section Handler.
Variable NumberToString : number -> string.
Variable StringToNumber : string -> number.

Abbreviation ToString := (Stored.ToString NumberToString).
Abbreviation countAnswer := (Stored.countAnswer NumberToString StringToNumber).
Abbreviation processAnswer := (Stored.processAnswer NumberToString StringToNumber).
Abbreviation processResponse := (Stored.processResponse NumberToString StringToNumber).
Abbreviation aggregate := (Stored.aggregate NumberToString StringToNumber).
Abbreviation getAnalytics := (Stored.getAnalytics NumberToString StringToNumber).

(** *** When nothing throws, the handler computes what [Analytics] says *)

Lemma mapM_ToString (l : list Insight.json) (vals : list string) :
  mapM ToString l = Returns vals ->
  vals = map (fun v => JS.ToString NumberToString (toValue v)) l.
Proof.
  revert vals. induction l as [| v l IH]; intros vals; simpl.
  - intros H. inversion H. reflexivity.
  - unfold Stored.ToString at 1. destruct (printable v); simpl;
      [| discriminate].
    destruct (mapM ToString l) as [ys |]; simpl; [| discriminate].
    intros H. inversion H. f_equal. apply IH. reflexivity.
Qed.

Lemma countAnswer_returns (v : Insight.json) (stats stats' : Stats.t) :
  countAnswer v stats = Returns stats' ->
  stats' = Analytics.countAnswer NumberToString StringToNumber
                                 (toValue v) stats.
Proof.
  unfold Stored.countAnswer, Analytics.countAnswer.
  cbn [Stats.set_totalAnswers Stats.type].
  destruct (Analytics.isChoiceType (Stats.type stats)).
  - destruct (mapM ToString (rawValues v)) as [vals |] eqn:E; simpl;
      [| discriminate].
    apply mapM_ToString in E. intros H. inversion H.
    rewrite rawValues_toValue, map_map, E. reflexivity.
  - destruct (Analytics.isRatingType (Stats.type stats)).
    + unfold Stored.ToNumber. destruct (printable v); simpl;
        [| discriminate].
      destruct (negb (isNaN (JS.ToNumber NumberToString StringToNumber
                                         (toValue v))));
        intros H; inversion H; reflexivity.
    + destruct (Analytics.isTextType (Stats.type stats));
        intros H; inversion H; reflexivity.
Qed.

Lemma processAnswer_returns (st st' : omap Stats.t * sset)
      (a : StoredAnswer.t) :
  processAnswer st (Some a) = Returns st' ->
  st' = Analytics.processAnswer NumberToString StringToNumber st
                                (toAnswer a).
Proof.
  unfold Stored.processAnswer, Analytics.processAnswer, toAnswer.
  destruct st as [pqs seen]. cbn [Answer.questionId Answer.answer].
  destruct (StoredAnswer.questionId a) as [qId |];
    [| intros H; inversion H; reflexivity].
  destruct (qId =? "")%string; [intros H; inversion H; reflexivity |].
  destruct (get qId pqs) as [stats |];
    [| intros H; inversion H; reflexivity].
  destruct (StoredAnswer.answer a) as [v |]; cbn [valueOf].
  - destruct (negb (Analytics.hasValue (toValue v)));
      [intros H; inversion H; reflexivity |].
    destruct (countAnswer v stats) as [stats' |] eqn:E; simpl;
      [| discriminate].
    apply countAnswer_returns in E. intros H. inversion H. subst.
    reflexivity.
  - intros H. inversion H. reflexivity.
Qed.

Lemma answers_return (l : list (option StoredAnswer.t)) :
  forall st st',
  foldM processAnswer l st = Returns st' ->
  st' = fold_left (Analytics.processAnswer NumberToString StringToNumber)
                  (Response.answers
                     (toResponse
                        {| StoredResponse.answers := l;
                           StoredResponse.timeSpent := VUndefined;
                           StoredResponse.isCompleted := false |}))
                  st.
Proof.
  cbn [toResponse Response.answers StoredResponse.answers].
  induction l as [| a l IH]; intros st st'; cbn [foldM flat_map].
  - intros H. inversion H. reflexivity.
  - destruct a as [a |]; [| discriminate].
    destruct (processAnswer st (Some a)) as [st1 |] eqn:E;
      cbn [bind]; [| discriminate].
    apply processAnswer_returns in E. subst st1.
    intros H. apply IH in H. exact H.
Qed.

Lemma processResponse_returns (st st' : Analytics.loop)
      (r : StoredResponse.t) :
  processResponse st r = Returns st' ->
  st' = Analytics.processResponse NumberToString StringToNumber st
                                  (toResponse r).
Proof.
  unfold Stored.processResponse, Analytics.processResponse.
  cbn [toResponse Response.answers Response.timeSpent Response.isCompleted].
  destruct (foldM processAnswer (StoredResponse.answers r)
                  (Analytics.perQuestionStats st, [])) as [state |] eqn:E;
    [| destruct (StoredResponse.timeSpent r); discriminate].
  apply answers_return in E.
  cbn [toResponse Response.answers StoredResponse.answers] in E.
  rewrite <- E. destruct state as [pqs seen].
  destruct (StoredResponse.timeSpent r); cbn [bind fst snd];
    intros H; inversion H; reflexivity.
Qed.

Lemma aggregate_returns (survey : Survey.t) (rs : list StoredResponse.t)
      (st : Analytics.loop) :
  aggregate survey rs = Returns st ->
  st = Analytics.aggregate NumberToString StringToNumber survey
                           (map toResponse rs).
Proof.
  unfold Stored.aggregate, Analytics.aggregate.
  generalize (Analytics.initialLoop survey). revert st.
  induction rs as [| r rs IH]; intros st st0; cbn [foldM map fold_left].
  - intros H. inversion H. reflexivity.
  - destruct (processResponse st0 r) as [st1 |] eqn:E; cbn [bind];
      [| discriminate].
    apply processResponse_returns in E. subst st1. apply IH.
Qed.

(** A report the handler sends is the report [Analytics.getAnalytics]
    gives for the same documents. *)
Lemma report_when_sent (survey : Survey.t) (rs : list StoredResponse.t)
      (report : Report.t) :
  getAnalytics survey rs = Success report ->
  report = Analytics.getAnalytics NumberToString StringToNumber survey
                                  (map toResponse rs).
Proof.
  unfold Stored.getAnalytics.
  destruct (aggregate survey rs) as [st |] eqn:E; [| discriminate].
  apply aggregate_returns in E. intros H. inversion H.
  unfold Analytics.getAnalytics, Analytics.totalsOf.
  rewrite <- E, length_map. reflexivity.
Qed.

(** *** The keys of [perQuestionStats] *)

(** The keys of [pqs] are ids of questions of the survey. *)
Abbreviation known survey pqs :=
  (forall k : string,
     get k pqs <> (None : option Stats.t) ->
     In k (map Question._id (Survey.questions survey))).

Lemma known_set (survey : Survey.t) (pqs : omap Stats.t) (k : string)
      (s : Stats.t) :
  known survey pqs -> get k pqs <> None -> known survey (set k s pqs).
Proof.
  intros Hk Hin k' Hk'. destruct (string_dec k k') as [<- | Hne].
  - apply Hk. exact Hin.
  - rewrite (get_set_ne _ _ Hne) in Hk'. apply Hk. exact Hk'.
Qed.

Lemma known_initial (survey : Survey.t) :
  known survey (Analytics.perQuestionStats (Analytics.initialLoop survey)).
Proof.
  intros k Hk.
  destruct (get k (Analytics.perQuestionStats (Analytics.initialLoop survey)))
    as [s |] eqn:E; [| contradiction].
  apply get_In in E.
  destruct (initial_stats survey) as [_ H]. apply (H k s E).
Qed.

Lemma known_processAnswer (survey : Survey.t) (pqs pqs' : omap Stats.t)
      (seen seen' : sset) (a : option StoredAnswer.t) :
  known survey pqs ->
  processAnswer (pqs, seen) a = Returns (pqs', seen') ->
  known survey pqs'.
Proof.
  intros Hk. unfold Stored.processAnswer.
  destruct a as [a |]; [| discriminate].
  destruct (StoredAnswer.questionId a) as [qId |];
    [| intros H; inversion H; subst; exact Hk].
  destruct (qId =? "")%string; [intros H; inversion H; subst; exact Hk |].
  destruct (get qId pqs) as [stats |] eqn:Eg;
    [| intros H; inversion H; subst; exact Hk].
  destruct (StoredAnswer.answer a) as [v |];
    [| intros H; inversion H; subst; exact Hk].
  destruct (negb (Analytics.hasValue (toValue v)));
    [intros H; inversion H; subst; exact Hk |].
  destruct (countAnswer v stats) as [stats' |]; simpl; [| discriminate].
  intros H. inversion H; subst. apply known_set; [exact Hk |].
  rewrite Eg. discriminate.
Qed.

Lemma known_answers (survey : Survey.t) (l : list (option StoredAnswer.t)) :
  forall pqs seen pqs' seen',
  known survey pqs ->
  foldM processAnswer l (pqs, seen) = Returns (pqs', seen') ->
  known survey pqs'.
Proof.
  induction l as [| a l IH]; intros pqs seen pqs' seen' Hk; cbn [foldM].
  - intros H. inversion H; subst. exact Hk.
  - destruct (processAnswer (pqs, seen) a) as [[pqs1 seen1] |] eqn:E;
      cbn [bind]; [| discriminate].
    apply (IH pqs1 seen1). eapply known_processAnswer; eassumption.
Qed.

Lemma known_markReached (survey : Survey.t) (seen : sset) :
  forall pqs, known survey pqs ->
              known survey (Analytics.markReached pqs seen).
Proof.
  unfold Analytics.markReached.
  induction seen as [| k seen IH]; intros pqs Hk; cbn [fold_left].
  - exact Hk.
  - apply IH. unfold modify. destruct (get k pqs) as [s |] eqn:E.
    + apply known_set; [exact Hk |]. rewrite E. discriminate.
    + exact Hk.
Qed.

Lemma known_processResponse (survey : Survey.t) (st st' : Analytics.loop)
      (r : StoredResponse.t) :
  known survey (Analytics.perQuestionStats st) ->
  processResponse st r = Returns st' ->
  known survey (Analytics.perQuestionStats st').
Proof.
  intros Hk. unfold Stored.processResponse.
  destruct (foldM processAnswer (StoredResponse.answers r)
                  (Analytics.perQuestionStats st, []))
    as [[pqs seen] |] eqn:E;
    [| destruct (StoredResponse.timeSpent r); discriminate].
  assert (known survey pqs) as Hk'
    by (eapply known_answers; [exact Hk | exact E]).
  destruct (StoredResponse.timeSpent r); cbn [bind fst snd];
    intros H; inversion H; cbn [Analytics.perQuestionStats];
    apply known_markReached; exact Hk'.
Qed.

Lemma known_responses (survey : Survey.t) (rs : list StoredResponse.t) :
  forall st st',
  known survey (Analytics.perQuestionStats st) ->
  foldM processResponse rs st = Returns st' ->
  known survey (Analytics.perQuestionStats st').
Proof.
  induction rs as [| r rs IH]; intros st st' Hk; cbn [foldM].
  - intros H. inversion H; subst. exact Hk.
  - destruct (processResponse st r) as [st1 |] eqn:E; cbn [bind];
      [| discriminate].
    apply IH. eapply known_processResponse; eassumption.
Qed.

(** *** An answer to no question of the survey *)

Lemma unknown_answer_step (survey : Survey.t) (a : StoredAnswer.t)
      (pqs : omap Stats.t) (seen : sset) :
  (forall q, In q (Survey.questions survey) ->
             StoredAnswer.questionId a <> Some (Question._id q)) ->
  known survey pqs ->
  processAnswer (pqs, seen) (Some a) = Returns (pqs, seen).
Proof.
  intros Hu Hk. unfold Stored.processAnswer.
  destruct (StoredAnswer.questionId a) as [qId |] eqn:Eq; [| reflexivity].
  destruct (qId =? "")%string; [reflexivity |].
  destruct (get qId pqs) as [stats |] eqn:Eg; [| reflexivity].
  exfalso.
  assert (In qId (map Question._id (Survey.questions survey))) as Hin
    by (apply Hk; rewrite Eg; discriminate).
  apply in_map_iff in Hin. destruct Hin as [q [E Hq]].
  apply (Hu q Hq). rewrite E. reflexivity.
Qed.

Lemma unknown_answers_fold (survey : Survey.t)
      (l : list (option StoredAnswer.t)) (pqs : omap Stats.t) (seen : sset) :
  (forall x, In x l ->
     exists a, x = Some a
               /\ forall q, In q (Survey.questions survey) ->
                            StoredAnswer.questionId a
                            <> Some (Question._id q)) ->
  known survey pqs ->
  foldM processAnswer l (pqs, seen) = Returns (pqs, seen).
Proof.
  intros Hl Hk. induction l as [| x l IH]; cbn [foldM].
  - reflexivity.
  - destruct (Hl x (or_introl eq_refl)) as [a [-> Hu]].
    rewrite (@unknown_answer_step survey a pqs seen Hu Hk). cbn [bind].
    apply IH. intros y Hy. apply Hl. right. exact Hy.
Qed.

Lemma processResponse_middle (survey : Survey.t) (st : Analytics.loop)
      (r : StoredResponse.t) (before after : list (option StoredAnswer.t))
      (a : StoredAnswer.t) :
  (forall q, In q (Survey.questions survey) ->
             StoredAnswer.questionId a <> Some (Question._id q)) ->
  StoredResponse.answers r = before ++ Some a :: after ->
  known survey (Analytics.perQuestionStats st) ->
  processResponse st r
  = processResponse st (StoredResponse.with_answers (before ++ after) r).
Proof.
  intros Hu Hr Hk. unfold Stored.processResponse.
  cbn [StoredResponse.with_answers StoredResponse.answers
       StoredResponse.timeSpent StoredResponse.isCompleted].
  rewrite Hr, !foldM_app.
  destruct (foldM processAnswer before (Analytics.perQuestionStats st, []))
    as [[pqs seen] |] eqn:E; cbn [bind]; [| reflexivity].
  cbn [foldM].
  rewrite (@unknown_answer_step survey a pqs seen Hu
             (@known_answers survey before _ _ _ _ Hk E)).
  reflexivity.
Qed.

Lemma processResponse_unknown (survey : Survey.t) (st : Analytics.loop)
      (r : StoredResponse.t) :
  (forall x, In x (StoredResponse.answers r) ->
     exists a, x = Some a
               /\ forall q, In q (Survey.questions survey) ->
                            StoredAnswer.questionId a
                            <> Some (Question._id q)) ->
  known survey (Analytics.perQuestionStats st) ->
  processResponse st r
  = processResponse st (StoredResponse.with_answers [] r).
Proof.
  intros Hl Hk. unfold Stored.processResponse.
  cbn [StoredResponse.with_answers StoredResponse.answers
       StoredResponse.timeSpent StoredResponse.isCompleted].
  assert (foldM processAnswer (StoredResponse.answers r)
                (Analytics.perQuestionStats st, [])
          = Returns (Analytics.perQuestionStats st, [])) as H
    by (apply (@unknown_answers_fold survey); assumption).
  rewrite H. reflexivity.
Qed.

Lemma responses_middle (survey : Survey.t) (r r' : StoredResponse.t)
      (pre post : list StoredResponse.t) :
  (forall st, known survey (Analytics.perQuestionStats st) ->
              processResponse st r = processResponse st r') ->
  aggregate survey (pre ++ r :: post) = aggregate survey (pre ++ r' :: post).
Proof.
  intros Hstep. unfold Stored.aggregate. rewrite !foldM_app.
  destruct (foldM processResponse pre (Analytics.initialLoop survey))
    as [st |] eqn:E; cbn [bind]; [| reflexivity].
  cbn [foldM]. rewrite Hstep; [reflexivity |].
  exact (@known_responses survey pre _ _ (known_initial survey) E).
Qed.

Lemma responses_unknown (survey : Survey.t) (rs : list StoredResponse.t) :
  (forall r x, In r rs -> In x (StoredResponse.answers r) ->
     exists a, x = Some a
               /\ forall q, In q (Survey.questions survey) ->
                            StoredAnswer.questionId a
                            <> Some (Question._id q)) ->
  forall st,
  known survey (Analytics.perQuestionStats st) ->
  exists st',
    foldM processResponse rs st = Returns st'
    /\ foldM processResponse (map (StoredResponse.with_answers []) rs) st
       = Returns st'.
Proof.
  induction rs as [| r rs IH]; intros Hl st Hk; cbn [foldM map].
  - exists st. split; reflexivity.
  - rewrite (@processResponse_unknown survey st r
               (fun x Hx => Hl r x (or_introl eq_refl) Hx) Hk).
    destruct (processResponse st (StoredResponse.with_answers [] r))
      as [st1 |] eqn:E.
    + cbn [bind]. apply IH.
      * intros r' x Hr' Hx. apply (Hl r' x); [right; exact Hr' | exact Hx].
      * exact (@known_processResponse survey st _ _ Hk E).
    + exfalso. revert E. unfold Stored.processResponse.
      cbn [StoredResponse.with_answers StoredResponse.answers foldM bind].
      destruct (StoredResponse.timeSpent
                  (StoredResponse.with_answers [] r));
        discriminate.
Qed.

(** C6. An answer whose [questionId] is the id of no question of the
    survey never makes the handler throw and is skipped. At every state
    the loop can be in (the keys of [perQuestionStats] are ids of
    questions of the survey) the step of such an answer returns, and
    returns the state it was given: no counter and no total changes,
    whatever the value of the answer is. What the handler sends, the
    report or the error of its [catch], is therefore what it sends
    without that answer. On responses all of whose answers are of that
    kind the handler sends a report, the one of the same responses with
    no answers at all. *)
Theorem C6_unknown_question_id_is_skipped_and_never_throws
        (survey : Survey.t) (a : StoredAnswer.t) :
  (forall q, In q (Survey.questions survey) ->
             StoredAnswer.questionId a <> Some (Question._id q)) ->
  (forall pqs seen,
     known survey pqs ->
     processAnswer (pqs, seen) (Some a) = Returns (pqs, seen))
  /\ (forall pre post r before after,
        StoredResponse.answers r = before ++ Some a :: after ->
        getAnalytics survey (pre ++ r :: post)
        = getAnalytics survey
            (pre ++ StoredResponse.with_answers (before ++ after) r
                 :: post))
  /\ (forall rs,
        (forall r x, In r rs -> In x (StoredResponse.answers r) ->
           exists a', x = Some a'
                      /\ forall q, In q (Survey.questions survey) ->
                                   StoredAnswer.questionId a'
                                   <> Some (Question._id q)) ->
        getAnalytics survey rs
        = Success
            (Analytics.getAnalytics
               NumberToString StringToNumber survey
               (map (fun r => toResponse (StoredResponse.with_answers [] r))
                    rs))).
Proof.
  intros Hu. split; [| split].
  - intros pqs seen Hk. apply (@unknown_answer_step survey); assumption.
  - intros pre post r before after Hr. unfold Stored.getAnalytics.
    rewrite (@responses_middle survey r
               (StoredResponse.with_answers (before ++ after) r) pre post)
      by (intros st Hk; apply (@processResponse_middle survey st r
                                 before after a Hu Hr Hk)).
    rewrite !length_app. reflexivity.
  - intros rs Hl.
    destruct (@responses_unknown survey rs Hl _ (known_initial survey))
      as [st [E E']].
    assert (getAnalytics survey rs
            = getAnalytics survey (map (StoredResponse.with_answers []) rs))
      as Heq.
    { unfold Stored.getAnalytics, Stored.aggregate.
      rewrite E, E', length_map. reflexivity. }
    rewrite Heq.
    destruct (getAnalytics survey (map (StoredResponse.with_answers []) rs))
      as [report |] eqn:Er.
    + apply report_when_sent in Er. rewrite map_map in Er.
      rewrite Er. reflexivity.
    + exfalso. revert Er. unfold Stored.getAnalytics, Stored.aggregate.
      rewrite E'. discriminate.
Qed.

End Handler.

End StoredFacts.

(** * Further properties of the analytics report *)

Module ReportLayout.
Import JS JSFacts PerQuestion LoopFacts ReportFacts Layout.

Section ReportLayout.
Variable NumberToString : number -> string.
Variable StringToNumber : string -> number.

Abbreviation aggregate := (Analytics.aggregate NumberToString StringToNumber).
Abbreviation getAnalytics := (Analytics.getAnalytics NumberToString StringToNumber).
Abbreviation finalStats := (finalStats NumberToString StringToNumber).

Lemma filter_partition_length (A : Type) (p : A -> bool) (l : list A) :
  List.length (filter p l) + List.length (filter (fun x => negb (p x)) l)
  = List.length l.
Proof.
  induction l as [| x l IH]; simpl.
  - reflexivity.
  - destruct (p x); simpl; lia.
Qed.

(** X1. Every response is counted once, as completed or as partial. *)
Theorem completed_plus_partial_is_total
        (survey : Survey.t) (rs : list Response.t) :
  Totals.completedResponses (Report.totals (getAnalytics survey rs))
  + Totals.partialResponses (Report.totals (getAnalytics survey rs))
  = Totals.totalResponses (Report.totals (getAnalytics survey rs)).
Proof.
  destruct (totals_spec NumberToString StringToNumber survey rs)
    as [H1 [H2 H3]].
  rewrite H1, H2, H3. apply filter_partition_length.
Qed.

(** *** The layout of the funnel and of the questions *)

Lemma finalStats_static (rs : list Response.t) (k : string) (s : Stats.t) :
  Stats.questionId (finalStats rs k s) = Stats.questionId s
  /\ Stats.questionText (finalStats rs k s) = Stats.questionText s
  /\ Stats.type (finalStats rs k s) = Stats.type s
  /\ Stats.order (finalStats rs k s) = Stats.order s
  /\ Stats.totalAnswers (finalStats rs k s)
     = Stats.totalAnswers s + List.length (valuedAnswers k rs).
Proof.
  pose proof (finalStats_unreached NumberToString StringToNumber k rs s)
    as Hu.
  destruct (counted_static NumberToString StringToNumber
                           (valuedAnswers k rs) (unreached s))
    as [C1 [C2 [C3 [C4 [_ C6]]]]].
  rewrite <- Hu in C1, C2, C3, C4, C6.
  cbn [unreached Stats.set_reached Stats.questionId Stats.questionText
       Stats.type Stats.order Stats.totalAnswers] in C1, C2, C3, C4, C6.
  repeat split; assumption.
Qed.

Lemma buildQuestionMeta_distinct (qs : list Question.t) :
  NoDup (map Question._id qs) ->
  Analytics.buildQuestionMeta qs
  = map (fun q => (Question._id q, Analytics.metaOfQuestion q)) qs.
Proof.
  unfold Analytics.buildQuestionMeta.
  assert (forall (l : list Question.t) (acc : omap Meta.t),
            NoDup (map Question._id l) ->
            (forall k, In k (map Question._id l) -> ~ In k (keys acc)) ->
            fold_left (fun meta q => set (Question._id q)
                                         (Analytics.metaOfQuestion q) meta)
                      l acc
            = acc ++ map (fun q => (Question._id q,
                                    Analytics.metaOfQuestion q)) l) as H.
  { induction l as [| q l IH]; intros acc Hnd Hdis; cbn [map fold_left].
    - rewrite app_nil_r. reflexivity.
    - simpl in Hnd. inversion Hnd as [| ? ? Hout Hnd']; subst.
      rewrite set_absent by (apply Hdis; left; reflexivity).
      rewrite IH.
      + rewrite <- app_assoc. reflexivity.
      + exact Hnd'.
      + intros k Hk. unfold keys. rewrite map_app, in_app_iff. simpl.
        intros [H | [H | []]].
        * apply (Hdis k); [right; exact Hk | exact H].
        * subst k. contradiction. }
  intros Hnd. rewrite H; auto.
Qed.

Lemma initial_stats_distinct (survey : Survey.t) :
  NoDup (map Question._id (Survey.questions survey)) ->
  Analytics.perQuestionStats (Analytics.initialLoop survey)
  = map (fun q => (Question._id q,
                   Analytics.initialStats (Analytics.metaOfQuestion q)))
        (Survey.questions survey).
Proof.
  intros Hnd. cbn [Analytics.initialLoop Analytics.perQuestionStats].
  destruct (buildQuestionMeta_spec (Survey.questions survey)) as [Hk Hm].
  rewrite initPerQuestionStats_spec;
    [| exact Hk | intros k m Hin; apply (Hm k m Hin)].
  rewrite buildQuestionMeta_distinct by exact Hnd.
  rewrite map_map. reflexivity.
Qed.

(** The statistics the report is built from, one per question. *)
Lemma final_values_distinct (survey : Survey.t) (rs : list Response.t) :
  NoDup (map Question._id (Survey.questions survey)) ->
  values (Analytics.perQuestionStats (aggregate survey rs))
  = map (fun q => finalStats rs (Question._id q)
                    (Analytics.initialStats (Analytics.metaOfQuestion q)))
        (Survey.questions survey).
Proof.
  intros Hnd. rewrite aggregate_stats, initial_stats_distinct by exact Hnd.
  unfold values, pointwise. rewrite !map_map. reflexivity.
Qed.

Lemma sorted_values_distinct (survey : Survey.t) (rs : list Response.t) :
  NoDup (map Question._id (Survey.questions survey)) ->
  sort Analytics.byOrder
       (values (Analytics.perQuestionStats (aggregate survey rs)))
  = map (fun q => finalStats rs (Question._id q)
                    (Analytics.initialStats (Analytics.metaOfQuestion q)))
        (sortedQuestions survey).
Proof.
  intros Hnd. rewrite final_values_distinct by exact Hnd.
  unfold sortedQuestions. symmetry. apply sort_map.
  intros x y. unfold Analytics.byOrder, byQuestionOrder.
  destruct (finalStats_static rs (Question._id x)
              (Analytics.initialStats (Analytics.metaOfQuestion x)))
    as [_ [_ [_ [Hx _]]]].
  destruct (finalStats_static rs (Question._id y)
              (Analytics.initialStats (Analytics.metaOfQuestion y)))
    as [_ [_ [_ [Hy _]]]].
  rewrite Hx, Hy. reflexivity.
Qed.

(** X2. When the ids of the questions are pairwise distinct, the funnel and
    the analytics list the questions by ascending [order], questions of
    equal [order] in the order of the survey, each with its own id, text
    and order; the funnel counter of a question counts the responses that
    hold an answer to it and [totalAnswers] its non-empty answers. *)
Theorem report_follows_question_order
        (survey : Survey.t) (rs : list Response.t) :
  NoDup (map Question._id (Survey.questions survey)) ->
  Report.funnel (getAnalytics survey rs)
  = map (fun q =>
           {| Funnel.questionId := Question._id q;
              Funnel.questionText := Question.text q;
              Funnel.order := Question.order q;
              Funnel.reached :=
                List.length (filter (mentions (Question._id q)) rs) |})
        (sortedQuestions survey)
  /\ map (fun e => (QuestionAnalytics.questionId e,
                    QuestionAnalytics.questionText e,
                    QuestionAnalytics.type e,
                    QuestionAnalytics.order e,
                    QuestionAnalytics.totalAnswers e))
         (Report.questions (getAnalytics survey rs))
     = map (fun q => (Question._id q, Question.text q, Question.type q,
                      Question.order q,
                      List.length (valuedAnswers (Question._id q) rs)))
           (sortedQuestions survey)
  /\ StronglySorted (fun a b => (Question.order a <= Question.order b)%Z)
                    (sortedQuestions survey)
  /\ forall c,
       filter (fun q => (Question.order q =? c)%Z) (sortedQuestions survey)
       = filter (fun q => (Question.order q =? c)%Z)
                (Survey.questions survey).
Proof.
  intros Hnd. split; [| split; [| split]].
  - cbn [Analytics.getAnalytics Report.funnel]. unfold Analytics.buildFunnel.
    rewrite sorted_values_distinct by exact Hnd. rewrite map_map.
    apply map_ext. intros q.
    destruct (finalStats_static rs (Question._id q)
                (Analytics.initialStats (Analytics.metaOfQuestion q)))
      as [H1 [H2 [_ [H4 _]]]].
    rewrite H1, H2, H4.
    rewrite (finalStats_reached NumberToString StringToNumber). reflexivity.
  - cbn [Analytics.getAnalytics Report.questions].
    unfold Analytics.buildQuestions.
    rewrite sorted_values_distinct by exact Hnd. rewrite !map_map.
    apply map_ext. intros q.
    cbn [Analytics.questionAnalytics QuestionAnalytics.questionId
         QuestionAnalytics.questionText QuestionAnalytics.type
         QuestionAnalytics.order QuestionAnalytics.totalAnswers].
    destruct (finalStats_static rs (Question._id q)
                (Analytics.initialStats (Analytics.metaOfQuestion q)))
      as [H1 [H2 [H3 [H4 H5]]]].
    rewrite H1, H2, H3, H4, H5. reflexivity.
  - unfold sortedQuestions.
    apply (sort_sorted byQuestionOrder Question.order).
    intros x y. apply positive_sub_of_Z.
  - intros c. unfold sortedQuestions.
    apply (sort_key_stable byQuestionOrder Question.order).
    intros x y. apply positive_sub_of_Z.
Qed.

(** *** The counters do not depend on the order of the responses *)

Lemma perm_filter_length (A : Type) (p : A -> bool) (l l' : list A) :
  Permutation l l' ->
  List.length (filter p l) = List.length (filter p l').
Proof.
  induction 1 as [| x l l' _ IH | x y l | l l' l'' _ IH1 _ IH2]; simpl.
  - reflexivity.
  - destruct (p x); simpl; lia.
  - destruct (p x), (p y); reflexivity.
  - lia.
Qed.

Lemma perm_valuedAnswers_length (k : string) (rs rs' : list Response.t) :
  Permutation rs rs' ->
  List.length (valuedAnswers k rs) = List.length (valuedAnswers k rs').
Proof.
  unfold valuedAnswers.
  induction 1 as [| x l l' _ IH | x y l | l l' l'' _ IH1 _ IH2];
    cbn [flat_map]; rewrite ?length_app; lia.
Qed.

Lemma sorted_values (survey : Survey.t) (rs : list Response.t) :
  sort Analytics.byOrder
       (values (Analytics.perQuestionStats (aggregate survey rs)))
  = map (fun ks => finalStats rs (fst ks) (snd ks))
        (sort (fun x y : string * Stats.t =>
                 Analytics.byOrder (snd x) (snd y))
              (Analytics.perQuestionStats (Analytics.initialLoop survey))).
Proof.
  rewrite aggregate_stats. unfold values, pointwise. rewrite map_map.
  cbn [snd fst]. symmetry. apply sort_map.
  intros x y. unfold Analytics.byOrder.
  destruct (finalStats_static rs (fst x) (snd x)) as [_ [_ [_ [Hx _]]]].
  destruct (finalStats_static rs (fst y) (snd y)) as [_ [_ [_ [Hy _]]]].
  rewrite Hx, Hy. reflexivity.
Qed.

(** X3. Two collections holding the same responses in another order give the
    same counts of responses, the same funnel and the same [totalAnswers]
    for every question. *)
Theorem counters_ignore_response_order
        (survey : Survey.t) (rs rs' : list Response.t) :
  Permutation rs rs' ->
  Report.funnel (getAnalytics survey rs)
  = Report.funnel (getAnalytics survey rs')
  /\ map (fun e => (QuestionAnalytics.questionId e,
                    QuestionAnalytics.totalAnswers e))
         (Report.questions (getAnalytics survey rs))
     = map (fun e => (QuestionAnalytics.questionId e,
                      QuestionAnalytics.totalAnswers e))
           (Report.questions (getAnalytics survey rs'))
  /\ Totals.totalResponses (Report.totals (getAnalytics survey rs))
     = Totals.totalResponses (Report.totals (getAnalytics survey rs'))
  /\ Totals.completedResponses (Report.totals (getAnalytics survey rs))
     = Totals.completedResponses (Report.totals (getAnalytics survey rs'))
  /\ Totals.partialResponses (Report.totals (getAnalytics survey rs))
     = Totals.partialResponses (Report.totals (getAnalytics survey rs')).
Proof.
  intros Hp. split; [| split].
  - cbn [Analytics.getAnalytics Report.funnel]. unfold Analytics.buildFunnel.
    rewrite !sorted_values, !map_map. apply map_ext. intros [k s0].
    cbn [fst snd].
    destruct (finalStats_static rs k s0) as [H1 [H2 [_ [H4 _]]]].
    destruct (finalStats_static rs' k s0) as [H1' [H2' [_ [H4' _]]]].
    rewrite H1, H2, H4, H1', H2', H4'.
    rewrite !(finalStats_reached NumberToString StringToNumber).
    rewrite (perm_filter_length (mentions k) Hp). reflexivity.
  - cbn [Analytics.getAnalytics Report.questions].
    unfold Analytics.buildQuestions.
    rewrite !sorted_values, !map_map. apply map_ext. intros [k s0].
    cbn [fst snd Analytics.questionAnalytics QuestionAnalytics.questionId
         QuestionAnalytics.totalAnswers].
    destruct (finalStats_static rs k s0) as [H1 [_ [_ [_ H5]]]].
    destruct (finalStats_static rs' k s0) as [H1' [_ [_ [_ H5']]]].
    rewrite H1, H5, H1', H5', (perm_valuedAnswers_length k Hp). reflexivity.
  - destruct (totals_spec NumberToString StringToNumber survey rs)
      as [H1 [H2 H3]].
    destruct (totals_spec NumberToString StringToNumber survey rs')
      as [H1' [H2' H3']].
    rewrite H1, H2, H3, H1', H2', H3'.
    rewrite (Permutation_length Hp).
    rewrite (perm_filter_length Response.isCompleted Hp).
    rewrite (perm_filter_length
               (fun r => negb (Response.isCompleted r)) Hp).
    repeat split.
Qed.

(** *** The rows of a choice question *)

Lemma firstSeen_In (v : string) (l : list string) :
  forall s : sset,
  In v (fold_left (fun s w => sadd w s) l s) <-> In v s \/ In v l.
Proof.
  induction l as [| w l IH]; intros s; cbn [fold_left].
  - simpl. tauto.
  - rewrite IH, In_sadd. simpl. split.
    + intros [[H | H] | H]; auto.
    + intros [H | [H | H]]; auto.
Qed.

Lemma optionRow_In (m : omap OptionMeta.t) (total : nat) (counts : omap nat)
      (row : OptionRow.t) :
  In row (sort Analytics.byCountDesc
               (map (Analytics.optionRow m total) counts)) ->
  exists v n, In (v, n) counts /\ row = Analytics.optionRow m total (v, n).
Proof.
  intros H. apply sort_In in H. apply in_map_iff in H.
  destruct H as [[v n] [E Hin]]. exists v, n. split; [exact Hin |].
  symmetry. exact E.
Qed.

Lemma optionRows_values (m : omap OptionMeta.t) (total : nat)
      (counts : omap nat) :
  Permutation
    (map OptionRow.value
         (sort Analytics.byCountDesc
               (map (Analytics.optionRow m total) counts)))
    (keys counts).
Proof.
  eapply perm_trans.
  - apply Permutation_map. apply sort_perm.
  - rewrite map_map. unfold keys.
    erewrite map_ext; [apply Permutation_refl |].
    intros [v n]. reflexivity.
Qed.

(** X4. The options reported for a choice question are the values that were
    selected, each once, with the number of times it was selected: an
    option nobody selected is not reported, and no row has a zero count. *)
Theorem option_rows_are_the_selected_values
        (survey : Survey.t) (rs : list Response.t)
        (e : QuestionAnalytics.t) (rows : list OptionRow.t) :
  In e (Report.questions (getAnalytics survey rs)) ->
  QuestionAnalytics.payload e = KChoice rows ->
  NoDup (map OptionRow.value rows)
  /\ (forall v,
        In v (map OptionRow.value rows)
        <-> In v (selections NumberToString
                             (QuestionAnalytics.questionId e) rs))
  /\ forall row,
       In row rows ->
       OptionRow.count row
       = occurrences (OptionRow.value row)
                     (selections NumberToString
                                 (QuestionAnalytics.questionId e) rs)
       /\ 1 <= OptionRow.count row.
Proof.
  intros Hin Hp. apply question_entry in Hin.
  destruct Hin as [s [Hs [Hid [_ Hpay]]]].
  rewrite Hp in Hpay. symmetry in Hpay. apply payload_choice in Hpay.
  destruct Hpay as [Hc Hrows].
  destruct (final_stats_spec NumberToString StringToNumber survey rs s Hs)
    as [_ [_ [_ [Hopt _]]]].
  specialize (Hopt Hc). rewrite Hid. subst rows. rewrite Hopt.
  set (sel := selections NumberToString (Stats.questionId s) rs).
  assert (NoDup (keys (tallyOf sel []))) as Hnd
    by (apply tallyOf_NoDup; constructor).
  assert (forall v, In v (keys (tallyOf sel [])) <-> In v sel) as Hkeys.
  { intros v. rewrite tallyOf_keys, firstSeen_In. simpl. tauto. }
  split; [| split].
  - eapply Permutation_NoDup; [| exact Hnd].
    apply Permutation_sym. apply optionRows_values.
  - intros v. rewrite <- Hkeys. split; apply Permutation_in.
    + apply optionRows_values.
    + apply Permutation_sym. apply optionRows_values.
  - intros row Hrow. apply optionRow_In in Hrow.
    destruct Hrow as [v [n [Hvn ->]]]. cbn [Analytics.optionRow
      OptionRow.count OptionRow.value].
    assert (n = occurrences v sel) as Hn.
    { pose proof (tallyOf_countAt v sel []) as Hc'.
      unfold countAt in Hc'. rewrite (In_get _ _ _ Hnd Hvn) in Hc'.
      simpl in Hc'. exact Hc'. }
    split; [exact Hn |]. rewrite Hn.
    assert (In v sel) as Hv.
    { apply Hkeys. change v with (fst (v, n)). apply in_map. exact Hvn. }
    unfold occurrences.
    apply (proj1 (count_occ_In string_dec sel v)) in Hv. lia.
Qed.

Lemma selected_scalar (v : value) :
  isArray v = false -> List.length (selected NumberToString v) = 1.
Proof.
  destruct v; simpl; intros H; try reflexivity. discriminate.
Qed.

Lemma selected_scalars (vs : list value) :
  (forall v, In v vs -> isArray v = false) ->
  List.length (flat_map (selected NumberToString) vs) = List.length vs.
Proof.
  induction vs as [| v vs IH]; intros H; cbn [flat_map].
  - reflexivity.
  - rewrite length_app, selected_scalar.
    + simpl. f_equal. apply IH. intros w Hw. apply H. right. exact Hw.
    + apply H. left. reflexivity.
Qed.

(** X5. When no answer to a choice question is a list, the option counts of
    the report sum to [totalAnswers]. *)
Theorem single_choice_counts_sum_to_totalAnswers
        (survey : Survey.t) (rs : list Response.t)
        (e : QuestionAnalytics.t) (rows : list OptionRow.t) :
  In e (Report.questions (getAnalytics survey rs)) ->
  QuestionAnalytics.payload e = KChoice rows ->
  (forall v, In v (valuedAnswers (QuestionAnalytics.questionId e) rs) ->
             isArray v = false) ->
  optionTotal rows = QuestionAnalytics.totalAnswers e.
Proof.
  intros Hin Hp Hsc. apply question_entry in Hin.
  destruct Hin as [s [Hs [Hid [Ht Hpay]]]].
  rewrite Hp in Hpay. symmetry in Hpay. apply payload_choice in Hpay.
  destruct Hpay as [Hc Hrows].
  destruct (final_stats_spec NumberToString StringToNumber survey rs s Hs)
    as [_ [_ [Htot [Hopt _]]]].
  rewrite Hrows, optionRows_total, (Hopt Hc), tallyOf_sum, Ht, Htot.
  rewrite Hid in Hsc. unfold selections. simpl.
  apply selected_scalars. exact Hsc.
Qed.

(** *** Text questions and questions of another type *)

Lemma countAnswer_text (v : value) (s : Stats.t) :
  Analytics.isChoiceType (Stats.type s) = false ->
  Analytics.isRatingType (Stats.type s) = false ->
  Analytics.isTextType (Stats.type s) = true ->
  Stats.textCount
    (Analytics.countAnswer NumberToString StringToNumber v s)
  = Stats.textCount s + 1.
Proof.
  intros Hc Hr Ht. unfold Analytics.countAnswer.
  cbn [Stats.type Stats.set_totalAnswers]. rewrite Hc, Hr, Ht. reflexivity.
Qed.

Lemma counted_text (vs : list value) :
  forall s,
  Analytics.isChoiceType (Stats.type s) = false ->
  Analytics.isRatingType (Stats.type s) = false ->
  Analytics.isTextType (Stats.type s) = true ->
  Stats.textCount (counted NumberToString StringToNumber vs s)
  = Stats.textCount s + List.length vs.
Proof.
  unfold counted. induction vs as [| v vs IH]; intros s Hc Hr Ht;
    cbn [fold_left].
  - simpl. lia.
  - destruct (countAnswer_static NumberToString StringToNumber v s)
      as [_ [_ [S3 _]]].
    rewrite IH by (rewrite S3; assumption).
    rewrite countAnswer_text by assumption. simpl. lia.
Qed.

Lemma text_is_no_other_type (t : string) :
  Analytics.isTextType t = true ->
  Analytics.isChoiceType t = false /\ Analytics.isRatingType t = false.
Proof.
  unfold Analytics.isTextType. intros H. apply orb_prop in H.
  destruct H as [H | H]; apply String.eqb_eq in H; subst t;
    split; reflexivity.
Qed.

Lemma question_entry_stats (survey : Survey.t) (rs : list Response.t)
      (e : QuestionAnalytics.t) :
  In e (Report.questions (getAnalytics survey rs)) ->
  exists k s0,
    In (k, s0) (Analytics.perQuestionStats (Analytics.initialLoop survey))
    /\ e = Analytics.questionAnalytics StringToNumber
             (Analytics.buildQuestionMeta (Survey.questions survey))
             (finalStats rs k s0).
Proof.
  cbn [Analytics.getAnalytics Report.questions].
  unfold Analytics.buildQuestions.
  rewrite in_map_iff. intros [s [E Hin]]. apply sort_In in Hin.
  rewrite aggregate_stats in Hin. apply pointwise_values in Hin.
  destruct Hin as [k [s0 [Hin Hs]]]. exists k, s0.
  split; [exact Hin |]. subst s. symmetry. exact E.
Qed.

(** X6. A text question reports as its [textCount] the number of its
    non-empty answers, which is its [totalAnswers]; a question whose type
    is none of the six known ones is reported with the kind ['unknown'],
    its non-empty answers still counted. *)
Theorem text_and_unknown_questions
        (survey : Survey.t) (rs : list Response.t)
        (e : QuestionAnalytics.t) :
  In e (Report.questions (getAnalytics survey rs)) ->
  QuestionAnalytics.totalAnswers e
  = List.length (valuedAnswers (QuestionAnalytics.questionId e) rs)
  /\ (Analytics.isTextType (QuestionAnalytics.type e) = true ->
      QuestionAnalytics.payload e = KText (QuestionAnalytics.totalAnswers e))
  /\ (Analytics.isChoiceType (QuestionAnalytics.type e) = false ->
      Analytics.isRatingType (QuestionAnalytics.type e) = false ->
      Analytics.isTextType (QuestionAnalytics.type e) = false ->
      QuestionAnalytics.payload e = KUnknown).
Proof.
  intros Hin. apply question_entry_stats in Hin.
  destruct Hin as [k [s0 [Hin ->]]].
  destruct (initial_stats survey) as [_ Hinit].
  destruct (Hinit k s0 Hin) as [_ [m [Hs0 Hm]]].
  destruct (finalStats_static rs k s0) as [H1 [_ [H3 [_ H5]]]].
  cbn [Analytics.questionAnalytics QuestionAnalytics.questionId
       QuestionAnalytics.totalAnswers QuestionAnalytics.type
       QuestionAnalytics.payload].
  split; [| split].
  - rewrite H1, H5, Hs0. simpl. rewrite Hm. reflexivity.
  - intros Ht. destruct (text_is_no_other_type _ Ht) as [Hc Hr].
    unfold Analytics.payloadOf. rewrite Hc, Hr, Ht. f_equal.
    change (Stats.textCount (finalStats rs k s0))
      with (Stats.textCount (unreached (finalStats rs k s0))).
    rewrite (finalStats_unreached NumberToString StringToNumber).
    rewrite counted_text.
    + rewrite H5, Hs0. reflexivity.
    + cbn [unreached Stats.set_reached Stats.type]. rewrite <- H3. exact Hc.
    + cbn [unreached Stats.set_reached Stats.type]. rewrite <- H3. exact Hr.
    + cbn [unreached Stats.set_reached Stats.type]. rewrite <- H3. exact Ht.
  - intros Hc Hr Ht. unfold Analytics.payloadOf. rewrite Hc, Hr, Ht.
    reflexivity.
Qed.

(** *** The labels of the options *)

Lemma optionMeta_absent (options : list OptionMeta.t) (v : string) :
  forall acc : omap OptionMeta.t,
  ~ In v (map OptionMeta.value options) ->
  get v (fold_left (fun m opt => set (OptionMeta.value opt) opt m)
                   options acc)
  = get v acc.
Proof.
  induction options as [| o options IH]; intros acc H; cbn [fold_left].
  - reflexivity.
  - simpl in H. rewrite IH by tauto.
    apply get_set_ne. intros E. apply H. left. exact E.
Qed.

Lemma optionMeta_present (options : list OptionMeta.t) (o : OptionMeta.t) :
  forall acc : omap OptionMeta.t,
  NoDup (map OptionMeta.value options) ->
  In o options ->
  get (OptionMeta.value o)
      (fold_left (fun m opt => set (OptionMeta.value opt) opt m)
                 options acc)
  = Some o.
Proof.
  induction options as [| o' options IH]; intros acc Hnd Hin;
    cbn [fold_left].
  - contradiction.
  - simpl in Hnd. inversion Hnd as [| ? ? Hout Hnd']; subst.
    destruct Hin as [-> | Hin].
    + rewrite optionMeta_absent by exact Hout. apply get_set_eq.
    + apply IH; assumption.
Qed.

Lemma or_else_nonempty (t : option string) (v : string) :
  v <> "" -> Analytics.or_else t v <> "".
Proof.
  intros Hv. unfold Analytics.or_else. destruct t as [t |]; [| exact Hv].
  destruct (t =? "")%string eqn:E; [exact Hv |].
  apply String.eqb_neq. exact E.
Qed.

Lemma optionsOf_distinct (qs : list Question.t) (q : Question.t) :
  NoDup (map Question._id qs) -> In q qs ->
  Analytics.optionsOf (Analytics.buildQuestionMeta qs) (Question._id q)
  = map (fun opt => {| OptionMeta.value := optionValue opt;
                       OptionMeta.text := Choice.text opt |})
        (Question.options q).
Proof.
  intros Hnd Hq. unfold Analytics.optionsOf.
  rewrite buildQuestionMeta_distinct by exact Hnd.
  rewrite (In_get (Question._id q) (Analytics.metaOfQuestion q)).
  - reflexivity.
  - unfold keys. rewrite map_map. exact Hnd.
  - apply (in_map (fun q => (Question._id q, Analytics.metaOfQuestion q))).
    exact Hq.
Qed.

(** X7. The label of a reported option. When the ids of the questions are
    pairwise distinct: a row whose value is not empty has a label that is
    not empty; a value that no declared option of the question answers to
    is its own label; and when the declared options answer to pairwise
    distinct values, the row of a declared option is labelled with the
    text of that option, or with the value when the option has no text. *)
Theorem option_labels
        (survey : Survey.t) (rs : list Response.t) (q : Question.t)
        (e : QuestionAnalytics.t) (rows : list OptionRow.t)
        (row : OptionRow.t) :
  NoDup (map Question._id (Survey.questions survey)) ->
  In q (Survey.questions survey) ->
  In e (Report.questions (getAnalytics survey rs)) ->
  QuestionAnalytics.questionId e = Question._id q ->
  QuestionAnalytics.payload e = KChoice rows ->
  In row rows ->
  (OptionRow.value row <> "" -> OptionRow.label row <> "")
  /\ ((forall opt, In opt (Question.options q) ->
                   optionValue opt <> OptionRow.value row) ->
      OptionRow.label row = OptionRow.value row)
  /\ (NoDup (map optionValue (Question.options q)) ->
      forall opt, In opt (Question.options q) ->
                  optionValue opt = OptionRow.value row ->
                  OptionRow.label row
                  = Analytics.or_else (Choice.text opt)
                                      (OptionRow.value row)).
Proof.
  intros Hnd Hq Hin Hid Hp Hrow. apply question_entry in Hin.
  destruct Hin as [s [_ [Hid' [_ Hpay]]]].
  rewrite Hp in Hpay. symmetry in Hpay. apply payload_choice in Hpay.
  destruct Hpay as [_ Hrows]. subst rows.
  apply optionRow_In in Hrow. destruct Hrow as [v [n [_ ->]]].
  rewrite <- Hid', Hid, (optionsOf_distinct _ q Hnd Hq).
  cbn [Analytics.optionRow OptionRow.value OptionRow.label].
  unfold Analytics.buildOptionMetaByValue. split; [| split].
  - intros Hv. apply or_else_nonempty. exact Hv.
  - intros Hno. rewrite optionMeta_absent.
    + simpl. unfold Analytics.or_else.
      destruct (v =? "")%string; reflexivity.
    + rewrite map_map. simpl. intros Hc. apply in_map_iff in Hc.
      destruct Hc as [opt [E Ho]]. apply (Hno opt Ho). exact E.
  - intros Hvals opt Ho Hv. subst v.
    pose proof (optionMeta_present
                  (map (fun opt => {| OptionMeta.value := optionValue opt;
                                      OptionMeta.text := Choice.text opt |})
                       (Question.options q))
                  {| OptionMeta.value := optionValue opt;
                     OptionMeta.text := Choice.text opt |} empty) as Hget.
    rewrite map_map in Hget. cbn [OptionMeta.value] in Hget.
    rewrite Hget.
    + reflexivity.
    + exact Hvals.
    + apply (in_map (fun opt => {| OptionMeta.value := optionValue opt;
                                   OptionMeta.text := Choice.text opt |})).
      exact Ho.
Qed.

End ReportLayout.

End ReportLayout.

(** * The text answers and the analysis *)

Module TextFacts.
Import JS JSFacts PerQuestion LoopFacts ReportFacts TextAnalysis.

(** *** [trim] *)

Lemma trimEnd_head (c : ascii) (s : string) :
  isWhiteSpace c = false -> trimEnd (String c s) = String c (trimEnd s).
Proof.
  intros H. cbn [trimEnd]. rewrite H.
  destruct (trimEnd s); reflexivity.
Qed.

Lemma trimStart_head (s : string) :
  trimStart s = ""
  \/ exists c t, trimStart s = String c t /\ isWhiteSpace c = false.
Proof.
  induction s as [| c s IH]; simpl.
  - left. reflexivity.
  - destruct (isWhiteSpace c) eqn:E.
    + exact IH.
    + right. exists c, s. split; [reflexivity | exact E].
Qed.

Lemma trimEnd_cons (c : ascii) (s : string) :
  trimEnd (String c s)
  = match trimEnd s with
    | EmptyString =>
        if isWhiteSpace c then EmptyString else String c EmptyString
    | String d t => String c (String d t)
    end.
Proof.
  reflexivity.
Qed.

Lemma trimEnd_idempotent (s : string) : trimEnd (trimEnd s) = trimEnd s.
Proof.
  induction s as [| c s IH].
  - reflexivity.
  - rewrite trimEnd_cons. destruct (trimEnd s) as [| d t] eqn:E.
    + destruct (isWhiteSpace c) eqn:Ec.
      * reflexivity.
      * rewrite trimEnd_cons. simpl. rewrite Ec. reflexivity.
    + rewrite trimEnd_cons, IH. reflexivity.
Qed.

Lemma trim_idempotent (s : string) : trim (trim s) = trim s.
Proof.
  unfold trim. destruct (trimStart_head s) as [H | [c [t [H Hc]]]].
  - rewrite H. reflexivity.
  - rewrite H, (@trimEnd_head c t Hc). cbn [trimStart]. rewrite Hc.
    rewrite <- (@trimEnd_head c t Hc). apply trimEnd_idempotent.
Qed.

Lemma trim_nonblank_head (c : ascii) (s : string) :
  isWhiteSpace c = false -> trim (String c s) <> "".
Proof.
  intros H. unfold trim. cbn [trimStart]. rewrite H.
  rewrite (@trimEnd_head c s H). discriminate.
Qed.

(** *** The collection of the texts *)

Section Collect.
Variable NumberToString : number -> string.

Abbreviation answerText := (answerText NumberToString).
Abbreviation collectAnswer := (collectAnswer NumberToString).
Abbreviation textByQuestion := (textByQuestion NumberToString).
Abbreviation collectTextResponses := (collectTextResponses NumberToString).
Abbreviation collected := (collected NumberToString).
Abbreviation textsFor := (textsFor NumberToString).

Lemma answerText_trimmed (v : value) : trim (answerText v) = answerText v.
Proof.
  destruct v; simpl; try reflexivity; apply trim_idempotent.
Qed.

Lemma buildQuestionIdToText_spec (qs : list Question.t) (k t : string) :
  get k (buildQuestionIdToText qs) = Some t ->
  exists q, In q qs /\ Question._id q = k
            /\ Analytics.isTextType (Question.type q) = true
            /\ Question.text q = t.
Proof.
  unfold buildQuestionIdToText.
  assert (forall (l : list Question.t) (acc : omap string),
            (forall q, In q l -> In q qs) ->
            (get k acc = Some t ->
             exists q, In q qs /\ Question._id q = k
                       /\ Analytics.isTextType (Question.type q) = true
                       /\ Question.text q = t) ->
            get k (fold_left
                     (fun m q =>
                        if Analytics.isTextType (Question.type q)
                        then set (Question._id q) (Question.text q) m
                        else m) l acc) = Some t ->
            exists q, In q qs /\ Question._id q = k
                      /\ Analytics.isTextType (Question.type q) = true
                      /\ Question.text q = t) as H.
  { induction l as [| q l IH]; intros acc Hsub Hacc; cbn [fold_left].
    - exact Hacc.
    - apply IH.
      + intros q' Hq'. apply Hsub. right. exact Hq'.
      + destruct (Analytics.isTextType (Question.type q)) eqn:Et;
          [| exact Hacc].
        destruct (string_dec (Question._id q) k) as [E | E].
        * rewrite E, get_set_eq. intros Hg. inversion Hg; subst.
          exists q. repeat split; auto. apply Hsub. left. reflexivity.
        * rewrite get_set_ne by exact E. exact Hacc. }
  apply H.
  - auto.
  - simpl. discriminate.
Qed.

(** The texts of one question after one more answer. *)
Lemma collectAnswer_texts (idx : omap string) (m : omap TextGroup.t)
      (a : Answer.t) (k : string) :
  textsOf k (collectAnswer idx m a)
  = textsOf k m
    ++ (if collected k a && hasText k idx
        then [answerText (Answer.answer a)] else []).
Proof.
  unfold TextAnalysis.collectAnswer, TextAnalysis.collected, hasText, targets.
  destruct (Answer.questionId a) as [qId |];
    [| simpl; rewrite app_nil_r; reflexivity].
  destruct (qId =? "")%string eqn:He;
    [simpl; rewrite app_nil_r; reflexivity |].
  cbn [negb andb].
  destruct (string_dec qId k) as [-> | Hne].
  - rewrite String.eqb_refl. cbn [andb].
    destruct (get k idx) as [qt |];
      [| rewrite andb_false_r, app_nil_r; reflexivity].
    destruct (qt =? "")%string;
      [simpl; rewrite andb_false_r, app_nil_r; reflexivity |].
    destruct (answerText (Answer.answer a) =? "")%string;
      [simpl; rewrite app_nil_r; reflexivity |].
    cbn [negb andb]. unfold textsOf, modify.
    destruct (get k m) as [g |] eqn:Eg.
    + rewrite Eg, get_set_eq. reflexivity.
    + rewrite get_set_eq, get_set_eq. reflexivity.
  - assert ((qId =? k)%string = false) as E by (apply String.eqb_neq; exact Hne).
    rewrite E. cbn [andb]. rewrite app_nil_r.
    destruct (get qId idx) as [qt |]; [| reflexivity].
    destruct (qt =? "")%string; [reflexivity |].
    destruct (answerText (Answer.answer a) =? "")%string; [reflexivity |].
    unfold textsOf, modify.
    destruct (get qId m) as [g |] eqn:Eg.
    + rewrite Eg, get_set_ne by exact Hne. reflexivity.
    + rewrite get_set_eq, !get_set_ne by exact Hne. reflexivity.
Qed.

Lemma collectAnswers_texts (idx : omap string) (k : string)
      (answers : list Answer.t) :
  forall m : omap TextGroup.t,
  textsOf k (fold_left (collectAnswer idx) answers m)
  = textsOf k m
    ++ (if hasText k idx
        then map (fun a => answerText (Answer.answer a))
                 (filter (collected k) answers)
        else []).
Proof.
  induction answers as [| a answers IH]; intros m; cbn [fold_left filter].
  - destruct (hasText k idx); simpl; rewrite app_nil_r; reflexivity.
  - rewrite IH, collectAnswer_texts, <- app_assoc. f_equal.
    destruct (hasText k idx); [| rewrite andb_false_r; reflexivity].
    rewrite andb_true_r. destruct (collected k a); reflexivity.
Qed.

(** The texts collected for a question are the trimmed texts of the
    answers to it, in the order of the responses and of their answers. *)
Lemma textByQuestion_texts (survey : Survey.t) (k : string)
      (rs : list Response.t) :
  textsOf k (textByQuestion survey rs)
  = if hasText k (buildQuestionIdToText (Survey.questions survey))
    then textsFor k rs else [].
Proof.
  unfold TextAnalysis.textByQuestion, TextAnalysis.textsFor.
  set (idx := buildQuestionIdToText (Survey.questions survey)).
  assert (forall (l : list Response.t) (m : omap TextGroup.t),
            textsOf k (fold_left
                         (fun m r => fold_left (collectAnswer idx)
                                               (Response.answers r) m) l m)
            = textsOf k m
              ++ (if hasText k idx
                  then map (fun a => answerText (Answer.answer a))
                           (filter (collected k)
                                   (flat_map Response.answers l))
                  else [])) as H.
  { induction l as [| r l IH]; intros m; cbn [fold_left flat_map].
    - destruct (hasText k idx); simpl; rewrite app_nil_r; reflexivity.
    - rewrite IH, collectAnswers_texts, <- app_assoc. f_equal.
      destruct (hasText k idx); [| reflexivity].
      rewrite filter_app, map_app. reflexivity. }
  rewrite H. reflexivity.
Qed.

Lemma set_app_absent (V : Type) (k : string) (v : V) (m l : omap V) :
  ~ In k (keys m) -> set k v (m ++ l) = m ++ set k v l.
Proof.
  induction m as [| [k' v'] m IH]; simpl; intros H.
  - reflexivity.
  - destruct (String.eqb k k') eqn:E.
    + apply String.eqb_eq in E. subst. tauto.
    + rewrite IH by tauto. reflexivity.
Qed.

(** Every group of [textByQuestion] holds at least one text and belongs
    to a question that has a text. *)
Lemma collectAnswer_groups (idx : omap string) (m : omap TextGroup.t)
      (a : Answer.t) :
  (forall k g, In (k, g) m ->
               TextGroup.answers g <> []
               /\ get k idx = Some (TextGroup.questionText g)
               /\ TextGroup.questionText g <> "") ->
  forall k g, In (k, g) (collectAnswer idx m a) ->
              TextGroup.answers g <> []
              /\ get k idx = Some (TextGroup.questionText g)
              /\ TextGroup.questionText g <> "".
Proof.
  intros Hm k g. unfold TextAnalysis.collectAnswer.
  destruct (Answer.questionId a) as [qId |]; [| apply Hm].
  destruct (qId =? "")%string; [apply Hm |].
  destruct (get qId idx) as [qt |] eqn:Eq; [| apply Hm].
  destruct (qt =? "")%string eqn:Et; [apply Hm |].
  destruct (answerText (Answer.answer a) =? "")%string; [apply Hm |].
  apply String.eqb_neq in Et. unfold modify.
  destruct (get qId m) as [g0 |] eqn:Eg.
  - rewrite Eg. intros Hin. apply set_In in Hin.
    destruct Hin as [[-> ->] | Hin]; [| apply Hm; exact Hin].
    apply get_In in Eg. destruct (Hm qId g0 Eg) as [_ [H2 H3]].
    cbn [TextGroup.push TextGroup.answers TextGroup.questionText].
    split; [| split; assumption].
    destruct (TextGroup.answers g0); discriminate.
  - rewrite get_set_eq. apply get_None_keys in Eg.
    rewrite (set_absent _ _ _ Eg), (set_app_absent _ _ _ _ Eg).
    cbn [set]. rewrite String.eqb_refl, in_app_iff.
    intros [Hin | [Hin | []]]; [apply Hm; exact Hin |].
    inversion Hin; subst.
    cbn [TextGroup.push TextGroup.answers TextGroup.questionText].
    split; [discriminate |]. split; [exact Eq | exact Et].
Qed.

Lemma collectAnswer_NoDup (idx : omap string) (m : omap TextGroup.t)
      (a : Answer.t) :
  NoDup (keys m) -> NoDup (keys (collectAnswer idx m a)).
Proof.
  intros H. unfold TextAnalysis.collectAnswer.
  destruct (Answer.questionId a) as [qId |]; [| exact H].
  destruct (qId =? "")%string; [exact H |].
  destruct (get qId idx) as [qt |]; [| exact H].
  destruct (qt =? "")%string; [exact H |].
  destruct (answerText (Answer.answer a) =? "")%string; [exact H |].
  unfold modify. destruct (get qId m) as [g0 |] eqn:Eg.
  - rewrite Eg. apply set_NoDup. exact H.
  - rewrite get_set_eq. apply set_NoDup. apply set_NoDup. exact H.
Qed.

Lemma textByQuestion_groups (survey : Survey.t) (rs : list Response.t) :
  NoDup (keys (textByQuestion survey rs))
  /\ forall k g, In (k, g) (textByQuestion survey rs) ->
       TextGroup.answers g <> []
       /\ get k (buildQuestionIdToText (Survey.questions survey))
          = Some (TextGroup.questionText g)
       /\ TextGroup.questionText g <> "".
Proof.
  unfold TextAnalysis.textByQuestion.
  set (idx := buildQuestionIdToText (Survey.questions survey)).
  assert (forall (answers : list Answer.t) (m : omap TextGroup.t),
            (NoDup (keys m)
             /\ forall k g, In (k, g) m ->
                  TextGroup.answers g <> []
                  /\ get k idx = Some (TextGroup.questionText g)
                  /\ TextGroup.questionText g <> "") ->
            NoDup (keys (fold_left (collectAnswer idx) answers m))
            /\ forall k g,
                 In (k, g) (fold_left (collectAnswer idx) answers m) ->
                 TextGroup.answers g <> []
                 /\ get k idx = Some (TextGroup.questionText g)
                 /\ TextGroup.questionText g <> "") as Hans.
  { induction answers as [| a answers IH]; intros m [H1 H2]; cbn [fold_left].
    - split; assumption.
    - apply IH. split.
      + apply collectAnswer_NoDup. exact H1.
      + apply collectAnswer_groups. exact H2. }
  assert (forall (l : list Response.t) (m : omap TextGroup.t),
            (NoDup (keys m)
             /\ forall k g, In (k, g) m ->
                  TextGroup.answers g <> []
                  /\ get k idx = Some (TextGroup.questionText g)
                  /\ TextGroup.questionText g <> "") ->
            NoDup (keys (fold_left
                           (fun m r => fold_left (collectAnswer idx)
                                                 (Response.answers r) m)
                           l m))
            /\ forall k g,
                 In (k, g) (fold_left
                              (fun m r => fold_left (collectAnswer idx)
                                                    (Response.answers r) m)
                              l m) ->
                 TextGroup.answers g <> []
                 /\ get k idx = Some (TextGroup.questionText g)
                 /\ TextGroup.questionText g <> "") as Hrs.
  { induction l as [| r l IH]; intros m Hm; cbn [fold_left].
    - exact Hm.
    - apply IH. apply Hans. exact Hm. }
  apply Hrs. split; [constructor | intros k g []].
Qed.

(** X10. What the analysis receives: every element of [textResponses] belongs
    to a short-text or long-text question of the survey and carries its
    text; it holds at least one answer; and every answer it holds is a
    string without surrounding blanks that is not empty. *)
Theorem text_responses_are_trimmed_answers_to_text_questions
        (survey : Survey.t) (rs : list Response.t) (g : TextGroup.t) :
  In g (collectTextResponses survey rs) ->
  TextGroup.answers g <> []
  /\ (forall t, In t (TextGroup.answers g) -> t <> "" /\ trim t = t)
  /\ exists q, In q (Survey.questions survey)
               /\ Analytics.isTextType (Question.type q) = true
               /\ Question.text q = TextGroup.questionText g
               /\ TextGroup.questionText g <> "".
Proof.
  unfold TextAnalysis.collectTextResponses, values. rewrite in_map_iff.
  intros [[k g'] [E Hin]]. simpl in E. subst g'.
  destruct (textByQuestion_groups survey rs) as [Hnd Hg].
  destruct (Hg k g Hin) as [H1 [H2 H3]].
  split; [exact H1 |]. split.
  - intros t Ht.
    pose proof (textByQuestion_texts survey k rs) as Htx.
    unfold textsOf in Htx. rewrite (In_get _ _ _ Hnd Hin) in Htx.
    rewrite Htx in Ht.
    destruct (hasText k (buildQuestionIdToText (Survey.questions survey)));
      [| contradiction].
    unfold TextAnalysis.textsFor in Ht. apply in_map_iff in Ht.
    destruct Ht as [a [<- Ha]]. apply filter_In in Ha.
    destruct Ha as [_ Ha]. unfold TextAnalysis.collected in Ha.
    apply andb_prop in Ha. destruct Ha as [_ Ha].
    apply negb_true_iff in Ha. apply String.eqb_neq in Ha.
    split; [exact Ha | apply answerText_trimmed].
  - apply buildQuestionIdToText_spec in H2.
    destruct H2 as [q [Hq [_ [Ht Htxt]]]].
    exists q. repeat split; assumption.
Qed.

(** *** The texts and the counts of the analytics *)

Variable StringToNumber : string -> number.

Abbreviation getAnalytics := (Analytics.getAnalytics NumberToString StringToNumber).

Lemma collected_hasValue (k : string) (a : Answer.t) :
  collected k a = true ->
  targets k a && Analytics.hasValue (Answer.answer a) = true.
Proof.
  unfold TextAnalysis.collected, TextAnalysis.answerText. intros H.
  apply andb_prop in H. destruct H as [Ht Hv]. rewrite Ht. simpl.
  destruct (Answer.answer a); simpl in *; try reflexivity; try discriminate.
  exact Hv.
Qed.

Lemma filter_length_impl (A : Type) (p q : A -> bool) (l : list A) :
  (forall x, p x = true -> q x = true) ->
  List.length (filter p l) <= List.length (filter q l).
Proof.
  intros H. induction l as [| x l IH]; simpl.
  - lia.
  - destruct (p x) eqn:Ep.
    + rewrite (H x Ep). simpl. lia.
    + destruct (q x); simpl; lia.
Qed.

Lemma textsFor_length (k : string) (rs : list Response.t) :
  List.length (textsFor k rs) <= List.length (valuedAnswers k rs).
Proof.
  unfold TextAnalysis.textsFor, valuedAnswers. rewrite length_map.
  induction rs as [| r rs IH]; cbn [flat_map].
  - simpl. lia.
  - rewrite filter_app, !length_app. unfold valued at 1.
    rewrite length_map.
    pose proof (filter_length_impl (collected k)
                  (fun a => targets k a
                            && Analytics.hasValue (Answer.answer a))
                  (Response.answers r) (collected_hasValue k)) as H.
    lia.
Qed.

Lemma valuedAnswers_completed (k : string) (all : list Response.t) :
  List.length (valuedAnswers k (completedOf all))
  <= List.length (valuedAnswers k all).
Proof.
  unfold valuedAnswers, completedOf.
  induction all as [| r all IH]; cbn [filter flat_map].
  - lia.
  - destruct (Response.isCompleted r); cbn [flat_map];
      rewrite ?length_app; lia.
Qed.

(** X11. The analysis never receives more texts for a question than the
    analytics count answers to it: the texts collected from the completed
    responses for the question of a report entry are at most its
    [totalAnswers]. *)
Theorem texts_at_most_totalAnswers
        (survey : Survey.t) (all : list Response.t)
        (e : QuestionAnalytics.t) :
  In e (Report.questions (getAnalytics survey all)) ->
  List.length
    (textsOf (QuestionAnalytics.questionId e)
             (textByQuestion survey (completedOf all)))
  <= QuestionAnalytics.totalAnswers e.
Proof.
  intros Hin. apply question_entry in Hin.
  destruct Hin as [s [Hs [Hid [Ht _]]]].
  destruct (final_stats_spec NumberToString StringToNumber survey all s Hs)
    as [_ [_ [Htot _]]].
  rewrite Ht, Htot, Hid, textByQuestion_texts.
  destruct (hasText (Stats.questionId s)
                    (buildQuestionIdToText (Survey.questions survey))).
  - eapply Nat.le_trans; [apply textsFor_length |].
    apply valuedAnswers_completed.
  - simpl. lia.
Qed.

End Collect.

End TextFacts.

(** * Around the call to the model *)

Module InsightFacts.
Import JS JSFacts TextFacts Insight.

Lemma join_head (sep : string) (l : list string) (c : ascii) :
  forall s : string,
  exists u,
    fold_left (fun acc t => (acc ++ sep ++ t)%string) l (String c s)
    = String c u.
Proof.
  induction l as [| t l IH]; intros s; cbn [fold_left].
  - exists s. reflexivity.
  - apply (IH (s ++ sep ++ t)%string).
Qed.

Lemma combinedText_head (g : TextGroup.t) (gs : list TextGroup.t) :
  exists u, combinedText (g :: gs) = String "Q" u.
Proof.
  unfold combinedText. cbn [map join]. apply join_head.
Qed.

Lemma no_text_iff (textResponses : list TextGroup.t) :
  nothingToAnalyze textResponses = true <-> textResponses = [].
Proof.
  split.
  - destruct textResponses as [| g gs]; [reflexivity |].
    unfold nothingToAnalyze.
    destruct (combinedText_head g gs) as [u ->]. simpl.
    intros H. apply String.eqb_eq in H. exfalso.
    apply (@trim_nonblank_head "Q"%char u); [reflexivity | exact H].
  - intros ->. reflexivity.
Qed.

(** X12. [analyzeSurveyResponses] asks for the key first: when
    [GOOGLE_API_KEY] is not set or is blank it throws
    'GOOGLE_API_KEY is not configured', whatever the responses are, and
    the model is not called. With a key, the fixed analysis
    'No text-based responses to analyze.' is returned without a call of
    the model exactly when there is no text response; with at least one
    group of text responses the combined text is not blank and the
    outcome is the one of the reply of the model to it. *)
Theorem analysis_needs_a_key_and_text
        (GOOGLE_API_KEY GEMINI_MODEL : option string)
        (surveyTitle : string) (textResponses : list TextGroup.t) :
  (getApiKey GOOGLE_API_KEY = None
   <-> GOOGLE_API_KEY = None
       \/ exists s, GOOGLE_API_KEY = Some s /\ trim s = "")
  /\ (getApiKey GOOGLE_API_KEY = None ->
      forall ask,
        analyzeSurveyResponses ask GOOGLE_API_KEY GEMINI_MODEL
                               surveyTitle textResponses
        = NotConfigured)
  /\ (forall apiKey,
        getApiKey GOOGLE_API_KEY = Some apiKey ->
        ((forall ask,
            analyzeSurveyResponses ask GOOGLE_API_KEY GEMINI_MODEL
                                   surveyTitle textResponses
            = Returns noText)
         <-> textResponses = [])
        /\ (textResponses <> [] ->
            trim (combinedText textResponses) <> ""
            /\ forall ask,
                 analyzeSurveyResponses ask GOOGLE_API_KEY GEMINI_MODEL
                                        surveyTitle textResponses
                 = fromReply
                     (ask apiKey
                          (Analytics.or_else GEMINI_MODEL "gemini-2.5-flash")
                          surveyTitle (combinedText textResponses)))).
Proof.
  split; [| split].
  - unfold getApiKey. destruct GOOGLE_API_KEY as [s |].
    + destruct (s =? "")%string eqn:E1.
      * apply String.eqb_eq in E1. subst s. simpl. split.
        -- intros _. right. exists "". split; reflexivity.
        -- reflexivity.
      * destruct (trim s =? "")%string eqn:E2; simpl.
        -- apply String.eqb_eq in E2. split.
           ++ intros _. right. exists s. split; [reflexivity | exact E2].
           ++ reflexivity.
        -- apply String.eqb_neq in E2. split.
           ++ discriminate.
           ++ intros [H | [s' [H H']]]; [discriminate |].
              inversion H; subst. contradiction.
    + split; [intros _; left |]; reflexivity.
  - intros H ask. unfold analyzeSurveyResponses. rewrite H. reflexivity.
  - intros apiKey H. unfold analyzeSurveyResponses. rewrite H. split.
    + split.
      * intros Hall. apply no_text_iff.
        destruct (nothingToAnalyze textResponses); [reflexivity |].
        specialize (Hall (fun _ _ _ _ => Failed)). discriminate.
      * intros -> ask. reflexivity.
    + intros Hne.
      assert (nothingToAnalyze textResponses = false) as E.
      { destruct (nothingToAnalyze textResponses) eqn:E; [| reflexivity].
        apply no_text_iff in E. contradiction. }
      rewrite E. split; [| reflexivity].
      intros C. unfold nothingToAnalyze in E. rewrite C in E.
      rewrite orb_true_r in E. discriminate.
Qed.

Lemma strings_map (l : list string) : strings (map JString l) = l.
Proof.
  induction l as [| x l IH]; simpl; [| rewrite IH]; reflexivity.
Qed.

Lemma sentiment_known (s : string) :
  existsb (String.eqb s) sentiments = true <-> In s sentiments.
Proof.
  rewrite existsb_exists. split.
  - intros [x [Hx E]]. apply String.eqb_eq in E. subst. exact Hx.
  - intros H. exists s. split; [exact H | apply String.eqb_refl].
Qed.

(** X13. Whatever the model replies, the analysis that is stored has one of
    the three sentiments of the schema and at most five insights; reading
    the reply fails only when it is [null]; and a reply that already is
    such an analysis is stored as it is. *)
Theorem normalized_analysis_fits_the_schema (parsed : json) :
  (normalize parsed = None <-> parsed = JNull)
  /\ (forall a, normalize parsed = Some a ->
                In (sentiment a) sentiments
                /\ List.length (insights a) <= 5)
  /\ (forall a, In (sentiment a) sentiments ->
                List.length (insights a) <= 5 ->
                normalize (toJson a) = Some a).
Proof.
  split; [| split].
  - destruct parsed; simpl; split; intros H; try discriminate; reflexivity.
  - intros a Ha.
    assert (a = {| summary :=
                     match property "summary" parsed with
                     | Some (JString s) => s
                     | _ => "Summary unavailable."
                     end;
                   sentiment :=
                     match property "sentiment" parsed with
                     | Some (JString s) =>
                         if existsb (String.eqb s) sentiments
                         then s else "Neutral"
                     | _ => "Neutral"
                     end;
                   insights :=
                     match property "insights" parsed with
                     | Some (JArray l) => firstn 5 (strings l)
                     | _ => []
                     end |}) as ->.
    { destruct parsed; simpl in Ha; inversion Ha; reflexivity. }
    cbn [sentiment insights]. split.
    + destruct (property "sentiment" parsed) as [[| | | s | |] |];
        try (simpl; tauto).
      destruct (existsb (String.eqb s) sentiments) eqn:E.
      * apply sentiment_known. exact E.
      * simpl. tauto.
    + destruct (property "insights" parsed) as [[| | | | l |] |];
        try (simpl; lia).
      apply firstn_le_length.
  - intros a Hs Hi. destruct a as [sm st ins]. cbn [sentiment insights] in *.
    unfold toJson, normalize. cbn [summary sentiment insights property get].
    simpl String.eqb. cbn iota.
    apply sentiment_known in Hs. rewrite Hs, strings_map.
    rewrite firstn_all2 by exact Hi. reflexivity.
Qed.

End InsightFacts.

(** * Publishing and sharing *)

Module SharingFacts.
Import Sharing.

(** *** The generated links *)

Lemma hexDigit_alphanumeric (n : nat) :
  n < 16 -> isAlphaNumeric (hexDigit n) = true.
Proof.
  intros H.
  do 16 (destruct n as [| n]; [reflexivity |]). lia.
Qed.

Lemma nat_of_ascii_bound (c : ascii) : nat_of_ascii c < 256.
Proof.
  destruct c as [[] [] [] [] [] [] [] []]; vm_compute; lia.
Qed.

Lemma toHex_length (bytes : list ascii) :
  String.length (toHex bytes) = 2 * List.length bytes.
Proof.
  induction bytes as [| b bytes IH]; simpl; [| rewrite IH]; lia.
Qed.

Lemma toHex_alphanumeric (bytes : list ascii) :
  forallb isAlphaNumeric (list_ascii_of_string (toHex bytes)) = true.
Proof.
  induction bytes as [| b bytes IH]; cbn [toHex list_ascii_of_string forallb].
  - reflexivity.
  - pose proof (nat_of_ascii_bound b) as Hb.
    assert (nat_of_ascii b / 16 < 16) as Hd
      by (apply Nat.Div0.div_lt_upper_bound; lia).
    assert (nat_of_ascii b mod 16 < 16) as Hm
      by (apply Nat.mod_upper_bound; lia).
    rewrite (hexDigit_alphanumeric Hd), (hexDigit_alphanumeric Hm), IH.
    reflexivity.
Qed.

Lemma toHex_valid (bytes : list ascii) :
  List.length bytes = 6 -> validLink (toHex bytes) = true.
Proof.
  intros H. unfold validLink.
  rewrite toHex_length, H, toHex_alphanumeric. reflexivity.
Qed.

Lemma generateLink_Some (randomBytes : nat -> list ascii)
      (taken : string -> bool) (fuel : nat) :
  forall (attempts : nat) (l : string),
  generateLink randomBytes taken fuel attempts = Some l ->
  exists i,
    attempts <= i < attempts + fuel
    /\ l = toHex (randomBytes i)
    /\ taken l = false
    /\ forall j, attempts <= j < i -> taken (toHex (randomBytes j)) = true.
Proof.
  induction fuel as [| fuel IH]; intros attempts l; cbn [generateLink].
  - discriminate.
  - destruct (taken (toHex (randomBytes attempts))) eqn:E.
    + intros H. apply IH in H. destruct H as [i [Hi [Hl [Ht Hj]]]].
      exists i. split; [lia |]. split; [exact Hl |]. split; [exact Ht |].
      intros j Hj'. destruct (Nat.eq_dec j attempts) as [-> | Hne].
      * exact E.
      * apply Hj. lia.
    + intros H. inversion H; subst. exists attempts.
      split; [lia |]. split; [reflexivity |]. split; [exact E |].
      intros j Hj. lia.
Qed.

Lemma generateLink_None (randomBytes : nat -> list ascii)
      (taken : string -> bool) (fuel : nat) :
  forall attempts : nat,
  generateLink randomBytes taken fuel attempts = None
  <-> forall j, attempts <= j < attempts + fuel ->
                taken (toHex (randomBytes j)) = true.
Proof.
  induction fuel as [| fuel IH]; intros attempts; cbn [generateLink].
  - split; [intros _ j Hj; lia | reflexivity].
  - destruct (taken (toHex (randomBytes attempts))) eqn:E.
    + rewrite IH. split.
      * intros H j Hj. destruct (Nat.eq_dec j attempts) as [-> | Hne].
        -- exact E.
        -- apply H. lia.
      * intros H j Hj. apply H. lia.
    + split; [discriminate |]. intros H.
      rewrite H in E by lia. discriminate.
Qed.

Lemma toHex_nonempty (bytes : list ascii) :
  List.length bytes = 6 -> (toHex bytes =? "")%string = false.
Proof.
  destruct bytes as [| b bytes]; [discriminate |]. reflexivity.
Qed.

(** What the pre-save middleware does: it saves the survey as it is, or
    it gives a published survey without a link the first free candidate. *)
Lemma preSave_cases (randomBytes : nat -> list ascii)
      (taken : string -> bool) (doc : SurveyDoc.t) :
  (forall i, List.length (randomBytes i) = 6) ->
  (preSave randomBytes taken doc = doc
   /\ (status doc = "published" -> hasLink doc = false ->
       forall j, j < 10 -> taken (toHex (randomBytes j)) = true))
  \/ (status doc = "published"
      /\ hasLink doc = false
      /\ exists l i,
           preSave randomBytes taken doc = SurveyDoc.with_link l doc
           /\ i < 10
           /\ l = toHex (randomBytes i)
           /\ taken l = false
           /\ (forall j, j < i -> taken (toHex (randomBytes j)) = true)
           /\ String.length l = 12
           /\ validLink l = true
           /\ hasLink (SurveyDoc.with_link l doc) = true).
Proof.
  intros Hlen. unfold preSave.
  destruct (status doc =? "published")%string eqn:Est; cbn [andb].
  2:{ left. split; [reflexivity |]. intros H.
      apply String.eqb_eq in H. congruence. }
  destruct (hasLink doc) eqn:Eh; cbn [negb].
  { left. split; [reflexivity |]. discriminate. }
  destruct (generateLink randomBytes taken 10 0) as [l |] eqn:E.
  - right. apply String.eqb_eq in Est. split; [exact Est |].
    split; [reflexivity |].
    apply generateLink_Some in E. destruct E as [i [Hi [Hl [Ht Hj]]]].
    exists l, i. split; [reflexivity |]. split; [lia |].
    split; [exact Hl |]. split; [exact Ht |].
    split; [intros j Hj'; apply Hj; lia |].
    subst l. split; [| split].
    + rewrite toHex_length, Hlen. reflexivity.
    + apply toHex_valid. apply Hlen.
    + unfold hasLink. cbn [SurveyDoc.with_link SurveyDoc.shareableLink].
      rewrite toHex_nonempty by apply Hlen. reflexivity.
  - left. split; [reflexivity |]. intros _ _ j Hj.
    apply (proj1 (generateLink_None _ _ 10 0) E). lia.
Qed.

(** X14. The pre-save middleware and the link of a survey. A survey that has a
    link, or that is not published, is saved as it is: a link is never
    replaced. A link the middleware assigns is the first of at most ten
    generated candidates that no survey holds; it is made of twelve
    hexadecimal digits and passes the validator of the schema. A published
    survey is left without a link only when all ten candidates are
    taken. *)
Theorem preSave_assigns_fresh_valid_links
        (randomBytes : nat -> list ascii) (taken : string -> bool)
        (doc : SurveyDoc.t) :
  (forall i, List.length (randomBytes i) = 6) ->
  (hasLink doc = true -> preSave randomBytes taken doc = doc)
  /\ (status doc <> "published" -> preSave randomBytes taken doc = doc)
  /\ (hasLink doc = false ->
      hasLink (preSave randomBytes taken doc) = true ->
      exists l i,
        SurveyDoc.shareableLink (preSave randomBytes taken doc) = Some l
        /\ i < 10
        /\ l = toHex (randomBytes i)
        /\ taken l = false
        /\ (forall j, j < i -> taken (toHex (randomBytes j)) = true)
        /\ String.length l = 12
        /\ validLink l = true)
  /\ (status doc = "published" -> hasLink doc = false ->
      (hasLink (preSave randomBytes taken doc) = false
       <-> forall j, j < 10 -> taken (toHex (randomBytes j)) = true)).
Proof.
  intros Hlen.
  destruct (preSave_cases randomBytes taken doc Hlen)
    as [[Hsame Hall]
       | [Hpub [Hno [l [i [Hsv [Hi [Hl [Ht [Hj [Hlen' [Hv Hhas]]]]]]]]]]]].
  - rewrite Hsame. split; [reflexivity |]. split; [reflexivity |].
    split; [intros H H'; congruence |].
    intros Hpub Hno. split; [intros _; exact (Hall Hpub Hno) |].
    intros _. exact Hno.
  - rewrite Hsv. split; [intros H; congruence |].
    split; [intros H; contradiction |].
    split.
    + intros _ _. exists l, i. repeat split; assumption.
    + intros _ _. rewrite Hhas. split; [discriminate |].
      intros Hall. rewrite Hl, (Hall i Hi) in Ht. discriminate.
Qed.

Lemma preSave_status (randomBytes : nat -> list ascii)
      (taken : string -> bool) (doc : SurveyDoc.t) :
  status (preSave randomBytes taken doc) = status doc.
Proof.
  unfold preSave.
  destruct ((status doc =? "published")%string && negb (hasLink doc));
    [| reflexivity].
  destruct (generateLink randomBytes taken 10 0); reflexivity.
Qed.

(** X15. [publishSurvey]. A success carries a published survey with a link:
    the link the survey had, or else a generated one that passes the
    validator of the schema and that no survey held. A refusal with 404,
    403 or 400 leaves the document of the collection untouched; the
    refusal with 500 happens exactly after ten taken candidates and
    leaves the survey published without a link. *)
Theorem publishSurvey_outcomes
        (found : option SurveyDoc.t) (userId : string)
        (randomBytes : nat -> list ascii) (taken : string -> bool) :
  (forall i, List.length (randomBytes i) = 6) ->
  (forall doc',
     fst (publishSurvey found userId randomBytes taken) = Published doc' ->
     snd (publishSurvey found userId randomBytes taken) = Some doc'
     /\ status doc' = "published"
     /\ hasLink doc' = true
     /\ exists doc,
          found = Some doc
          /\ SurveyDoc.createdBy doc = userId
          /\ Survey.questions (SurveyDoc.survey doc) <> []
          /\ (hasLink doc = true ->
              SurveyDoc.shareableLink doc' = SurveyDoc.shareableLink doc)
          /\ (hasLink doc = false ->
              exists l, SurveyDoc.shareableLink doc' = Some l
                        /\ validLink l = true /\ taken l = false))
  /\ (forall message code,
        fst (publishSurvey found userId randomBytes taken)
        = Refused message code ->
        code <> 500 ->
        snd (publishSurvey found userId randomBytes taken) = found)
  /\ (forall message,
        fst (publishSurvey found userId randomBytes taken)
        = Refused message 500 ->
        exists doc,
          found = Some doc
          /\ snd (publishSurvey found userId randomBytes taken)
             = Some (SurveyDoc.with_status "published" doc)
          /\ hasLink doc = false
          /\ forall j, j < 10 -> taken (toHex (randomBytes j)) = true).
Proof.
  intros Hlen. unfold publishSurvey.
  destruct found as [doc |]; cbn [fst snd].
  2:{ split; [intros doc' H; discriminate |]. split.
      - intros m c _ _. reflexivity.
      - intros m H. inversion H. }
  destruct (SurveyDoc.createdBy doc =? userId)%string eqn:Eo; cbn [negb].
  2:{ cbn [fst snd]. split; [intros doc' H; discriminate |]. split.
      - intros m c _ _. reflexivity.
      - intros m H. inversion H. }
  destruct (Survey.questions (SurveyDoc.survey doc)) as [| q qs] eqn:Eq;
    cbn [List.length Nat.eqb].
  { cbn [fst snd]. split; [intros doc' H; discriminate |]. split.
    - intros m c _ _. reflexivity.
    - intros m H. inversion H. }
  set (pub := SurveyDoc.with_status "published" doc).
  assert (status pub = "published") as Hst by reflexivity.
  assert (hasLink pub = hasLink doc) as Hl by reflexivity.
  destruct (preSave_cases randomBytes taken pub Hlen)
    as [[Hsame Hall]
       | [_ [Hp [l [i [Hsv [_ [_ [Ht [_ [_ [Hv Hhas]]]]]]]]]]]].
  - rewrite Hsame. destruct (hasLink pub) eqn:Ep; cbn [negb fst snd].
    + split; [| split].
      * intros doc' H. inversion H; subst doc'. clear H.
        split; [reflexivity |]. split; [exact Hst |].
        split; [exact Ep |]. exists doc. split; [reflexivity |].
        split; [apply String.eqb_eq; exact Eo |].
        split; [rewrite Eq; discriminate |].
        split; [intros _; reflexivity |].
        intros Hd. rewrite <- Hl in Hd. congruence.
      * intros m c H. discriminate.
      * intros m H. discriminate.
    + split; [intros doc' H; discriminate |]. split.
      * intros m c H Hc. inversion H; subst. contradiction.
      * intros m _. exists doc. split; [reflexivity |].
        split; [reflexivity |]. split; [symmetry; exact Hl |].
        exact (Hall Hst eq_refl).
  - rewrite Hsv, Hhas. cbn [negb fst snd]. split; [| split].
    + intros doc' H. inversion H; subst doc'. clear H.
      split; [reflexivity |]. split; [exact Hst |].
      split; [exact Hhas |]. exists doc. split; [reflexivity |].
      split; [apply String.eqb_eq; exact Eo |].
      split; [rewrite Eq; discriminate |].
      split; [intros Hd; rewrite <- Hl in Hd; congruence |].
      intros _. exists l. split; [reflexivity |].
      split; [exact Hv | exact Ht].
    + intros m c H. discriminate.
    + intros m H. discriminate.
Qed.

(** *** The QR code *)

(** X16. [getSurveyQRCode] goes on to generate a code exactly for the owner of
    a survey that can accept responses and has a link; every other
    request is answered with an error before anything is generated. *)
Theorem qr_code_served_iff_owner_and_accepting
        (found : option SurveyDoc.t) (userId : string) (now : Z)
        (FRONTEND_URL : option string) :
  (exists url disposition,
     getSurveyQRCode found userId now FRONTEND_URL = SendPng url disposition)
  <-> exists doc,
        found = Some doc
        /\ SurveyDoc.createdBy doc = userId
        /\ canAcceptResponses doc now = true
        /\ hasLink doc = true.
Proof.
  unfold getSurveyQRCode, canAcceptResponses, hasLink. split.
  - intros [url [d H]]. destruct found as [doc |]; [| discriminate].
    exists doc. split; [reflexivity |].
    destruct (SurveyDoc.createdBy doc =? userId)%string eqn:Eo;
      [| discriminate].
    apply String.eqb_eq in Eo. split; [exact Eo |]. cbn [negb] in H.
    destruct (status doc =? "published")%string; [| discriminate].
    cbn [negb andb] in *.
    destruct (SurveyDoc.expiresAt doc) as [t |].
    + destruct (t <=? now)%Z eqn:Et; [discriminate |].
      apply Z.leb_gt in Et. split; [apply Z.ltb_lt; exact Et |].
      destruct (SurveyDoc.shareableLink doc) as [l |]; [| discriminate].
      destruct (l =? "")%string; [discriminate | reflexivity].
    + split; [reflexivity |].
      destruct (SurveyDoc.shareableLink doc) as [l |]; [| discriminate].
      destruct (l =? "")%string; [discriminate | reflexivity].
  - intros [doc [-> [Ho [Hc Hl]]]]. apply String.eqb_eq in Ho. rewrite Ho.
    apply andb_prop in Hc. destruct Hc as [Hs He]. rewrite Hs.
    cbn [negb].
    destruct (SurveyDoc.shareableLink doc) as [l |]; [| discriminate].
    apply negb_true_iff in Hl. rewrite Hl.
    destruct (SurveyDoc.expiresAt doc) as [t |].
    + apply Z.ltb_lt in He.
      assert ((t <=? now)%Z = false) as Et by (apply Z.leb_gt; exact He).
      rewrite Et. eexists. eexists. reflexivity.
    + eexists. eexists. reflexivity.
Qed.

Lemma sanitize_length (s : string) :
  String.length (sanitize s) = String.length s.
Proof.
  induction s as [| c s IH]; simpl; [| rewrite IH]; reflexivity.
Qed.

Lemma sanitize_safe (s : string) :
  forallb isFileChar (list_ascii_of_string (sanitize s)) = true.
Proof.
  induction s as [| c s IH]; cbn [sanitize list_ascii_of_string forallb].
  - reflexivity.
  - rewrite IH, andb_true_r.
    destruct (isFileChar c) eqn:E; [exact E | reflexivity].
Qed.

Lemma sanitize_fixed (s : string) :
  forallb isFileChar (list_ascii_of_string s) = true -> sanitize s = s.
Proof.
  induction s as [| c s IH]; cbn [sanitize list_ascii_of_string forallb].
  - reflexivity.
  - intros H. apply andb_prop in H. destruct H as [Hc Hs].
    rewrite Hc, IH by exact Hs. reflexivity.
Qed.

(** X17. The file name of the [Content-Disposition] header is the title of the
    survey, character for character, with an underscore in place of every
    character that is not a letter, a digit, a dash, an underscore or a
    dot: no quote, no separator and no control character reaches the
    header. A title made of such characters is kept as it is. *)
Theorem qr_file_name_is_safe (title : string) :
  title <> "" ->
  exists name,
    fileName title = ("survey-qr-" ++ name ++ ".png")%string
    /\ contentDisposition title
       = ("inline; filename=" ++ DQUOTE
          ++ ("survey-qr-" ++ name ++ ".png") ++ DQUOTE)%string
    /\ String.length name = String.length title
    /\ forallb isFileChar (list_ascii_of_string name) = true
    /\ (forallb isFileChar (list_ascii_of_string title) = true ->
        name = title).
Proof.
  intros Ht. apply String.eqb_neq in Ht.
  exists (sanitize title). unfold contentDisposition, fileName. rewrite Ht.
  split; [reflexivity |]. split; [reflexivity |].
  split; [apply sanitize_length |]. split; [apply sanitize_safe |].
  apply sanitize_fixed.
Qed.

Lemma strip_append_slash (s : string) :
  stripTrailingSlashes (s ++ "/") = stripTrailingSlashes s.
Proof.
  induction s as [| c s IH]; cbn [append stripTrailingSlashes].
  - reflexivity.
  - rewrite IH. reflexivity.
Qed.

Lemma strip_no_trailing_slash (s : string) :
  forall v : string, stripTrailingSlashes s <> (v ++ "/")%string.
Proof.
  induction s as [| c s IH]; intros v; cbn [stripTrailingSlashes].
  - destruct v; discriminate.
  - destruct (stripTrailingSlashes s) as [| d t] eqn:E.
    + destruct (c =? "/")%char eqn:Ec.
      * destruct v; discriminate.
      * destruct v as [| e v]; simpl.
        -- intros H. inversion H; subst.
           rewrite Ascii.eqb_refl in Ec. discriminate.
        -- intros H. inversion H. destruct v; discriminate.
    + destruct v as [| e v]; simpl.
      * intros H. inversion H.
      * intros H. inversion H; subst. apply (IH v). assumption.
Qed.

(** X18. The URL of the QR code does not depend on the slashes that end
    [FRONTEND_URL], and the base it is built on never ends with a
    slash: the URL holds no doubled slash before [survey]. *)
Theorem survey_url_ignores_trailing_slashes
        (base link : string) (FRONTEND_URL : option string) :
  base <> "" ->
  surveyUrl (Some (base ++ "/")%string) link = surveyUrl (Some base) link
  /\ forall v : string,
       stripTrailingSlashes (frontendBase FRONTEND_URL) <> (v ++ "/")%string.
Proof.
  intros Hb. split.
  - unfold surveyUrl, frontendBase.
    apply String.eqb_neq in Hb. rewrite Hb.
    assert (((base ++ "/") =? "")%string = false) as E.
    { apply String.eqb_neq. destruct base; discriminate. }
    rewrite E, strip_append_slash. reflexivity.
  - apply strip_no_trailing_slash.
Qed.

(** X26. The two handlers of the QR code agree: asked for the survey that holds
    a link, [getSurveyQRCodeByShareableLink] replies what [getSurveyQRCode]
    replies for that survey. *)
Theorem qr_by_link_agrees
        (surveys : list SurveyDoc.t) (link userId : string) (now : Z)
        (FRONTEND_URL : option string) :
  link <> "" ->
  getSurveyQRCodeByShareableLink surveys link userId now FRONTEND_URL
  = getSurveyQRCode (findOneByLink surveys link) userId now FRONTEND_URL.
Proof.
  intros Hne. unfold getSurveyQRCodeByShareableLink, getSurveyQRCode.
  destruct (findOneByLink surveys link) as [doc |] eqn:Ef; [| reflexivity].
  unfold findOneByLink in Ef. apply find_some in Ef. destruct Ef as [_ Hl].
  destruct (SurveyDoc.shareableLink doc) as [l |]; [| discriminate].
  apply String.eqb_eq in Hl. subst l.
  apply String.eqb_neq in Hne. rewrite Hne. reflexivity.
Qed.

End SharingFacts.

(** * The distribution of a rating question and the percentages *)

Module RatingFacts.
Import JS JSFacts PerQuestion LoopFacts ReportFacts Layout.

Lemma positive_sub_Fin (x y : Q) :
  positive (sub (Fin x) (Fin y)) = negb (Qle_bool x y).
Proof.
  unfold positive, sub. f_equal.
  destruct (Qle_bool x y) eqn:E.
  - apply Qle_bool_iff. rewrite Qred_correct. apply Qle_bool_iff in E.
    unfold Qle, Qminus, Qplus, Qopp in *. simpl in *. lia.
  - destruct (Qle_bool (Qred (x - y)) 0) eqn:E'; [| reflexivity].
    apply Qle_bool_iff in E'. rewrite Qred_correct in E'.
    assert (Qle_bool x y = true) as C.
    { apply Qle_bool_iff.
      unfold Qle, Qminus, Qplus, Qopp in *. simpl in *. lia. }
    congruence.
Qed.

Lemma le_trans (a b c : number) :
  le a b = true -> le b c = true -> le a c = true.
Proof.
  destruct a as [| x], b as [| y], c as [| z]; simpl; try discriminate.
  rewrite !Qle_bool_iff. apply Qle_trans.
Qed.

(** Sorting by a key that is a number. *)
Section SortByNumber.
Variable A : Type.
Variable key : A -> number.

Abbreviation cmp := (fun a b : A => sub (key a) (key b)).
Abbreviation ascending := (fun a b : A => le (key a) (key b) = true).

Lemma insert_ascending (x : A) (l : list A) :
  isNaN (key x) = false ->
  Forall (fun y => isNaN (key y) = false) l ->
  StronglySorted ascending l ->
  StronglySorted ascending (insert cmp x l).
Proof.
  intros Hx Hl Hs. induction Hs as [| y l Hs IH Hy]; simpl.
  - constructor; constructor.
  - inversion Hl as [| ? ? Hy0 Hl0]; subst.
    assert (exists qx, key x = Fin qx) as [qx Ex]
      by (destruct (key x); [discriminate | eauto]).
    assert (exists qy, key y = Fin qy) as [qy Ey]
      by (destruct (key y); [discriminate | eauto]).
    rewrite Ex, Ey, positive_sub_Fin.
    destruct (Qle_bool qx qy) eqn:E; simpl.
    + constructor.
      * constructor; assumption.
      * constructor.
        -- rewrite Ex, Ey. exact E.
        -- eapply Forall_impl; [| exact Hy]. simpl. intros z Hz.
           apply (@le_trans _ (key y)); [| exact Hz].
           rewrite Ex, Ey. exact E.
    + constructor.
      * apply IH. exact Hl0.
      * apply Forall_forall. intros z Hz.
        apply (Permutation_in _ (insert_perm cmp x l)) in Hz.
        destruct Hz as [<- | Hz].
        -- rewrite Ex, Ey. simpl. apply Qle_bool_iff.
           apply Qlt_le_weak. apply Qnot_le_lt. intros C.
           apply Qle_bool_iff in C. congruence.
        -- rewrite Forall_forall in Hy. apply Hy. exact Hz.
Qed.

Lemma sort_ascending (l : list A) :
  Forall (fun y => isNaN (key y) = false) l ->
  StronglySorted ascending (sort cmp l).
Proof.
  induction l as [| x l IH]; intros H; simpl.
  - constructor.
  - inversion H; subst. apply insert_ascending.
    + assumption.
    + apply Forall_forall. intros y Hy. apply sort_In in Hy.
      rewrite Forall_forall in H. apply H. right. exact Hy.
    + apply IH. assumption.
Qed.

End SortByNumber.

(** *** The percentage of a row *)

Lemma percentage_bounds (count total : nat) :
  1 <= count -> 1 <= total ->
  exists q, Analytics.percentage count total = Fin q
            /\ (0 < q)%Q
            /\ (count <= total -> (q <= 100)%Q).
Proof.
  intros Hc Ht. unfold Analytics.percentage.
  destruct (total =? 0)%nat eqn:E; [apply Nat.eqb_eq in E; lia |].
  unfold of_nat, of_Z, div, mul.
  destruct (Qeq_bool (inject_Z (Z.of_nat total)) 0) eqn:Ez.
  { apply Qeq_bool_eq in Ez. unfold Qeq in Ez. simpl in Ez. lia. }
  eexists. split; [reflexivity |].
  rewrite !Qred_correct.
  assert (0 < inject_Z (Z.of_nat total))%Q as Hpos.
  { unfold Qlt. simpl. lia. }
  split.
  - apply Qmult_lt_0_compat; [| reflexivity].
    apply Qlt_shift_div_l; [exact Hpos |].
    rewrite Qmult_0_l. unfold Qlt. simpl. lia.
  - intros Hle.
    setoid_replace (100 : Q) with (1 * inject_Z 100)%Q at 2 by reflexivity.
    apply Qmult_le_compat_r; [| discriminate].
    apply Qle_shift_div_r; [exact Hpos |].
    rewrite Qmult_1_l. unfold Qle. simpl. lia.
Qed.

Section Ratings.
Variable NumberToString : number -> string.
Variable StringToNumber : string -> number.

Abbreviation ToNumber := (JS.ToNumber NumberToString StringToNumber).
Abbreviation getAnalytics := (Analytics.getAnalytics NumberToString StringToNumber).
Abbreviation numeric := (numeric NumberToString StringToNumber).
Abbreviation ratingKey := (ratingKey NumberToString StringToNumber).
Abbreviation ratings := (ratings NumberToString StringToNumber).

Lemma ratingRow_In (total : nat) (counts : omap nat) (row : RatingRow.t) :
  In row (sort Analytics.byValue
               (map (Analytics.ratingRow StringToNumber total) counts)) ->
  exists v n,
    In (v, n) counts
    /\ row = Analytics.ratingRow StringToNumber total (v, n).
Proof.
  intros H. apply sort_In in H. apply in_map_iff in H.
  destruct H as [[v n] [E Hin]]. exists v, n. split; [exact Hin |].
  symmetry. exact E.
Qed.

Lemma tally_entry (l : list string) (v : string) (n : nat) :
  In (v, n) (tallyOf l []) ->
  In v l /\ n = occurrences v l /\ 1 <= n.
Proof.
  intros Hvn.
  assert (NoDup (keys (tallyOf l []))) as Hnd
    by (apply tallyOf_NoDup; constructor).
  assert (In v l) as Hv.
  { assert (In v (keys (tallyOf l []))) as Hk
      by (change v with (fst (v, n)); apply in_map; exact Hvn).
    rewrite tallyOf_keys in Hk.
    rewrite (ReportLayout.firstSeen_In NumberToString StringToNumber) in Hk.
    destruct Hk as [[] | Hk]. exact Hk. }
  assert (n = occurrences v l) as Hn.
  { pose proof (tallyOf_countAt v l []) as Hc.
    unfold countAt in Hc. rewrite (In_get _ _ _ Hnd Hvn) in Hc.
    simpl in Hc. exact Hc. }
  split; [exact Hv |]. split; [exact Hn |]. rewrite Hn.
  unfold occurrences.
  apply (proj1 (count_occ_In string_dec l v)) in Hv. lia.
Qed.

Lemma ratings_In (k : string) (rs : list Response.t) (key : string) :
  In key (ratings k rs) ->
  exists v, In v (valuedAnswers k rs) /\ numeric v = true
            /\ key = ratingKey v.
Proof.
  unfold PerQuestion.ratings. rewrite in_map_iff.
  intros [v [E Hv]]. apply filter_In in Hv. destruct Hv as [Hv Hn].
  exists v. split; [exact Hv |]. split; [exact Hn |]. symmetry. exact E.
Qed.

Lemma ratings_length (k : string) (rs : list Response.t) :
  List.length (ratings k rs) <= List.length (valuedAnswers k rs).
Proof.
  unfold PerQuestion.ratings. rewrite length_map. apply filter_length_le.
Qed.

Lemma tally_closed_form (l : list string) :
  tallyOf l [] = map (fun key => (key, occurrences key l)) (firstSeen l).
Proof.
  assert (keys (tallyOf l []) = firstSeen l) as Hk
    by (rewrite tallyOf_keys; reflexivity).
  rewrite <- Hk.
  assert (forall kv, In kv (tallyOf l []) ->
                     snd kv = occurrences (fst kv) l) as Hn.
  { intros [key n] Hin. apply tally_entry in Hin. simpl. tauto. }
  revert Hn. generalize (tallyOf l []). clear Hk.
  induction o as [| [key n] m IH]; intros Hn; simpl.
  - reflexivity.
  - pose proof (Hn (key, n) (or_introl eq_refl)) as E. simpl in E.
    rewrite <- E. f_equal.
    apply IH. intros kv Hkv. apply Hn. right. exact Hkv.
Qed.

Lemma firstSeen_NoDup (l : list string) : NoDup (firstSeen l).
Proof.
  replace (firstSeen l) with (keys (tallyOf l []))
    by (rewrite tallyOf_keys; reflexivity).
  apply tallyOf_NoDup. constructor.
Qed.

Lemma NoDup_map_on (A B : Type) (f : A -> B) (l : list A) :
  (forall x y, In x l -> In y l -> f x = f y -> x = y) ->
  NoDup l -> NoDup (map f l).
Proof.
  intros Hinj Hnd. induction Hnd as [| x l Hx Hnd IH]; simpl.
  - constructor.
  - constructor.
    + intros Hin. apply in_map_iff in Hin. destruct Hin as [y [E Hy]].
      assert (y = x) as ->
        by (apply Hinj; [right; exact Hy | left; reflexivity | exact E]).
      contradiction.
    + apply IH. intros a b Ha Hb. apply Hinj; right; assumption.
Qed.

(** X8. The distribution of a rating question holds exactly one row for
    each string that [String] prints for the numbers the answers turn
    into: the rows, as pairs of a value and a count, are a permutation
    of these strings read by [Number], each with the number of answers
    that print as it. Hence every answer that is a number has its row,
    no row has a zero count, no count exceeds [totalAnswers], and the
    percentage of a row is that of its count. When [Number] reads back
    the numbers [String] prints for the answers, the rows are in
    ascending order of their values and no two rows have the same
    value. *)
Theorem rating_distribution
        (survey : Survey.t) (rs : list Response.t)
        (e : QuestionAnalytics.t) (rows : list RatingRow.t) :
  In e (Report.questions (getAnalytics survey rs)) ->
  QuestionAnalytics.payload e = KRating rows ->
  (forall row,
     In row rows ->
     1 <= RatingRow.count row
     /\ RatingRow.count row <= QuestionAnalytics.totalAnswers e
     /\ RatingRow.percentage row
        = Analytics.percentage (RatingRow.count row)
                               (QuestionAnalytics.totalAnswers e)
     /\ exists v,
          In v (valuedAnswers (QuestionAnalytics.questionId e) rs)
          /\ numeric v = true
          /\ RatingRow.value row = StringToNumber (ratingKey v)
          /\ RatingRow.count row
             = occurrences (ratingKey v)
                           (ratings (QuestionAnalytics.questionId e) rs))
  /\ (forall v,
        In v (valuedAnswers (QuestionAnalytics.questionId e) rs) ->
        numeric v = true ->
        exists row,
          In row rows
          /\ RatingRow.value row = StringToNumber (ratingKey v)
          /\ RatingRow.count row
             = occurrences (ratingKey v)
                           (ratings (QuestionAnalytics.questionId e) rs))
  /\ Permutation
       (map (fun row => (RatingRow.value row, RatingRow.count row)) rows)
       (map (fun key =>
               (StringToNumber key,
                occurrences key
                            (ratings (QuestionAnalytics.questionId e) rs)))
            (firstSeen (ratings (QuestionAnalytics.questionId e) rs)))
  /\ NoDup (firstSeen (ratings (QuestionAnalytics.questionId e) rs))
  /\ ((forall v,
         In v (valuedAnswers (QuestionAnalytics.questionId e) rs) ->
         numeric v = true ->
         StringToNumber (ratingKey v) = ToNumber v) ->
      StronglySorted
        (fun a b => le (RatingRow.value a) (RatingRow.value b) = true)
        rows
      /\ NoDup (map RatingRow.value rows)).
Proof.
  intros Hin Hp. apply question_entry in Hin.
  destruct Hin as [s [Hs [Hid [Ht Hpay]]]].
  rewrite Hp in Hpay. symmetry in Hpay. apply payload_rating in Hpay.
  destruct Hpay as [Hc [Hr Hrows]].
  destruct (final_stats_spec NumberToString StringToNumber survey rs s Hs)
    as [_ [_ [Htot [_ Hrat]]]].
  specialize (Hrat Hc Hr). rewrite Hid, Ht. subst rows.
  rewrite Hrat, !Htot.
  assert (Permutation
            (map (fun row => (RatingRow.value row, RatingRow.count row))
                 (sort Analytics.byValue
                       (map (Analytics.ratingRow
                               StringToNumber
                               (List.length
                                  (valuedAnswers (Stats.questionId s) rs)))
                            (tallyOf (ratings (Stats.questionId s) rs) []))))
            (map (fun key =>
                    (StringToNumber key,
                     occurrences key (ratings (Stats.questionId s) rs)))
                 (firstSeen (ratings (Stats.questionId s) rs)))) as Hperm.
  { eapply perm_trans.
    - apply Permutation_map. apply sort_perm.
    - rewrite tally_closed_form, !map_map. simpl. apply Permutation_refl. }
  split; [| split; [| split; [| split]]].
  - intros row Hrow. apply ratingRow_In in Hrow.
    destruct Hrow as [key [n [Hkn ->]]].
    apply tally_entry in Hkn. destruct Hkn as [Hk [Hn H1]].
    cbn [Analytics.ratingRow RatingRow.count RatingRow.value
         RatingRow.percentage].
    split; [exact H1 |]. split; [| split; [reflexivity |]].
    + rewrite Hn. unfold occurrences.
      eapply Nat.le_trans; [apply count_occ_bound |].
      apply ratings_length.
    + apply ratings_In in Hk. destruct Hk as [v [Hv [Hnum ->]]].
      exists v. repeat split; assumption.
  - intros v Hv Hnum.
    assert (In (StringToNumber (ratingKey v),
                occurrences (ratingKey v)
                            (ratings (Stats.questionId s) rs))
               (map (fun key =>
                       (StringToNumber key,
                        occurrences key (ratings (Stats.questionId s) rs)))
                    (firstSeen (ratings (Stats.questionId s) rs)))) as Hin.
    { apply (in_map (fun key =>
                       (StringToNumber key,
                        occurrences key (ratings (Stats.questionId s) rs)))).
      unfold firstSeen.
      rewrite (ReportLayout.firstSeen_In NumberToString StringToNumber).
      right. unfold PerQuestion.ratings.
      apply (in_map ratingKey). apply filter_In. split; assumption. }
    apply (Permutation_in _ (Permutation_sym Hperm)) in Hin.
    apply in_map_iff in Hin. destruct Hin as [row [E Hrow]].
    exists row. inversion E as [[E1 E2]].
    split; [exact Hrow |]. split; reflexivity.
  - exact Hperm.
  - apply firstSeen_NoDup.
  - intros Hround. split.
    + apply (sort_ascending RatingRow.value).
      apply Forall_forall. intros row Hrow. apply in_map_iff in Hrow.
      destruct Hrow as [[key n] [<- Hkn]].
      apply tally_entry in Hkn. destruct Hkn as [Hk _].
      apply ratings_In in Hk. destruct Hk as [v [Hv [Hnum ->]]].
      cbn [Analytics.ratingRow RatingRow.value].
      rewrite (Hround v Hv Hnum).
      unfold PerQuestion.numeric in Hnum.
      apply negb_true_iff in Hnum. exact Hnum.
    + apply (Permutation_map fst) in Hperm. rewrite !map_map in Hperm.
      cbn [fst] in Hperm.
      apply (Permutation_NoDup (Permutation_sym Hperm)).
      apply NoDup_map_on; [| apply firstSeen_NoDup].
      intros k1 k2 H1 H2 E.
      unfold firstSeen in H1, H2.
      rewrite (ReportLayout.firstSeen_In NumberToString StringToNumber)
        in H1, H2.
      destruct H1 as [[] | H1]. destruct H2 as [[] | H2].
      apply ratings_In in H1, H2.
      destruct H1 as [v1 [Hv1 [Hn1 ->]]]. destruct H2 as [v2 [Hv2 [Hn2 ->]]].
      rewrite (Hround v1 Hv1 Hn1), (Hround v2 Hv2 Hn2) in E.
      unfold PerQuestion.ratingKey. rewrite E. reflexivity.
Qed.

(** X9. The percentage of a reported row is a number above zero. It is at
    most 100 in the distribution of a rating question, and in the options
    of a choice question when no answer to it is a list. *)
Theorem percentages_within_bounds
        (survey : Survey.t) (rs : list Response.t)
        (e : QuestionAnalytics.t) :
  In e (Report.questions (getAnalytics survey rs)) ->
  (forall rows row,
     QuestionAnalytics.payload e = KRating rows -> In row rows ->
     exists q, RatingRow.percentage row = Fin q
               /\ (0 < q)%Q /\ (q <= 100)%Q)
  /\ (forall rows row,
        QuestionAnalytics.payload e = KChoice rows -> In row rows ->
        exists q, OptionRow.percentage row = Fin q
                  /\ (0 < q)%Q
                  /\ ((forall v,
                         In v (valuedAnswers
                                 (QuestionAnalytics.questionId e) rs) ->
                         isArray v = false) ->
                      (q <= 100)%Q)).
Proof.
  intros Hin. apply question_entry in Hin.
  destruct Hin as [s [Hs [Hid [Ht Hpay]]]].
  destruct (final_stats_spec NumberToString StringToNumber survey rs s Hs)
    as [_ [_ [Htot [Hopt Hrat]]]].
  rewrite Hid. split.
  - intros rows row Hp Hrow.
    rewrite Hp in Hpay. symmetry in Hpay. apply payload_rating in Hpay.
    destruct Hpay as [Hc [Hr Hrows]]. specialize (Hrat Hc Hr).
    subst rows. rewrite Hrat in Hrow. apply ratingRow_In in Hrow.
    destruct Hrow as [key [n [Hkn ->]]].
    apply tally_entry in Hkn. destruct Hkn as [Hk [Hn H1]].
    cbn [Analytics.ratingRow RatingRow.percentage].
    assert (n <= Stats.totalAnswers s) as Hle.
    { rewrite Hn, Htot. unfold occurrences.
      eapply Nat.le_trans; [apply count_occ_bound |].
      apply ratings_length. }
    destruct (@percentage_bounds n (Stats.totalAnswers s) H1)
      as [q [Hq [Hpos Hmax]]]; [lia |].
    exists q. split; [exact Hq |]. split; [exact Hpos |].
    exact (Hmax Hle).
  - intros rows row Hp Hrow.
    rewrite Hp in Hpay. symmetry in Hpay. apply payload_choice in Hpay.
    destruct Hpay as [Hc Hrows]. specialize (Hopt Hc).
    subst rows. rewrite Hopt in Hrow.
    apply ReportLayout.optionRow_In in Hrow.
    destruct Hrow as [key [n [Hkn ->]]].
    apply tally_entry in Hkn. destruct Hkn as [Hk [Hn H1]].
    cbn [Analytics.optionRow OptionRow.percentage].
    assert (1 <= Stats.totalAnswers s) as Hone.
    { rewrite Htot. unfold selections in Hk. apply in_flat_map in Hk.
      destruct Hk as [v [Hv _]].
      destruct (valuedAnswers (Stats.questionId s) rs);
        [contradiction | simpl; lia]. }
    destruct (@percentage_bounds n (Stats.totalAnswers s) H1 Hone)
      as [q [Hq [Hpos Hmax]]].
    exists q. split; [exact Hq |]. split; [exact Hpos |].
    intros Hsc. apply Hmax.
    rewrite Hn, Htot. unfold occurrences.
    eapply Nat.le_trans; [apply count_occ_bound |].
    unfold selections.
    rewrite (ReportLayout.selected_scalars NumberToString _ Hsc).
    apply Nat.le_refl.
Qed.

End Ratings.

End RatingFacts.

(** * Runs of the handler on an engine *)

Module EngineFacts.
Import JS JSFacts PerQuestion LoopFacts ReportFacts.

(** *** Enumeration *)

Lemma values_named (V : Type) (m : omap V) :
  (forall k, In k (keys m) -> Engine.arrayIndex k = None) ->
  Engine.values m = values m.
Proof.
  intros H. unfold Engine.values, values.
  assert (Engine.indexed m = [] /\ Engine.named m = map snd m) as [E1 E2].
  { unfold Engine.indexed, Engine.named.
    induction m as [| [k v] m IH]; cbn [flat_map map fst snd].
    - split; reflexivity.
    - rewrite (H k) by (left; reflexivity). cbn [app].
      destruct IH as [E1 E2].
      + intros k' Hk'. apply H. right. exact Hk'.
      + split; [exact E1 |]. rewrite E2. reflexivity. }
  rewrite E1, E2. reflexivity.
Qed.

(** *** Sorting *)

Lemma compare_sub (x y : Q) : (Qred (x - y) ?= 0)%Q = (x ?= y)%Q.
Proof.
  rewrite Qred_correct.
  unfold Qcompare, Qminus, Qplus, Qopp. simpl.
  rewrite Z.mul_1_r, (Z.compare_sub (Qnum x * QDen y)).
  f_equal. lia.
Qed.

Lemma compare_opp (x y : Q) : (- x ?= - y)%Q = (y ?= x)%Q.
Proof.
  unfold Qcompare, Qopp. simpl.
  rewrite !Z.mul_opp_l. apply Z.compare_opp.
Qed.

Section SortSpec.
Variable A : Type.
Variable cmp : A -> A -> number.

Abbreviation sign := (Engine.sign cmp).
Abbreviation tie := (Engine.tie cmp).
Abbreviation ordered := (fun a b : A => sign a b <> Some Gt).

Lemma positive_sign (a b : A) :
  positive (cmp a b) = true <-> sign a b = Some Gt.
Proof.
  unfold Engine.sign, positive. destruct (cmp a b) as [| q].
  - split; discriminate.
  - rewrite negb_true_iff. split.
    + intros H. f_equal. apply Qgt_alt. apply Qnot_le_lt.
      intros C. apply Qle_bool_iff in C. congruence.
    + intros H. inversion H as [H']. apply Qgt_alt in H'.
      destruct (Qle_bool q 0) eqn:E; [| reflexivity].
      apply Qle_bool_iff in E. exfalso.
      apply (Qlt_not_le _ _ H'). exact E.
Qed.

Lemma ordered_positive (a b : A) :
  ordered a b <-> positive (cmp a b) = false.
Proof.
  split.
  - intros H. destruct (positive (cmp a b)) eqn:E; [| reflexivity].
    apply positive_sign in E. contradiction.
  - intros H C. apply positive_sign in C. congruence.
Qed.

Lemma tie_sign (a b : A) : tie a b = true <-> sign a b = Some Eq.
Proof.
  unfold Engine.tie. destruct (sign a b) as [[| |] |]; split;
    try discriminate; reflexivity.
Qed.

Section Universe.
Variable u : list A.
Hypothesis Hc : Engine.consistent cmp u.

Lemma sign_refl (a : A) : In a u -> sign a a = Some Eq.
Proof.
  intros Ha. destruct (Hc a a a Ha Ha Ha) as [_ [H _]]. exact H.
Qed.

Lemma flip_gt (a b : A) :
  In a u -> In b u -> sign a b = Some Gt -> sign b a = Some Lt.
Proof.
  intros Ha Hb H. destruct (sign b a) as [[| |] |] eqn:E.
  - destruct (Hc b a b Hb Ha Hb) as [_ [_ [Hsym _]]].
    specialize (Hsym E). congruence.
  - reflexivity.
  - destruct (Hc a b a Ha Hb Ha) as [_ [Hrefl [_ [_ [_ Hgt]]]]].
    specialize (Hgt H E). congruence.
  - destruct (Hc b a b Hb Ha Hb) as [Hn _]. contradiction.
Qed.

Lemma flip_lt (a b : A) :
  In a u -> In b u -> sign a b = Some Lt -> sign b a = Some Gt.
Proof.
  intros Ha Hb H. destruct (sign b a) as [[| |] |] eqn:E.
  - destruct (Hc b a b Hb Ha Hb) as [_ [_ [Hsym _]]].
    specialize (Hsym E). congruence.
  - destruct (Hc a b a Ha Hb Ha) as [_ [Hrefl [_ [_ [Hlt _]]]]].
    specialize (Hlt H E). congruence.
  - reflexivity.
  - destruct (Hc b a b Hb Ha Hb) as [Hn _]. contradiction.
Qed.

Lemma ordered_cases (a b : A) :
  In a u -> In b u -> ordered a b ->
  sign a b = Some Eq \/ sign a b = Some Lt.
Proof.
  intros Ha Hb H. destruct (sign a b) as [[| |] |] eqn:E.
  - left. reflexivity.
  - right. reflexivity.
  - contradiction.
  - destruct (Hc a b a Ha Hb Ha) as [Hn _]. contradiction.
Qed.

Lemma ordered_trans (a b c : A) :
  In a u -> In b u -> In c u ->
  ordered a b -> ordered b c -> ordered a c.
Proof.
  intros Ha Hb Hc' Hab Hbc Hac.
  apply (@flip_gt a c Ha Hc') in Hac.
  destruct (@ordered_cases a b Ha Hb Hab) as [Eab | Lab];
    destruct (@ordered_cases b c Hb Hc' Hbc) as [Ebc | Lbc].
  - destruct (Hc a b c Ha Hb Hc') as [_ [_ [_ [Heq _]]]].
    specialize (Heq Eab Ebc).
    destruct (Hc a c a Ha Hc' Ha) as [_ [_ [Hsym _]]].
    specialize (Hsym Heq). congruence.
  - (* a = b, b < c, c < a: then b < a *)
    destruct (Hc b c a Hb Hc' Ha) as [_ [_ [_ [_ [Hlt _]]]]].
    specialize (Hlt Lbc Hac).
    destruct (Hc a b a Ha Hb Ha) as [_ [_ [Hsym _]]].
    specialize (Hsym Eab). congruence.
  - (* a < b, b = c, c < a: then c < b *)
    destruct (Hc c a b Hc' Ha Hb) as [_ [_ [_ [_ [Hlt _]]]]].
    specialize (Hlt Hac Lab).
    destruct (Hc b c b Hb Hc' Hb) as [_ [_ [Hsym _]]].
    specialize (Hsym Ebc). congruence.
  - destruct (Hc a b c Ha Hb Hc') as [_ [_ [_ [_ [Hlt _]]]]].
    specialize (Hlt Lab Lbc).
    apply (@flip_lt a c Ha Hc') in Hlt. congruence.
Qed.

Lemma ordered_tie (a b : A) :
  In a u -> In b u -> ordered a b -> ordered b a -> sign a b = Some Eq.
Proof.
  intros Ha Hb Hab Hba.
  destruct (@ordered_cases a b Ha Hb Hab) as [E | L]; [exact E |].
  apply (@flip_lt a b Ha Hb) in L. contradiction.
Qed.

Lemma class_ordered (x a b : A) :
  In x u -> In a u -> In b u ->
  tie x a = true -> tie x b = true -> positive (cmp a b) = false.
Proof.
  intros Hx Ha Hb Hxa Hxb. apply tie_sign in Hxa, Hxb.
  destruct (Hc x a x Hx Ha Hx) as [_ [_ [Hsym _]]].
  specialize (Hsym Hxa).
  destruct (Hc a x b Ha Hx Hb) as [_ [_ [_ [Heq _]]]].
  specialize (Heq Hsym Hxb).
  apply ordered_positive. congruence.
Qed.

Lemma insert_ordered (x : A) (l : list A) :
  In x u -> incl l u ->
  StronglySorted ordered l -> StronglySorted ordered (insert cmp x l).
Proof.
  intros Hx Hl Hs. induction Hs as [| y l Hs IH Hy]; simpl.
  - constructor; constructor.
  - assert (In y u) as Hyu by (apply Hl; left; reflexivity).
    assert (incl l u) as Hlu by (intros z Hz; apply Hl; right; exact Hz).
    destruct (positive (cmp x y)) eqn:E.
    + constructor.
      * apply IH. exact Hlu.
      * apply Forall_forall. intros z Hz.
        apply (Permutation_in _ (insert_perm cmp x l)) in Hz.
        destruct Hz as [<- | Hz].
        -- apply positive_sign in E. apply (@flip_gt x y Hx Hyu) in E.
           congruence.
        -- rewrite Forall_forall in Hy. apply Hy. exact Hz.
    + apply ordered_positive in E. constructor.
      * constructor; assumption.
      * constructor; [exact E |].
        apply Forall_forall. intros z Hz.
        rewrite Forall_forall in Hy.
        apply (@ordered_trans x y z); auto.
Qed.

Lemma sort_ordered (l : list A) :
  incl l u -> StronglySorted ordered (sort cmp l).
Proof.
  induction l as [| x l IH]; intros Hl; simpl.
  - constructor.
  - apply insert_ordered.
    + apply Hl. left. reflexivity.
    + intros z Hz. apply sort_In in Hz. apply Hl. right. exact Hz.
    + apply IH. intros z Hz. apply Hl. right. exact Hz.
Qed.

Lemma insert_class_in (p : A -> bool) (x : A) (l : list A) :
  (forall y, In y l -> p y = true -> positive (cmp x y) = false) ->
  p x = true ->
  filter p (insert cmp x l) = x :: filter p l.
Proof.
  intros Hcl Hx. induction l as [| y l IH]; simpl.
  - rewrite Hx. reflexivity.
  - destruct (positive (cmp x y)) eqn:E; simpl.
    + destruct (p y) eqn:Hy.
      * rewrite (Hcl y (or_introl eq_refl) Hy) in E. discriminate.
      * apply IH. intros z Hz. apply Hcl. right. exact Hz.
    + rewrite Hx. reflexivity.
Qed.

Lemma sort_class (p : A -> bool) (l : list A) :
  (forall a b, In a l -> In b l -> p a = true -> p b = true ->
               positive (cmp a b) = false) ->
  filter p (sort cmp l) = filter p l.
Proof.
  induction l as [| x l IH]; intros Hcl; simpl.
  - reflexivity.
  - assert (filter p (sort cmp l) = filter p l) as E.
    { apply IH. intros a b Ha Hb. apply Hcl; right; assumption. }
    destruct (p x) eqn:Hx.
    + rewrite insert_class_in.
      * rewrite E. reflexivity.
      * intros y Hy Hpy. apply sort_In in Hy.
        apply Hcl; [left; reflexivity | right; exact Hy | exact Hx
                    | exact Hpy].
      * exact Hx.
    + rewrite insert_filter_out by exact Hx. exact E.
Qed.

Lemma ordered_unique (l1 : list A) :
  forall l2 : list A,
  incl l1 u -> incl l2 u ->
  StronglySorted ordered l1 -> StronglySorted ordered l2 ->
  (forall x, In x u -> filter (tie x) l1 = filter (tie x) l2) ->
  l1 = l2.
Proof.
  induction l1 as [| x l1 IH]; intros [| y l2] I1 I2 S1 S2 H.
  - reflexivity.
  - assert (In y u) as Hy by (apply I2; left; reflexivity).
    specialize (H y Hy). simpl in H.
    rewrite (proj2 (tie_sign y y) (@sign_refl y Hy)) in H. discriminate.
  - assert (In x u) as Hx by (apply I1; left; reflexivity).
    specialize (H x Hx). simpl in H.
    rewrite (proj2 (tie_sign x x) (@sign_refl x Hx)) in H. discriminate.
  - assert (In x u) as Hx by (apply I1; left; reflexivity).
    assert (In y u) as Hy by (apply I2; left; reflexivity).
    inversion S1 as [| ? ? S1' F1]; subst.
    inversion S2 as [| ? ? S2' F2]; subst.
    rewrite Forall_forall in F1, F2.
    assert (ordered y x) as Hyx.
    { pose proof (H x Hx) as Hcx. simpl in Hcx.
      rewrite (proj2 (tie_sign x x) (@sign_refl x Hx)) in Hcx.
      assert (In x (y :: l2)) as Hin.
      { apply (proj1 (filter_In (tie x) x (y :: l2))).
        simpl. rewrite <- Hcx. left. reflexivity. }
      destruct Hin as [-> | Hin]; [| apply F2; exact Hin].
      rewrite (@sign_refl x Hx). discriminate. }
    assert (ordered x y) as Hxy.
    { pose proof (H y Hy) as Hcy. simpl in Hcy.
      rewrite (proj2 (tie_sign y y) (@sign_refl y Hy)) in Hcy.
      assert (In y (x :: l1)) as Hin.
      { apply (proj1 (filter_In (tie y) y (x :: l1))).
        simpl. rewrite Hcy. left. reflexivity. }
      destruct Hin as [-> | Hin]; [| apply F1; exact Hin].
      rewrite (@sign_refl y Hy). discriminate. }
    assert (x = y) as ->.
    { pose proof (H x Hx) as Hcx. simpl in Hcx.
      rewrite (proj2 (tie_sign x x) (@sign_refl x Hx)) in Hcx.
      rewrite (proj2 (tie_sign x y) (@ordered_tie x y Hx Hy Hxy Hyx)) in Hcx.
      congruence. }
    f_equal. apply IH.
    + intros z Hz. apply I1. right. exact Hz.
    + intros z Hz. apply I2. right. exact Hz.
    + exact S1'.
    + exact S2'.
    + intros c Hcu. specialize (H c Hcu). simpl in H.
      destruct (tie c y); congruence.
Qed.

End Universe.

(** The insertion sort of the embedding is one of the sorts an engine
    may run. *)
Lemma sort_conforms (l : list A) : Engine.sorts cmp l (sort cmp l).
Proof.
  split.
  - apply Permutation_sym, sort_perm.
  - intros Hc. split.
    + apply (@sort_ordered l Hc). intros z Hz. exact Hz.
    + intros x Hx. apply sort_class. intros a b Ha Hb Hxa Hxb.
      apply (@class_ordered l Hc x a b Hx Ha Hb Hxa Hxb).
Qed.

(** With a consistent comparator every engine leaves the array that the
    insertion sort leaves. *)
Lemma sorts_unique (l l' : list A) :
  Engine.consistent cmp l -> Engine.sorts cmp l l' -> l' = sort cmp l.
Proof.
  intros Hc [Hp Hs]. destruct (Hs Hc) as [S1 H1].
  destruct (sort_conforms l) as [Hp2 Hs2]. destruct (Hs2 Hc) as [S2 H2].
  apply (@ordered_unique l Hc).
  - intros z Hz. apply (Permutation_in _ (Permutation_sym Hp)). exact Hz.
  - intros z Hz. apply sort_In in Hz. exact Hz.
  - exact S1.
  - exact S2.
  - intros x Hx. rewrite (H1 x Hx), (H2 x Hx). reflexivity.
Qed.

(** A comparator that compares a rational key is consistent. *)
Lemma consistent_by_key (key : A -> Q) (l : list A) :
  (forall a b, In a l -> In b l ->
               sign a b = Some (key a ?= key b)%Q) ->
  Engine.consistent cmp l.
Proof.
  intros Hk a b c Ha Hb Hc'.
  rewrite (Hk a b Ha Hb), (Hk a a Ha Ha), (Hk b a Hb Ha),
          (Hk b c Hb Hc'), (Hk a c Ha Hc').
  split; [discriminate |]. split; [| split; [| split; [| split]]].
  - f_equal. apply Qeq_alt. reflexivity.
  - intros H. injection H as H'. f_equal.
    apply Qeq_alt. apply Qeq_alt in H'. symmetry. exact H'.
  - intros H1 H2. injection H1 as H1'. injection H2 as H2'. f_equal.
    apply Qeq_alt. apply Qeq_alt in H1', H2'.
    rewrite H1'. exact H2'.
  - intros H1 H2. injection H1 as H1'. injection H2 as H2'. f_equal.
    apply Qlt_alt. apply Qlt_alt in H1', H2'.
    apply (Qlt_trans _ _ _ H1' H2').
  - intros H1 H2. injection H1 as H1'. injection H2 as H2'. f_equal.
    apply Qgt_alt. apply Qgt_alt in H1', H2'.
    apply (Qlt_trans _ _ _ H2' H1').
Qed.

End SortSpec.

(** [NaN] is the result of no consistent comparator: what such a
    comparator leaves of two elements is the choice of the engine. *)
Example inconsistent_comparator_leaves_a_choice :
  let cmp := fun _ _ : bool => NaN in
  Engine.sorts cmp [true; false] [true; false]
  /\ Engine.sorts cmp [true; false] [false; true]
  /\ sort cmp [true; false] = [true; false].
Proof.
  assert (~ Engine.consistent (fun _ _ : bool => NaN) [true; false]) as Hn.
  { intros Hc.
    destruct (Hc true true true (or_introl eq_refl) (or_introl eq_refl)
                 (or_introl eq_refl)) as [H _].
    apply H. reflexivity. }
  split; [| split].
  - split; [apply Permutation_refl | intros C; contradiction].
  - split; [apply perm_swap | intros C; contradiction].
  - reflexivity.
Qed.

Example array_indices :
  Engine.arrayIndex "0" = Some 0%N
  /\ Engine.arrayIndex "42" = Some 42%N
  /\ Engine.arrayIndex "4294967294" = Some 4294967294%N
  /\ Engine.arrayIndex "4294967295" = None
  /\ Engine.arrayIndex "042" = None
  /\ Engine.arrayIndex "4.2" = None
  /\ Engine.arrayIndex "" = None
  /\ Engine.arrayIndex "65c000000000000000000001" = None
  /\ Engine.values [("b", 1); ("10", 2); ("a", 3); ("9", 4)] = [4; 2; 1; 3].
Proof.
  repeat split; vm_compute; reflexivity.
Qed.

(** *** The comparators of the handler *)

Lemma byOrder_consistent (l : list Stats.t) :
  Engine.consistent Analytics.byOrder l.
Proof.
  apply (@consistent_by_key _ Analytics.byOrder
           (fun s => inject_Z (Stats.order s))).
  intros a b _ _. unfold Engine.sign, Analytics.byOrder, of_Z, sub.
  rewrite compare_sub. reflexivity.
Qed.

Lemma byCountDesc_consistent (l : list OptionRow.t) :
  Engine.consistent Analytics.byCountDesc l.
Proof.
  apply (@consistent_by_key _ Analytics.byCountDesc
           (fun row => - inject_Z (Z.of_nat (OptionRow.count row)))%Q).
  intros a b _ _.
  unfold Engine.sign, Analytics.byCountDesc, of_nat, of_Z, sub.
  rewrite compare_sub, compare_opp. reflexivity.
Qed.

Lemma byValue_consistent (l : list RatingRow.t) :
  (forall row, In row l -> isNaN (RatingRow.value row) = false) ->
  Engine.consistent Analytics.byValue l.
Proof.
  intros Hl.
  apply (@consistent_by_key _ Analytics.byValue
           (fun row => match RatingRow.value row with
                       | Fin q => q
                       | NaN => 0%Q
                       end)).
  intros a b Ha Hb. unfold Engine.sign, Analytics.byValue.
  pose proof (Hl a Ha) as Na. pose proof (Hl b Hb) as Nb.
  destruct (RatingRow.value a) as [| x]; [discriminate |].
  destruct (RatingRow.value b) as [| y]; [discriminate |].
  unfold sub. rewrite compare_sub. reflexivity.
Qed.

(** *** The runs *)

Section Run.
Variable NumberToString : number -> string.
Variable StringToNumber : string -> number.

Abbreviation numeric := (numeric NumberToString StringToNumber).
Abbreviation ratingKey := (ratingKey NumberToString StringToNumber).
Abbreviation payloadOf := (Analytics.payloadOf StringToNumber).
Abbreviation questionAnalytics := (Analytics.questionAnalytics StringToNumber).
Abbreviation payloadRun := (Engine.payloadRun StringToNumber).
Abbreviation questionRun := (Engine.questionRun StringToNumber).
Abbreviation runs := (Engine.runs NumberToString StringToNumber).
Abbreviation getAnalytics := (Stored.getAnalytics NumberToString StringToNumber).

(** No id of a question is an array index. *)
Abbreviation named survey :=
  (forall q : Question.t,
     In q (Survey.questions survey) ->
     Engine.arrayIndex (Question._id q) = None).

(** [Number] reads a number in what [String] prints for the numbers
    that the answers to the questions turn into. *)
Abbreviation readable survey rs :=
  (forall (q : Question.t) (v : value),
     In q (Survey.questions survey) ->
     In v (valuedAnswers (Question._id q) rs) ->
     numeric v = true ->
     isNaN (StringToNumber (ratingKey v)) = false).

Lemma initialLoop_named (survey : Survey.t) :
  named survey -> Engine.initialLoop survey = Analytics.initialLoop survey.
Proof.
  intros Hn. unfold Engine.initialLoop, Analytics.initialLoop.
  unfold Engine.initPerQuestionStats, Analytics.initPerQuestionStats.
  rewrite values_named; [reflexivity |].
  intros k Hk. apply in_map_iff in Hk. destruct Hk as [[k0 m] [E Hin]].
  simpl in E. subst k0.
  destruct (buildQuestionMeta_spec (Survey.questions survey)) as [_ H].
  destruct (H k m Hin) as [_ [q [Hq [Hid _]]]].
  rewrite <- Hid. apply Hn. exact Hq.
Qed.

Lemma aggregate_named (survey : Survey.t) (rs : list StoredResponse.t) :
  named survey ->
  Engine.aggregate NumberToString StringToNumber survey rs
  = Stored.aggregate NumberToString StringToNumber survey rs.
Proof.
  intros Hn. unfold Engine.aggregate, Stored.aggregate.
  rewrite (@initialLoop_named survey Hn). reflexivity.
Qed.

Lemma stats_named (survey : Survey.t) (rs : list StoredResponse.t)
      (st : Analytics.loop) :
  named survey ->
  Stored.aggregate NumberToString StringToNumber survey rs
  = Stored.Returns st ->
  Engine.values (Analytics.perQuestionStats st)
  = values (Analytics.perQuestionStats st).
Proof.
  intros Hn Hst. apply values_named. intros k Hk.
  apply keys_get in Hk. destruct Hk as [s Hs].
  assert (In k (map Question._id (Survey.questions survey))) as Hin.
  { apply (@StoredFacts.known_responses NumberToString StringToNumber
             survey rs _ _ (StoredFacts.known_initial survey) Hst).
    rewrite Hs. discriminate. }
  apply in_map_iff in Hin. destruct Hin as [q [<- Hq]].
  apply Hn. exact Hq.
Qed.

Lemma payloadOf_runs (options : list OptionMeta.t) (s : Stats.t) :
  payloadRun options s (payloadOf options s).
Proof.
  unfold Analytics.payloadOf.
  destruct (Analytics.isChoiceType (Stats.type s)) eqn:Ec.
  - apply Engine.choice_run; [exact Ec | apply sort_conforms].
  - destruct (Analytics.isRatingType (Stats.type s)) eqn:Er.
    + apply Engine.rating_run; [exact Ec | exact Er | apply sort_conforms].
    + destruct (Analytics.isTextType (Stats.type s)) eqn:Et.
      * apply Engine.text_run; assumption.
      * apply Engine.unknown_run; assumption.
Qed.

Lemma questions_run (meta : omap Meta.t) (l : list Stats.t) :
  Forall2 (questionRun meta) l (map (questionAnalytics meta) l).
Proof.
  induction l as [| s l IH]; simpl; constructor.
  - unfold Analytics.questionAnalytics. apply Engine.question_run.
    apply payloadOf_runs.
  - exact IH.
Qed.

Lemma payload_unique (survey : Survey.t) (rs : list Response.t)
      (options : list OptionMeta.t) (s : Stats.t) (payload : kind) :
  readable survey rs ->
  In s (values (Analytics.perQuestionStats
                  (Analytics.aggregate NumberToString StringToNumber
                                       survey rs))) ->
  payloadRun options s payload ->
  payload = payloadOf options s.
Proof.
  intros Hr Hs Hrun. unfold Analytics.payloadOf.
  destruct Hrun as [rows Ec Hsort | rows Ec Er Hsort | Ec Er Et | Ec Er Et].
  - rewrite Ec. f_equal.
    apply (@sorts_unique _ _ _ _ (byCountDesc_consistent _) Hsort).
  - rewrite Ec, Er. f_equal.
    apply (@sorts_unique _ Analytics.byValue _ rows); [| exact Hsort].
    apply byValue_consistent. intros row Hrow.
    apply in_map_iff in Hrow. destruct Hrow as [[key n] [<- Hkn]].
    cbn [Analytics.ratingRow RatingRow.value].
    destruct (final_stats_spec NumberToString StringToNumber survey rs s Hs)
      as [Hid [_ [_ [_ Hrat]]]].
    unfold entries in Hkn. rewrite (Hrat Ec Er) in Hkn.
    apply (RatingFacts.tally_entry NumberToString StringToNumber) in Hkn.
    destruct Hkn as [Hk _].
    apply RatingFacts.ratings_In in Hk. destruct Hk as [v [Hv [Hnum ->]]].
    apply in_map_iff in Hid. destruct Hid as [q [Eq Hq]].
    rewrite <- Eq in Hv. apply (Hr q v Hq Hv Hnum).
  - rewrite Ec, Er, Et. reflexivity.
  - rewrite Ec, Er, Et. reflexivity.
Qed.

Lemma questions_unique (survey : Survey.t) (rs : list Response.t)
      (meta : omap Meta.t) (l : list Stats.t)
      (questions : list QuestionAnalytics.t) :
  readable survey rs ->
  (forall s, In s l ->
     In s (values (Analytics.perQuestionStats
                     (Analytics.aggregate NumberToString StringToNumber
                                          survey rs)))) ->
  Forall2 (questionRun meta) l questions ->
  questions = map (questionAnalytics meta) l.
Proof.
  intros Hr Hl HF. induction HF as [| s e l questions He HF IH]; simpl.
  - reflexivity.
  - f_equal.
    + destruct He as [payload Hp]. unfold Analytics.questionAnalytics.
      f_equal.
      apply (@payload_unique survey rs); [exact Hr | | exact Hp].
      apply Hl. left. reflexivity.
    + apply IH. intros s' Hs'. apply Hl. right. exact Hs'.
Qed.

Lemma run_unique (survey : Survey.t) (rs : list StoredResponse.t)
      (outcome : Stored.sent) :
  named survey ->
  readable survey (map Stored.toResponse rs) ->
  runs survey rs outcome ->
  outcome = getAnalytics survey rs.
Proof.
  intros Hn Hr Hrun. unfold Stored.getAnalytics.
  destruct Hrun as [Hth | st funnelStats questionStats questions
                             Hst Hf Hq HF];
    rewrite (@aggregate_named survey rs Hn) in *.
  - rewrite Hth. reflexivity.
  - rewrite Hst. rewrite (@stats_named survey rs st Hn Hst) in Hf, Hq.
    apply (@sorts_unique _ _ _ _ (byOrder_consistent _)) in Hf, Hq. subst.
    f_equal. unfold Analytics.buildFunnel, Analytics.buildQuestions.
    f_equal.
    apply (@questions_unique survey (map Stored.toResponse rs));
      [exact Hr | | exact HF].
    intros s Hs. apply sort_In in Hs.
    rewrite <- (@StoredFacts.aggregate_returns
                  NumberToString StringToNumber survey rs st Hst).
    exact Hs.
Qed.

Lemma getAnalytics_runs (survey : Survey.t) (rs : list StoredResponse.t) :
  named survey -> runs survey rs (getAnalytics survey rs).
Proof.
  intros Hn. unfold Stored.getAnalytics.
  destruct (Stored.aggregate NumberToString StringToNumber survey rs)
    as [st |] eqn:Hst.
  - unfold Analytics.buildFunnel, Analytics.buildQuestions.
    rewrite <- (@stats_named survey rs st Hn Hst).
    apply (@Engine.run_sends
             NumberToString StringToNumber survey rs st
             (sort Analytics.byOrder
                   (Engine.values (Analytics.perQuestionStats st)))
             (sort Analytics.byOrder
                   (Engine.values (Analytics.perQuestionStats st)))).
    + rewrite (@aggregate_named survey rs Hn). exact Hst.
    + apply sort_conforms.
    + apply sort_conforms.
    + apply questions_run.
  - apply Engine.run_throws. rewrite (@aggregate_named survey rs Hn).
    exact Hst.
Qed.


End Run.

End EngineFacts.

(** * The form, the public endpoints and the report *)

Module FormFacts.
Import JS JSFacts PerQuestion LoopFacts ReportFacts Layout.

Lemma NoDup_map_injective (A B : Type) (f : A -> B) (l : list A) (a b : A) :
  NoDup (map f l) -> In a l -> In b l -> f a = f b -> a = b.
Proof.
  induction l as [| x l IH]; simpl; intros Hnd Ha Hb E; [contradiction |].
  inversion Hnd as [| ? ? Hout Hnd']; subst.
  destruct Ha as [-> | Ha], Hb as [-> | Hb].
  - reflexivity.
  - exfalso. apply Hout. rewrite E. apply in_map. exact Hb.
  - exfalso. apply Hout. rewrite <- E. apply in_map. exact Ha.
  - apply IH; assumption.
Qed.

(** X19. The three tests of an empty answer: the form refuses what the server
    refuses and the empty list; the server accepts what the analytics
    count and the strings made of blanks. *)
Theorem emptiness_policies_compared (v : value) :
  (Public.emptyAnswer v = false
   <-> Analytics.hasValue v = true
       \/ exists s, v = VString s /\ s <> "" /\ trim s = "")
  /\ (Form.leftEmpty v = false
      <-> Public.emptyAnswer v = false /\ v <> VArray []).
Proof.
  split.
  - destruct v as [| | b | n | s | l |]; simpl; split;
      try (intros _; left; reflexivity); try (intros _; reflexivity);
      try discriminate.
    + intros [H | [s [H _]]]; discriminate.
    + intros [H | [s [H _]]]; discriminate.
    + intros Hs. apply String.eqb_neq in Hs.
      destruct (trim s =? "")%string eqn:E.
      * right. exists s. apply String.eqb_eq in E. auto.
      * left. reflexivity.
    + intros [H | [s' [E [Hs _]]]].
      * apply negb_true_iff in H. apply String.eqb_neq in H.
        apply String.eqb_neq. intros ->. apply H. reflexivity.
      * apply String.eqb_neq. inversion E; subst. exact Hs.
  - destruct v as [| | b | n | s | l |]; simpl; split;
      try discriminate; try (intros [H _]; discriminate H);
      try (intros _; split; [reflexivity | discriminate]);
      try (intros _; reflexivity).
    + intros H. split; [exact H | discriminate].
    + intros [H _]. exact H.
    + destruct l; simpl; [discriminate |].
      intros _. split; [reflexivity | discriminate].
    + intros [_ H]. destruct l; [contradiction | reflexivity].
Qed.

Section Labels.
Variable NumberToString : number -> string.
Variable StringToNumber : string -> number.

Abbreviation getAnalytics := (Analytics.getAnalytics NumberToString StringToNumber).

(** X20. The form and the report agree on the options. When the options of a
    question answer to pairwise distinct values, for the server and for
    the form, the row of the value the form submits for an option is
    labelled with the text of that option. *)
Theorem submitted_option_is_labelled_with_its_text
        (survey : Survey.t) (rs : list Response.t) (q : Question.t)
        (e : QuestionAnalytics.t) (rows : list OptionRow.t)
        (row : OptionRow.t) (opt : Choice.t) (t : string) :
  NoDup (map Question._id (Survey.questions survey)) ->
  In q (Survey.questions survey) ->
  In e (Report.questions (getAnalytics survey rs)) ->
  QuestionAnalytics.questionId e = Question._id q ->
  QuestionAnalytics.payload e = KChoice rows ->
  In row rows ->
  NoDup (map optionValue (Question.options q)) ->
  NoDup (map Form.getOptionValue (Question.options q)) ->
  In opt (Question.options q) ->
  Choice.text opt = Some t ->
  t <> "" ->
  OptionRow.value row = Form.getOptionValue opt ->
  OptionRow.label row = t.
Proof.
  intros Hnd Hq Hin Hid Hp Hrow Hserver Hform Ho Ht Hne Hv.
  apply question_entry in Hin.
  destruct Hin as [s [_ [Hid' [_ Hpay]]]].
  rewrite Hp in Hpay. symmetry in Hpay. apply payload_choice in Hpay.
  destruct Hpay as [_ Hrows]. subst rows.
  apply ReportLayout.optionRow_In in Hrow.
  destruct Hrow as [v [n [_ ->]]].
  rewrite <- Hid', Hid,
    (ReportLayout.optionsOf_distinct _ q Hnd Hq).
  cbn [Analytics.optionRow OptionRow.value OptionRow.label] in *.
  unfold Analytics.buildOptionMetaByValue.
  set (metaOf := fun opt => {| OptionMeta.value := optionValue opt;
                               OptionMeta.text := Choice.text opt |}).
  assert (forall o, In o (Question.options q) -> optionValue o = v ->
                    Analytics.or_else
                      match get v (fold_left
                                     (fun m opt =>
                                        set (OptionMeta.value opt) opt m)
                                     (map metaOf (Question.options q))
                                     empty) with
                      | Some optMeta => OptionMeta.text optMeta
                      | None => Some v
                      end v
                    = Analytics.or_else (Choice.text o) v) as Hpresent.
  { intros o Hoin Hov. rewrite <- Hov.
    pose proof (ReportLayout.optionMeta_present NumberToString
                  StringToNumber
                  (map metaOf (Question.options q)) (metaOf o) empty)
      as Hget.
    change (OptionMeta.value (metaOf o)) with (optionValue o) in Hget.
    rewrite Hget.
    - reflexivity.
    - rewrite map_map. exact Hserver.
    - apply (in_map metaOf). exact Hoin. }
  assert (Analytics.or_else (Some t) v = t) as Hlabel.
  { unfold Analytics.or_else. apply String.eqb_neq in Hne.
    rewrite Hne. reflexivity. }
  unfold Form.getOptionValue in Hv. rewrite Ht in Hv.
  cbn [Analytics.nullish] in Hv.
  destruct (Choice.value opt) as [v0 |] eqn:Ev.
  - destruct (v0 =? "")%string eqn:E0.
    + (* the server keys the option by the empty string *)
      apply String.eqb_eq in E0. subst v0 v.
      rewrite (ReportLayout.optionMeta_absent NumberToString StringToNumber).
      * simpl. unfold Analytics.or_else. apply String.eqb_neq in Hne.
        rewrite Hne. reflexivity.
      * rewrite map_map. cbn [OptionMeta.value metaOf].
        intros Hc. apply in_map_iff in Hc. destruct Hc as [o [Eo Hoin]].
        assert (Form.getOptionValue o = Form.getOptionValue opt) as Esame.
        { unfold Form.getOptionValue at 2. rewrite Ev, Ht. simpl.
          unfold optionValue, Analytics.nullish in Eo.
          unfold Form.getOptionValue.
          destruct (Choice.value o) as [vo |].
          - subst vo. apply String.eqb_neq in Hne. rewrite Hne.
            reflexivity.
          - destruct (Choice.text o) as [to |]; simpl.
            + exact Eo.
            + exfalso. apply Hne. symmetry. exact Eo. }
        pose proof (NoDup_map_injective _ _ o opt Hform Hoin Ho Esame)
          as Eopt.
        subst o. unfold optionValue in Eo. rewrite Ev in Eo.
        simpl in Eo. apply Hne. symmetry. exact Eo.
    + subst v. rewrite (Hpresent opt Ho).
      * rewrite Ht. exact Hlabel.
      * unfold optionValue. rewrite Ev. reflexivity.
  - subst v. rewrite (Hpresent opt Ho).
    + rewrite Ht. exact Hlabel.
    + unfold optionValue. rewrite Ev, Ht. reflexivity.
Qed.

End Labels.

End FormFacts.

Module PublicFacts.
Import JS JSFacts PerQuestion LoopFacts ReportFacts Layout Public.

Lemma findByShareableLink_spec (surveys : list SurveyDoc.t) (link : string)
      (doc : SurveyDoc.t) :
  findByShareableLink surveys link = Some doc ->
  In doc surveys
  /\ SurveyDoc.shareableLink doc = Some link
  /\ Sharing.status doc = "published".
Proof.
  unfold findByShareableLink. intros H. apply find_some in H.
  destruct H as [Hin H]. apply andb_prop in H. destruct H as [Hl Hs].
  split; [exact Hin |]. split.
  - destruct (SurveyDoc.shareableLink doc) as [l |]; [| discriminate].
    apply String.eqb_eq in Hl. subst l. reflexivity.
  - apply String.eqb_eq. exact Hs.
Qed.

Lemma filterM_nil (A : Type) (p : A -> Stored.result bool) (l : list A) :
  filterM p l = Stored.Returns []
  <-> forall x, In x l -> p x = Stored.Returns false.
Proof.
  induction l as [| x l IH]; cbn [filterM].
  - split; [intros _ y [] | reflexivity].
  - destruct (p x) as [b |] eqn:Ex; cbn [Stored.bind].
    + destruct (filterM p l) as [rest |]; cbn [Stored.bind].
      * split.
        -- intros H y [<- | Hy].
           ++ rewrite Ex. destruct b; [discriminate | reflexivity].
           ++ apply IH; [| exact Hy].
              destruct b; inversion H. reflexivity.
        -- intros H.
           pose proof (H x (or_introl eq_refl)) as Hx.
           rewrite Ex in Hx. inversion Hx.
           assert (Stored.Returns rest = Stored.Returns []) as E
             by (apply IH; intros y Hy; apply H; right; exact Hy).
           inversion E. reflexivity.
      * split; [discriminate |]. intros H.
        assert (@Stored.Throws (list A) = Stored.Returns []) as E
          by (apply IH; intros y Hy; apply H; right; exact Hy).
        discriminate.
    + split; [discriminate |]. intros H.
      pose proof (H x (or_introl eq_refl)) as Hx.
      rewrite Ex in Hx. discriminate.
Qed.

Lemma filter_all (A : Type) (p : A -> bool) (l : list A) :
  (forall x, In x l -> p x = true) -> filter p l = l.
Proof.
  induction l as [| x l IH]; intros H; simpl.
  - reflexivity.
  - rewrite (H x) by (left; reflexivity). f_equal.
    apply IH. intros y Hy. apply H. right. exact Hy.
Qed.

Lemma filter_none (A : Type) (p : A -> bool) (l : list A) :
  (forall x, In x l -> p x = false) -> filter p l = [].
Proof.
  induction l as [| x l IH]; intros H; simpl.
  - reflexivity.
  - rewrite (H x) by (left; reflexivity).
    apply IH. intros y Hy. apply H. right. exact Hy.
Qed.

Lemma times_none (rs : list Response.t) :
  (forall r, In r rs -> Response.timeSpent r = VUndefined) ->
  times rs = [].
Proof.
  unfold times. induction rs as [| r rs IH]; intros H; cbn [flat_map].
  - reflexivity.
  - rewrite (H r) by (left; reflexivity). simpl.
    apply IH. intros x Hx. apply H. right. exact Hx.
Qed.

Section Submit.
Variable NumberToString : number -> string.
Variable required : Question.t -> bool.
Variable allowMultipleResponses : SurveyDoc.t -> bool.
Variable save : Insight.json -> saved.

Abbreviation answersQuestion := (answersQuestion NumberToString).
Abbreviation findAnswer := (findAnswer NumberToString).
Abbreviation isUnanswered := (isUnanswered NumberToString).
Abbreviation unansweredRequired :=
  (unansweredRequired NumberToString required).
Abbreviation validateAndSave :=
  (validateAndSave NumberToString required save).
Abbreviation submitSurveyResponse :=
  (submitSurveyResponse NumberToString required allowMultipleResponses
                        save).

(** The element [find] returns is the first one that answers the
    question, and no element before it makes the test throw. *)
Lemma findAnswer_spec (id : string) (answers : list Insight.json)
      (a : Insight.json) :
  findAnswer id answers = Stored.Returns (Some a)
  <-> exists before after,
        answers = before ++ a :: after
        /\ (forall x, In x before ->
                      answersQuestion id x = Stored.Returns false)
        /\ answersQuestion id a = Stored.Returns true.
Proof.
  induction answers as [| x l IH]; cbn [Public.findAnswer].
  - split; [discriminate |].
    intros [before [after [E _]]]. destruct before; discriminate.
  - destruct (answersQuestion id x) as [[|] |] eqn:Ex; cbn [Stored.bind].
    + split.
      * intros H. inversion H. subst a. exists [], l.
        split; [reflexivity |]. split; [intros y [] | exact Ex].
      * intros [[| y before] [after [E [Hb Ha]]]].
        -- simpl in E. inversion E. reflexivity.
        -- simpl in E. inversion E. subst y.
           rewrite (Hb x (or_introl eq_refl)) in Ex. discriminate.
    + rewrite IH. split.
      * intros [before [after [E [Hb Ha]]]]. exists (x :: before), after.
        split; [rewrite E; reflexivity |]. split; [| exact Ha].
        intros y [<- | Hy]; [exact Ex | apply Hb; exact Hy].
      * intros [[| y before] [after [E [Hb Ha]]]].
        -- simpl in E. inversion E. subst a. congruence.
        -- simpl in E. inversion E. subst y. exists before, after.
           split; [reflexivity |]. split; [| exact Ha].
           intros z Hz. apply Hb. right. exact Hz.
    + split; [discriminate |].
      intros [[| y before] [after [E [Hb Ha]]]].
      * simpl in E. inversion E. subst a. congruence.
      * simpl in E. inversion E. subst y.
        rewrite (Hb x (or_introl eq_refl)) in Ex. discriminate.
Qed.

Lemma isUnanswered_false (answers : list Insight.json) (q : Question.t) :
  isUnanswered answers q = Stored.Returns false
  <-> exists a,
        findAnswer (Question._id q) answers = Stored.Returns (Some a)
        /\ emptyAnswer (Stored.valueOf (Insight.property "answer" a))
           = false.
Proof.
  unfold Public.isUnanswered.
  destruct (findAnswer (Question._id q) answers) as [[a |] |];
    cbn [Stored.bind].
  - split.
    + intros H. injection H as E. exists a. split; [reflexivity |].
      exact E.
    + intros [a' [E H]]. inversion E. subst a'. rewrite H. reflexivity.
  - split; [discriminate |]. intros [a [E _]]. discriminate.
  - split; [discriminate |]. intros [a [E _]]. discriminate.
Qed.

Lemma unansweredRequired_nil (questions : list Question.t)
      (answers : list Insight.json) :
  unansweredRequired questions answers = Stored.Returns []
  <-> forall q,
        In q questions -> required q = true ->
        exists a,
          findAnswer (Question._id q) answers = Stored.Returns (Some a)
          /\ emptyAnswer (Stored.valueOf (Insight.property "answer" a))
             = false.
Proof.
  unfold Public.unansweredRequired. rewrite filterM_nil. split.
  - intros H q Hq Hr. apply isUnanswered_false. apply H.
    apply filter_In. split; assumption.
  - intros H q Hq. apply filter_In in Hq. destruct Hq as [Hq Hr].
    apply isUnanswered_false. apply H; assumption.
Qed.

Lemma validateAndSave_created (survey : SurveyDoc.t) (body : Insight.json)
      (answers : list Insight.json) (r : StoredResponse.t) :
  validateAndSave survey body answers = Created r
  <-> unansweredRequired (Survey.questions (SurveyDoc.survey survey))
                         answers = Stored.Returns []
      /\ exists stored, save body = Saved stored /\ r = newResponse stored.
Proof.
  unfold Public.validateAndSave.
  destruct (unansweredRequired
              (Survey.questions (SurveyDoc.survey survey)) answers)
    as [[| q l] |].
  - cbn [List.length Nat.ltb Nat.leb]. destruct (save body) as [m | stored].
    + split; [discriminate |]. intros [_ [stored [E _]]]. discriminate.
    + split.
      * intros H. inversion H. split; [reflexivity |].
        exists stored. split; reflexivity.
      * intros [_ [stored' [E ->]]]. inversion E. reflexivity.
  - cbn [List.length Nat.ltb Nat.leb]. split; [discriminate |].
    intros [E _]. discriminate.
  - split; [discriminate |]. intros [E _]. discriminate.
Qed.

Lemma submit_created (surveys : list SurveyDoc.t) (link : string)
      (now : Z) (user : option string) (body : Insight.json)
      (existingResponse existingByEmail : bool) (r : StoredResponse.t) :
  submitSurveyResponse surveys link now user body existingResponse
                       existingByEmail = Created r
  <-> exists survey answers,
        findByShareableLink surveys link = Some survey
        /\ Sharing.canAcceptResponses survey now = true
        /\ Insight.property "answers" body = Some (Insight.JArray answers)
        /\ answers <> []
        /\ negb (Lifecycle.truthy user)
           && (negb (isTruthy (Insight.property "respondentName" body))
               || negb (isTruthy (Insight.property "respondentEmail" body)))
           = false
        /\ Lifecycle.truthy user && negb (allowMultipleResponses survey)
           && existingResponse = false
        /\ (isTruthy (Insight.property "respondentEmail" body)
            && negb (allowMultipleResponses survey) = true ->
            (exists s, Insight.property "respondentEmail" body
                       = Some (Insight.JString s))
            /\ existingByEmail = false)
        /\ validateAndSave survey body answers = Created r.
Proof.
  unfold Public.submitSurveyResponse.
  destruct (findByShareableLink surveys link) as [survey |].
  2:{ split; [discriminate |]. intros [sv [l [H _]]]. discriminate. }
  destruct (Sharing.canAcceptResponses survey now) eqn:Ea; cbn [negb].
  2:{ split; [discriminate |].
      intros [sv [l [H [C _]]]]. inversion H; subst sv. congruence. }
  destruct (Insight.property "answers" body) as [ans |] eqn:El.
  2:{ split; [discriminate |].
      intros [sv [l [_ [_ [C _]]]]]. discriminate. }
  destruct ans as [| b | n | t | answers | fields];
    try (split; [discriminate |];
         intros [sv [l [_ [_ [C _]]]]]; discriminate).
  destruct answers as [| a0 l0]; cbn [List.length Nat.eqb].
  { split; [discriminate |].
    intros [sv [l [_ [_ [C [Hne _]]]]]]. inversion C. subst l.
    contradiction. }
  destruct (negb (Lifecycle.truthy user)
            && (negb (isTruthy (Insight.property "respondentName" body))
                || negb (isTruthy
                           (Insight.property "respondentEmail" body))))
    eqn:Ewho.
  { split; [discriminate |].
    intros [sv [l [_ [_ [_ [_ [C _]]]]]]]. discriminate. }
  destruct (Lifecycle.truthy user && negb (allowMultipleResponses survey)
            && existingResponse) eqn:Edup.
  { split; [discriminate |].
    intros [sv [l [H [_ [_ [_ [_ [C _]]]]]]]]. inversion H; subst sv.
    congruence. }
  destruct (isTruthy (Insight.property "respondentEmail" body)
            && negb (allowMultipleResponses survey)) eqn:Email.
  - destruct (Insight.property "respondentEmail" body)
      as [[| b | n | t | elems | fields] |] eqn:Ee;
      try (split; [discriminate |];
           intros [sv [l [H [_ [_ [_ [_ [_ [C _]]]]]]]]];
           inversion H; subst sv;
           destruct (C Email) as [[t' Ht] _]; discriminate).
    destruct existingByEmail.
    + split; [discriminate |].
      intros [sv [l [H [_ [_ [_ [_ [_ [C _]]]]]]]]].
      inversion H; subst sv. destruct (C Email) as [_ Hx]. discriminate.
    + split.
      * intros H. exists survey, (a0 :: l0).
        repeat (split; [first [reflexivity | discriminate | assumption] |]).
        split; [| exact H].
        intros _. split; [exists t; reflexivity | reflexivity].
      * intros [sv [l [H [_ [C [_ [_ [_ [_ Hv]]]]]]]]].
        inversion H; subst sv. inversion C; subst l. exact Hv.
  - split.
    + intros H. exists survey, (a0 :: l0).
      repeat (split; [first [reflexivity | discriminate | assumption] |]).
      split; [| exact H].
      intros C. congruence.
    + intros [sv [l [H [_ [C [_ [_ [_ [_ Hv]]]]]]]]].
      inversion H; subst sv. inversion C; subst l. exact Hv.
Qed.

(** X21. [submitSurveyResponse] creates a response exactly when the link is
    that of a published survey that has not expired; the body holds a
    non-empty array [answers]; the respondent is logged in or gives a
    name and an email; no earlier response forbids another one, and the
    email, when it is looked up, is a string; for every required
    question the array holds an element that answers it, no element
    before the first such one is [null] or holds a [questionId] whose
    [toString()] throws, and the answer of that first element is neither
    missing, [null] nor the empty string; and the casts and the
    validation of the document succeed. The response it creates is
    completed, holds the answers as they are stored and no
    [timeSpent]. *)
Theorem submission_is_created_iff
        (surveys : list SurveyDoc.t) (link : string) (now : Z)
        (user : option string) (body : Insight.json)
        (existingResponse existingByEmail : bool) (r : StoredResponse.t) :
  submitSurveyResponse surveys link now user body existingResponse
                       existingByEmail = Created r
  <-> exists survey answers stored,
        findByShareableLink surveys link = Some survey
        /\ match SurveyDoc.expiresAt survey with
           | Some t => (now < t)%Z
           | None => True
           end
        /\ Insight.property "answers" body = Some (Insight.JArray answers)
        /\ answers <> []
        /\ (Lifecycle.truthy user = true
            \/ (isTruthy (Insight.property "respondentName" body) = true
                /\ isTruthy (Insight.property "respondentEmail" body)
                   = true))
        /\ (Lifecycle.truthy user = true ->
            allowMultipleResponses survey = false ->
            existingResponse = false)
        /\ (isTruthy (Insight.property "respondentEmail" body) = true ->
            allowMultipleResponses survey = false ->
            (exists s, Insight.property "respondentEmail" body
                       = Some (Insight.JString s))
            /\ existingByEmail = false)
        /\ (forall q,
              In q (Survey.questions (SurveyDoc.survey survey)) ->
              required q = true ->
              exists before a after,
                answers = before ++ a :: after
                /\ (forall x, In x before ->
                      answersQuestion (Question._id q) x
                      = Stored.Returns false)
                /\ answersQuestion (Question._id q) a = Stored.Returns true
                /\ emptyAnswer
                     (Stored.valueOf (Insight.property "answer" a))
                   = false)
        /\ save body = Saved stored
        /\ r = {| StoredResponse.answers := stored;
                  StoredResponse.timeSpent := VUndefined;
                  StoredResponse.isCompleted := true |}.
Proof.
  rewrite submit_created.
  assert (forall survey,
            findByShareableLink surveys link = Some survey ->
            (Sharing.canAcceptResponses survey now = true
             <-> match SurveyDoc.expiresAt survey with
                 | Some t => (now < t)%Z
                 | None => True
                 end)) as Hacc.
  { intros survey Hf. apply findByShareableLink_spec in Hf.
    destruct Hf as [_ [_ Hst]].
    unfold Sharing.canAcceptResponses. rewrite Hst. simpl.
    destruct (SurveyDoc.expiresAt survey) as [t |].
    - apply Z.ltb_lt.
    - tauto. }
  assert (forall survey answers,
            (forall q,
               In q (Survey.questions (SurveyDoc.survey survey)) ->
               required q = true ->
               exists before a after,
                 answers = before ++ a :: after
                 /\ (forall x, In x before ->
                       answersQuestion (Question._id q) x
                       = Stored.Returns false)
                 /\ answersQuestion (Question._id q) a
                    = Stored.Returns true
                 /\ emptyAnswer
                      (Stored.valueOf (Insight.property "answer" a))
                    = false)
            <-> unansweredRequired
                  (Survey.questions (SurveyDoc.survey survey)) answers
                = Stored.Returns []) as Hreq.
  { intros survey answers. rewrite unansweredRequired_nil. split.
    - intros H q Hq Hr.
      destruct (H q Hq Hr) as [before [a [after [E [Hb [Ha He]]]]]].
      exists a. split; [| exact He].
      apply findAnswer_spec. exists before, after. auto.
    - intros H q Hq Hr. destruct (H q Hq Hr) as [a [Hf He]].
      apply findAnswer_spec in Hf.
      destruct Hf as [before [after [E [Hb Ha]]]].
      exists before, a, after. auto. }
  split.
  - intros [survey [answers [Hf [Ha [Hl [Hne [Hwho [Hdup [Hmail Hv]]]]]]]]].
    apply validateAndSave_created in Hv.
    destruct Hv as [Hun [stored [Hs ->]]].
    exists survey, answers, stored.
    split; [exact Hf |]. split; [apply (Hacc survey Hf); exact Ha |].
    split; [exact Hl |]. split; [exact Hne |]. split.
    { destruct (Lifecycle.truthy user); [left; reflexivity | right].
      cbn [negb andb] in Hwho. apply orb_false_iff in Hwho.
      destruct Hwho as [H1 H2].
      apply negb_false_iff in H1, H2. split; assumption. }
    split.
    { intros Hu Hm. rewrite Hu, Hm in Hdup. exact Hdup. }
    split.
    { intros He Hm. apply Hmail. rewrite He, Hm. reflexivity. }
    split; [apply (Hreq survey answers); exact Hun |].
    split; [exact Hs | reflexivity].
  - intros [survey [answers [stored [Hf [Hexp [Hl [Hne [Hwho [Hdup [Hmail
             [Hq [Hs ->]]]]]]]]]]]].
    exists survey, answers.
    split; [exact Hf |]. split; [apply (Hacc survey Hf); exact Hexp |].
    split; [exact Hl |]. split; [exact Hne |]. split.
    { destruct Hwho as [Hu | [Hn He]].
      - rewrite Hu. reflexivity.
      - rewrite Hn, He. cbn [negb orb]. apply andb_false_r. }
    split.
    { destruct (Lifecycle.truthy user) eqn:Eu; [| reflexivity].
      destruct (allowMultipleResponses survey) eqn:Em; [reflexivity |].
      rewrite (Hdup eq_refl eq_refl). reflexivity. }
    split.
    { intros H. apply andb_prop in H. destruct H as [He Hm].
      apply negb_true_iff in Hm. apply (Hmail He Hm). }
    apply validateAndSave_created.
    split; [apply (Hreq survey answers); exact Hq |].
    exists stored. split; [exact Hs | reflexivity].
Qed.

(** *** The responses in the report *)

Variable StringToNumber : string -> number.

Abbreviation getAnalytics := (Stored.getAnalytics NumberToString StringToNumber).

Lemma created_response (surveys : list SurveyDoc.t) (link : string)
      (now : Z) (user : option string) (body : Insight.json)
      (existingResponse existingByEmail : bool) (r : StoredResponse.t) :
  submitSurveyResponse surveys link now user body existingResponse
                       existingByEmail = Created r ->
  exists survey answers stored,
    findByShareableLink surveys link = Some survey
    /\ Insight.property "answers" body = Some (Insight.JArray answers)
    /\ unansweredRequired (Survey.questions (SurveyDoc.survey survey))
                          answers = Stored.Returns []
    /\ save body = Saved stored
    /\ r = newResponse stored.
Proof.
  intros H. apply submit_created in H.
  destruct H as [survey [answers [Hf [_ [Hl [_ [_ [_ [_ Hv]]]]]]]]].
  apply validateAndSave_created in Hv.
  destruct Hv as [Hun [stored [Hs ->]]].
  exists survey, answers, stored. auto.
Qed.

(** X22. The report of a survey whose responses were all created by
    [submitSurveyResponse] while the survey had its present questions,
    when the handler sends one: every response is completed, none is
    partial, the average completion time is 0 since no response records
    a time, and every required question was reached by every response.
    The casts are taken to keep the [questionId] of an element that
    answers a question of the survey. *)
Theorem report_of_public_responses
        (survey : Survey.t) (rs : list StoredResponse.t)
        (report : Report.t) :
  (forall body answers stored q a,
     In q (Survey.questions survey) ->
     save body = Saved stored ->
     Insight.property "answers" body = Some (Insight.JArray answers) ->
     In a answers ->
     answersQuestion (Question._id q) a = Stored.Returns true ->
     exists sa, In (Some sa) stored
                /\ StoredAnswer.questionId sa = Some (Question._id q)) ->
  (forall r,
     In r rs ->
     exists surveys link now user body existingResponse existingByEmail doc,
       findByShareableLink surveys link = Some doc
       /\ Survey.questions (SurveyDoc.survey doc) = Survey.questions survey
       /\ submitSurveyResponse surveys link now user body existingResponse
                               existingByEmail = Created r) ->
  getAnalytics survey rs = Stored.Success report ->
  Totals.totalResponses (Report.totals report) = List.length rs
  /\ Totals.completedResponses (Report.totals report) = List.length rs
  /\ Totals.partialResponses (Report.totals report) = 0
  /\ Totals.averageCompletionTimeSeconds (Report.totals report) = of_Z 0
  /\ forall q e,
       In q (Survey.questions survey) ->
       required q = true ->
       Question._id q <> "" ->
       In e (Report.funnel report) ->
       Funnel.questionId e = Question._id q ->
       Funnel.reached e = List.length rs.
Proof.
  intros Hkeeps Hall Hrep.
  apply StoredFacts.report_when_sent in Hrep. subst report.
  assert (forall r, In r rs ->
            exists stored,
              r = newResponse stored
              /\ forall q, In q (Survey.questions survey) ->
                           required q = true ->
                           exists sa,
                             In (Some sa) stored
                             /\ StoredAnswer.questionId sa
                                = Some (Question._id q)) as Hnew.
  { intros r Hr.
    destruct (Hall r Hr)
      as [surveys [link [now [user [body [e1 [e2 [doc [Hf [Hq Hc]]]]]]]]]].
    apply created_response in Hc.
    destruct Hc as [doc' [answers [stored [Hf' [Hl [Hun [Hs ->]]]]]]].
    rewrite Hf in Hf'. inversion Hf'; subst doc'.
    exists stored. split; [reflexivity |]. intros q Hin Hreq.
    rewrite Hq in Hun.
    destruct (proj1 (unansweredRequired_nil _ _) Hun q Hin Hreq)
      as [a [Ha _]].
    apply findAnswer_spec in Ha.
    destruct Ha as [before [after [E [_ Ha]]]].
    apply (Hkeeps body answers stored q a Hin Hs Hl); [| exact Ha].
    rewrite E. apply in_or_app. right. left. reflexivity. }
  destruct (totals_spec NumberToString StringToNumber survey
                        (map Stored.toResponse rs)) as [H1 [H2 H3]].
  split; [| split; [| split; [| split]]].
  - rewrite H1. apply length_map.
  - rewrite H2, filter_all; [apply length_map |].
    intros r Hr. apply in_map_iff in Hr. destruct Hr as [r0 [<- Hr0]].
    destruct (Hnew r0 Hr0) as [stored [-> _]]. reflexivity.
  - rewrite H3, filter_none; [reflexivity |].
    intros r Hr. apply in_map_iff in Hr. destruct Hr as [r0 [<- Hr0]].
    destruct (Hnew r0 Hr0) as [stored [-> _]]. reflexivity.
  - rewrite (average_spec NumberToString StringToNumber), times_none;
      [reflexivity |].
    intros r Hr. apply in_map_iff in Hr. destruct Hr as [r0 [<- Hr0]].
    destruct (Hnew r0 Hr0) as [stored [-> _]]. reflexivity.
  - intros q e Hq Hreq Hid Hin Heq.
    rewrite (funnel_reached NumberToString StringToNumber _ _ _ Hin), Heq.
    rewrite filter_all; [apply length_map |].
    intros r Hr. apply in_map_iff in Hr. destruct Hr as [r0 [<- Hr0]].
    destruct (Hnew r0 Hr0) as [stored [-> Hst]].
    destruct (Hst q Hq Hreq) as [sa [Hsa Hsid]].
    unfold mentions. apply existsb_exists. exists (Stored.toAnswer sa).
    split.
    + cbn [Stored.toResponse Response.answers newResponse
           StoredResponse.answers].
      apply in_flat_map. exists (Some sa). split; [exact Hsa |].
      left. reflexivity.
    + unfold targets. cbn [Stored.toAnswer Answer.questionId].
      rewrite Hsid, String.eqb_refl, andb_true_r.
      apply negb_true_iff. apply String.eqb_neq. exact Hid.
Qed.

End Submit.

Section Created.
Variable NumberToString : number -> string.
Variable StringToNumber : string -> number.

Abbreviation getAnalytics := (Stored.getAnalytics NumberToString StringToNumber).

(** X29. No handler that creates a response records a [timeSpent]: the
    responses [submitSurveyResponse], [submitResponse] and
    [savePartialResponse] create hold none, and whenever the handler of
    the analytics sends a report for such responses, the report shows an
    average completion time of 0. *)
Theorem created_responses_record_no_time
        (survey : Survey.t) (rs : list StoredResponse.t) :
  (forall r, In r rs -> created r) ->
  (forall r, In r rs -> StoredResponse.timeSpent r = VUndefined)
  /\ forall report,
       getAnalytics survey rs = Stored.Success report ->
       Totals.averageCompletionTimeSeconds (Report.totals report) = of_Z 0.
Proof.
  intros Hall.
  assert (forall r, In r rs -> StoredResponse.timeSpent r = VUndefined)
    as Hno.
  { intros r Hr.
    destruct (Hall r Hr)
      as [N rq am sv surveys link now user body e1 e2 H
         | sv found body H | sv found body H].
    - apply created_response in H.
      destruct H as [_ [_ [stored [_ [_ [_ [_ ->]]]]]]]. reflexivity.
    - unfold submitResponse in H.
      destruct found as [m | | d]; try discriminate.
      destruct (negb (Sharing.status d =? "published")%string);
        [discriminate |].
      destruct (sv body); inversion H. reflexivity.
    - unfold savePartialResponse in H.
      destruct found as [m | | d]; try discriminate.
      destruct (sv body); inversion H. reflexivity. }
  split; [exact Hno |].
  intros report Hrep. apply StoredFacts.report_when_sent in Hrep.
  subst report.
  rewrite (average_spec NumberToString StringToNumber), times_none;
    [reflexivity |].
  intros r Hr. apply in_map_iff in Hr. destruct Hr as [r0 [<- Hr0]].
  cbn [Stored.toResponse Response.timeSpent]. apply Hno. exact Hr0.
Qed.

End Created.

End PublicFacts.

(** * The life of a survey document *)

Module LifecycleFacts.
Import JS JSFacts Layout Sharing Lifecycle.

Lemma preSave_link (randomBytes : nat -> list ascii)
      (taken : string -> bool) (doc : SurveyDoc.t) :
  (forall i, List.length (randomBytes i) = 6) ->
  same_identity (preSave randomBytes taken doc) doc
  /\ SurveyDoc.survey (preSave randomBytes taken doc) = SurveyDoc.survey doc
  /\ (hasLink doc = true ->
      SurveyDoc.shareableLink (preSave randomBytes taken doc)
      = SurveyDoc.shareableLink doc)
  /\ (hasLink doc = false ->
      hasLink (preSave randomBytes taken doc) = true ->
      status doc = "published"
      /\ exists l,
           SurveyDoc.shareableLink (preSave randomBytes taken doc) = Some l
           /\ validLink l = true).
Proof.
  intros Hlen.
  destruct (SharingFacts.preSave_cases randomBytes taken doc Hlen)
    as [[Hsame _]
       | [Hpub [Hno [l [i [Hsv [_ [_ [_ [_ [_ [Hv _]]]]]]]]]]]].
  - rewrite Hsame. split; [split; reflexivity |]. split; [reflexivity |].
    split; [reflexivity |]. intros H H'. congruence.
  - rewrite Hsv. split; [split; reflexivity |]. split; [reflexivity |].
    split; [intros H; congruence |].
    intros _ _. split; [exact Hpub |]. exists l. split; [reflexivity |].
    exact Hv.
Qed.

Section Handlers.
Variable validates : SurveyDoc.t -> bool.
Variable validationError : SurveyDoc.t -> string.
Variable randomBytes : nat -> list ascii.
Variable taken : string -> bool.
Hypothesis six_bytes : forall i, List.length (randomBytes i) = 6.

Abbreviation save := (save validates validationError randomBytes taken).
Abbreviation updateSurvey :=
  (updateSurvey validates validationError randomBytes taken).
Abbreviation closeSurvey :=
  (closeSurvey validates validationError randomBytes taken).
Abbreviation addQuestion :=
  (addQuestion validates validationError randomBytes taken).

Lemma save_stored (old changed doc' : SurveyDoc.t) (message : string) :
  snd (save old changed message) = Some doc' ->
  doc' = old \/ doc' = preSave randomBytes taken changed.
Proof.
  unfold Lifecycle.save. destruct (validates changed); cbn [snd];
    intros H; inversion H; auto.
Qed.

Lemma saved_keeps_link (old changed doc' : SurveyDoc.t) (message : string) :
  keeps_link changed old ->
  snd (save old changed message) = Some doc' ->
  same_identity doc' old
  /\ (hasLink old = true ->
      SurveyDoc.shareableLink doc' = SurveyDoc.shareableLink old)
  /\ (hasLink old = false -> hasLink doc' = true ->
      status doc' = "published"
      /\ exists l, SurveyDoc.shareableLink doc' = Some l
                   /\ validLink l = true).
Proof.
  intros [[Ho Hi] Hl] Hs. apply save_stored in Hs.
  assert (hasLink changed = hasLink old) as Hh
    by (unfold hasLink; rewrite Hl; reflexivity).
  destruct Hs as [-> | ->].
  - split; [split; reflexivity |]. split; [reflexivity |].
    intros H H'. congruence.
  - destruct (preSave_link randomBytes taken changed six_bytes)
      as [[Ho' Hi'] [_ [Hkeep Hnew]]].
    split; [split; congruence |]. split.
    + intros H. rewrite Hkeep by congruence. exact Hl.
    + intros H H'. rewrite Hh in Hnew. destruct (Hnew H H') as [Hp He].
      split; [| exact He]. rewrite SharingFacts.preSave_status. exact Hp.
Qed.

End Handlers.

Lemma step_keeps_link (doc doc' : SurveyDoc.t) :
  step doc doc' ->
  same_identity doc' doc
  /\ (hasLink doc = true ->
      SurveyDoc.shareableLink doc' = SurveyDoc.shareableLink doc)
  /\ (hasLink doc = false -> hasLink doc' = true ->
      status doc' = "published"
      /\ exists l, SurveyDoc.shareableLink doc' = Some l
                   /\ validLink l = true).
Proof.
  assert (same_identity doc doc
          /\ (hasLink doc = true ->
              SurveyDoc.shareableLink doc = SurveyDoc.shareableLink doc)
          /\ (hasLink doc = false -> hasLink doc = true ->
              status doc = "published"
              /\ exists l, SurveyDoc.shareableLink doc = Some l
                           /\ validLink l = true)) as Hrefl.
  { split; [split; reflexivity |]. split; [reflexivity |].
    intros H H'. congruence. }
  intros [validates validationError randomBytes taken userId title questions
            Hlen H
         | randomBytes taken userId Hlen H
         | validates validationError randomBytes taken userId Hlen H
         | validates validationError randomBytes taken userId newId type
                     text options Hlen H].
  - unfold updateSurvey in H.
    destruct (negb (SurveyDoc.createdBy doc =? userId)%string);
      [inversion H; subst; exact Hrefl |].
    destruct (negb (status doc =? "draft")%string);
      [inversion H; subst; exact Hrefl |].
    eapply saved_keeps_link; [exact Hlen | | exact H].
    destruct title as [t |], questions as [qs |];
      try destruct (truthy (Some t));
      split; try split; reflexivity.
  - unfold publishSurvey in H.
    destruct (negb (SurveyDoc.createdBy doc =? userId)%string);
      [inversion H; subst; exact Hrefl |].
    destruct (List.length (Survey.questions (SurveyDoc.survey doc)) =? 0)%nat;
      [inversion H; subst; exact Hrefl |].
    assert (doc' = preSave randomBytes taken
                           (SurveyDoc.with_status "published" doc)) as ->.
    { destruct (negb (hasLink (preSave randomBytes taken
                                 (SurveyDoc.with_status "published" doc))));
        inversion H; reflexivity. }
    destruct (preSave_link randomBytes taken
                           (SurveyDoc.with_status "published" doc) Hlen)
      as [[Ho Hi] [_ [Hkeep Hnew]]].
    split; [split; assumption |]. split.
    + intros Hh. apply Hkeep. exact Hh.
    + intros Hh Hh'. destruct (Hnew Hh Hh') as [_ He].
      split; [| exact He]. rewrite SharingFacts.preSave_status. reflexivity.
  - unfold closeSurvey in H.
    destruct (negb (SurveyDoc.createdBy doc =? userId)%string);
      [inversion H; subst; exact Hrefl |].
    eapply saved_keeps_link; [exact Hlen | | exact H].
    split; try split; reflexivity.
  - unfold addQuestion in H.
    destruct (negb (SurveyDoc.createdBy doc =? userId)%string);
      [inversion H; subst; exact Hrefl |].
    eapply saved_keeps_link; [exact Hlen | | exact H].
    split; try split; reflexivity.
Qed.

(** X23. Whatever calls to [updateSurvey], [publishSurvey], [closeSurvey] and
    [addQuestion] a survey goes through, its owner and its id stay the
    same and a link it has is never replaced; a link it gets on the way
    passes the validator of the schema. *)
Theorem link_and_owner_are_stable (doc doc' : SurveyDoc.t) :
  reachable doc doc' ->
  SurveyDoc.createdBy doc' = SurveyDoc.createdBy doc
  /\ Survey._id (SurveyDoc.survey doc') = Survey._id (SurveyDoc.survey doc)
  /\ (hasLink doc = true ->
      SurveyDoc.shareableLink doc' = SurveyDoc.shareableLink doc)
  /\ (hasLink doc = false -> hasLink doc' = true ->
      exists l, SurveyDoc.shareableLink doc' = Some l
                /\ validLink l = true).
Proof.
  induction 1 as [| doc' doc'' Hr IH Hs].
  - split; [reflexivity |]. split; [reflexivity |]. split; [reflexivity |].
    intros H H'. congruence.
  - destruct IH as [Ho [Hi [Hkeep Hnew]]].
    destruct (step_keeps_link Hs) as [[Ho' Hi'] [Hkeep' Hnew']].
    split; [congruence |]. split; [congruence |]. split.
    + intros H. rewrite Hkeep' by (unfold hasLink in *;
                                   rewrite (Hkeep H); exact H).
      apply Hkeep. exact H.
    + intros H H'. destruct (hasLink doc') eqn:E.
      * rewrite (Hkeep' eq_refl). apply Hnew; [exact H | reflexivity].
      * apply Hnew'; [reflexivity | exact H'].
Qed.

(** *** The order of the questions *)

Lemma sort_sorted_same (l : list Question.t) :
  StronglySorted (fun a b => (Question.order a <= Question.order b)%Z) l ->
  sort byQuestionOrder l = l.
Proof.
  induction 1 as [| x l Hs IH Hx]; cbn [sort].
  - reflexivity.
  - rewrite IH. destruct l as [| y l']; [reflexivity |]. cbn [insert].
    unfold byQuestionOrder. rewrite positive_sub_of_Z.
    inversion Hx as [| ? ? Hxy _]; subst.
    destruct (Question.order y <? Question.order x)%Z eqn:E;
      [apply Z.ltb_lt in E; lia | reflexivity].
Qed.

Lemma numbered_from_sorted (l : list Question.t) :
  forall a : nat,
  map Question.order l = map Z.of_nat (seq a (List.length l)) ->
  StronglySorted (fun x y => (Question.order x <= Question.order y)%Z) l
  /\ Forall (fun x => (Z.of_nat a <= Question.order x)%Z) l.
Proof.
  induction l as [| x l IH]; intros a H; simpl in *.
  - split; constructor.
  - inversion H as [[Hx Hl]]. destruct (IH (S a) Hl) as [Hs Hf].
    split.
    + constructor; [exact Hs |].
      eapply Forall_impl; [| exact Hf]. simpl. intros y Hy. lia.
    + constructor; [lia |].
      eapply Forall_impl; [| exact Hf]. simpl. intros y Hy. lia.
Qed.

(** X24. [addQuestion] appends the question with the next order. On a survey
    whose questions are numbered [0], [1], ... in the order of the array,
    the questions stay so numbered, and the report lists them in the
    order they were added; a fresh id keeps the ids distinct. *)
Theorem added_question_comes_last
        (validates : SurveyDoc.t -> bool)
        (validationError : SurveyDoc.t -> string)
        (randomBytes : nat -> list ascii) (taken : string -> bool)
        (doc doc' : SurveyDoc.t) (userId newId type text message : string)
        (options : option (list Choice.t))
        (stored : option SurveyDoc.t) :
  addQuestion validates validationError randomBytes taken (Some doc) userId
              newId type text options
  = (Success (Some doc') message, stored) ->
  numbered (Survey.questions (SurveyDoc.survey doc)) ->
  stored = Some doc'
  /\ Survey.questions (SurveyDoc.survey doc')
     = Survey.questions (SurveyDoc.survey doc)
       ++ [newQuestion doc newId type text options]
  /\ status doc' = status doc
  /\ numbered (Survey.questions (SurveyDoc.survey doc'))
  /\ sortedQuestions (SurveyDoc.survey doc')
     = Survey.questions (SurveyDoc.survey doc')
  /\ (NoDup (map Question._id (Survey.questions (SurveyDoc.survey doc))) ->
      ~ In newId (map Question._id
                      (Survey.questions (SurveyDoc.survey doc))) ->
      NoDup (map Question._id (Survey.questions (SurveyDoc.survey doc')))).
Proof.
  unfold addQuestion. intros H Hn.
  destruct (negb (SurveyDoc.createdBy doc =? userId)%string);
    [discriminate |].
  unfold save in H.
  destruct (validates _); [| discriminate].
  inversion H as [[Hd Hm Hst]]. clear H Hm.
  set (changed := SurveyDoc.with_questions
                    (Survey.questions (SurveyDoc.survey doc)
                     ++ [newQuestion doc newId type text options]) doc)
    in *.
  assert (SurveyDoc.survey (preSave randomBytes taken changed)
          = SurveyDoc.survey changed) as Hsv.
  { unfold preSave.
    destruct ((status changed =? "published")%string
              && negb (hasLink changed)); [| reflexivity].
    destruct (generateLink randomBytes taken 10 0); reflexivity. }
  assert (numbered (Survey.questions (SurveyDoc.survey doc)
                    ++ [newQuestion doc newId type text options])) as Hn'.
  { unfold numbered in *. rewrite map_app, length_app. simpl.
    rewrite Nat.add_1_r, seq_S, map_app, Hn. reflexivity. }
  subst doc' stored. split; [reflexivity |]. unfold status. rewrite Hsv.
  cbn [changed SurveyDoc.with_questions SurveyDoc.survey Survey.questions
       Survey.status].
  split; [reflexivity |]. split; [reflexivity |]. split; [exact Hn' |].
  split.
  - unfold sortedQuestions. cbn [Survey.questions].
    apply sort_sorted_same.
    apply (proj1 (numbered_from_sorted _ 0 Hn')).
  - intros Hnd Hfresh. rewrite map_app. simpl.
    apply NoDup_app; [exact Hnd | repeat constructor; intros [] |].
    intros x Hx [<- | []]. exact (Hfresh Hx).
Qed.

(** X25. A survey that [closeSurvey] closed keeps its link but is out of
    reach: it accepts no response, no QR code is made for it, the public
    endpoints do not find it; publishing it again brings back the link it
    had. *)
Theorem closed_survey_is_out_of_reach
        (validates : SurveyDoc.t -> bool)
        (validationError : SurveyDoc.t -> string)
        (randomBytes : nat -> list ascii) (taken : string -> bool)
        (doc doc' : SurveyDoc.t) (userId message : string)
        (stored : option SurveyDoc.t) :
  closeSurvey validates validationError randomBytes taken (Some doc) userId
  = (Success (Some doc') message, stored) ->
  stored = Some doc'
  /\ SurveyDoc.createdBy doc = userId
  /\ status doc' = "closed"
  /\ SurveyDoc.shareableLink doc' = SurveyDoc.shareableLink doc
  /\ (forall now, canAcceptResponses doc' now = false)
  /\ (forall user now FRONTEND_URL,
        exists m code,
          getSurveyQRCode (Some doc') user now FRONTEND_URL
          = SendError m code)
  /\ (forall surveys link,
        Public.findByShareableLink surveys link <> Some doc')
  /\ (forall randomBytes' taken' again,
        hasLink doc = true ->
        fst (publishSurvey (Some doc') userId randomBytes' taken')
        = Published again ->
        SurveyDoc.shareableLink again = SurveyDoc.shareableLink doc).
Proof.
  unfold closeSurvey. intros H.
  destruct (SurveyDoc.createdBy doc =? userId)%string eqn:Eo;
    cbn [negb] in H; [| discriminate].
  unfold save in H. destruct (validates _); [| discriminate].
  inversion H as [[Hd Hm Hst]]. clear H Hm.
  assert (preSave randomBytes taken (SurveyDoc.with_status "closed" doc)
          = SurveyDoc.with_status "closed" doc) as Hsame by reflexivity.
  rewrite Hsame.
  split; [reflexivity |]. split; [apply String.eqb_eq; exact Eo |].
  split; [reflexivity |]. split; [reflexivity |].
  split; [intros now; reflexivity |]. split; [| split].
  - intros user now F. unfold getSurveyQRCode.
    destruct (negb (SurveyDoc.createdBy
                      (SurveyDoc.with_status "closed" doc) =? user)%string);
      eexists; eexists; reflexivity.
  - intros surveys link C.
    apply PublicFacts.findByShareableLink_spec in C.
    destruct C as [_ [_ C]]. discriminate.
  - intros rb tk again Hh. unfold publishSurvey.
    cbn [SurveyDoc.with_status SurveyDoc.createdBy SurveyDoc.survey
         Survey.questions].
    rewrite Eo. cbn [negb].
    destruct (List.length (Survey.questions (SurveyDoc.survey doc)) =? 0)%nat;
      [discriminate |].
    assert (preSave rb tk
              (SurveyDoc.with_status "published"
                 (SurveyDoc.with_status "closed" doc))
            = SurveyDoc.with_status "published"
                (SurveyDoc.with_status "closed" doc)) as Hp.
    { unfold preSave.
      replace (hasLink (SurveyDoc.with_status "published"
                          (SurveyDoc.with_status "closed" doc)))
        with true by (symmetry; exact Hh).
      rewrite andb_false_r. reflexivity. }
    rewrite Hp.
    replace (hasLink (SurveyDoc.with_status "published"
                        (SurveyDoc.with_status "closed" doc)))
      with true by (symmetry; exact Hh).
    cbn [negb fst]. intros E. inversion E. reflexivity.
Qed.

End LifecycleFacts.

(** * Ranking questions, from the form to the report *)

Module RankingFacts.
Import JS JSFacts PerQuestion LoopFacts ReportFacts Layout Form.

Lemma filterIndex_skip (i : nat) (l : list string) :
  forall k, i < k ->
  filterIndex (fun j => negb (j =? i)%nat) k l = l.
Proof.
  induction l as [| x l IH]; intros k Hk; simpl.
  - reflexivity.
  - destruct (k =? i)%nat eqn:E; [apply Nat.eqb_eq in E; lia |].
    simpl. f_equal. apply IH. lia.
Qed.

Lemma filterIndex_removes (l : list string) :
  forall (k n : nat) (dragged : string),
  nth_error l n = Some dragged ->
  Permutation (dragged :: filterIndex (fun j => negb (j =? k + n)%nat) k l)
              l.
Proof.
  induction l as [| x l IH]; intros k n d Hn.
  - destruct n; discriminate.
  - destruct n as [| n]; simpl in Hn |- *.
    + inversion Hn; subst. rewrite Nat.add_0_r, Nat.eqb_refl. simpl.
      rewrite filterIndex_skip by lia. apply Permutation_refl.
    + destruct (k =? k + S n)%nat eqn:E; [apply Nat.eqb_eq in E; lia |].
      simpl. eapply perm_trans; [apply perm_swap |].
      apply perm_skip. replace (k + S n) with (S k + n) by lia.
      apply IH. exact Hn.
Qed.

Lemma drop_permutes (options : list Choice.t)
      (answer : option (list string)) (draggingIndex : option nat)
      (dropIdx : nat) :
  Permutation
    (current options
             (handleDropRanking options answer draggingIndex dropIdx))
    (current options answer).
Proof.
  unfold handleDropRanking.
  destruct draggingIndex as [i |]; [| apply Permutation_refl].
  destruct (nth_error (current options answer) i) as [d |] eqn:E;
    [| apply Permutation_refl].
  cbn [current].
  eapply perm_trans; [apply Permutation_sym; apply Permutation_middle |].
  rewrite firstn_skipn.
  apply (filterIndex_removes (current options answer) 0 i E).
Qed.

Lemma ranking_permutes (options : list Choice.t)
      (answer : option (list string)) :
  ranking options answer ->
  Permutation (current options answer) (map getOptionValue options).
Proof.
  induction 1 as [| answer di dropIdx H IH].
  - apply Permutation_refl.
  - eapply perm_trans; [apply drop_permutes | exact IH].
Qed.

(** X27. Dragging and dropping never loses nor repeats an option: a drop
    permutes the ranking that is shown, it changes nothing when no item is
    being dragged, and every answer the form holds for a ranking question
    is a permutation of the values of the declared options. *)
Theorem ranking_answers_permute_the_options
        (options : list Choice.t) (answer : option (list string)) :
  ranking options answer ->
  Permutation (current options answer) (map getOptionValue options)
  /\ (forall draggingIndex dropIdx,
        Permutation
          (current options
                   (handleDropRanking options answer draggingIndex dropIdx))
          (current options answer))
  /\ (forall dropIdx, handleDropRanking options answer None dropIdx = answer)
  /\ (forall i dropIdx,
        List.length (current options answer) <= i ->
        handleDropRanking options answer (Some i) dropIdx = answer).
Proof.
  intros H. split; [| split; [| split]].
  - apply ranking_permutes. exact H.
  - intros di dropIdx. apply drop_permutes.
  - reflexivity.
  - intros i dropIdx Hi. unfold handleDropRanking.
    apply nth_error_None in Hi. rewrite Hi. reflexivity.
Qed.

Lemma occurrences_app (v : string) (l1 l2 : list string) :
  occurrences v (l1 ++ l2) = occurrences v l1 + occurrences v l2.
Proof.
  unfold occurrences. apply count_occ_app.
Qed.

Lemma percentage_full (n : nat) :
  1 <= n -> Analytics.percentage n n = of_Z 100.
Proof.
  intros Hn. unfold Analytics.percentage.
  destruct (n =? 0)%nat eqn:E; [apply Nat.eqb_eq in E; lia |].
  unfold of_nat, of_Z, div, mul.
  destruct (Qeq_bool (inject_Z (Z.of_nat n)) 0) eqn:Ez.
  { apply Qeq_bool_eq in Ez. unfold Qeq in Ez. simpl in Ez. lia. }
  f_equal. change (inject_Z 100) with (Qred (inject_Z 100)) at 2.
  apply Qred_complete. rewrite Qred_correct.
  unfold Qdiv. rewrite Qmult_inv_r.
  - reflexivity.
  - intros C. apply Qeq_bool_neq in Ez. contradiction.
Qed.

Section Ranking.
Variable NumberToString : number -> string.
Variable StringToNumber : string -> number.

Abbreviation getAnalytics := (Analytics.getAnalytics NumberToString StringToNumber).
Abbreviation selected := (selected NumberToString).
Abbreviation selections := (selections NumberToString).

Lemma selected_strings (l : list string) :
  selected (VArray (map VString l)) = l.
Proof.
  unfold PerQuestion.selected. cbn [Analytics.rawValues].
  rewrite map_map. cbn [ToString]. apply map_id.
Qed.

Lemma ranked_occurrences (values : list string) (v : string)
      (vs : list value) :
  NoDup values ->
  In v values ->
  (forall a, In a vs ->
             exists l, a = VArray (map VString l) /\ Permutation l values) ->
  occurrences v (flat_map selected vs) = List.length vs.
Proof.
  intros Hnd Hv. induction vs as [| a vs IH]; intros H; cbn [flat_map].
  - reflexivity.
  - rewrite occurrences_app, IH by (intros b Hb; apply H; right; exact Hb).
    destruct (H a (or_introl eq_refl)) as [l [-> Hp]].
    rewrite selected_strings. unfold occurrences.
    rewrite (proj1 (NoDup_count_occ' string_dec l)).
    + reflexivity.
    + eapply Permutation_NoDup; [apply Permutation_sym; exact Hp | exact Hnd].
    + eapply Permutation_in; [apply Permutation_sym; exact Hp | exact Hv].
Qed.

Lemma ranked_selections (values : list string) (v : string)
      (vs : list value) :
  (forall a, In a vs ->
             exists l, a = VArray (map VString l) /\ Permutation l values) ->
  In v (flat_map selected vs) -> In v values.
Proof.
  intros H Hin. apply in_flat_map in Hin. destruct Hin as [a [Ha Hv]].
  destruct (H a Ha) as [l [-> Hp]]. rewrite selected_strings in Hv.
  eapply Permutation_in; [exact Hp | exact Hv].
Qed.

(** X28. The report of a ranking question answered through the form. When the
    options answer to pairwise distinct values and every non-empty answer
    is a ranking the form can hold, every reported option was selected in
    every answer: its count is [totalAnswers] and its percentage 100,
    whatever the rankings were; and once there is an answer, every
    declared option is reported. *)
Theorem ranking_report_is_flat
        (survey : Survey.t) (rs : list Response.t)
        (e : QuestionAnalytics.t) (rows : list OptionRow.t)
        (options : list Choice.t) :
  In e (Report.questions (getAnalytics survey rs)) ->
  QuestionAnalytics.payload e = KChoice rows ->
  NoDup (map getOptionValue options) ->
  (forall a,
     In a (valuedAnswers (QuestionAnalytics.questionId e) rs) ->
     exists l, ranking options (Some l) /\ a = VArray (map VString l)) ->
  (forall row,
     In row rows ->
     In (OptionRow.value row) (map getOptionValue options)
     /\ OptionRow.count row = QuestionAnalytics.totalAnswers e
     /\ OptionRow.percentage row = of_Z 100)
  /\ (1 <= QuestionAnalytics.totalAnswers e ->
      Permutation (map OptionRow.value rows) (map getOptionValue options)).
Proof.
  intros Hin Hp Hnd Hform.
  assert (forall a,
            In a (valuedAnswers (QuestionAnalytics.questionId e) rs) ->
            exists l, a = VArray (map VString l)
                      /\ Permutation l (map getOptionValue options))
    as Hperm.
  { intros a Ha. destruct (Hform a Ha) as [l [Hr ->]].
    exists l. split; [reflexivity |].
    apply (ranking_permutes Hr). }
  apply question_entry in Hin.
  destruct Hin as [s [Hs [Hid [Ht Hpay]]]].
  rewrite Hp in Hpay. symmetry in Hpay. apply payload_choice in Hpay.
  destruct Hpay as [Hc Hrows].
  destruct (final_stats_spec NumberToString StringToNumber survey rs s Hs)
    as [_ [_ [Htot [Hopt _]]]].
  specialize (Hopt Hc). rewrite Hid in Hperm. rewrite Ht, Htot.
  subst rows. rewrite Hopt.
  set (vs := valuedAnswers (Stats.questionId s) rs) in *.
  assert (forall key n,
            In (key, n) (tallyOf (selections (Stats.questionId s) rs) []) ->
            In key (map getOptionValue options) /\ n = List.length vs)
    as Hentry.
  { intros key n Hkn.
    apply (RatingFacts.tally_entry NumberToString StringToNumber) in Hkn.
    destruct Hkn as [Hk [Hn _]].
    assert (In key (map getOptionValue options)) as Hkey
      by exact (@ranked_selections (map getOptionValue options) key vs
                                   Hperm Hk).
    split; [exact Hkey |]. rewrite Hn.
    exact (@ranked_occurrences (map getOptionValue options) key vs
                               Hnd Hkey Hperm). }
  split.
  - intros row Hrow. apply ReportLayout.optionRow_In in Hrow.
    destruct Hrow as [key [n [Hkn ->]]].
    destruct (Hentry key n Hkn) as [Hkey Hn].
    cbn [Analytics.optionRow OptionRow.value OptionRow.count
         OptionRow.percentage].
    split; [exact Hkey |]. split; [exact Hn |].
    rewrite Htot. fold vs. rewrite Hn. apply percentage_full.
    rewrite <- Hn.
    apply (RatingFacts.tally_entry NumberToString StringToNumber) in Hkn.
    tauto.
  - intros Hone.
    eapply perm_trans; [apply ReportLayout.optionRows_values |].
    apply NoDup_Permutation.
    + apply tallyOf_NoDup. constructor.
    + exact Hnd.
    + intros key. rewrite tallyOf_keys.
      rewrite (ReportLayout.firstSeen_In NumberToString StringToNumber).
      simpl. split.
      * intros [[] | Hk].
        exact (@ranked_selections (map getOptionValue options) key vs
                                  Hperm Hk).
      * intros Hkey. right.
        destruct vs as [| a vs'] eqn:Evs; [simpl in Hone; lia |].
        unfold PerQuestion.selections. fold vs. rewrite Evs.
        cbn [flat_map]. apply in_or_app. left.
        destruct (Hperm a (or_introl eq_refl)) as [l [-> Hpl]].
        rewrite selected_strings.
        eapply Permutation_in; [apply Permutation_sym; exact Hpl |].
        exact Hkey.
Qed.

End Ranking.

End RankingFacts.

(** * The further properties on concrete data *)

Module Instances.
Import JS PerQuestion Layout Sharing.

Lemma mixedSurvey_distinct :
  NoDup (map Question._id (Survey.questions Cases.mixedSurvey)).
Proof.
  repeat constructor; simpl; intuition discriminate.
Qed.

Lemma report_follows_question_order_witness :
  NoDup (map Question._id (Survey.questions Cases.mixedSurvey))
  /\ map (fun e => (Funnel.questionId e, Funnel.order e, Funnel.reached e))
         (Report.funnel
            (Examples.getAnalytics Cases.mixedSurvey Cases.mixedResponses))
     = [ (Examples.Q2, 0%Z, 3); (Examples.Q1, 1%Z, 1);
         (Examples.Q3, 1%Z, 2) ].
Proof.
  split; [exact mixedSurvey_distinct |].
  unfold Examples.getAnalytics.
  rewrite (proj1 (ReportLayout.report_follows_question_order
                    Examples.intToString Examples.intOfString
                    Cases.mixedSurvey Cases.mixedResponses
                    mixedSurvey_distinct)).
  reflexivity.
Defined.

Lemma counters_ignore_response_order_witness :
  Permutation Cases.mixedResponses
              [Cases.second; Cases.first; Cases.third]
  /\ Report.funnel
       (Examples.getAnalytics Cases.mixedSurvey Cases.mixedResponses)
     = Report.funnel
         (Examples.getAnalytics Cases.mixedSurvey
            [Cases.second; Cases.first; Cases.third]).
Proof.
  assert (Permutation Cases.mixedResponses
                      [Cases.second; Cases.first; Cases.third]) as H
    by apply perm_swap.
  split; [exact H |].
  exact (proj1 (ReportLayout.counters_ignore_response_order
                  Examples.intToString Examples.intOfString
                  Cases.mixedSurvey H)).
Defined.

Lemma choiceEntry_reported :
  In Cases.choiceEntry
     (Report.questions
        (Examples.getAnalytics Cases.mixedSurvey Cases.mixedResponses)).
Proof.
  vm_compute. left. reflexivity.
Qed.

Lemma option_rows_are_the_selected_values_witness :
  In Cases.choiceEntry
     (Report.questions
        (Examples.getAnalytics Cases.mixedSurvey Cases.mixedResponses))
  /\ QuestionAnalytics.payload Cases.choiceEntry = KChoice Cases.choiceRows
  /\ NoDup (map OptionRow.value Cases.choiceRows)
  /\ (forall v,
        In v (map OptionRow.value Cases.choiceRows)
        <-> In v (selections Examples.intToString Examples.Q2
                             Cases.mixedResponses))
  /\ forall row,
       In row Cases.choiceRows ->
       OptionRow.count row
       = occurrences (OptionRow.value row)
                     (selections Examples.intToString Examples.Q2
                                 Cases.mixedResponses)
       /\ 1 <= OptionRow.count row.
Proof.
  split; [exact choiceEntry_reported |]. split; [reflexivity |].
  exact (ReportLayout.option_rows_are_the_selected_values
           Examples.intToString Examples.intOfString
           Cases.mixedSurvey Cases.mixedResponses Cases.choiceEntry
           choiceEntry_reported eq_refl).
Defined.

Lemma mixedResponses_scalar :
  forall v,
    In v (valuedAnswers (QuestionAnalytics.questionId Cases.choiceEntry)
                        Cases.mixedResponses) ->
    isArray v = false.
Proof.
  intros v H. vm_compute in H.
  destruct H as [<- | [<- | [<- | []]]]; reflexivity.
Qed.

Lemma single_choice_counts_sum_to_totalAnswers_witness :
  In Cases.choiceEntry
     (Report.questions
        (Examples.getAnalytics Cases.mixedSurvey Cases.mixedResponses))
  /\ QuestionAnalytics.payload Cases.choiceEntry = KChoice Cases.choiceRows
  /\ (forall v,
        In v (valuedAnswers (QuestionAnalytics.questionId Cases.choiceEntry)
                            Cases.mixedResponses) ->
        isArray v = false)
  /\ optionTotal Cases.choiceRows = 3.
Proof.
  split; [exact choiceEntry_reported |]. split; [reflexivity |].
  split; [exact mixedResponses_scalar |].
  exact (ReportLayout.single_choice_counts_sum_to_totalAnswers
           Examples.intToString Examples.intOfString
           Cases.mixedSurvey Cases.mixedResponses Cases.choiceEntry
           choiceEntry_reported eq_refl mixedResponses_scalar).
Defined.

Lemma textEntry_reported :
  In Cases.textEntry
     (Report.questions
        (Examples.getAnalytics Cases.mixedSurvey Cases.mixedResponses)).
Proof.
  vm_compute. right. right. left. reflexivity.
Qed.

Lemma text_and_unknown_questions_witness :
  In Cases.textEntry
     (Report.questions
        (Examples.getAnalytics Cases.mixedSurvey Cases.mixedResponses))
  /\ QuestionAnalytics.payload Cases.textEntry = KText 2.
Proof.
  split; [exact textEntry_reported |].
  exact (proj1 (proj2 (ReportLayout.text_and_unknown_questions
                         Examples.intToString Examples.intOfString
                         Cases.mixedSurvey Cases.mixedResponses
                         Cases.textEntry textEntry_reported))
               eq_refl).
Defined.

Lemma fruitEntry_reported :
  In Cases.fruitEntry
     (Report.questions
        (Examples.getAnalytics Cases.fruitSurvey Cases.fruitResponses)).
Proof.
  vm_compute. left. reflexivity.
Qed.

Lemma fruitSurvey_distinct :
  NoDup (map Question._id (Survey.questions Cases.fruitSurvey)).
Proof.
  repeat constructor; simpl; intuition.
Qed.

Lemma option_labels_witness :
  NoDup (map Question._id (Survey.questions Cases.fruitSurvey))
  /\ In Cases.fruitQuestion (Survey.questions Cases.fruitSurvey)
  /\ In Cases.fruitEntry
        (Report.questions
           (Examples.getAnalytics Cases.fruitSurvey Cases.fruitResponses))
  /\ QuestionAnalytics.questionId Cases.fruitEntry
     = Question._id Cases.fruitQuestion
  /\ QuestionAnalytics.payload Cases.fruitEntry
     = KChoice [Cases.appleRow; Cases.otherRow]
  /\ In Cases.otherRow [Cases.appleRow; Cases.otherRow]
  /\ OptionRow.label Cases.otherRow = OptionRow.value Cases.otherRow.
Proof.
  assert (In Cases.fruitQuestion (Survey.questions Cases.fruitSurvey)) as Hq
    by (left; reflexivity).
  assert (In Cases.otherRow [Cases.appleRow; Cases.otherRow]) as Hr
    by (right; left; reflexivity).
  split; [exact fruitSurvey_distinct |]. split; [exact Hq |].
  split; [exact fruitEntry_reported |]. split; [reflexivity |].
  split; [reflexivity |]. split; [exact Hr |].
  apply (proj1 (proj2 (ReportLayout.option_labels
                         Examples.intToString Examples.intOfString
                         Cases.fruitSurvey Cases.fruitResponses
                         Cases.fruitQuestion Cases.fruitEntry
                         Cases.otherRow
                         fruitSurvey_distinct Hq fruitEntry_reported
                         eq_refl eq_refl Hr))).
  intros opt [<- | [<- | []]]; discriminate.
Defined.

Lemma textGroup_collected :
  In Cases.textGroup
     (TextAnalysis.collectTextResponses Examples.intToString
        Cases.mixedSurvey (TextAnalysis.completedOf Cases.mixedResponses)).
Proof.
  vm_compute. left. reflexivity.
Qed.

Lemma text_responses_witness :
  In Cases.textGroup
     (TextAnalysis.collectTextResponses Examples.intToString
        Cases.mixedSurvey (TextAnalysis.completedOf Cases.mixedResponses))
  /\ TextGroup.answers Cases.textGroup <> []
  /\ (forall t, In t (TextGroup.answers Cases.textGroup) ->
                t <> "" /\ trim t = t)
  /\ exists q, In q (Survey.questions Cases.mixedSurvey)
               /\ Analytics.isTextType (Question.type q) = true
               /\ Question.text q = TextGroup.questionText Cases.textGroup
               /\ TextGroup.questionText Cases.textGroup <> "".
Proof.
  split; [exact textGroup_collected |].
  exact (TextFacts.text_responses_are_trimmed_answers_to_text_questions
           Examples.intToString Cases.mixedSurvey
           (TextAnalysis.completedOf Cases.mixedResponses)
           Cases.textGroup textGroup_collected).
Defined.

Lemma texts_at_most_totalAnswers_witness :
  In Cases.textEntry
     (Report.questions
        (Examples.getAnalytics Cases.mixedSurvey Cases.mixedResponses))
  /\ List.length
       (TextAnalysis.textsOf Examples.Q3
          (TextAnalysis.textByQuestion Examples.intToString
             Cases.mixedSurvey
             (TextAnalysis.completedOf Cases.mixedResponses)))
     <= 2.
Proof.
  split; [exact textEntry_reported |].
  exact (TextFacts.texts_at_most_totalAnswers
           Examples.intToString Examples.intOfString
           Cases.mixedSurvey Cases.mixedResponses Cases.textEntry
           textEntry_reported).
Defined.

Lemma randomBytes_six : forall i, List.length (Cases.randomBytes i) = 6.
Proof.
  intros i. apply repeat_length.
Qed.

Lemma preSave_witness :
  (forall i, List.length (Cases.randomBytes i) = 6)
  /\ hasLink (SurveyDoc.with_status "published" Cases.draft) = false
  /\ hasLink (preSave Cases.randomBytes Cases.taken
                      (SurveyDoc.with_status "published" Cases.draft))
     = true
  /\ exists l i,
       SurveyDoc.shareableLink
         (preSave Cases.randomBytes Cases.taken
                  (SurveyDoc.with_status "published" Cases.draft))
       = Some l
       /\ i < 10
       /\ l = toHex (Cases.randomBytes i)
       /\ Cases.taken l = false
       /\ (forall j, j < i ->
                     Cases.taken (toHex (Cases.randomBytes j)) = true)
       /\ String.length l = 12
       /\ validLink l = true.
Proof.
  split; [exact randomBytes_six |]. split; [reflexivity |].
  split; [reflexivity |].
  exact (proj1 (proj2 (proj2
           (SharingFacts.preSave_assigns_fresh_valid_links
              Cases.randomBytes Cases.taken
              (SurveyDoc.with_status "published" Cases.draft)
              randomBytes_six)))
         eq_refl eq_refl).
Defined.

Lemma publishSurvey_witness :
  (forall i, List.length (Cases.randomBytes i) = 6)
  /\ fst (publishSurvey (Some Cases.draft) "65c0000000000000000000bb"
                        Cases.randomBytes Cases.taken)
     = Published
         (SurveyDoc.with_link "010101010101"
            (SurveyDoc.with_status "published" Cases.draft))
  /\ status (SurveyDoc.with_link "010101010101"
               (SurveyDoc.with_status "published" Cases.draft))
     = "published"
  /\ hasLink (SurveyDoc.with_link "010101010101"
                (SurveyDoc.with_status "published" Cases.draft))
     = true.
Proof.
  split; [exact randomBytes_six |]. split; [reflexivity |].
  destruct (proj1 (SharingFacts.publishSurvey_outcomes
                     (Some Cases.draft) "65c0000000000000000000bb"
                     Cases.randomBytes Cases.taken randomBytes_six)
                  _ eq_refl)
    as [_ [Hs [Hl _]]].
  split; [exact Hs | exact Hl].
Defined.

Lemma qr_file_name_witness :
  Survey.title (SurveyDoc.survey Cases.draft) <> ""
  /\ exists name,
       fileName (Survey.title (SurveyDoc.survey Cases.draft))
       = ("survey-qr-" ++ name ++ ".png")%string
       /\ contentDisposition (Survey.title (SurveyDoc.survey Cases.draft))
          = ("inline; filename=" ++ DQUOTE
             ++ ("survey-qr-" ++ name ++ ".png") ++ DQUOTE)%string
       /\ String.length name
          = String.length (Survey.title (SurveyDoc.survey Cases.draft))
       /\ forallb isFileChar (list_ascii_of_string name) = true
       /\ (forallb isFileChar
                   (list_ascii_of_string
                      (Survey.title (SurveyDoc.survey Cases.draft))) = true ->
           name = Survey.title (SurveyDoc.survey Cases.draft)).
Proof.
  assert (Survey.title (SurveyDoc.survey Cases.draft) <> "") as H
    by discriminate.
  split; [exact H |].
  exact (SharingFacts.qr_file_name_is_safe H).
Defined.

Lemma survey_url_witness :
  "https://surveys.example.com/" <> ""
  /\ surveyUrl (Some ("https://surveys.example.com/" ++ "/")%string)
               "010101010101"
     = "https://surveys.example.com/survey/010101010101".
Proof.
  assert ("https://surveys.example.com/" <> "") as H by discriminate.
  split; [exact H |].
  rewrite (proj1 (SharingFacts.survey_url_ignores_trailing_slashes
                    "010101010101" None H)).
  reflexivity.
Defined.

Lemma starEntry_reported :
  In Cases.starEntry
     (Report.questions
        (Examples.getAnalytics Cases.starSurvey Cases.starResponses)).
Proof.
  vm_compute. left. reflexivity.
Qed.

Lemma star_answers_read_back :
  forall v,
    In v (valuedAnswers (QuestionAnalytics.questionId Cases.starEntry)
                        Cases.starResponses) ->
    numeric Examples.intToString Examples.intOfString v = true ->
    Examples.intOfString
      (ratingKey Examples.intToString Examples.intOfString v)
    = ToNumber Examples.intToString Examples.intOfString v.
Proof.
  intros v H _. vm_compute in H.
  destruct H as [<- | [<- | [<- | []]]]; reflexivity.
Qed.

Lemma rating_distribution_witness :
  In Cases.starEntry
     (Report.questions
        (Examples.getAnalytics Cases.starSurvey Cases.starResponses))
  /\ QuestionAnalytics.payload Cases.starEntry = KRating Cases.starRows
  /\ StronglySorted
       (fun a b => Layout.le (RatingRow.value a) (RatingRow.value b) = true)
       Cases.starRows
  /\ NoDup (map RatingRow.value Cases.starRows).
Proof.
  split; [exact starEntry_reported |]. split; [reflexivity |].
  exact (proj2 (proj2 (proj2 (proj2
                  (RatingFacts.rating_distribution
                     Examples.intToString Examples.intOfString
                     Cases.starSurvey Cases.starResponses Cases.starEntry
                     starEntry_reported eq_refl))))
               star_answers_read_back).
Defined.

Lemma percentages_within_bounds_witness :
  In Cases.starEntry
     (Report.questions
        (Examples.getAnalytics Cases.starSurvey Cases.starResponses))
  /\ forall rows row,
       QuestionAnalytics.payload Cases.starEntry = KRating rows ->
       In row rows ->
       exists q, RatingRow.percentage row = Fin q
                 /\ (0 < q)%Q /\ (q <= 100)%Q.
Proof.
  split; [exact starEntry_reported |].
  exact (proj1 (RatingFacts.percentages_within_bounds
                  Examples.intToString Examples.intOfString
                  Cases.starSurvey Cases.starResponses Cases.starEntry
                  starEntry_reported)).
Defined.

Lemma submitted_option_witness :
  NoDup (map Question._id (Survey.questions Cases.fruitSurvey))
  /\ In Cases.fruitQuestion (Survey.questions Cases.fruitSurvey)
  /\ In Cases.fruitEntry
        (Report.questions
           (Examples.getAnalytics Cases.fruitSurvey Cases.fruitResponses))
  /\ In Cases.appleRow [Cases.appleRow; Cases.otherRow]
  /\ NoDup (map Layout.optionValue (Question.options Cases.fruitQuestion))
  /\ NoDup (map Form.getOptionValue (Question.options Cases.fruitQuestion))
  /\ In Cases.apple (Question.options Cases.fruitQuestion)
  /\ "Apple" <> ""
  /\ OptionRow.label Cases.appleRow = "Apple".
Proof.
  assert (In Cases.fruitQuestion (Survey.questions Cases.fruitSurvey)) as Hq
    by (left; reflexivity).
  assert (In Cases.appleRow [Cases.appleRow; Cases.otherRow]) as Hr
    by (left; reflexivity).
  assert (NoDup (map Layout.optionValue
                     (Question.options Cases.fruitQuestion))) as Hs
    by (repeat constructor; simpl; intuition discriminate).
  assert (NoDup (map Form.getOptionValue
                     (Question.options Cases.fruitQuestion))) as Hf
    by (repeat constructor; simpl; intuition discriminate).
  assert (In Cases.apple (Question.options Cases.fruitQuestion)) as Ho
    by (left; reflexivity).
  assert ("Apple" <> "") as Hne by discriminate.
  split; [exact fruitSurvey_distinct |]. split; [exact Hq |].
  split; [exact fruitEntry_reported |]. split; [exact Hr |].
  split; [exact Hs |]. split; [exact Hf |]. split; [exact Ho |].
  split; [exact Hne |].
  exact (@FormFacts.submitted_option_is_labelled_with_its_text
           Examples.intToString Examples.intOfString
           Cases.fruitSurvey Cases.fruitResponses Cases.fruitQuestion
           Cases.fruitEntry [Cases.appleRow; Cases.otherRow] Cases.appleRow
           Cases.apple "Apple"
           fruitSurvey_distinct Hq fruitEntry_reported eq_refl eq_refl Hr
           Hs Hf Ho eq_refl Hne eq_refl).
Defined.

Lemma castAnswers_keep (l : list Insight.json) :
  forall stored id a,
    Cases.castAnswers l = Some stored ->
    In a l ->
    Public.answersQuestion Examples.intToString id a = Stored.Returns true ->
    exists sa, In (Some sa) stored /\ StoredAnswer.questionId sa = Some id.
Proof.
  induction l as [| x l IH]; intros stored id a Hc Hin Ha.
  - contradiction.
  - cbn [Cases.castAnswers] in Hc.
    destruct (Cases.castAnswer x) as [sx |] eqn:Ex; [| discriminate].
    destruct (Cases.castAnswers l) as [sl |] eqn:El; [| discriminate].
    inversion Hc. subst stored. destruct Hin as [-> | Hin].
    + unfold Public.answersQuestion in Ha. unfold Cases.castAnswer in Ex.
      destruct a as [| b | n | t | elems | fields]; try discriminate.
      destruct (get "questionId" fields) as [v |]; [| discriminate].
      destruct v as [| b | n | t | elems | fs]; [discriminate | | | | |];
        unfold Cases.castId in Ex;
        (match type of Ha with
         | context [Stored.ToString ?f ?x] =>
             destruct (Stored.ToString f x) as [printed |] eqn:Es
         end; [| discriminate]);
        cbn [Stored.bind] in Ha; injection Ha as E;
        apply String.eqb_eq in E; subst printed;
        (destruct (String.length id =? 24)%nat; [| discriminate]);
        injection Ex as Ex; subst sx; eexists;
        (split; [left; reflexivity | reflexivity]).
    + destruct (IH sl id a eq_refl Hin Ha) as [sa [Hsa Hid]].
      exists sa. split; [right; exact Hsa | exact Hid].
Qed.

Lemma saveBody_keeps (survey : Survey.t) :
  forall body answers stored q a,
    In q (Survey.questions survey) ->
    Cases.saveBody body = Public.Saved stored ->
    Insight.property "answers" body = Some (Insight.JArray answers) ->
    In a answers ->
    Public.answersQuestion Examples.intToString (Question._id q) a
    = Stored.Returns true ->
    exists sa, In (Some sa) stored
               /\ StoredAnswer.questionId sa = Some (Question._id q).
Proof.
  intros body answers stored q a _ Hs Hl Hin Ha.
  unfold Cases.saveBody in Hs. rewrite Hl in Hs.
  destruct (Cases.castAnswers answers) as [st |] eqn:Ec; [| discriminate].
  inversion Hs. subst st.
  apply (@castAnswers_keep answers stored (Question._id q) a Ec Hin Ha).
Qed.

Lemma fruit_responses_were_submitted :
  forall r,
    In r Cases.fruitStored ->
    exists surveys link now user body existingResponse existingByEmail doc,
      Public.findByShareableLink surveys link = Some doc
      /\ Survey.questions (SurveyDoc.survey doc)
         = Survey.questions Cases.fruitSurvey
      /\ Public.submitSurveyResponse
           Examples.intToString Cases.fruitRequired Cases.single
           Cases.saveBody surveys link now user body existingResponse
           existingByEmail
         = Public.Created r.
Proof.
  intros r [<- | [<- | []]].
  - exists [Cases.live], "010101010101", 0%Z, None,
      (Cases.bodyOf [Cases.pick Examples.Q2 "A"]),
      false, false, Cases.live.
    repeat split.
  - exists [Cases.live], "010101010101", 0%Z, None,
      (Cases.bodyOf [Cases.pick Examples.Q2 "Z"]),
      false, false, Cases.live.
    repeat split.
Qed.

Lemma fruit_report_is_sent :
  Stored.getAnalytics Examples.intToString Examples.intOfString
                      Cases.fruitSurvey Cases.fruitStored
  = Stored.Success
      (Examples.getAnalytics Cases.fruitSurvey Cases.fruitResponses).
Proof.
  vm_compute. reflexivity.
Qed.

Lemma submission_is_created_witness :
  Public.submitSurveyResponse
    Examples.intToString Cases.fruitRequired Cases.single Cases.saveBody
    [Cases.live] "010101010101" 0%Z None
    (Cases.bodyOf [Insight.JNull; Cases.pick Examples.Q2 "A"]) false false
  = Public.failed
  /\ Public.submitSurveyResponse
       Examples.intToString Cases.fruitRequired Cases.single Cases.saveBody
       [Cases.live] "010101010101" 0%Z None
       (Cases.bodyOf [Cases.pick Examples.Q2 "A"; Insight.JNull]) false false
     = Public.Created
         (Public.newResponse [Cases.picked Examples.Q2 "A"; None])
  /\ exists survey answers stored,
       Public.findByShareableLink [Cases.live] "010101010101" = Some survey
       /\ Insight.property
            "answers"
            (Cases.bodyOf [Cases.pick Examples.Q2 "A"; Insight.JNull])
          = Some (Insight.JArray answers)
       /\ Cases.saveBody
            (Cases.bodyOf [Cases.pick Examples.Q2 "A"; Insight.JNull])
          = Public.Saved stored.
Proof.
  split; [reflexivity |]. split; [reflexivity |].
  destruct (proj1 (PublicFacts.submission_is_created_iff
                     Examples.intToString Cases.fruitRequired Cases.single
                     Cases.saveBody [Cases.live] "010101010101" 0%Z None
                     (Cases.bodyOf [Cases.pick Examples.Q2 "A";
                                    Insight.JNull])
                     false false
                     (Public.newResponse
                        [Cases.picked Examples.Q2 "A"; None]))
                  eq_refl)
    as [survey [answers [stored [Hf [_ [Hl [_ [_ [_ [_ [_ [Hs _]]]]]]]]]]]].
  exists survey, answers, stored. auto.
Defined.

Lemma report_of_public_responses_witness :
  (forall body answers stored q a,
     In q (Survey.questions Cases.fruitSurvey) ->
     Cases.saveBody body = Public.Saved stored ->
     Insight.property "answers" body = Some (Insight.JArray answers) ->
     In a answers ->
     Public.answersQuestion Examples.intToString (Question._id q) a
     = Stored.Returns true ->
     exists sa, In (Some sa) stored
                /\ StoredAnswer.questionId sa = Some (Question._id q))
  /\ (forall r,
        In r Cases.fruitStored ->
        exists surveys link now user body existingResponse existingByEmail
               doc,
          Public.findByShareableLink surveys link = Some doc
          /\ Survey.questions (SurveyDoc.survey doc)
             = Survey.questions Cases.fruitSurvey
          /\ Public.submitSurveyResponse
               Examples.intToString Cases.fruitRequired Cases.single
               Cases.saveBody surveys link now user body existingResponse
               existingByEmail
             = Public.Created r)
  /\ Stored.getAnalytics Examples.intToString Examples.intOfString
                         Cases.fruitSurvey Cases.fruitStored
     = Stored.Success
         (Examples.getAnalytics Cases.fruitSurvey Cases.fruitResponses)
  /\ Totals.completedResponses
       (Report.totals
          (Examples.getAnalytics Cases.fruitSurvey Cases.fruitResponses))
     = 2.
Proof.
  split; [exact (saveBody_keeps Cases.fruitSurvey) |].
  split; [exact fruit_responses_were_submitted |].
  split; [exact fruit_report_is_sent |].
  exact (proj1 (proj2
                  (PublicFacts.report_of_public_responses
                     Examples.intToString
                     Cases.fruitRequired Cases.single Cases.saveBody
                     Examples.intOfString
                     Cases.fruitSurvey Cases.fruitStored
                     (saveBody_keeps Cases.fruitSurvey)
                     fruit_responses_were_submitted
                     fruit_report_is_sent))).
Defined.

Lemma closed_is_reachable : Lifecycle.reachable Cases.draft Cases.closed.
Proof.
  apply (@Lifecycle.reachable_step _ Cases.live).
  - apply (@Lifecycle.reachable_step _ Cases.draft).
    + apply Lifecycle.reachable_refl.
    + apply (@Lifecycle.step_publish _ _ Cases.randomBytes Cases.taken
               "65c0000000000000000000bb").
      * exact randomBytes_six.
      * reflexivity.
  - apply (@Lifecycle.step_close _ _ Cases.valid Cases.noError
             Cases.randomBytes Cases.taken "65c0000000000000000000bb").
    + exact randomBytes_six.
    + reflexivity.
Qed.

Lemma link_and_owner_are_stable_witness :
  Lifecycle.reachable Cases.draft Cases.closed
  /\ SurveyDoc.createdBy Cases.closed = SurveyDoc.createdBy Cases.draft.
Proof.
  split; [exact closed_is_reachable |].
  exact (proj1 (LifecycleFacts.link_and_owner_are_stable
                  closed_is_reachable)).
Defined.

Lemma draft_numbered :
  Lifecycle.numbered (Survey.questions (SurveyDoc.survey Cases.draft)).
Proof.
  reflexivity.
Qed.

Lemma added_question_comes_last_witness :
  Lifecycle.addQuestion Cases.valid Cases.noError Cases.randomBytes
                        Cases.taken (Some Cases.draft)
                        "65c0000000000000000000bb" Examples.Q3
                        "short_text" "Why?" None
  = (Lifecycle.Success (Some Cases.extended) "Question added successfully",
     Some Cases.extended)
  /\ Lifecycle.numbered (Survey.questions (SurveyDoc.survey Cases.draft))
  /\ Layout.sortedQuestions (SurveyDoc.survey Cases.extended)
     = Survey.questions (SurveyDoc.survey Cases.extended).
Proof.
  split; [reflexivity |]. split; [exact draft_numbered |].
  exact (proj1 (proj2 (proj2 (proj2 (proj2
           (@LifecycleFacts.added_question_comes_last
              Cases.valid Cases.noError Cases.randomBytes Cases.taken
              Cases.draft Cases.extended
              "65c0000000000000000000bb" Examples.Q3 "short_text" "Why?"
              "Question added successfully" None (Some Cases.extended)
              eq_refl draft_numbered)))))).
Defined.

Lemma closed_survey_witness :
  Lifecycle.closeSurvey Cases.valid Cases.noError Cases.randomBytes
                        Cases.taken (Some Cases.live)
                        "65c0000000000000000000bb"
  = (Lifecycle.Success (Some Cases.closed) "Survey closed successfully",
     Some Cases.closed)
  /\ forall now, Sharing.canAcceptResponses Cases.closed now = false.
Proof.
  split; [reflexivity |].
  exact (proj1 (proj2 (proj2 (proj2 (proj2
           (@LifecycleFacts.closed_survey_is_out_of_reach
              Cases.valid Cases.noError Cases.randomBytes Cases.taken
              Cases.live Cases.closed "65c0000000000000000000bb"
              "Survey closed successfully" (Some Cases.closed)
              eq_refl)))))).
Defined.

Lemma qr_by_link_witness :
  "010101010101" <> ""
  /\ getSurveyQRCodeByShareableLink [Cases.live] "010101010101"
       "65c0000000000000000000bb" 0 None
     = SendPng "http://localhost:3000/survey/010101010101"
               (contentDisposition "Lunch: what next?").
Proof.
  assert ("010101010101" <> "") as H by discriminate.
  split; [exact H |].
  rewrite (SharingFacts.qr_by_link_agrees [Cases.live]
             "65c0000000000000000000bb" 0 None H).
  reflexivity.
Defined.

Lemma bananaFirst_ranked :
  Form.ranking (Question.options Cases.fruitQuestion)
               (Some Cases.bananaFirst).
Proof.
  change (Some Cases.bananaFirst)
    with (Form.handleDropRanking (Question.options Cases.fruitQuestion)
                                 None (Some 0) 1).
  apply Form.ranking_drop. apply Form.ranking_start.
Qed.

Lemma appleFirst_ranked :
  Form.ranking (Question.options Cases.fruitQuestion)
               (Some Cases.appleFirst).
Proof.
  change (Some Cases.appleFirst)
    with (Form.handleDropRanking (Question.options Cases.fruitQuestion)
                                 (Some Cases.bananaFirst) (Some 0) 1).
  apply Form.ranking_drop. exact bananaFirst_ranked.
Qed.

Lemma ranking_answers_witness :
  Form.ranking (Question.options Cases.fruitQuestion)
               (Some Cases.bananaFirst)
  /\ Permutation Cases.bananaFirst
                 (map Form.getOptionValue
                      (Question.options Cases.fruitQuestion)).
Proof.
  split; [exact bananaFirst_ranked |].
  exact (proj1 (RankingFacts.ranking_answers_permute_the_options
                  bananaFirst_ranked)).
Defined.

Lemma rankEntry_reported :
  In Cases.rankEntry
     (Report.questions
        (Examples.getAnalytics Cases.rankSurvey Cases.rankResponses)).
Proof.
  vm_compute. left. reflexivity.
Qed.

Lemma rank_answers_from_the_form :
  forall a,
    In a (valuedAnswers (QuestionAnalytics.questionId Cases.rankEntry)
                        Cases.rankResponses) ->
    exists l,
      Form.ranking (Question.options Cases.fruitQuestion) (Some l)
      /\ a = VArray (map VString l).
Proof.
  intros a H. vm_compute in H. destruct H as [<- | [<- | []]].
  - exists Cases.bananaFirst. split; [exact bananaFirst_ranked |].
    reflexivity.
  - exists Cases.appleFirst. split; [exact appleFirst_ranked |].
    reflexivity.
Qed.

Lemma fruit_values_distinct :
  NoDup (map Form.getOptionValue (Question.options Cases.fruitQuestion)).
Proof.
  repeat constructor; simpl; intuition discriminate.
Qed.

Lemma ranking_report_witness :
  In Cases.rankEntry
     (Report.questions
        (Examples.getAnalytics Cases.rankSurvey Cases.rankResponses))
  /\ QuestionAnalytics.payload Cases.rankEntry = KChoice Cases.rankRows
  /\ NoDup (map Form.getOptionValue (Question.options Cases.fruitQuestion))
  /\ (forall a,
        In a (valuedAnswers (QuestionAnalytics.questionId Cases.rankEntry)
                            Cases.rankResponses) ->
        exists l,
          Form.ranking (Question.options Cases.fruitQuestion) (Some l)
          /\ a = VArray (map VString l))
  /\ forall row,
       In row Cases.rankRows ->
       In (OptionRow.value row)
          (map Form.getOptionValue (Question.options Cases.fruitQuestion))
       /\ OptionRow.count row = 2
       /\ OptionRow.percentage row = of_Z 100.
Proof.
  split; [exact rankEntry_reported |]. split; [reflexivity |].
  split; [exact fruit_values_distinct |].
  split; [exact rank_answers_from_the_form |].
  exact (proj1 (@RankingFacts.ranking_report_is_flat
                  Examples.intToString Examples.intOfString
                  Cases.rankSurvey Cases.rankResponses Cases.rankEntry
                  Cases.rankRows (Question.options Cases.fruitQuestion)
                  rankEntry_reported eq_refl fruit_values_distinct
                  rank_answers_from_the_form)).
Defined.

Lemma createdResponses_created :
  forall r, In r Cases.createdResponses -> Public.created r.
Proof.
  intros r [<- | [<- | []]].
  - apply (@Public.created_submitted _ Cases.saveBody
             (Public.Found Cases.live)
             (Cases.bodyOf [Cases.pick Examples.Q2 "A"])).
    reflexivity.
  - apply (@Public.created_partial _ Cases.saveBody
             (Public.Found Cases.draft)
             (Cases.bodyOf [Cases.pick Examples.Q2 "Z"])).
    reflexivity.
Qed.

Lemma created_report_is_sent :
  exists report,
    Stored.getAnalytics Examples.intToString Examples.intOfString
                        Cases.fruitSurvey Cases.createdResponses
    = Stored.Success report.
Proof.
  eexists. vm_compute. reflexivity.
Qed.

Lemma created_responses_witness :
  (forall r, In r Cases.createdResponses -> Public.created r)
  /\ (exists report,
        Stored.getAnalytics Examples.intToString Examples.intOfString
                            Cases.fruitSurvey Cases.createdResponses
        = Stored.Success report)
  /\ (forall r, In r Cases.createdResponses ->
                StoredResponse.timeSpent r = VUndefined)
  /\ forall report,
       Stored.getAnalytics Examples.intToString Examples.intOfString
                           Cases.fruitSurvey Cases.createdResponses
       = Stored.Success report ->
       Totals.averageCompletionTimeSeconds (Report.totals report) = of_Z 0.
Proof.
  split; [exact createdResponses_created |].
  split; [exact created_report_is_sent |].
  exact (PublicFacts.created_responses_record_no_time
           Examples.intToString Examples.intOfString
           Cases.fruitSurvey Cases.createdResponses
           createdResponses_created).
Defined.

(** The handler answers with the error of its [catch] on a stored
    response with a [null] answer, and on an answer to a rating question
    that [Number] cannot convert. *)
Example null_answer_is_a_server_error :
  Stored.getAnalytics Examples.intToString Examples.intOfString
                      Examples.ratingSurvey [Cases.nullStoredResponse]
  = Stored.ServerError
  /\ Stored.getAnalytics Examples.intToString Examples.intOfString
                         Examples.ratingSurvey
                         [Cases.unprintableStoredResponse]
     = Stored.ServerError.
Proof.
  split; reflexivity.
Qed.

Lemma C6_witness :
  (forall q, In q (Survey.questions Examples.ratingSurvey) ->
             StoredAnswer.questionId Cases.strayStored
             <> Some (Question._id q))
  /\ StoredResponse.answers Cases.strayStoredResponse
     = [Some Cases.fourStored] ++ Some Cases.strayStored :: []
  /\ Stored.getAnalytics Examples.intToString Examples.intOfString
                         Examples.ratingSurvey
                         ([] ++ Cases.strayStoredResponse :: [])
     = Stored.getAnalytics
         Examples.intToString Examples.intOfString Examples.ratingSurvey
         ([] ++ StoredResponse.with_answers
                  ([Some Cases.fourStored] ++ []) Cases.strayStoredResponse
             :: []).
Proof.
  assert (forall q, In q (Survey.questions Examples.ratingSurvey) ->
                    StoredAnswer.questionId Cases.strayStored
                    <> Some (Question._id q)) as H.
  { intros q [<- | []]. discriminate. }
  split; [exact H |]. split; [reflexivity |].
  exact (proj1 (proj2
                  (StoredFacts.C6_unknown_question_id_is_skipped_and_never_throws
                     Examples.intToString Examples.intOfString
                     Examples.ratingSurvey Cases.strayStored H))
               [] [] Cases.strayStoredResponse
               [Some Cases.fourStored] [] eq_refl).
Defined.


End Instances.
